(* ===== verification/_CoqProject ===== *)
-Q . S2P
Prelude.v
PyStr.v
PyDict.v
PyVal.v
Random.v
Regex.v
Json.v
FileSys.v
PyLiteral.v
Extractors.v
Cascade.v
PostProcessing.v
Retry.v
Wikidata.v
Hierarchy.v
WikidataEval.v
EvalProps.v
EvalScript.v
GoldEval.v
LinkStats.v
StatsScripts.v
Conversion.v
DataScripts.v
Prompts.v
KEPrompts.v
Templates.v
Inference.v
PromptScripts.v
InferenceScripts.v
