(* ===== verification/Prelude.v ===== *)
(** * A verification development for Prompt-Engineering-for-KE

    The repository is a batch pipeline that asks a language model for
    knowledge triples (subject, predicate, object), recovers triples from
    the model's free-form answers, and scores them against gold
    annotations and against Wikidata.  Its stages communicate through
    JSON files: the inference scripts write the raw answers, the
    post-processors ([2_inference_module/post_process_generated_string.py]
    and [post_processing.py]) add a [postprocessed] field to every
    record, and the evaluators ([general_evaluation_final.py],
    [3_evaluation_module/.../evaluate.py] and the two statistics
    scripts) read that field back with [read_triples].  This library
    models, as shallow embeddings in Rocq, every part that carries logic,
    and the scripts' [main] functions on a model of the file system:
    a script takes the file system (and the directory listing) and
    returns the file system it leaves, with the exception that stopped
    it.

    ** Files, in dependency order
    - [Prelude] (this file): the scope [py_scope], the Python exception
      type [exc] and the result monad [result] in which every fallible
      operation is written ([try_except] for a handler that returns,
      [try_catch] for a selective [except] that may re-raise), the
      tactics, the hint database [py] and the rewrite database [py_rw].
    - [PyStr]: the [str] methods the code calls ([lower], [strip],
      [startswith], [split], [replace], [in]) on Latin-1 strings.
    - [PyDict]: Python's insertion-ordered [dict] as an association list,
      its invariant, a refinement into stdpp's [gmap], and the
      order-insensitive equality [dict_equiv] as a setoid.
    - [PyVal]: the values the pipeline passes around ([pyval]: [None],
      bool, int, exact decimal floats, str, list, tuple, set, dict),
      indexing and item assignment, and the two [read_triples].
    - [Regex], [Json], [PyLiteral]: models of Python's [re] (the pattern
      subset the code uses, a backtracking matcher proved sound and
      complete for a declarative semantics), of [json.loads] /
      [json.dumps], and of [ast.literal_eval] / [eval] on literals.
      They are library models, validated against CPython on sample
      inputs; the manifest maps their entry points to a call site.
    - [FileSys]: the file system as a [gmap] from paths to texts,
      [open] in text mode (universal newlines), [readlines], JSON-lines
      files, [json.load] and [json.dump(indent=4)], [os.path.join].
    - [Extractors]: [load_structure] and the thirteen [extract_*]
      functions of [post_process_generated_string.py] (lines 18-210),
      with their patterns and sentinels verbatim; [Cascade]: [main]'s
      chain of sentinel tests (lines 238-307), the set rewriting, the
      store of each record, and the first-success chain of the
      specification it is compared with.
    - [PostProcessing]: [post_processing.py], with the rebinding of
      [input_string] that its handlers observe.
    - [Retry]: the [retry] decorator's loop over a service whose answer
      depends on the attempt; [Wikidata]: the three decorated calls of
      [general_evaluation_final.py] against the interface
      [Class WikidataService], so that every theorem holds for every
      behaviour of the remote endpoint; [Hierarchy]: the SPARQL bindings
      reader, [merge_dicts] and [find_matching_classes].
    - [WikidataEval]: the per-triple step of [evaluate] on an explicit
      state (counters, audit dictionary, sets, log of remote calls) in a
      state-and-exception monad, and the loops over items and files;
      [EvalProps]: its invariants and its refinement of a counting
      specification.
    - [EvalScript]: the file loops of [post_process_generated_string.py],
      [post_processing.py] and [evaluate] on [FileSys], with the four
      outputs [evaluate] writes per file.
    - [GoldEval]: the precision/recall/F1 loop of [evaluate.py] in [Q],
      and its [evaluate] on [FileSys].
    - [LinkStats]: [count_linked_items.py] and [get_domain_range_info.py]
      ([Module CountLinked], [Module DomainRangeInfo]) with the stable
      sort by file name; [StatsScripts]: their [main] functions on
      [FileSys], which read every file of the input directory and write
      their summaries into it.
    - [Random]: [random.choice], [random.shuffle] (Fisher-Yates, as
      CPython writes it) and [random.sample] (its pool branch and its
      set branch, with CPython's [setsize] threshold) over the interface [RandomSource], whose only
      law is that [randbelow n] is below [n], and the state-and-exception
      monad [rand] in which code that draws numbers is written.
    - [Conversion]: the dataset scripts [convert_REDFM.py]
      ([Module Redfm]), [Entity_Linking/data/preprocess_data.py]
      ([Module ELData], with the Wikidata API as the interface
      [EntityApi] and the [@retry] loop of [Retry]) and
      [make_subset_4_demostration_selection.py] ([Module Subset]);
      [DataScripts]: their top levels on [FileSys].
    - [Prompts]: [string.Formatter] as LangChain's [PromptTemplate] and
      [FewShotPromptTemplate] call it ([py_format], [vformat], with
      CPython's field parser), the three Wikidata searches of
      [Entity_Linking/prompts] against the interface [WikiApi], and the
      two entity-linking compilers' loops ([compile_no_retrieval],
      [compile_retrieval]) with the candidates binding that survives
      from one iteration to the next; the example selector is a
      parameter.
    - [KEPrompts]: the knowledge-extraction compilers
      ([no_retrieval_prompt_compiler.py], [retrieval_augmented_prompt_compiler.py]
      with its [random.sample] of the training file, the entity-linking
      demonstrations of [retrieval_augmented_KE_prompt_compiler.py]) and
      [make_EL_prompts_after_KE.py], whose main loop fetches candidates
      through [WikiApi] and records the components without any.
    - [Templates]: the two [prompt_component_creator] functions that
      write the template files the compilers read.
    - [Inference]: [inference_OpenAI.py], [run_inference.py] and
      [run_inference_LangChain_HF.py] against the interfaces [ChatApi]
      and [HFEndpoint], the GPT call under the [@retry] policy of
      [Retry], and the composition of each script with the
      post-processor that reads its output.
    - [PromptScripts]: the [main] functions of the seven prompt
      compilers and of the template creators on [FileSys]: reading the
      template file into a [few_shot] or zero-shot template, sampling
      the demonstrations, writing the prompt files.
    - [InferenceScripts]: the [main] functions of the three inference
      scripts on [FileSys], one output file per prompt file.

    ** What the theorems show (by group)
    - library models: [json.loads] reads back what [json.dumps] writes,
      [read_jsonlines] what is written line by line, and [json.load]
      what [json.dump(indent=4)] writes (round trips); the matcher is
      sound and complete; [findall]'s fuel suffices;
    - structure recovery: under the condition that no strategy returns
      a later strategy's sentinel, [main]'s cascade computes the
      specification's first success (refinement); it then returns a
      value; a JSON answer is taken as is; a value equal to a later
      strategy's sentinel makes [main] skip the strategies in between
      and run a later one, whose exception escapes; two concrete answers
      show where the code departs from the specification (a fenced
      answer yields [[]], a sentinel-valued answer is lost); the set
      rewriting drops non-set items; the
      [literal_eval] branch of [load_structure] only recovers strings;
      [extract_enumerated_dict_strings2] keeps one triple;
    - [post_processing.py]: the fallback keeps the last [[[...]]] block,
      lower-cased, and returns [[['.']]] without one; literal answers are
      stored as their JSON image; a set answer crashes the record;
    - scoring: averaged precision, recall and F1 lie in [0, 1];
      precision is the share of gold triples among the extracted ones;
      repeating a gold triple already extracted raises recall; an empty
      file divides by zero;
    - Wikidata evaluation: the statement query is issued exactly for
      fully resolved triples; a triple increments the counters of the
      outcome of the ids [get_wiki_ID] and the relation fallback
      returned for it; the counters obey their inequalities and
      the hop counters sum to the domain/range matches after any
      sequence of triples; a failing SPARQL request aborts the run; the
      retry loop stops after [tries] attempts and [get_wiki_ID] never
      retries; the hierarchy search returns the first matching hop;
    - statistics: linked and unlinked pairs add up to the file length,
      the domain/range counters are bounded; the [main] of
      [count_linked_items.py] computes the summaries of the loop on the
      decoded files (refinement), and, in any order of the listing, a
      second run raises on its own [stats.json], as it does after
      [get_domain_range_info.py] wrote [domain_range_stats.json] into
      the same directory;
    - dataset conversion, for every random generator: the mixed triples
      are a permutation of the triples and the made-up ones, which are
      new; the lists filled with [if x not in l] have no duplicates; an
      instance without relations raises; the first triple of a relation
      whose label starts with an upper-case letter is skipped;
      [string_triple] is never reset between instances, so a first
      instance whose triples are all skipped raises [NameError], and a
      later one filters with an earlier instance's triple; the
      entity-linking records are keyed by the id fetched; the two files
      of the demonstration split are read back as the halves of a
      permutation of the validation records;
    - prompt compilation: on templates with plain fields and doubled
      literal braces, the formatter computes the substitution of the
      fields (refinement); each record yields one prompt per entity and
      property answered by its key; with [page_search] no entity is
      ever reported without candidates; an unknown strategy raises
      [NameError]; the retrieval-augmented compiler formats the joined
      demonstrations a second time, so a plain field that braces in a
      demonstration leave in the joined text raises [KeyError]; the
      demonstrations of the knowledge-extraction
      compiler format back to the JSON of their triples (round trip);
      [sample_examples] splits the lines into the sample and the rest
      (a permutation, for every random generator); [random.sample] on a
      population no larger than [setsize] always returns; every
      component read after extraction gets one prompt, and an entity is
      always reported missing because the search term is built from the
      string [entity]; both templates name only the variables they
      declare, so formatting them cannot raise [KeyError];
    - inference: the retry loop returns the first success within
      [tries] attempts (liveness); [inference_OpenAI.py] sends the files
      [5:11] of the folder; the GPT scripts write [extraction] while
      the post-processor of [post_process_generated_string.py] reads
      [generated_text], so their records fail with [KeyError];
    - scripts on the file system: the template files the creators write
      are read back into the templates the compilers build; the
      knowledge-extraction compiler reads back exactly the sample it
      wrote; an unknown example selector or the creator's entity-linking
      template make the compilers raise before writing; input names
      with one output name (equal after replacing [post_processed_] by
      [_]) share their output files, and after a run the shared results
      file holds the results of the last of them; the file [run_inference.py] writes, read back,
      stops [post_process_generated_string.py] with [KeyError] before it
      writes anything.

    ** Fuel
    Every recursive function is structural or runs on fuel computed
    from its input: [json_loads] and [literal_eval] run their descent
    on [3 * S (length s)] (every value consumes a character, and a
    container takes at most three levels of the descent per character),
    the regex star and [re_findall] on [S (length s)] (every iteration
    and every match advance the scan).  Where a theorem claims a result,
    the fuel is shown to be enough: [need_le] for [json_roundtrip],
    [star_fuel_enough] and [findall_fuel_enough] for the matcher.
    [vformat] runs on [S (length template)] and reads a character per
    step ([vformat_template] shows the fuel is enough on the templates
    of the repository).  [random.sample]'s set branch draws until it
    finds a fresh index and runs on caller-given fuel per draw;
    [sample_small_total] needs no fuel because the pool branch is
    structural; the set branch, which only runs on more than [setsize]
    elements, returns [None] when its fuel runs out, and the theorems
    about it ([sample_submseteq]) hold of every result it returns.
    [json.dump(indent=4)] is read back with the fuel of [json_loads]:
    its text is longer than the [json.dumps] text of the same value
    ([dump_ok] carries the bound).  [sample_examples_files] takes the
    fuel of [random.sample]'s set branch as an argument.

    ** Not modelled
    The model providers' answers are HTTP calls, taken as the interfaces
    [ChatApi] and [HFEndpoint]; the example selectors of the
    retrieval-augmented compilers are embedding models over a vector
    store, a parameter of the loop; the iteration order of a Python
    [set] depends on the hash seed and is a parameter of [AfterKE];
    the dataset download ([load_dataset]) is an argument of the
    conversion scripts, and [os.listdir] an argument of every script
    that lists a directory, in the order the operating system returns.  [py_format] raises
    [ValueError] on a field with an attribute or index and on a
    non-empty format specification, which the templates do not use.  The generator behind [random] (Mersenne
    Twister, rejection sampling) is abstracted by [RandomSource].
    [str.capitalize] of a string starting with U+00B5 or U+00FF, whose
    title case is not Latin-1, is outside the model.
    Argparse, [print], logging and progress bars are omitted, as are
    [os.makedirs] (a directory is a prefix of paths) and the text a
    failing [json.dump] leaves half-written (the model writes nothing);
    the wall-clock time [evaluate] logs is a parameter.  [evaluate.py]
    writes floats with [json.dump], whose shortest-repr printing is not
    modelled: the text of its results file is a parameter of [evaluate].  Floats are exact (decimal in [pyval], rationals in
    [GoldEval]), so rounding and [-0.0] are not modelled; characters are
    8-bit, so code points above U+00FF and surrogates are outside the
    models, which raise on them.  The HTTP cache of [requests_cache] is
    transparent: the service interface answers a request the same way
    whether it is cached or not.
 *)

From Stdlib Require Export String Ascii ZArith Lia.
From stdpp Require Export base list strings sets.

Declare Scope py_scope.
Delimit Scope py_scope with py.
Open Scope py_scope.

(** ** Python exceptions and the result monad *)

(** The exceptions that the modelled code raises or catches.  A
    [Raise e] value is an exception propagating out of the function. *)
Inductive exc :=
| KeyError
| TypeError
| IndexError
| ValueError
| AttributeError
| NameError
| JSONDecodeError
| SyntaxError
| ZeroDivisionError
| RequestError
| FileNotFoundError.

#[export] Instance exc_eq_dec : EqDecision exc.
Proof. solve_decision. Defined.

Inductive result (A : Type) :=
| Ok (a : A)
| Raise (e : exc).
Arguments Ok {A} a.
Arguments Raise {A} e.

#[export] Instance result_ret : MRet result := fun A a => Ok a.
#[export] Instance result_bind : MBind result := fun A B f r =>
  match r with Ok a => f a | Raise e => Raise e end.

(** Python's bare [try: ... except: ...]: any exception runs the handler. *)
Definition try_except {A} (body : result A) (handler : exc -> A) : A :=
  match body with Ok a => a | Raise e => handler e end.

(** [try: ... except ...:] whose handler may raise: it receives the
    exception, and re-raises it for the kinds it does not catch. *)
Definition try_catch {A} (body : result A) (handler : exc -> result A) : result A :=
  match body with Ok a => Ok a | Raise e => handler e end.

(** A [result] that is known to succeed. *)
Definition is_ok {A} (r : result A) : bool :=
  match r with Ok _ => true | Raise _ => false end.

Definition of_option {A} (e : exc) (o : option A) : result A :=
  match o with Some a => Ok a | None => Raise e end.

(** A [for] loop whose body may raise: the first exception stops it. *)
Fixpoint fold_result {A B} (f : A -> B -> result A) (l : list B) (a : A) : result A :=
  match l with
  | [] => Ok a
  | b :: l' => a' ← f a b; fold_result f l' a'
  end.

(** [[f(x) for x in l]] with a body that may raise. *)
Fixpoint result_map {A B} (f : A -> result B) (l : list A) : result (list B) :=
  match l with
  | [] => Ok []
  | x :: l' => y ← f x; ys ← result_map f l'; Ok (y :: ys)
  end.

Lemma bind_Ok {A B} (a : A) (f : A -> result B) : (Ok a ≫= f) = f a.
Proof. reflexivity. Qed.

Lemma bind_Raise {A B} (e : exc) (f : A -> result B) : (Raise e ≫= f) = Raise e.
Proof. reflexivity. Qed.

Lemma bind_Ok_inv {A B} (r : result A) (f : A -> result B) (b : B) :
  (r ≫= f) = Ok b -> exists a, r = Ok a /\ f a = Ok b.
Proof. destruct r; simpl; [eauto | discriminate]. Qed.

Lemma bind_Raise_inv {A B} (r : result A) (f : A -> result B) (e : exc) :
  (r ≫= f) = Raise e -> r = Raise e \/ exists a, r = Ok a /\ f a = Raise e.
Proof. destruct r; simpl; [right; eauto | left; congruence]. Qed.

Lemma result_map_ok {A B} (f : A -> result B) l ys :
  result_map f l = Ok ys -> Forall2 (fun x y => f x = Ok y) l ys.
Proof.
  revert ys. induction l as [|x l IH]; intros ys; simpl; [intros [= <-]; constructor|].
  destruct (f x) eqn:E; [|discriminate]. destruct (result_map f l) eqn:E'; [|discriminate].
  intros [= <-]. constructor; [done | by apply IH].
Qed.

(** ** Shared automation *)

Create HintDb py discriminated.
Create Rewrite HintDb py_rw.

#[export] Hint Rewrite @bind_Ok @bind_Raise : py_rw.

(** [invs H]: invert [H], substitute, and drop it. *)
Ltac invs H := inversion H; subst; clear H.

(** Case on the first [if]/[match] scrutinee of the goal, remembering it. *)
Ltac destr_if :=
  match goal with
  | |- context [if ?c then _ else _] => let E := fresh "E" in destruct c eqn:E
  | |- context [match ?c with _ => _ end] => let E := fresh "E" in destruct c eqn:E
  end.

(** Simplify binds of the result monad in the goal and the hypotheses. *)
Ltac py_simp :=
  repeat (autorewrite with py_rw in *; simpl in *);
  repeat match goal with
  | H : Ok _ = Ok _ |- _ => invs H
  | H : Ok _ = Raise _ |- _ => discriminate H
  | H : Raise _ = Ok _ |- _ => discriminate H
  | H : (_ ≫= _) = Ok _ |- _ =>
      let a := fresh "a" in let Ha := fresh "Ha" in
      apply bind_Ok_inv in H as (a & Ha & H)
  end.

(** ** Generic lemmas on lists and options *)

Lemma fold_left_invariant {A B} (P : A -> Prop) (f : A -> B -> A) (l : list B) (a : A) :
  P a -> (forall x b, P x -> In b l -> P (f x b)) -> P (fold_left f l a).
Proof.
  revert a. induction l as [|b l IH]; intros a Ha Hf; simpl; [exact Ha|].
  apply IH; [apply Hf; simpl; auto | intros x b' Hx Hb'; apply Hf; simpl; auto].
Qed.

Lemma existsb_false_forall {A} (f : A -> bool) (l : list A) :
  existsb f l = false <-> forall x, In x l -> f x = false.
Proof.
  induction l as [|y l IH]; simpl; [tauto|].
  rewrite Bool.orb_false_iff, IH. split.
  - intros [Hy Hl] x [<-|Hx]; auto.
  - intros H; split; auto.
Qed.

Lemma fold_result_app {A B} (f : A -> B -> result A) (l1 l2 : list B) (a : A) :
  fold_result f (l1 ++ l2) a = (a' ← fold_result f l1 a; fold_result f l2 a').
Proof. revert a. induction l1 as [|b l1 IH]; intros a; simpl; [done|]. destruct (f a b); simpl; [apply IH | done]. Qed.

Lemma fold_result_invariant {A B} (P : A -> Prop) (f : A -> B -> result A) (l : list B) (a a' : A) :
  P a -> (forall x b y, P x -> In b l -> f x b = Ok y -> P y) ->
  fold_result f l a = Ok a' -> P a'.
Proof.
  revert a. induction l as [|b l IH]; intros a Ha Hf; simpl; [by intros [= <-]|].
  destruct (f a b) eqn:E; simpl; [|discriminate].
  apply IH; [eapply Hf; eauto; simpl; auto | intros x b' y Hx Hb' Hy; eapply Hf; eauto; simpl; auto].
Qed.

(** A loop whose body appends exactly one output related to its item
    appends, over the whole loop, one output per item, in order. *)
Lemma fold_result_appends {S B C} (out : S -> list C) (P : C -> B -> Prop)
    (f : S -> B -> result S) (l : list B) (a a' : S) :
  (forall x b y, In b l -> f x b = Ok y -> exists c, out y = out x ++ [c] /\ P c b) ->
  fold_result f l a = Ok a' -> exists cs, out a' = out a ++ cs /\ Forall2 P cs l.
Proof.
  revert a. induction l as [|b l IH]; intros a Hf; simpl.
  - intros [= <-]. exists []. by rewrite app_nil_r.
  - destruct (f a b) as [y|] eqn:E; simpl; [|discriminate]. intros Hl.
    destruct (Hf a b y (or_introl eq_refl) E) as (c & Hy & Hc).
    destruct (IH y) as (cs & Hcs & Hall); [intros; eapply Hf; eauto; simpl; auto | done |].
    exists (c :: cs). rewrite Hcs, Hy, <- app_assoc. auto.
Qed.

(** A loop whose body appends to an accumulator the list that [g]
    gives for its item is [result_map g] followed by a concatenation:
    the first item whose [g] raises stops both. *)
Lemma fold_result_concat {A B} (step : list B -> A -> result (list B)) (g : A -> result (list B)) l acc :
  (forall acc x, step acc x = (st ← g x; Ok (acc ++ st))) ->
  fold_result step l acc = (sts ← result_map g l; Ok (acc ++ concat sts)).
Proof.
  intros Hstep. revert acc. induction l as [|x l IH]; intros acc; simpl; [by rewrite app_nil_r|].
  rewrite Hstep. destruct (g x) as [st|]; simpl; [|done].
  rewrite IH. destruct (result_map g l); simpl; [by rewrite app_assoc | done].
Qed.

(** [result_map] raises [e] when an item raises [e] and every item
    either returns or raises [e], whatever their order. *)
Lemma result_map_raise {A B} (g : A -> result B) l e :
  Forall (fun x => g x = Raise e \/ exists y, g x = Ok y) l -> Exists (fun x => g x = Raise e) l ->
  result_map g l = Raise e.
Proof.
  induction 1 as [|x l Hx Hl IH]; [by inversion 1|]. intros Hex. simpl.
  destruct Hx as [-> | (y & Hy)]; [done|]. rewrite Hy. simpl.
  inversion Hex as [? ? Hr | ? ? Hr]; subst; [congruence|]. by rewrite IH.
Qed.

Lemma NoDup_snoc {A} (l : list A) x : NoDup l -> x ∉ l -> NoDup (l ++ [x]).
Proof.
  intros Hl Hx. apply NoDup_app. split; [done|]. split; [|apply NoDup_singleton].
  intros y Hy ->%list_elem_of_singleton. done.
Qed.

Lemma List_filter_sublist {A} (f : A -> bool) (l : list A) : List.filter f l `sublist_of` l.
Proof.
  induction l as [|x l IH]; simpl; [constructor|].
  destruct (f x); [by apply sublist_skip | by apply sublist_cons].
Qed.

(** [List.find] returns the first element satisfying the test. *)
Lemma find_first {A} (f : A -> bool) (l : list A) (x : A) :
  List.find f l = Some x ->
  exists pre post, l = pre ++ x :: post /\ Forall (fun y => f y = false) pre /\ f x = true.
Proof.
  induction l as [|y l IH]; simpl; [discriminate|].
  destruct (f y) eqn:E.
  - intros [= <-]. exists [], l. auto.
  - intros (pre & post & -> & Hpre & Hx)%IH. exists (y :: pre), post. auto.
Qed.

Lemma find_first_app {A} (f : A -> bool) pre x post :
  Forall (fun y => f y = false) pre -> f x = true -> List.find f (pre ++ x :: post) = Some x.
Proof. induction 1 as [|y pre Hy _ IH]; simpl; intros Hx; [by rewrite Hx | by rewrite Hy, IH]. Qed.
