(* ===== verification/PyStr.v ===== *)
(** * Python [str] methods used by the pipeline

    The evaluation scripts call a handful of [str] methods: [lower()],
    [strip()], [startswith(p)], [split(sep)] (with a literal, non-empty
    separator), [replace(old, new)] and the substring test [sub in s].
    They are written here as structurally recursive functions on
    [string].  Characters are the code points U+0000-U+00FF (Latin-1);
    case mapping and whitespace are Python's on that range: [lower()]
    maps [A]-[Z] and U+00C0-U+00DE but U+00D7, and [isspace()] holds
    for tab to carriage return, U+001C-U+001F, space, U+0085 and
    U+00A0. *)

From S2P Require Import Prelude.

(** A newline, ["\n"]. *)
Definition nl : string := String "010" EmptyString.

(** [c.lower()] for a Latin-1 character. *)
Definition ascii_lower (c : ascii) : ascii :=
  let n := nat_of_ascii c in
  if ((65 <=? n) && (n <=? 90)) || ((192 <=? n) && (n <=? 222) && negb (n =? 215))
  then ascii_of_nat (n + 32) else c.

(** [s.lower()]. *)
Fixpoint py_lower (s : string) : string :=
  match s with
  | EmptyString => EmptyString
  | String c s' => String (ascii_lower c) (py_lower s')
  end.

(** [c.isspace()]: tab, line feed, vertical tab, form feed, carriage
    return, the four separators 0x1c..0x1f, space, next line (0x85) and
    no-break space (0xa0). *)
Definition py_isspace (c : ascii) : bool :=
  let n := nat_of_ascii c in
  ((9 <=? n) && (n <=? 13)) || ((28 <=? n) && (n <=? 32)) || (n =? 133) || (n =? 160).

Fixpoint lstrip (s : string) : string :=
  match s with
  | EmptyString => EmptyString
  | String c s' => if py_isspace c then lstrip s' else s
  end.

Fixpoint rev_str (s : string) (acc : string) : string :=
  match s with
  | EmptyString => acc
  | String c s' => rev_str s' (String c acc)
  end.

(** [s.strip()]: drop leading, then trailing whitespace. *)
Definition py_strip (s : string) : string :=
  rev_str (lstrip (rev_str (lstrip s) EmptyString)) EmptyString.

(** [s.startswith(p)]. *)
Definition py_startswith (p s : string) : bool := String.prefix p s.

(** [sub in s]. *)
Fixpoint py_contains (sub s : string) : bool :=
  String.prefix sub s ||
  match s with
  | EmptyString => false
  | String _ s' => py_contains sub s'
  end.

(** [s.split(sep)] for a non-empty [sep]: scan left to right; at a
    position where [sep] starts, close the current piece and skip the
    remaining [length sep - 1] characters of the separator. *)
Fixpoint split_go (sep : string) (skip : nat) (s cur : string) : list string :=
  match s with
  | EmptyString => [cur]
  | String c s' =>
      match skip with
      | S k => split_go sep k s' cur
      | O =>
          if String.prefix sep s
          then cur :: split_go sep (String.length sep - 1) s' EmptyString
          else split_go sep 0 s' (String.append cur (String c EmptyString))
      end
  end.

Definition py_split (sep s : string) : list string := split_go sep 0 s EmptyString.

(** [s.split(sep)[-1]]: the list is never empty, so no [IndexError]. *)
Definition py_split_last (sep s : string) : string := List.last (py_split sep s) EmptyString.

(** [s.replace(old, new)] for a non-empty [old]. *)
Fixpoint replace_go (old new : string) (skip : nat) (s : string) : string :=
  match s with
  | EmptyString => EmptyString
  | String c s' =>
      match skip with
      | S k => replace_go old new k s'
      | O =>
          if String.prefix old s
          then String.append new (replace_go old new (String.length old - 1) s')
          else String c (replace_go old new 0 s')
      end
  end.

Definition py_replace (old new s : string) : string := replace_go old new 0 s.

(** A slice bound: negative counts from the end, then clamped to
    [0, n]. *)
Definition slice_index (n : nat) (i : Z) : nat :=
  Z.to_nat (Z.max 0 (Z.min (Z.of_nat n) (if (i <? 0)%Z then i + Z.of_nat n else i)%Z)).

(** [s[i:j]]. *)
Definition py_slice (s : string) (i j : Z) : string :=
  let a := slice_index (String.length s) i in
  let b := slice_index (String.length s) j in
  String.substring a (b - a) s.

(** [str.isupper()] and [str.capitalize()] on Latin-1.  The cased
    characters are the letters: upper case [A]-[Z] and U+00C0-U+00DE but
    U+00D7 (exactly those [ascii_lower] changes), lower case [a]-[z],
    U+00AA, U+00B5, U+00BA and U+00DF-U+00FF but U+00F7. *)
Definition is_upper_char (c : ascii) : bool := negb (Ascii.eqb (ascii_lower c) c).

Definition is_lower_char (c : ascii) : bool :=
  let n := nat_of_ascii c in
  ((97 <=? n) && (n <=? 122)) || (n =? 170) || (n =? 181) || (n =? 186) ||
  ((223 <=? n) && negb (n =? 247)).

Fixpoint str_exists (p : ascii -> bool) (s : string) : bool :=
  match s with EmptyString => false | String c s' => p c || str_exists p s' end.

(** True when there is a cased character and none is lower case. *)
Definition py_isupper (s : string) : bool :=
  str_exists is_upper_char s && negb (str_exists is_lower_char s).

(** The title case of a character: [None] for U+00B5 and U+00FF, whose
    title case (U+039C, U+0178) is not a Latin-1 character. *)
Definition title_char (c : ascii) : option string :=
  let n := nat_of_ascii c in
  if ((97 <=? n) && (n <=? 122)) || ((224 <=? n) && (n <=? 254) && negb (n =? 247))
  then Some (String (ascii_of_nat (n - 32)) EmptyString)
  else if n =? 223 then Some "Ss"
  else if (n =? 181) || (n =? 255) then None
  else Some (String c EmptyString).

(** [s.capitalize()]: the first character in title case, the others in
    lower case. *)
Definition py_capitalize (s : string) : option string :=
  match s with
  | EmptyString => Some EmptyString
  | String c s' => t ← title_char c; Some (String.append t (py_lower s'))
  end.

(** ** Laws *)

Lemma split_go_nonempty sep k s cur : split_go sep k s cur <> [].
Proof.
  revert k cur. induction s as [|c s IH]; intros k cur; cbn [split_go]; [discriminate|].
  destruct k; [destruct (String.prefix sep (String c s)); [discriminate|]|]; apply IH.
Qed.

Lemma ascii_lower_idem c : ascii_lower (ascii_lower c) = ascii_lower c.
Proof. destruct c as [[] [] [] [] [] [] [] []]; reflexivity. Qed.

(** Lower-casing is idempotent: [s.lower().lower() == s.lower()]. *)
Lemma py_lower_idem s : py_lower (py_lower s) = py_lower s.
Proof. induction s; simpl; [reflexivity|]. rewrite ascii_lower_idem, IHs. reflexivity. Qed.

Lemma py_lower_length s : String.length (py_lower s) = String.length s.
Proof. induction s; simpl; auto. Qed.

(** Lower-casing keeps whitespace and non-whitespace apart, so it
    commutes with [strip]. *)
Lemma isspace_lower c : py_isspace (ascii_lower c) = py_isspace c.
Proof. destruct c as [[] [] [] [] [] [] [] []]; reflexivity. Qed.

Lemma py_lower_lstrip s : py_lower (lstrip s) = lstrip (py_lower s).
Proof. induction s as [|c s IH]; simpl; [done|]. rewrite isspace_lower. by destruct (py_isspace c). Qed.

Lemma py_lower_rev s acc : py_lower (rev_str s acc) = rev_str (py_lower s) (py_lower acc).
Proof. revert acc. induction s as [|c s IH]; intros acc; simpl; [done|]. by rewrite IH. Qed.

Lemma py_lower_strip s : py_lower (py_strip s) = py_strip (py_lower s).
Proof. unfold py_strip. by rewrite py_lower_rev, py_lower_lstrip, py_lower_rev, py_lower_lstrip. Qed.

(** [s.lower().strip()] is lower case. *)
Lemma lower_strip_lower s : py_lower (py_strip (py_lower s)) = py_strip (py_lower s).
Proof. by rewrite py_lower_strip, py_lower_idem. Qed.

Lemma py_startswith_app p s : py_startswith p (String.append p s) = true.
Proof. unfold py_startswith. induction p; simpl; [destruct s; reflexivity|].
  destruct (ascii_dec a a); [exact IHp | congruence]. Qed.

(** ** Concatenation

    [String.append] is declared [simpl never]; its two equations are
    the rewrite rules [str_app_nil_l] and [str_app_cons]. *)

Lemma str_app_nil_l (b : string) : ("" ++ b)%string = b.
Proof. reflexivity. Qed.

Lemma str_app_cons c (a b : string) : (String c a ++ b)%string = String c (a ++ b).
Proof. reflexivity. Qed.

Lemma str_app_assoc (a b c : string) : ((a ++ b) ++ c = a ++ (b ++ c))%string.
Proof. induction a as [|x a IH]; [done | by rewrite !str_app_cons, IH]. Qed.

Lemma str_app_cancel_l (a b c : string) : (a ++ b)%string = (a ++ c)%string -> b = c.
Proof. induction a as [|x a IH]; [done|]. rewrite !str_app_cons. intros [= H]. auto. Qed.

Lemma str_app_nil_r (a : string) : (a ++ "")%string = a.
Proof. induction a as [|x a IH]; [done | by rewrite str_app_cons, IH]. Qed.

Lemma str_length_app (a b : string) : String.length (a ++ b) = String.length a + String.length b.
Proof. induction a as [|x a IH]; [done | rewrite str_app_cons; simpl; by rewrite IH]. Qed.

(** Every character satisfies [p]. *)
Fixpoint str_forall (p : ascii -> bool) (s : string) : bool :=
  match s with EmptyString => true | String c s' => p c && str_forall p s' end.

Lemma str_forall_app p a b : str_forall p (a ++ b) = str_forall p a && str_forall p b.
Proof. induction a as [|c a IH]; simpl; [done|]. by rewrite IH, andb_assoc. Qed.

#[export] Hint Rewrite str_app_nil_l str_app_cons str_app_assoc str_app_nil_r str_length_app : py_rw.
#[export] Hint Resolve split_go_nonempty : py.
#[export] Hint Rewrite py_lower_idem py_lower_length : py_rw.
