(* ===== verification/PyDict.v ===== *)
(** * Python's insertion-ordered [dict]

    The evaluation code builds dictionaries by assignment ([d[k] = v]),
    iterates them in insertion order ([d.items()], [d.values()]) and
    compares them with [==] (which ignores order).  A dictionary is
    written here as its list of items in insertion order.  [dict_set]
    replaces the value of an existing key in place and appends a new key
    at the end, as CPython does.

    Two dictionaries are [==] when they have the same lookups; that
    relation, [dict_equiv], is coarser than list equality, and the
    operations are [Proper] for it.  The refinement theorem
    [dict_to_map_set] relates the ordered model to stdpp's [gmap]. *)

From S2P Require Import Prelude.
From stdpp Require Import gmap.

Definition dict (K V : Type) := list (K * V).

Section Dict.
Context {K V : Type} `{EqDecision K}.
Implicit Types (d : dict K V) (k : K) (v : V).

(** [d.get(k)]: the value of the first item with key [k]. *)
Fixpoint dict_get d k : option V :=
  match d with
  | [] => None
  | (k', v) :: d' => if decide (k = k') then Some v else dict_get d' k
  end.

(** [d[k]]: [KeyError] when the key is absent. *)
Definition dict_getitem d k : result V := of_option KeyError (dict_get d k).

(** [k in d]. *)
Definition dict_mem k d : bool := bool_decide (is_Some (dict_get d k)).

(** [d[k] = v]. *)
Fixpoint dict_set d k v : dict K V :=
  match d with
  | [] => [(k, v)]
  | (k', v') :: d' => if decide (k = k') then (k', v) :: d' else (k', v') :: dict_set d' k v
  end.

Definition dict_keys d : list K := map fst d.
Definition dict_values d : list V := map snd d.

(** [dict(pairs)]: successive assignments, left to right. *)
Definition dict_of_list (l : list (K * V)) : dict K V :=
  fold_left (fun acc kv => dict_set acc kv.1 kv.2) l [].

(** The well-formedness invariant of a dictionary: no key twice. *)
Definition dict_wf d : Prop := NoDup (dict_keys d).

(** Python's [d1 == d2]: the same keys with the same values. *)
Definition dict_equiv d1 d2 : Prop := forall k, dict_get d1 k = dict_get d2 k.

(** ** Lookup after assignment *)

Lemma dict_get_set_eq d k v : dict_get (dict_set d k v) k = Some v.
Proof.
  induction d as [|[k' v'] d IH]; simpl; [by rewrite decide_True|].
  destruct (decide (k = k')) as [->|Hne]; simpl; [by rewrite decide_True|].
  by rewrite decide_False.
Qed.

Lemma dict_get_set_ne d k k2 v : k <> k2 -> dict_get (dict_set d k v) k2 = dict_get d k2.
Proof.
  intros Hne. induction d as [|[k' v'] d IH]; simpl; [by rewrite decide_False|].
  case_decide; subst; simpl.
  - by rewrite !decide_False by congruence.
  - case_decide; [done | apply IH].
Qed.

Lemma dict_get_set d k k2 v :
  dict_get (dict_set d k v) k2 = if decide (k = k2) then Some v else dict_get d k2.
Proof.
  destruct (decide (k = k2)) as [->|Hne]; [apply dict_get_set_eq | by apply dict_get_set_ne].
Qed.

Lemma dict_get_In d k v : dict_get d k = Some v -> In (k, v) d.
Proof.
  induction d as [|[k' v'] d IH]; simpl; [discriminate|].
  case_decide; [intros [= <-]; subst; auto | auto].
Qed.

Lemma dict_get_None d k : dict_get d k = None <-> k ∉ dict_keys d.
Proof.
  unfold dict_keys. induction d as [|[k' v'] d IH]; simpl; [set_solver|].
  case_decide as Hk; [subst; split; [discriminate | set_solver]|].
  rewrite IH. set_solver.
Qed.

(** ** Order of the keys *)

(** Assigning an existing key keeps the key order; a new key goes last. *)
Lemma dict_keys_set d k v :
  dict_keys (dict_set d k v) =
  if bool_decide (k ∈ dict_keys d) then dict_keys d else dict_keys d ++ [k].
Proof.
  unfold dict_keys. induction d as [|[k' v'] d IH]; simpl; [done|].
  destruct (decide (k = k')) as [->|Hk]; [rewrite bool_decide_true; [done | set_solver]|].
  simpl. rewrite IH.
  case_bool_decide; [rewrite bool_decide_true by set_solver | rewrite bool_decide_false by set_solver];
    done.
Qed.

Lemma dict_set_wf d k v : dict_wf d -> dict_wf (dict_set d k v).
Proof.
  unfold dict_wf. intros Hnd. rewrite dict_keys_set.
  case_bool_decide as Hin; [done|].
  apply NoDup_app. split; [done|]. split; [|by apply NoDup_singleton].
  set_solver.
Qed.

Lemma dict_of_list_wf l : dict_wf (dict_of_list l).
Proof.
  unfold dict_of_list. apply fold_left_invariant; [constructor|].
  intros x kv Hx _. by apply dict_set_wf.
Qed.

Lemma dict_wf_cons k v d : dict_wf ((k, v) :: d) -> (k ∉ dict_keys d) /\ dict_wf d.
Proof. unfold dict_wf, dict_keys. simpl. by intros ?%NoDup_cons. Qed.

Lemma dict_set_Forall (P : K * V -> Prop) d k v : Forall P d -> P (k, v) -> Forall P (dict_set d k v).
Proof.
  induction 1 as [|[k' v'] d Hkv Hd IH]; intros Hp; simpl; [by repeat constructor|].
  destruct (decide (k = k')) as [->|]; constructor; auto.
Qed.

Lemma dict_set_length_le d k v : length d <= length (dict_set d k v).
Proof. induction d as [|[k' v'] d IH]; simpl; [lia|]. case_decide; simpl; lia. Qed.

(** ** Dictionary equality is a setoid *)

#[export] Instance dict_equiv_equivalence : Equivalence dict_equiv.
Proof.
  split; [intros d k; done | intros d1 d2 H k; by rewrite H |
          intros d1 d2 d3 H1 H2 k; by rewrite H1, H2].
Qed.

#[export] Instance dict_get_proper : Proper (dict_equiv ==> eq ==> eq) dict_get.
Proof. intros d1 d2 H k ? <-. apply H. Qed.

#[export] Instance dict_set_proper : Proper (dict_equiv ==> eq ==> eq ==> dict_equiv) dict_set.
Proof. intros d1 d2 H k ? <- v ? <- k2. rewrite !dict_get_set. case_decide; auto. Qed.

#[export] Instance dict_mem_proper : Proper (eq ==> dict_equiv ==> eq) dict_mem.
Proof. intros k ? <- d1 d2 H. unfold dict_mem. by rewrite H. Qed.

(** Assignments to distinct keys commute up to [==]. *)
Lemma dict_set_comm d k1 k2 v1 v2 :
  k1 <> k2 -> dict_equiv (dict_set (dict_set d k1 v1) k2 v2) (dict_set (dict_set d k2 v2) k1 v1).
Proof. intros Hne k. rewrite !dict_get_set. repeat case_decide; subst; congruence. Qed.

End Dict.

#[export] Hint Resolve dict_set_wf dict_of_list_wf : py.
#[export] Hint Rewrite @dict_get_set_eq : py_rw.

(** ** Refinement into [gmap]

    Forgetting the order, a dictionary denotes the finite map of its
    first occurrences.  Lookup and assignment commute with this
    abstraction, so every property of [dict_get]/[dict_set] that does
    not mention order is a property of stdpp's [gmap]. *)
Section Refinement.
Context {K V : Type} `{Countable K}.

Definition dict_to_map (d : dict K V) : gmap K V := list_to_map d.

Lemma dict_to_map_lookup (d : dict K V) k : dict_to_map d !! k = dict_get d k.
Proof.
  unfold dict_to_map. induction d as [|[k' v'] d IH]; simpl; [apply lookup_empty|].
  rewrite lookup_insert. case_decide; subst; [by rewrite decide_True | by rewrite decide_False].
Qed.

(** Item assignment [d[k] = v] on the ordered model is insertion in the
    finite map it denotes. *)
Lemma dict_to_map_set (d : dict K V) k v :
  dict_to_map (dict_set d k v) = <[k := v]> (dict_to_map d).
Proof.
  apply map_eq. intros k2. rewrite lookup_insert, !dict_to_map_lookup, dict_get_set.
  done.
Qed.

Lemma dict_equiv_to_map (d1 d2 : dict K V) :
  dict_equiv d1 d2 <-> dict_to_map d1 = dict_to_map d2.
Proof.
  split.
  - intros Heq. apply map_eq. intros k. by rewrite !dict_to_map_lookup.
  - intros Heq k. by rewrite <- !dict_to_map_lookup, Heq.
Qed.

End Refinement.
