(* ===== verification/PyVal.v ===== *)
(** * Python values exchanged between the pipeline's stages

    The post-processing stage stores in [d['postprocessed']] whatever its
    parsers returned: JSON values ([json.loads]), Python literals
    ([ast.literal_eval]: also tuples and sets) or lists of strings built
    by regular expressions.  [pyval] is that value space.  A [float] is
    kept as the exact decimal [m * 10^e] its literal denotes: the
    rounding to binary64 is not modelled (two literals that round to the
    same double but differ as decimals are different values here).

    This file holds the two functions that read such a value back as a
    list of triples, [read_triples] of
    [src/general_evaluation_final.py] and its variant [read_triples_ann]
    of [src/3_evaluation_module/evaluation_reference_to_annotations/evaluate.py],
    and Python's [str()] of a value, which the evaluation uses to build
    dictionary keys and search queries with f-strings. *)

From S2P Require Import Prelude PyStr PyDict.
From Stdlib Require Import DecimalString.

Scheme All for list.
Scheme All for prod.

Inductive pyval :=
| PNone
| PBool (b : bool)
| PInt (z : Z)
| PFloat (m e : Z)
| PStr (s : string)
| PList (l : list pyval)
| PTuple (l : list pyval)
| PSet (l : list pyval)
| PDict (d : list (pyval * pyval)).

(** [d[k]] for a [str] key [k]: only a [str] equal to [k] matches it,
    so the lookup compares [PStr] keys only. *)
Fixpoint pdict_get_str (k : string) (d : list (pyval * pyval)) : option pyval :=
  match d with
  | [] => None
  | (PStr k', v) :: d' => if String.eqb k k' then Some v else pdict_get_str k d'
  | _ :: d' => pdict_get_str k d'
  end.

(** [float(m * 10^e) == i]. *)
Definition float_eq_int (m e i : Z) : bool :=
  if (e <? 0)%Z then Z.eqb m (i * 10 ^ (- e)) else Z.eqb (m * 10 ^ e) i.

(** [d[i]] for an [int] key [i]: the keys equal to [i] are [i] itself,
    the [float]s of the same value and, for 0 and 1, [False] and [True]. *)
Fixpoint pdict_get_int (i : Z) (d : list (pyval * pyval)) : option pyval :=
  match d with
  | [] => None
  | (PInt j, v) :: d' => if Z.eqb i j then Some v else pdict_get_int i d'
  | (PBool b, v) :: d' => if Z.eqb i (if b then 1 else 0)%Z then Some v else pdict_get_int i d'
  | (PFloat m e, v) :: d' => if float_eq_int m e i then Some v else pdict_get_int i d'
  | _ :: d' => pdict_get_int i d'
  end.

(** [v[k]] with a [str] key: a [KeyError] when a dictionary lacks the
    key, a [TypeError] when [v] is not a dictionary. *)
Definition getitem_str (v : pyval) (k : string) : result pyval :=
  match v with
  | PDict d => of_option KeyError (pdict_get_str k d)
  | _ => Raise TypeError
  end.

(** [l[i]] on a list or tuple; a negative index counts from the end. *)
Definition getitem_idx (v : pyval) (i : Z) : result pyval :=
  match v with
  | PList l | PTuple l =>
      let n := Z.of_nat (length l) in
      let j := if (i <? 0)%Z then (i + n)%Z else i in
      if (0 <=? j)%Z && (j <? n)%Z then of_option IndexError (l !! Z.to_nat j) else Raise IndexError
  | PStr s =>
      let n := Z.of_nat (String.length s) in
      let j := if (i <? 0)%Z then (i + n)%Z else i in
      if (0 <=? j)%Z && (j <? n)%Z
      then of_option IndexError (option_map (fun c => PStr (String c EmptyString)) (String.get (Z.to_nat j) s))
      else Raise IndexError
  | PDict d => of_option KeyError (pdict_get_int i d)
  | _ => Raise TypeError
  end.

(** A [str] value, or [TypeError]. *)
Definition as_str (v : pyval) : result string :=
  match v with PStr s => Ok s | _ => Raise TypeError end.

(** A [str] value; [e] is what the failing operation raises on another
    type ([AttributeError] for a method call such as [.split]). *)
Definition str_or (e : exc) (v : pyval) : result string :=
  match v with PStr s => Ok s | _ => Raise e end.

(** [k in v] for a [str] [k]: key membership for a dictionary, element
    membership for a list, tuple or set, substring for a [str]. *)
Definition py_in (k : string) (v : pyval) : result bool :=
  match v with
  | PDict d => Ok (bool_decide (is_Some (pdict_get_str k d)))
  | PList l | PTuple l | PSet l =>
      Ok (existsb (fun x => match x with PStr s => String.eqb k s | _ => false end) l)
  | PStr s => Ok (py_contains k s)
  | _ => Raise TypeError
  end.

Fixpoint str_chars (s : string) : list pyval :=
  match s with
  | EmptyString => []
  | String c s' => PStr (String c EmptyString) :: str_chars s'
  end.

(** [for x in v]: the elements of a list, tuple or set, the keys of a
    dictionary, the characters of a [str]. *)
Definition py_iter (v : pyval) : result (list pyval) :=
  match v with
  | PList l | PTuple l | PSet l => Ok l
  | PDict d => Ok (map fst d)
  | PStr s => Ok (str_chars s)
  | _ => Raise TypeError
  end.

(** [len(v)]. *)
Definition py_len (v : pyval) : result nat :=
  match v with
  | PList l | PTuple l | PSet l => Ok (length l)
  | PDict d => Ok (length d)
  | PStr s => Ok (String.length s)
  | _ => Raise TypeError
  end.


(** [v == True]. *)
Definition py_is_true (v : pyval) : bool :=
  match v with PBool true => true | PInt 1%Z => true | PFloat m e => float_eq_int m e 1 | _ => false end.

(** [isinstance(item, dict) and all(key in item for key in ks)]. *)
Definition has_keys (ks : list string) (item : pyval) : bool :=
  match item with
  | PDict d => forallb (fun k => bool_decide (is_Some (pdict_get_str k d))) ks
  | _ => false
  end.

(** [[item[k] for k in ks]]; only applied after [has_keys ks item]. *)
Definition project (ks : list string) (item : pyval) : list pyval :=
  match item with
  | PDict d => map (fun k => default PNone (pdict_get_str k d)) ks
  | _ => []
  end.

Definition is_list (v : pyval) : bool := match v with PList _ => true | _ => false end.
Definition list_items (v : pyval) : list pyval := match v with PList l => l | _ => [] end.

(** [isinstance(data, list) and all(<item test> for item in data)]. *)
Definition read_list_of (test : pyval -> bool) (data : pyval) : option (list pyval) :=
  match data with
  | PList items => if forallb test items then Some items else None
  | _ => None
  end.

(** [isinstance(data, dict) and w in data and isinstance(data[w], list)
    and all(<s, p, o keys> for item in data[w])]. *)
Definition read_wrapped (w : string) (ks : list string) (data : pyval) : option (list (list pyval)) :=
  match data with
  | PDict d =>
      match pdict_get_str w d with
      | Some (PList items) =>
          if forallb (has_keys ks) items then Some (map (project ks) items) else None
      | _ => None
      end
  | _ => None
  end.

Definition spo : list string := ["subject"; "predicate"; "object"]%string.
Definition sro : list string := ["subject"; "relation"; "object"]%string.
Definition SPO : list string := ["Subject"; "Predicate"; "Object"]%string.

(** [read_triples] of [general_evaluation_final.py]: [None] when no
    shape matches. *)
Definition read_triples (data : pyval) : option (list (list pyval)) :=
  match read_list_of is_list data with
  | Some items => Some (map list_items items)
  | None =>
  match read_list_of (has_keys spo) data with
  | Some items => Some (map (project spo) items)
  | None =>
  match read_list_of (has_keys sro) data with
  | Some items => Some (map (project sro) items)
  | None =>
  match read_wrapped "Triples" spo data with
  | Some ts => Some ts
  | None =>
  match read_wrapped "triples" spo data with
  | Some ts => Some ts
  | None => read_wrapped "knowledge_triples" spo data
  end end end end end.

(** [read_triples] of [evaluate.py]: one more shape, dictionaries with
    the capitalised keys [Subject], [Predicate], [Object], tried after
    the lower-case ones. *)
Definition read_triples_ann (data : pyval) : option (list (list pyval)) :=
  match read_list_of is_list data with
  | Some items => Some (map list_items items)
  | None =>
  match read_list_of (has_keys spo) data with
  | Some items => Some (map (project spo) items)
  | None =>
  match read_list_of (has_keys SPO) data with
  | Some items => Some (map (project SPO) items)
  | None =>
  match read_list_of (has_keys sro) data with
  | Some items => Some (map (project sro) items)
  | None =>
  match read_wrapped "Triples" spo data with
  | Some ts => Some ts
  | None =>
  match read_wrapped "triples" spo data with
  | Some ts => Some ts
  | None => read_wrapped "knowledge_triples" spo data
  end end end end end end.

(** ** [str()] and [repr()] of a value

    f-strings ([f'{triple[0]} && ...']) and [str(triple[1])] print a
    [str] as itself and any other value as its [repr]. *)

Definition dquote : ascii := "034"%char.
Definition squote : ascii := "039"%char.
Definition backslash : ascii := "092"%char.

Fixpoint has_char (c : ascii) (s : string) : bool :=
  match s with
  | EmptyString => false
  | String c' s' => Ascii.eqb c c' || has_char c s'
  end.

Definition hex_digit (n : nat) : ascii :=
  if n <? 10 then Ascii.ascii_of_nat (48 + n) else Ascii.ascii_of_nat (87 + n).

(** One character of a string's [repr], given the quote in use: the
    characters that are not [str.isprintable()] on Latin-1 (controls,
    U+007F-U+00A0 and the soft hyphen U+00AD) are written [\xNN]. *)
Definition repr_char (q c : ascii) : string :=
  let n := nat_of_ascii c in
  if Ascii.eqb c q || Ascii.eqb c backslash then String backslash (String c EmptyString)
  else if n =? 9 then String backslash (String "t" EmptyString)
  else if n =? 10 then String backslash (String "n" EmptyString)
  else if n =? 13 then String backslash (String "r" EmptyString)
  else if (n <? 32) || ((127 <=? n) && (n <=? 160)) || (n =? 173) then
    String backslash (String "x" (String (hex_digit (n / 16)) (String (hex_digit (n mod 16)) EmptyString)))
  else String c EmptyString.

Fixpoint repr_chars (q : ascii) (s : string) : string :=
  match s with
  | EmptyString => EmptyString
  | String c s' => String.append (repr_char q c) (repr_chars q s')
  end.

(** [repr(s)] for a [str]: single quotes unless the text has a single
    quote and no double quote. *)
Definition repr_str (s : string) : string :=
  let q := if has_char squote s && negb (has_char dquote s) then dquote else squote in
  String q (String.append (repr_chars q s) (String q EmptyString)).

Definition repr_int (z : Z) : string := NilZero.string_of_int (Z.to_int z).

(** The decimal digits of a natural number, and the same without its
    trailing zeros together with how many were removed. *)
Definition digits_of (n : Z) : string := repr_int n.

Fixpoint strip_zeros_go (fuel : nat) (m e : Z) : Z * Z :=
  match fuel with
  | O => (m, e)
  | S f => if (m =? 0)%Z then (m, e) else if (m mod 10 =? 0)%Z then strip_zeros_go f (m / 10) (e + 1) else (m, e)
  end.

Fixpoint zeros (n : nat) : string := match n with O => EmptyString | S n' => String "0" (zeros n') end.

(** [repr(float)] of the value [m * 10^e] (Python's shortest repr is
    the literal's digits without trailing zeros): fixed notation when
    the decimal exponent is in [-4, 16), scientific notation otherwise. *)
Definition repr_float (m e : Z) : string :=
  let '(m', e') := strip_zeros_go (String.length (digits_of (Z.abs m))) (Z.abs m) e in
  let sign := if (m <? 0)%Z then "-"%string else ""%string in
  if (m' =? 0)%Z then "0.0"%string else
  let D := digits_of m' in
  let n := Z.of_nat (String.length D) in
  let dexp := (n - 1 + e')%Z in
  let body :=
    if ((-4 <=? dexp) && (dexp <? 16))%Z then
      if (0 <=? e')%Z then (D ++ zeros (Z.to_nat e') ++ ".0")%string
      else if (0 <=? dexp)%Z then (String.substring 0 (Z.to_nat (dexp + 1)) D ++ "." ++
                                   String.substring (Z.to_nat (dexp + 1)) (String.length D) D)%string
      else ("0." ++ zeros (Z.to_nat (- dexp - 1)) ++ D)%string
    else
      (String.substring 0 1 D ++
       (if (1 <? n)%Z then "." ++ String.substring 1 (String.length D) D else "") ++
       "e" ++ (if (dexp <? 0)%Z then "-" else "+") ++
       (if (Z.abs dexp <? 10)%Z then "0" else "") ++ repr_int (Z.abs dexp))%string in
  (sign ++ body)%string.

Fixpoint py_repr (v : pyval) : string :=
  match v with
  | PNone => "None"
  | PBool true => "True"
  | PBool false => "False"
  | PInt z => repr_int z
  | PFloat m e => repr_float m e
  | PStr s => repr_str s
  | PList l => "[" ++ String.concat ", " (map py_repr l) ++ "]"
  | PTuple [x] => "(" ++ py_repr x ++ ",)"
  | PTuple l => "(" ++ String.concat ", " (map py_repr l) ++ ")"
  | PSet [] => "set()"
  | PSet l => "{" ++ String.concat ", " (map py_repr l) ++ "}"
  | PDict d => "{" ++ String.concat ", " (map (fun kv => py_repr kv.1 ++ ": " ++ py_repr kv.2) d) ++ "}"
  end%string.

(** [str(v)] / [f'{v}']. *)
Definition py_str (v : pyval) : string :=
  match v with PStr s => s | _ => py_repr v end.

(** ** Reading triples back *)

Lemma project_length ks item : has_keys ks item = true -> length (project ks item) = length ks.
Proof. destruct item; simpl; try discriminate. intros _. apply length_map. Qed.

Lemma read_list_of_Some test data items :
  read_list_of test data = Some items -> data = PList items /\ Forall (fun i => test i = true) items.
Proof.
  destruct data; simpl; try discriminate.
  destr_if; intros [= <-]. split; [done|].
  apply List.Forall_forall. intros x Hx. exact (proj1 (forallb_forall _ _) E x Hx).
Qed.

Lemma read_wrapped_length w ks data ts :
  read_wrapped w ks data = Some ts -> Forall (fun t => length t = length ks) ts.
Proof.
  destruct data; simpl; try discriminate.
  destruct (pdict_get_str w d) as [[]|]; try discriminate.
  destr_if; intros [= <-]. apply Forall_map, List.Forall_forall. intros x Hx.
  apply project_length. exact (proj1 (forallb_forall _ _) E x Hx).
Qed.

Lemma read_list_of_project ks data items :
  read_list_of (has_keys ks) data = Some items ->
  Forall (fun t => length t = length ks) (map (project ks) items).
Proof.
  intros H%read_list_of_Some. apply Forall_map. eapply Forall_impl; [apply H|].
  apply project_length.
Qed.

#[export] Hint Resolve read_list_of_project read_wrapped_length : py.

(** The spec requires malformed triples (length other than 3) to be
    counted by the evaluator; they can only come from the list-of-lists
    shape, since every dictionary shape is projected on three keys. *)
Lemma read_triples_shape data ts :
  read_triples data = Some ts ->
  (exists items, data = PList items /\ Forall (fun i => is_list i = true) items /\
                 ts = map list_items items)
  \/ Forall (fun t => length t = 3) ts.
Proof.
  unfold read_triples.
  destruct (read_list_of is_list data) as [items|] eqn:E.
  { intros [= <-]. apply read_list_of_Some in E as [-> ?]. left. eauto. }
  intros H. right.
  repeat match type of H with
  | match read_list_of (has_keys ?ks) data with _ => _ end = _ =>
      let E := fresh "E" in destruct (read_list_of (has_keys ks) data) eqn:E;
      [injection H as <-; eapply Forall_impl; [by eapply read_list_of_project | by intros ? ->] |]
  | match read_wrapped ?w ?ks data with _ => _ end = _ =>
      let E := fresh "E" in destruct (read_wrapped w ks data) eqn:E;
      [injection H as <-; eapply Forall_impl; [by eapply read_wrapped_length | by intros ? ->] |]
  end.
  eapply Forall_impl; [by eapply read_wrapped_length | by intros ? ->].
Qed.

(** [evaluate.py] reads every value that [general_evaluation_final.py]
    reads: when the annotation evaluator rejects a value, so does the
    Wikidata evaluator. *)
Lemma read_triples_ann_None data : read_triples_ann data = None -> read_triples data = None.
Proof. unfold read_triples_ann, read_triples. repeat case_match; congruence. Qed.

(** When no item carries the capitalised keys, both readers agree. *)
Lemma read_triples_ann_agree data :
  read_list_of (has_keys SPO) data = None -> read_triples_ann data = read_triples data.
Proof. intros H. unfold read_triples_ann, read_triples. rewrite H. repeat case_match; congruence. Qed.

(** ** Structural equality of values

    Used for the [set]s of (surface form, id) pairs the evaluation
    collects.  It is Python's [==] on the values the pipeline produces
    (strings, lists and dictionaries of strings); it differs from [==]
    only on [1 == True] and on dictionaries listed in different orders. *)
Fixpoint pyval_eqb (v w : pyval) : bool :=
  match v, w with
  | PNone, PNone => true
  | PBool a, PBool b => Bool.eqb a b
  | PInt a, PInt b => Z.eqb a b
  | PFloat a b, PFloat c d => Z.eqb a c && Z.eqb b d
  | PStr a, PStr b => String.eqb a b
  | PList l, PList m | PTuple l, PTuple m | PSet l, PSet m =>
      (fix go (l m : list pyval) : bool :=
         match l, m with
         | [], [] => true
         | x :: l', y :: m' => pyval_eqb x y && go l' m'
         | _, _ => false
         end) l m
  | PDict d, PDict e =>
      (fix go (d e : list (pyval * pyval)) : bool :=
         match d, e with
         | [], [] => true
         | (k1, v1) :: d', (k2, v2) :: e' => pyval_eqb k1 k2 && pyval_eqb v1 v2 && go d' e'
         | _, _ => false
         end) d e
  | _, _ => false
  end.

Lemma pyval_eqb_list (l : list pyval) :
  list_all pyval (fun v => forall w, pyval_eqb v w = true <-> v = w) l ->
  forall m, (fix go (l m : list pyval) : bool :=
               match l, m with
               | [], [] => true
               | x :: l', y :: m' => pyval_eqb x y && go l' m'
               | _, _ => false
               end) l m = true <-> l = m.
Proof.
  induction l as [|x l IH]; intros Hall [|y m]; simpl; try (split; congruence).
  inversion Hall as [|? Hx ? Hl]; subst. rewrite andb_true_iff, Hx, (IH Hl).
  split; [intros [-> ->]|intros [= -> ->]]; auto.
Qed.

Lemma pyval_eqb_dict (d : list (pyval * pyval)) :
  list_all (pyval * pyval)
    (prod_all pyval (fun v => forall w, pyval_eqb v w = true <-> v = w)
              pyval (fun v => forall w, pyval_eqb v w = true <-> v = w)) d ->
  forall e, (fix go (d e : list (pyval * pyval)) : bool :=
               match d, e with
               | [], [] => true
               | (k1, v1) :: d', (k2, v2) :: e' => pyval_eqb k1 k2 && pyval_eqb v1 v2 && go d' e'
               | _, _ => false
               end) d e = true <-> d = e.
Proof.
  induction d as [|[k v] d IH]; intros Hall [|[k' v'] e]; simpl; try (split; congruence).
  inversion Hall as [|? Hkv ? Hd]; subst. inversion Hkv as [? Hk ? Hv]; subst.
  rewrite !andb_true_iff, Hk, Hv, (IH Hd).
  split; [intros [[-> ->] ->] | intros [= -> -> ->]]; auto.
Qed.

Lemma pyval_eqb_eq v w : pyval_eqb v w = true <-> v = w.
Proof.
  revert w. induction v using pyval_ind; intros []; simpl;
    try (split; congruence);
    try (rewrite andb_true_iff, !Z.eqb_eq; split; [intros [-> ->] | intros [= -> ->]]; done);
    try (rewrite ?Bool.eqb_true_iff, ?Z.eqb_eq, ?String.eqb_eq; split; congruence);
    try (rewrite pyval_eqb_list by done; split; congruence);
    (rewrite pyval_eqb_dict by done; split; congruence).
Qed.

#[export] Instance pyval_eq_dec : EqDecision pyval.
Proof.
  intros v w. destruct (pyval_eqb v w) eqn:E.
  - left. by apply pyval_eqb_eq.
  - right. intros <-. assert (pyval_eqb v v = true) by by apply pyval_eqb_eq. congruence.
Defined.

(** [x in l] for a list: some element is equal to [x]. *)
Definition list_contains (x : pyval) (l : list pyval) : bool := existsb (pyval_eqb x) l.

Lemma list_contains_spec x l : list_contains x l = true <-> x ∈ l.
Proof.
  unfold list_contains. rewrite existsb_exists, list_elem_of_In. split.
  - intros (y & Hy & E%pyval_eqb_eq). by subst.
  - intros Hx. exists x. split; [done|]. by apply pyval_eqb_eq.
Qed.

(** Whether [hash(v)] succeeds. *)
Fixpoint hashable (v : pyval) : bool :=
  match v with
  | PList _ | PSet _ | PDict _ => false
  | PTuple l => forallb hashable l
  | _ => true
  end.

(** [v[k]] for a key of any type: a dictionary lookup, or an index into
    a list, tuple or [str]. *)
Definition getitem_key (v k : pyval) : result pyval :=
  match v, k with
  | PDict d, _ => if hashable k then dict_getitem d k else Raise TypeError
  | (PList _ | PTuple _ | PStr _), PInt i => getitem_idx v i
  | _, _ => Raise TypeError
  end.

(** [k in v] for a key of any type. *)
Definition contains_key (k v : pyval) : result bool :=
  match v, k with
  | PDict d, _ => if hashable k then Ok (dict_mem k d) else Raise TypeError
  | (PList l | PTuple l), _ => Ok (list_contains k l)
  | PSet l, _ => if hashable k then Ok (list_contains k l) else Raise TypeError
  | PStr s, PStr k' => Ok (py_contains k' s)
  | _, _ => Raise TypeError
  end.

(** [v[k] = x] for a key of any type on a dictionary. *)
Definition setitem_key (v k x : pyval) : result pyval :=
  match v with
  | PDict d => if hashable k then Ok (PDict (dict_set d k x)) else Raise TypeError
  | _ => Raise TypeError
  end.

Lemma pdict_get_str_dict_get k d : pdict_get_str k d = dict_get d (PStr k).
Proof.
  induction d as [|[k' x] d IH]; [done|]. cbn [dict_get].
  destruct (decide (PStr k = k')) as [<-|Hne].
  - simpl. by rewrite String.eqb_refl.
  - rewrite <- IH. destruct k'; simpl; try done.
    destruct (String.eqb_spec k s); [congruence | done].
Qed.


(** [v[i:j]] on a list, a tuple or a [str]; a [TypeError] on anything
    else ([dict] keys cannot be slices in Python 3.11). *)
Definition py_getslice (v : pyval) (i j : Z) : result pyval :=
  match v with
  | PList l => let a := slice_index (length l) i in let b := slice_index (length l) j in
               Ok (PList (take (b - a) (drop a l)))
  | PTuple l => let a := slice_index (length l) i in let b := slice_index (length l) j in
                Ok (PTuple (take (b - a) (drop a l)))
  | PStr s => Ok (PStr (py_slice s i j))
  | _ => Raise TypeError
  end.

(** [del d[k]] for a [str] key. *)
Definition delitem_str (v : pyval) (k : string) : result pyval :=
  match v with
  | PDict d =>
      if bool_decide (is_Some (pdict_get_str k d))
      then Ok (PDict (List.filter (fun kv => negb (pyval_eqb kv.1 (PStr k))) d))
      else Raise KeyError
  | _ => Raise TypeError
  end.

(** [d.items()]. *)
Definition dict_items (v : pyval) : result (list (pyval * pyval)) :=
  match v with PDict d => Ok d | _ => Raise AttributeError end.

(** [d.get(k, default)] for a key of any type. *)
Definition get_key_default (v k default : pyval) : result pyval :=
  match v with
  | PDict d => if hashable k then Ok (match dict_get d k with Some x => x | None => default end) else Raise TypeError
  | _ => Raise AttributeError
  end.

(** [d.get(k, default)] for a [str] key. *)
Definition get_default (v : pyval) (k : string) (default : pyval) : result pyval :=
  match v with
  | PDict d => Ok (match pdict_get_str k d with Some x => x | None => default end)
  | _ => Raise AttributeError
  end.

Lemma str_chars_length s : length (str_chars s) = String.length s.
Proof. induction s as [|c s IH]; simpl; [done|]. by rewrite IH. Qed.


Lemma py_iter_len data items : py_iter data = Ok items -> py_len data = Ok (length items).
Proof. destruct data; simpl; try discriminate; intros [= <-]; by rewrite ?length_map, ?str_chars_length. Qed.
(** [v[k] = x] for a [str] key: an assignment in a dictionary, a
    [TypeError] on any other value. *)
Definition setitem_str (v : pyval) (k : string) (x : pyval) : result pyval :=
  match v with
  | PDict d => Ok (PDict (dict_set d (PStr k) x))
  | _ => Raise TypeError
  end.

Lemma getitem_setitem_str_eq v k x v' : setitem_str v k x = Ok v' -> getitem_str v' k = Ok x.
Proof.
  destruct v; simpl; try discriminate. intros [= <-]. simpl.
  by rewrite pdict_get_str_dict_get, dict_get_set_eq.
Qed.

Lemma getitem_setitem_str_ne v k k2 x v' :
  k <> k2 -> setitem_str v k x = Ok v' -> getitem_str v' k2 = getitem_str v k2.
Proof.
  destruct v; simpl; try discriminate. intros Hne [= <-]. simpl.
  rewrite !pdict_get_str_dict_get, dict_get_set_ne; congruence.
Qed.

(** ** Instances *)

Definition demo_dict_triples : pyval :=
  PList [PDict [(PStr "subject", PStr "Paris"); (PStr "predicate", PStr "capital of");
                (PStr "object", PStr "France")]].

Lemma read_triples_shape_witness :
  (exists items, demo_dict_triples = PList items /\ Forall (fun i => is_list i = true) items /\
                 [[PStr "Paris"; PStr "capital of"; PStr "France"]] = map list_items items)
  \/ Forall (fun t => length t = 3) [[PStr "Paris"; PStr "capital of"; PStr "France"]].
Proof. apply read_triples_shape. vm_compute. reflexivity. Defined.

Lemma read_triples_ann_None_witness : read_triples (PStr "no triples") = None.
Proof. apply read_triples_ann_None. vm_compute. reflexivity. Defined.

Lemma read_triples_ann_agree_witness : read_triples_ann demo_dict_triples = read_triples demo_dict_triples.
Proof. apply read_triples_ann_agree. vm_compute. reflexivity. Defined.
