(* ===== verification/Random.v ===== *)
(** * Python's [random] module as an interface

    The data scripts draw random elements with [random.choice] and
    permute lists in place with [random.shuffle]
    ([src/convert_REDFM.py] lines 102-111,
    [src/Entity_Linking/data/make_subset_4_demostration_selection.py]
    line 22).  Both are written in CPython on top of one primitive,
    [Random._randbelow(n)], a number in [[0, n)]:
    - [choice(seq)] raises [IndexError] on an empty sequence and returns
      [seq[_randbelow(len(seq))]] otherwise;
    - [shuffle(x)] runs [for i in reversed(range(1, len(x))): j =
      _randbelow(i + 1); x[i], x[j] = x[j], x[i]] (Fisher-Yates).

    The generator behind [_randbelow] (the Mersenne Twister and the
    rejection sampling over [getrandbits]) is the interface
    [RandomSource]: a state and a [randbelow] whose only law is the
    bound, so that every theorem holds for every generator and every
    seed.  Code that draws numbers runs in the state-and-exception
    monad [rand]. *)

From S2P Require Import Prelude.

Class RandomSource := {
  rstate : Type;
  randbelow : rstate -> nat -> nat * rstate;
  randbelow_lt s n : 0 < n -> (randbelow s n).1 < n
}.

Section Rand.
Context `{RandomSource}.

(** A computation that draws random numbers and may raise. *)
Definition rand (A : Type) : Type := rstate -> result (A * rstate).

#[export] Instance rand_ret : MRet rand := fun A a s => Ok (a, s).
#[export] Instance rand_bind : MBind rand := fun A B f m s =>
  match m s with Ok (a, s') => f a s' | Raise e => Raise e end.

(** A computation that draws nothing. *)
Definition lift {A} (r : result A) : rand A := fun s =>
  match r with Ok a => Ok (a, s) | Raise e => Raise e end.

(** [for x in l: acc = f(acc, x)] with random draws in [f]. *)
Fixpoint fold_rand {A B} (f : A -> B -> rand A) (l : list B) (a : A) : rand A :=
  match l with
  | [] => mret a
  | b :: l' => a' ← f a b; fold_rand f l' a'
  end.

(** [random.choice(seq)]. *)
Definition choice {A} (seq : list A) : rand A := fun s =>
  match seq with
  | [] => Raise IndexError
  | _ => let '(j, s') := randbelow s (length seq) in
         match seq !! j with Some x => Ok (x, s') | None => Raise IndexError end
  end.

(** [x[i], x[j] = x[j], x[i]]. *)
Definition swap {A} (l : list A) (i j : nat) : list A :=
  match l !! i, l !! j with
  | Some a, Some b => <[j:=a]> (<[i:=b]> l)
  | _, _ => l
  end.

(** The loop of [shuffle] from [i = k] down to [i = 1]. *)
Fixpoint shuffle_go {A} (k : nat) (l : list A) (s : rstate) : list A * rstate :=
  match k with
  | O => (l, s)
  | S k' => let '(j, s') := randbelow s (S (S k')) in shuffle_go k' (swap l (S k') j) s'
  end.

(** [random.shuffle(x)], returning the permuted list. *)
Definition shuffle {A} (l : list A) : rand (list A) := fun s => Ok (shuffle_go (pred (length l)) l s).

(** [random.sample(population, k)] of CPython ([Lib/random.py]): a
    [ValueError] unless [0 <= k <= n]; for a population no larger than
    [setsize] the list branch takes [pool[j]] and moves the last
    unselected item into its place, otherwise the set branch draws
    indices until one is not yet selected.  The set branch's rejection
    loop is unbounded for an arbitrary generator: [fuel] bounds the
    draws it rejects, and [None] is the model running out of it. *)
Definition sample_setsize (k : nat) : nat :=
  21 + (if 5 <? k then 4 ^ Z.to_nat ((Z.log2_up (3 * Z.of_nat k) + 1) / 2) else 0).

Fixpoint sample_pool_go {A} (n i k : nat) (pool : list A) : rand (list A) := fun s =>
  match k with
  | O => Ok ([], s)
  | S k' =>
      let '(j, s') := randbelow s (n - i) in
      match pool !! j, pool !! (n - i - 1) with
      | Some x, Some y => (rest ← sample_pool_go n (S i) k' (<[j:=y]> pool); mret (x :: rest)) s'
      | _, _ => Raise IndexError
      end
  end.

(** [j = randbelow(n); while j in selected: j = randbelow(n)]. *)
Fixpoint draw_fresh (fuel n : nat) (selected : list nat) (s : rstate) : option nat * rstate :=
  let '(j, s') := randbelow s n in
  if decide (j ∈ selected) then
    match fuel with O => (None, s') | S f => draw_fresh f n selected s' end
  else (Some j, s').

Fixpoint sample_set_go {A} (fuel : nat) (population : list A) (k : nat) (selected : list nat)
    : rand (option (list A)) := fun s =>
  match k with
  | O => Ok (Some [], s)
  | S k' =>
      match draw_fresh fuel (length population) selected s with
      | (None, s') => Ok (None, s')
      | (Some j, s') =>
          match population !! j with
          | None => Raise IndexError
          | Some x =>
              (r ← sample_set_go fuel population k' (selected ++ [j]);
               mret (match r with Some rest => Some (x :: rest) | None => None end)) s'
          end
      end
  end.

Definition sample {A} (fuel : nat) (population : list A) (k : nat) : rand (option (list A)) :=
  let n := length population in
  if negb (k <=? n) then lift (Raise ValueError)
  else if n <=? sample_setsize k then r ← sample_pool_go n 0 k population; mret (Some r)
  else sample_set_go fuel population k [].

(** ** Laws *)

Lemma bind_rand_Ok {A B} (m : rand A) (f : A -> rand B) s a s' :
  m s = Ok (a, s') -> (m ≫= f) s = f a s'.
Proof. intros E. unfold mbind, rand_bind. by rewrite E. Qed.

Lemma bind_rand_Raise {A B} (m : rand A) (f : A -> rand B) s e :
  m s = Raise e -> (m ≫= f) s = Raise e.
Proof. intros E. unfold mbind, rand_bind. by rewrite E. Qed.

Lemma lift_Ok {A} (r : result A) a s : r = Ok a -> lift r s = Ok (a, s).
Proof. by intros ->. Qed.

Lemma lift_Raise {A} (r : result A) e s : r = Raise e -> lift r s = Raise e.
Proof. by intros ->. Qed.

Lemma lift_inv {A} (r : result A) s a s' : lift r s = Ok (a, s') -> r = Ok a /\ s' = s.
Proof. unfold lift. destruct r; [by intros [= -> ->] | discriminate]. Qed.

Lemma rand_mret_inv {A} (a b : A) s s' : (mret a : rand A) s = Ok (b, s') -> a = b /\ s' = s.
Proof. unfold mret, rand_ret. by intros [= -> ->]. Qed.

Lemma bind_rand_inv {A B} (m : rand A) (f : A -> rand B) s b s'' :
  (m ≫= f) s = Ok (b, s'') -> exists a s', m s = Ok (a, s') /\ f a s' = Ok (b, s'').
Proof. unfold mbind, rand_bind. destruct (m s) as [[a s']|]; [eauto | discriminate]. Qed.

Lemma insert_app_perm {A} (l : list A) i a b :
  l !! i = Some a -> <[i:=b]> l ++ [a] ≡ₚ l ++ [b].
Proof.
  intros Hi. rewrite insert_take_drop by (by eapply lookup_lt_Some).
  transitivity ((take i l ++ a :: drop (S i) l) ++ [b]); [|by rewrite take_drop_middle].
  rewrite <- !app_assoc. apply Permutation_app_head. simpl.
  rewrite <- Permutation_middle, <- Permutation_middle. apply perm_swap.
Qed.

Lemma swap_perm {A} (l : list A) i j : swap l i j ≡ₚ l.
Proof.
  unfold swap. destruct (l !! i) as [a|] eqn:Ei; [|done].
  destruct (l !! j) as [b|] eqn:Ej; [|done].
  assert (Hj : <[i:=b]> l !! j = Some b).
  { destruct (decide (i = j)) as [->|Hne]; [apply list_lookup_insert_eq; by eapply lookup_lt_Some|].
    by rewrite list_lookup_insert_ne. }
  apply (Permutation_app_inv_r [b]).
  rewrite (insert_app_perm _ _ _ _ Hj). apply insert_app_perm, Ei.
Qed.

Lemma shuffle_go_perm {A} k (l : list A) s : (shuffle_go k l s).1 ≡ₚ l.
Proof.
  revert l s. induction k as [|k IH]; intros l s; simpl; [done|].
  destruct (randbelow s (S (S k))) as [j s']. by rewrite IH, swap_perm.
Qed.

Lemma shuffle_perm {A} (l : list A) s l' s' : shuffle l s = Ok (l', s') -> l' ≡ₚ l.
Proof. unfold shuffle. intros [= E]. change l' with (l', s').1. rewrite <- E. apply shuffle_go_perm. Qed.

Lemma choice_elem {A} (seq : list A) s x s' : choice seq s = Ok (x, s') -> x ∈ seq.
Proof.
  unfold choice. destruct seq as [|y l]; [discriminate|].
  destruct (randbelow s _) as [j s1]. destruct ((y :: l) !! j) eqn:E; [|discriminate].
  intros [= <- _]. by eapply list_elem_of_lookup_2.
Qed.

Lemma choice_nonempty {A} (seq : list A) s : seq <> [] -> exists x s', choice seq s = Ok (x, s').
Proof.
  unfold choice. destruct seq as [|y l]; [done|]. intros _.
  pose proof (randbelow_lt s (length (y :: l)) ltac:(simpl; lia)) as Hlt.
  destruct (randbelow s _) as [j s1]. simpl in Hlt.
  destruct (lookup_lt_is_Some_2 (y :: l) j Hlt) as [x ->]. eauto.
Qed.

Lemma choice_nil {A} s : choice (@nil A) s = Raise IndexError.
Proof. reflexivity. Qed.

(** ** [random.sample] draws a sub-multiset *)

(** Taking [pool[j]] and moving the last of the first [m] items into its
    place leaves the other [m - 1] items in front. *)
Lemma take_swap_last_perm {A} (pool : list A) m j x y :
  j < m -> pool !! j = Some x -> pool !! (m - 1) = Some y ->
  x :: take (m - 1) (<[j:=y]> pool) ≡ₚ take m pool.
Proof.
  destruct m as [|m]; [lia|]. rewrite Nat.sub_1_r. simpl. intros Hj Hx Hy.
  rewrite (take_S_r pool m y Hy). destruct (decide (j = m)) as [->|Hne].
  - rewrite take_insert_ge by lia. rewrite Hx in Hy. injection Hy as ->.
    apply Permutation_cons_append.
  - rewrite take_insert_lt by lia. rewrite Permutation_cons_append.
    apply insert_app_perm. rewrite lookup_take_lt by lia. done.
Qed.

Lemma sample_pool_go_sub {A} n k : forall i (pool : list A) s,
  length pool = n -> i + k <= n ->
  exists r s', sample_pool_go n i k pool s = Ok (r, s') /\ r ⊆+ take (n - i) pool /\ length r = k.
Proof.
  induction k as [|k IH]; intros i pool s Hl Hk; simpl.
  - exists [], s. split; [done|]. split; [apply submseteq_nil_l | done].
  - pose proof (randbelow_lt s (n - i) ltac:(lia)) as Hj.
    destruct (randbelow s (n - i)) as [j s1]. simpl in Hj.
    destruct (lookup_lt_is_Some_2 pool j ltac:(lia)) as [x Hx].
    destruct (lookup_lt_is_Some_2 pool (n - i - 1) ltac:(lia)) as [y Hy]. rewrite Hx, Hy.
    destruct (IH (S i) (<[j:=y]> pool) s1) as (r & s' & Hr & Hsub & Hlen); [by rewrite length_insert | lia |].
    rewrite (bind_rand_Ok _ _ _ _ _ Hr). exists (x :: r), s'. split; [done|]. split; [|simpl; lia].
    rewrite <- (take_swap_last_perm pool (n - i) j x y) by (done || lia).
    apply submseteq_skip. by replace (n - i - 1) with (n - S i) by lia.
Qed.

Lemma draw_fresh_spec fuel n selected s j s' :
  0 < n -> draw_fresh fuel n selected s = (Some j, s') -> (j ∉ selected) /\ j < n.
Proof.
  revert s. induction fuel as [|f IH]; intros s Hn; simpl;
    pose proof (randbelow_lt s n Hn) as Hlt; destruct (randbelow s n) as [j0 s0]; simpl in Hlt;
    (destruct (decide (j0 ∈ selected)); [try discriminate; by apply IH | intros [= <- _]; done]).
Qed.

(** Distinct positions of a list pick a sub-multiset of it. *)
Lemma picks_submseteq {A} (l : list A) js r :
  NoDup js -> Forall2 (fun j x => l !! j = Some x) js r -> r ⊆+ l.
Proof.
  intros Hnd Hr. destruct l as [|a l0] eqn:El.
  - destruct Hr; [apply submseteq_nil_l | done].
  - rewrite <- El in *. clear El. set (g := fun i => default a (l !! i)).
    assert (Hrg : r = g <$> js).
    { induction Hr as [|j x js' r' Hj _ IH']; [done|]. inversion Hnd; subst.
      simpl. unfold g at 1. rewrite Hj. f_equal. by apply IH'. }
    assert (Hlg : l = g <$> seq 0 (length l)).
    { apply list_eq. intros i. rewrite list_lookup_fmap. unfold g.
      destruct (decide (i < length l)).
      - rewrite lookup_seq_lt by done. simpl. by destruct (lookup_lt_is_Some_2 l i ltac:(done)) as [? ->].
      - rewrite lookup_seq_ge, lookup_ge_None_2 by lia. done. }
    rewrite Hrg, Hlg. apply fmap_submseteq, NoDup_submseteq; [done|].
    intros j Hj. apply elem_of_seq. apply Forall2_Forall_l with (Q := fun j => j < length l) in Hr.
    + rewrite Forall_forall in Hr. specialize (Hr j Hj). lia.
    + apply Forall_forall. intros x _ j' Hj'. by eapply lookup_lt_Some.
Qed.

Lemma sample_set_go_picks {A} fuel (population : list A) k : forall selected s r s',
  0 < length population -> NoDup selected ->
  sample_set_go fuel population k selected s = Ok (Some r, s') ->
  exists js, NoDup (selected ++ js) /\ Forall2 (fun j x => population !! j = Some x) js r /\ length r = k.
Proof.
  induction k as [|k IH]; intros selected s r s' Hn Hsel; simpl.
  - intros [= <- _]. exists []. rewrite app_nil_r. auto.
  - destruct (draw_fresh fuel (length population) selected s) as [[j|] s1] eqn:Ed; [|discriminate].
    destruct (draw_fresh_spec _ _ _ _ _ _ Hn Ed) as [Hj _].
    destruct (population !! j) as [x|] eqn:Ex; [|discriminate].
    intros (r' & s2 & Hr & Hm)%bind_rand_inv. apply rand_mret_inv in Hm as [Hm _].
    destruct r' as [rest|]; [|discriminate]. injection Hm as <-.
    destruct (IH (selected ++ [j]) s1 rest s2) as (js & Hnd & Hall & Hlen); [done | by apply NoDup_snoc | done |].
    exists (j :: js). rewrite <- app_assoc in Hnd. simpl. auto.
Qed.

(** A sample is a sub-multiset of the population of the requested size. *)
Lemma sample_submseteq {A} fuel (population : list A) k s r s' :
  sample fuel population k s = Ok (Some r, s') -> r ⊆+ population /\ length r = k.
Proof.
  unfold sample. destruct (k <=? length population) eqn:Hk; simpl; [|discriminate].
  apply Nat.leb_le in Hk.
  match goal with |- context [if ?c then _ else _] => destruct c end.
  - destruct (sample_pool_go_sub (length population) k 0 population s) as (r0 & s0 & Hr & Hsub & Hlen);
      [done | lia |].
    rewrite (bind_rand_Ok _ _ _ _ _ Hr). intros [= <- _]. rewrite Nat.sub_0_r, take_ge in Hsub by lia. done.
  - destruct k as [|k]; simpl; [intros [= <- _]; split; [apply submseteq_nil_l | done]|].
    intros Hs. destruct (sample_set_go_picks fuel population (S k) [] s r s') as (js & Hnd & Hall & Hlen);
      [lia | constructor | done |].
    split; [|done]. by eapply picks_submseteq.
Qed.


Lemma sample_too_large {A} fuel (population : list A) k s :
  length population < k -> sample fuel population k s = Raise ValueError.
Proof. intros Hk. unfold sample. by replace (k <=? length population) with false by (symmetry; apply Nat.leb_gt; lia). Qed.

(** The list branch always returns: a population no larger than
    [setsize] is sampled without running out of fuel. *)
Lemma sample_small_total {A} fuel (population : list A) k s :
  k <= length population <= sample_setsize k -> exists r s', sample fuel population k s = Ok (Some r, s').
Proof.
  intros [Hk Hn]. unfold sample. apply Nat.leb_le in Hk, Hn. rewrite Hk, Hn. simpl.
  apply Nat.leb_le in Hk.
  destruct (sample_pool_go_sub (length population) k 0 population s) as (r & s' & Hr & _); [done | lia |].
  exists r, s'. by rewrite (bind_rand_Ok _ _ _ _ _ Hr).
Qed.

End Rand.

(** Peel the binds of [rand] in hypothesis [H]. *)
Ltac rand_simp H :=
  repeat match type of H with
  | (_ ≫= _) _ = Ok _ =>
      let a := fresh "a" in let s1 := fresh "s" in let Ha := fresh "Ha" in
      apply bind_rand_inv in H as (a & s1 & Ha & H)
  end.

(** A generator for examples: the [n]-th draw below [m] is [n mod m]. *)
#[local] Program Instance counter_source : RandomSource := {|
  rstate := nat;
  randbelow s n := (s mod n, S s)
|}.
Next Obligation. intros s n Hn. simpl. apply Nat.mod_upper_bound. lia. Qed.

Lemma sample_small_total_witness :
  exists r s', @sample counter_source nat 0 [10; 20; 30; 40] 2 7 = Ok (Some r, s').
Proof. apply sample_small_total. vm_compute. lia. Defined.
