(* ===== verification/Regex.v ===== *)
(** * Python's [re] on the patterns of the post-processor

    [post_process_generated_string.py] recovers triples with thirteen
    regular expressions.  This file models the part of Python's [re]
    they use:
    - [re_compile]: the pattern syntax they are written in (literals and
      escapes, [.], [\d], [\s], [\S], bracketed classes with negation and
      ranges, capturing and non-capturing groups, alternation, and the
      quantifiers [*], [+], [?] with their lazy forms [*?], [+?], [??]);
      a [{] that does not start a [{m,n}] repeat is a literal, as in
      [sre_parse].  Patterns are given to it verbatim from the source;
      anything outside the subset is rejected ([None]).
    - [mtch]: the backtracking matcher, in continuation-passing style,
      that explores the alternatives in Python's priority order (a
      greedy star tries one more iteration first, a lazy star tries the
      rest of the pattern first), and records the last string each
      capturing group matched.
    - [re_search], [re_findall]: the leftmost match, and the list of
      non-overlapping matches scanned from left to right, as
      [re.search] and [re.findall] return them.

    Characters are the Latin-1 code points; [\s] is [str.isspace]
    ([py_isspace]) and [\d] is [0-9], which is what Python's Unicode
    classes are on that range.  A star stops when an iteration matches
    the empty string; the bodies of the stars used here never do
    ([re_nullable] is false on them), so this is Python's behaviour.

    The theorems: the matcher is sound and complete for the declarative
    semantics [rmatch]; a lazy (greedy) star over a class scans forward
    from the shortest (longest) prefix; [re_findall] returns one item per
    match and its fuel is enough. *)

From S2P Require Import Prelude PyStr.

(** ** Syntax *)

Inductive citem :=
| IChar (c : ascii)
| IRange (lo hi : ascii)
| IDigit
| ISpace
| INotSpace.

Inductive cclass :=
| CDot (dotall : bool)              (** [.]: any character, or any but newline *)
| CSet (negated : bool) (items : list citem)
| CDigit
| CSpace
| CNotSpace.

Inductive regex :=
| Eps
| Chr (c : ascii)
| Cls (k : cclass)
| Seq (r1 r2 : regex)
| Alt (r1 r2 : regex)
| Star (greedy : bool) (r : regex)
| Group (n : nat) (r : regex).

(** [r+] and [r?] as [sre] compiles them. *)
Definition Plus (greedy : bool) (r : regex) : regex := Seq r (Star greedy r).
Definition Opt (greedy : bool) (r : regex) : regex := if greedy then Alt r Eps else Alt Eps r.

Definition is_digit (c : ascii) : bool :=
  let n := nat_of_ascii c in (48 <=? n) && (n <=? 57).

Definition citem_mem (i : citem) (c : ascii) : bool :=
  match i with
  | IChar d => if ascii_dec c d then true else false
  | IRange lo hi => (nat_of_ascii lo <=? nat_of_ascii c) && (nat_of_ascii c <=? nat_of_ascii hi)
  | IDigit => is_digit c
  | ISpace => py_isspace c
  | INotSpace => negb (py_isspace c)
  end.

Definition cls_mem (k : cclass) (c : ascii) : bool :=
  match k with
  | CDot dotall => dotall || negb (if ascii_dec c "010"%char then true else false)
  | CSet neg items => xorb neg (existsb (fun i => citem_mem i c) items)
  | CDigit => is_digit c
  | CSpace => py_isspace c
  | CNotSpace => negb (py_isspace c)
  end.

(** The number of capturing groups. *)
Fixpoint re_groups (r : regex) : nat :=
  match r with
  | Eps | Chr _ | Cls _ => 0
  | Seq r1 r2 | Alt r1 r2 => Nat.max (re_groups r1) (re_groups r2)
  | Star _ r1 => re_groups r1
  | Group n r1 => Nat.max n (re_groups r1)
  end.

(** Can [r] match the empty string? *)
Fixpoint re_nullable (r : regex) : bool :=
  match r with
  | Eps => true
  | Chr _ | Cls _ => false
  | Seq r1 r2 => re_nullable r1 && re_nullable r2
  | Alt r1 r2 => re_nullable r1 || re_nullable r2
  | Star _ _ => true
  | Group _ r1 => re_nullable r1
  end.

(** ** The pattern compiler ([sre_parse] on the subset) *)

Section Compile.
Context (dotall : bool).

(** An escape outside a class. *)
Definition escape (c : ascii) : option regex :=
  match c with
  | "d"%char => Some (Cls CDigit)
  | "s"%char => Some (Cls CSpace)
  | "S"%char => Some (Cls CNotSpace)
  | "n"%char => Some (Chr "010"%char)
  | "t"%char => Some (Chr "009"%char)
  | _ => if existsb (fun d => if ascii_dec c d then true else false)
              ["["; "]"; "("; ")"; "{"; "}"; "."; "*"; "+"; "?"; "|"; "\"; "-"; "^"; "$"; "'"; "/"; " "]%char
         then Some (Chr c) else None
  end.

(** An escape inside a class. *)
Definition class_escape (c : ascii) : option citem :=
  match c with
  | "d"%char => Some IDigit
  | "s"%char => Some ISpace
  | "S"%char => Some INotSpace
  | "n"%char => Some (IChar "010"%char)
  | "t"%char => Some (IChar "009"%char)
  | _ => if existsb (fun d => if ascii_dec c d then true else false)
              ["["; "]"; "("; ")"; "{"; "}"; "."; "*"; "+"; "?"; "|"; "\"; "-"; "^"; "$"; "'"; "/"; " "]%char
         then Some (IChar c) else None
  end.

(** The items of a class up to its closing bracket; [first] allows a
    leading [\]] as a literal. *)
Fixpoint class_items (s : string) (first : bool) : option (list citem * string) :=
  match s with
  | EmptyString => None
  | String "]" s' => if first then ('(items, rest) ← class_items s' false; Some (IChar "]" :: items, rest))
                     else Some ([], s')
  | String "\" (String e s') =>
      i ← class_escape e; '(items, rest) ← class_items s' false; Some (i :: items, rest)
  | String c t =>
      match t with
      | String "-" (String hi s') =>
          if (hi =? "]")%char then ('(items, rest) ← class_items t false; Some (IChar c :: items, rest))
          else ('(items, rest) ← class_items s' false; Some (IRange c hi :: items, rest))
      | _ => '(items, rest) ← class_items t false; Some (IChar c :: items, rest)
      end
  end.

Definition parse_class (s : string) : option (cclass * string) :=
  match s with
  | String "^" s' => '(items, rest) ← class_items s' true; Some (CSet true items, rest)
  | _ => '(items, rest) ← class_items s true; Some (CSet false items, rest)
  end.

(** A quantifier after an atom. *)
Definition quantify (a : regex) (s : string) : option (regex * string) :=
  let lazy_or (mk : bool -> regex -> regex) (s' : string) :=
    match s' with String "?" s'' => (mk false a, s'') | _ => (mk true a, s') end in
  match s with
  | String "*" s' => Some (lazy_or Star s')
  | String "+" s' => Some (lazy_or Plus s')
  | String "?" s' => Some (lazy_or Opt s')
  | String "{" (String d _) => if is_digit d then None else Some (a, s)
  | _ => Some (a, s)
  end.

(** Recursive descent: alternation, sequence, atom.  [g] is the number
    of groups opened so far; [fuel] bounds the nesting depth. *)
Fixpoint p_alt (fuel : nat) (g : nat) (s : string) {struct fuel} : option (regex * nat * string) :=
  match fuel with
  | O => None
  | S f =>
      '(r1, g1, s1) ← p_seq f g s;
      match s1 with
      | String "|" s2 => '(r2, g2, s3) ← p_alt f g1 s2; Some (Alt r1 r2, g2, s3)
      | _ => Some (r1, g1, s1)
      end
  end
with p_seq (fuel : nat) (g : nat) (s : string) {struct fuel} : option (regex * nat * string) :=
  match fuel with
  | O => None
  | S f =>
      match s with
      | EmptyString => Some (Eps, g, s)
      | String "|" _ | String ")" _ => Some (Eps, g, s)
      | _ => '(a, g1, s1) ← p_atom f g s; '(rest, g2, s2) ← p_seq f g1 s1; Some (Seq a rest, g2, s2)
      end
  end
with p_atom (fuel : nat) (g : nat) (s : string) {struct fuel} : option (regex * nat * string) :=
  match fuel with
  | O => None
  | S f =>
      '(a, g1, s1) ←
        match s with
        | String "(" (String "?" (String ":" s')) =>
            '(r, g1, s1) ← p_alt f g s';
            match s1 with String ")" s2 => Some (r, g1, s2) | _ => None end
        | String "(" s' =>
            '(r, g1, s1) ← p_alt f (S g) s';
            match s1 with String ")" s2 => Some (Group (S g) r, g1, s2) | _ => None end
        | String "[" s' => '(k, s1) ← parse_class s'; Some (Cls k, g, s1)
        | String "." s' => Some (Cls (CDot dotall), g, s')
        | String "\" (String e s') => r ← escape e; Some (r, g, s')
        | String c s' =>
            if existsb (fun d => if ascii_dec c d then true else false) ["*"; "+"; "?"; "^"; "$"; ")"; "|"]%char
            then None else Some (Chr c, g, s')
        | EmptyString => None
        end;
      '(q, s2) ← quantify a s1;
      Some (q, g1, s2)
  end.

End Compile.

(** [re.compile(pattern, flags)]; the only flag used is [re.DOTALL].
    Every three levels of the descent consume a character, so the fuel
    bounds no pattern of the subset. *)
Definition re_compile (dotall : bool) (pattern : string) : option regex :=
  match p_alt dotall (3 * S (String.length pattern)) 0 pattern with
  | Some (r, _, EmptyString) => Some r
  | _ => None
  end.

(** ** The backtracking matcher *)

(** The groups matched so far, the most recent first. *)
Definition caps := list (nat * string).

Fixpoint cap_get (n : nat) (cs : caps) : option string :=
  match cs with
  | [] => None
  | (m, v) :: cs' => if Nat.eqb m n then Some v else cap_get n cs'
  end.

(** The text consumed between [s] and its suffix [s']. *)
Definition consumed (s s' : string) : string := String.substring 0 (String.length s - String.length s') s.

Section Matcher.
Context {X : Type}.

(** The iterations of a star: [body] matches one iteration.  A greedy
    star tries another iteration first, a lazy one the continuation
    first; an iteration must consume input.  [fuel] bounds the number of
    iterations; [S (length s)] is enough ([star_fuel_enough]). *)
Fixpoint star_loop (body : string -> caps -> (string -> caps -> option X) -> option X) (greedy : bool)
    (fuel : nat) (s : string) (cs : caps) (k : string -> caps -> option X) : option X :=
  match fuel with
  | O => None
  | S f =>
      if greedy then
        match body s cs (fun s1 cs1 => if String.length s1 <? String.length s
                                       then star_loop body greedy f s1 cs1 k else None) with
        | Some x => Some x
        | None => k s cs
        end
      else
        match k s cs with
        | Some x => Some x
        | None => body s cs (fun s1 cs1 => if String.length s1 <? String.length s
                                          then star_loop body greedy f s1 cs1 k else None)
        end
  end.

(** [mtch r s cs k]: match [r] at the start of [s], then run the
    continuation [k] on the rest; the first success in priority order. *)
Fixpoint mtch (r : regex) (s : string) (cs : caps) (k : string -> caps -> option X) {struct r} : option X :=
  match r with
  | Eps => k s cs
  | Chr c => match s with String c' s' => if ascii_dec c c' then k s' cs else None | EmptyString => None end
  | Cls cl => match s with String c' s' => if cls_mem cl c' then k s' cs else None | EmptyString => None end
  | Seq r1 r2 => mtch r1 s cs (fun s1 cs1 => mtch r2 s1 cs1 k)
  | Alt r1 r2 => match mtch r1 s cs k with Some x => Some x | None => mtch r2 s cs k end
  | Star g r1 => star_loop (mtch r1) g (S (String.length s)) s cs k
  | Group n r1 => mtch r1 s cs (fun s1 cs1 => k s1 ((n, consumed s s1) :: cs1))
  end.

End Matcher.

(** A match at the start of [s]: the rest of the text and the groups. *)
Definition re_match (r : regex) (s : string) : option (string * caps) :=
  mtch r s [] (fun s' cs => Some (s', cs)).

(** [match = re.search(pattern, text)]: the leftmost position where the
    pattern matches; the whole match, the rest of the text and the
    groups. *)
Fixpoint re_search (r : regex) (s : string) : option (string * string * caps) :=
  match re_match r s with
  | Some (s', cs) => Some (consumed s s', s', cs)
  | None => match s with EmptyString => None | String _ s1 => re_search r s1 end
  end.

(** A match that consumes at least one character. *)
Definition re_match_nonempty (r : regex) (s : string) : option (string * caps) :=
  mtch r s [] (fun s' cs => if String.length s' <? String.length s then Some (s', cs) else None).

(** The scan of [re.findall] (Python 3.7 and later): after a non-empty
    match the scan continues where it ended; after an empty match it
    looks for a non-empty match at the same position, and otherwise
    moves one character on.  Each round consumes a character, so
    [S (length s)] rounds are enough ([findall_fuel_enough]). *)
Fixpoint findall_go (r : regex) (fuel : nat) (s : string) : list (string * caps) :=
  match fuel with
  | O => []
  | S f =>
      let skip := match s with EmptyString => [] | String _ s1 => findall_go r f s1 end in
      match re_match r s with
      | None => skip
      | Some (s', cs) =>
          if String.length s' <? String.length s then (consumed s s', cs) :: findall_go r f s'
          else (consumed s s', cs) ::
               match re_match_nonempty r s with
               | Some (s2, cs2) => (consumed s s2, cs2) :: findall_go r f s2
               | None => skip
               end
      end
  end.

(** What [findall] returns for one match: the whole match when the
    pattern has no group, otherwise the groups in order, an unmatched
    group giving [''].  (Python returns a string for one group and a
    tuple for several; the list holds them in both cases.) *)
Definition findall_item (ngroups : nat) (m : string * caps) : list string :=
  match ngroups with
  | O => [m.1]
  | _ => map (fun i => default EmptyString (cap_get i m.2)) (seq 1 ngroups)
  end.

Definition re_findall (r : regex) (s : string) : list (list string) :=
  map (findall_item (re_groups r)) (findall_go r (S (String.length s)) s).

(** [match.group(n)]. *)
Definition group (m : string * string * caps) (n : nat) : option string :=
  match n with O => Some m.1.1 | _ => cap_get n m.2 end.

(** ** Declarative semantics *)

(** [rmatch r s s']: [r] matches a prefix of [s], leaving [s']; every
    iteration of a star consumes input. *)
Inductive rmatch : regex -> string -> string -> Prop :=
| rm_eps s : rmatch Eps s s
| rm_chr c s : rmatch (Chr c) (String c s) s
| rm_cls k c s : cls_mem k c = true -> rmatch (Cls k) (String c s) s
| rm_seq r1 r2 s s1 s2 : rmatch r1 s s1 -> rmatch r2 s1 s2 -> rmatch (Seq r1 r2) s s2
| rm_altl r1 r2 s s1 : rmatch r1 s s1 -> rmatch (Alt r1 r2) s s1
| rm_altr r1 r2 s s1 : rmatch r2 s s1 -> rmatch (Alt r1 r2) s s1
| rm_star0 g r s : rmatch (Star g r) s s
| rm_starS g r s s1 s2 :
    rmatch r s s1 -> String.length s1 < String.length s -> rmatch (Star g r) s1 s2 -> rmatch (Star g r) s s2
| rm_group n r s s1 : rmatch r s s1 -> rmatch (Group n r) s s1.

#[export] Hint Constructors rmatch : py.

(** A match leaves a suffix. *)
Lemma rmatch_length r s s' : rmatch r s s' -> String.length s' <= String.length s.
Proof. induction 1; simpl in *; lia. Qed.

Section MatcherProps.
Context {X : Type}.

Definition cont_eq (k1 k2 : string -> caps -> option X) : Prop := forall s cs, k1 s cs = k2 s cs.

(** A matcher that only looks at its continuation's values. *)
Definition body_ext (body : string -> caps -> (string -> caps -> option X) -> option X) : Prop :=
  forall s cs k1 k2, cont_eq k1 k2 -> body s cs k1 = body s cs k2.

(** A matcher whose successes are [r]-matches. *)
Definition body_sound (r : regex) (body : string -> caps -> (string -> caps -> option X) -> option X) : Prop :=
  forall s cs k x, body s cs k = Some x -> exists s1 cs1, rmatch r s s1 /\ k s1 cs1 = Some x.

(** A matcher that finds an [r]-match whenever the continuation accepts
    its end. *)
Definition body_complete (r : regex) (body : string -> caps -> (string -> caps -> option X) -> option X) : Prop :=
  forall s s1 cs k, rmatch r s s1 -> (forall cs1, k s1 cs1 <> None) -> body s cs k <> None.

Lemma star_loop_ext body g f s cs k1 k2 :
  body_ext body -> cont_eq k1 k2 -> star_loop body g f s cs k1 = star_loop body g f s cs k2.
Proof.
  intros Hb Hk. revert s cs. induction f as [|f IH]; intros s cs; [done|]. simpl.
  assert (Hc : cont_eq (fun s1 cs1 => if String.length s1 <? String.length s then star_loop body g f s1 cs1 k1 else None)
                       (fun s1 cs1 => if String.length s1 <? String.length s then star_loop body g f s1 cs1 k2 else None))
    by (intros s1 cs1; destruct (_ <? _); [apply IH | done]).
  rewrite (Hb _ _ _ _ Hc), (Hk s cs). done.
Qed.

(** Fuel beyond [S (length s)] changes nothing: each iteration consumes
    a character. *)
Lemma star_fuel_enough body g s cs k f1 f2 :
  body_ext body -> String.length s < f1 -> String.length s < f2 ->
  star_loop body g f1 s cs k = star_loop body g f2 s cs k.
Proof.
  intros Hb. revert s cs f2. induction f1 as [|f1 IH]; intros s cs f2 H1 H2; [lia|].
  destruct f2 as [|f2]; [lia|]. simpl.
  assert (Hc : cont_eq (fun s1 cs1 => if String.length s1 <? String.length s then star_loop body g f1 s1 cs1 k else None)
                       (fun s1 cs1 => if String.length s1 <? String.length s then star_loop body g f2 s1 cs1 k else None)).
  { intros s1 cs1. destruct (String.length s1 <? String.length s) eqn:E; [|done].
    apply Nat.ltb_lt in E. apply IH; lia. }
  by rewrite (Hb _ _ _ _ Hc).
Qed.

Lemma star_loop_sound r body g f s cs k x :
  body_sound r body -> star_loop body g f s cs k = Some x ->
  exists s1 cs1, rmatch (Star g r) s s1 /\ k s1 cs1 = Some x.
Proof.
  intros Hb. revert s cs x. induction f as [|f IH]; intros s cs x; [discriminate|]. simpl.
  assert (Hiter : forall y, body s cs (fun s1 cs1 => if String.length s1 <? String.length s
                                                     then star_loop body g f s1 cs1 k else None) = Some y ->
                  exists s2 cs2, rmatch (Star g r) s s2 /\ k s2 cs2 = Some y).
  { intros y (s1 & cs1 & Hr & Hk)%Hb. destruct (String.length s1 <? String.length s) eqn:E; [|done].
    apply Nat.ltb_lt in E. destruct (IH _ _ _ Hk) as (s2 & cs2 & Hr2 & Hk2). eauto with py. }
  destruct g; [destruct (body s cs _) eqn:E | destruct (k s cs) eqn:E].
  - intros [= <-]. by apply Hiter.
  - intros Hk. eauto with py.
  - intros [= <-]. eauto with py.
  - apply Hiter.
Qed.

Lemma star_loop_complete r body g s s2 cs k f :
  body_ext body -> body_complete r body -> rmatch (Star g r) s s2 -> (forall cs2, k s2 cs2 <> None) ->
  String.length s < f -> star_loop body g f s cs k <> None.
Proof.
  intros Hext Hc H Hk. remember (Star g r) as rs eqn:Ers. revert cs f.
  induction H; inversion Ers; subst; intros cs f Hf; destruct f as [|f]; try lia; simpl.
  - destruct g; [destruct (body _ _ _); [done | apply Hk] | destruct (k _ cs) eqn:E; [done | by destruct (Hk cs)]].
  - assert (Hb : body s cs (fun s1 cs1 => if String.length s1 <? String.length s
                                          then star_loop body g f s1 cs1 k else None) <> None).
    { refine (Hc s s1 cs _ H _). intros cs1. rewrite (proj2 (Nat.ltb_lt _ _) H0).
      apply IHrmatch2; [done | done | lia]. }
    destruct g; [by destruct (body _ _ _) | by destruct (k s cs)].
Qed.

End MatcherProps.

Lemma mtch_ext {X} r s cs (k1 k2 : string -> caps -> option X) :
  cont_eq k1 k2 -> mtch r s cs k1 = mtch r s cs k2.
Proof.
  revert s cs k1 k2. induction r as [| c | cl | r1 IH1 r2 IH2 | r1 IH1 r2 IH2 | g r1 IH | n r1 IH];
    intros s cs k1 k2 Hk; cbn [mtch].
  - apply Hk.
  - destruct s as [|c' s']; [done|]. destruct (ascii_dec c c'); [apply Hk | done].
  - destruct s as [|c' s']; [done|]. destruct (cls_mem cl c'); [apply Hk | done].
  - apply IH1. intros s1 cs1. by apply IH2.
  - rewrite (IH1 _ _ _ _ Hk), (IH2 _ _ _ _ Hk). done.
  - apply star_loop_ext; [intros ????; apply IH | done].
  - apply IH. intros s1 cs1. apply Hk.
Qed.

(** Soundness: every success of the matcher is an [r]-match of a prefix
    followed by a success of the continuation. *)
Theorem mtch_sound {X} r : body_sound (X := X) r (mtch r).
Proof.
  induction r as [| c | cl | r1 IH1 r2 IH2 | r1 IH1 r2 IH2 | g r1 IH | n r1 IH];
    intros s cs k x; cbn [mtch].
  - eauto with py.
  - destruct s as [|c' s']; [done|]. destruct (ascii_dec c c') as [<-|]; [eauto with py | done].
  - destruct s as [|c' s']; [done|]. destruct (cls_mem cl c') eqn:E; [eauto with py | done].
  - intros (s1 & cs1 & H1 & (s2 & cs2 & H2 & Hk)%IH2)%IH1. eauto with py.
  - destruct (mtch r1 s cs k) eqn:E.
    + intros [= <-]. apply IH1 in E as (s1 & cs1 & ? & ?). eauto with py.
    + intros (s1 & cs1 & ? & ?)%IH2. eauto with py.
  - apply star_loop_sound, IH.
  - intros (s1 & cs1 & ? & ?)%IH. eauto with py.
Qed.

(** Completeness: when [r] can match a prefix and the continuation
    accepts the rest (whatever the groups), the matcher succeeds. *)
Theorem mtch_complete {X} r : body_complete (X := X) r (mtch r).
Proof.
  induction r as [| c | cl | r1 IH1 r2 IH2 | r1 IH1 r2 IH2 | g r1 IH | n r1 IH];
    intros s s1 cs k H Hk; inversion H; subst; cbn [mtch].
  - apply Hk.
  - destruct (ascii_dec c c) as [_|]; [apply Hk | done].
  - match goal with E : cls_mem _ _ = true |- _ => rewrite E end. apply Hk.
  - eapply IH1; [eassumption|]. intros cs1. eapply IH2; eauto.
  - destruct (mtch r1 s cs k) eqn:E; [done|]. eapply IH1 in E; eauto.
  - destruct (mtch r1 s cs k); [done|]. eapply IH2; eauto.
  - eapply star_loop_complete; [intros ????; apply mtch_ext | exact IH | apply rm_star0 | done | lia].
  - eapply star_loop_complete; [intros ????; apply mtch_ext | exact IH | eassumption | done | lia].
  - eapply IH; [eassumption|]. intros cs1. apply Hk.
Qed.

(** ** Stars over a class

    [.*?] and the negated classes under [+] are stars over one class: the lazy one tries the
    continuation after 0, 1, 2, ... characters of the class, the greedy
    one after as many as possible first. *)

Section Scan.
Context {X : Type} (cl : cclass).

Fixpoint lazy_scan (s : string) (cs : caps) (k : string -> caps -> option X) : option X :=
  match k s cs with
  | Some x => Some x
  | None => match s with
            | String c s' => if cls_mem cl c then lazy_scan s' cs k else None
            | EmptyString => None
            end
  end.

Fixpoint greedy_scan (s : string) (cs : caps) (k : string -> caps -> option X) : option X :=
  match s with
  | String c s' =>
      if cls_mem cl c then match greedy_scan s' cs k with Some x => Some x | None => k s cs end
      else k s cs
  | EmptyString => k s cs
  end.

Lemma mtch_cls_cont s cs (k : string -> caps -> option X) :
  mtch (Cls cl) s cs k = match s with String c s' => if cls_mem cl c then k s' cs else None | EmptyString => None end.
Proof. reflexivity. Qed.

Lemma star_cls_unfold g s cs (k : string -> caps -> option X) :
  mtch (Star g (Cls cl)) s cs k = star_loop (mtch (Cls cl)) g (S (String.length s)) s cs k.
Proof. reflexivity. Qed.

Lemma star_cls_step g c s cs (k : string -> caps -> option X) f :
  String.length s < f ->
  mtch (Cls cl) (String c s) cs
    (fun s1 cs1 => if String.length s1 <? String.length (String c s) then star_loop (mtch (Cls cl)) g f s1 cs1 k
                   else None) =
  if cls_mem cl c then mtch (Star g (Cls cl)) s cs k else None.
Proof.
  intros Hf. rewrite mtch_cls_cont. destruct (cls_mem cl c); [|done].
  rewrite (proj2 (Nat.ltb_lt _ _)) by (simpl; lia). rewrite star_cls_unfold.
  apply star_fuel_enough; [intros ????; apply mtch_ext | lia | lia].
Qed.

(** [X*?] over a class is the forward scan. *)
Theorem mtch_lazy_class s cs k : mtch (Star false (Cls cl)) s cs k = lazy_scan s cs k.
Proof.
  induction s as [|c s IH]; rewrite star_cls_unfold; cbn [star_loop lazy_scan].
  - by destruct (k EmptyString cs).
  - destruct (k (String c s) cs); [done|]. rewrite star_cls_step by (simpl; lia).
    destruct (cls_mem cl c); [apply IH | done].
Qed.

(** [X*] over a class is the backward scan from the longest run. *)
Theorem mtch_greedy_class s cs k : mtch (Star true (Cls cl)) s cs k = greedy_scan s cs k.
Proof.
  induction s as [|c s IH]; rewrite star_cls_unfold; cbn [star_loop greedy_scan].
  - done.
  - rewrite star_cls_step by (simpl; lia). destruct (cls_mem cl c); [by rewrite IH | done].
Qed.

End Scan.

(** ** Scanning past text the continuation rejects *)

(** A lazy class-star moves over a run of the class at each of whose
    characters the continuation fails. *)
Lemma lazy_scan_skip {X} cl a t cs (k : string -> caps -> option X) :
  str_forall (cls_mem cl) a = true ->
  (forall c u, str_forall (fun d => negb (Ascii.eqb d c)) a = false -> k (String c u) cs = None) ->
  lazy_scan cl (a ++ t) cs k = lazy_scan cl t cs k.
Proof.
  induction a as [|c a IH]; intros Ha Hk; simpl in *; [done|].
  apply andb_true_iff in Ha as [Hc Ha].
  rewrite Hk by (rewrite Ascii.eqb_refl; done). rewrite Hc. apply IH; [done|].
  intros d u Hd. apply Hk. rewrite Hd. apply andb_false_r.
Qed.

(** The continuation succeeds right away: the lazy star stops there. *)
Lemma lazy_scan_now {X} cl s cs (k : string -> caps -> option X) x :
  k s cs = Some x -> lazy_scan cl s cs k = Some x.
Proof. destruct s; simpl; intros ->; done. Qed.

(** ** What [re_match] and [findall] return *)

Lemma rmatch_suffix r s s' : rmatch r s s' -> exists p, s = (p ++ s')%string.
Proof.
  induction 1; try (by exists EmptyString);
    try (by eexists (String _ EmptyString)); try done.
  - destruct IHrmatch1 as [p1 ->], IHrmatch2 as [p2 ->]. exists (p1 ++ p2)%string. by rewrite str_app_assoc.
  - destruct IHrmatch1 as [p1 ->], IHrmatch2 as [p2 ->]. exists (p1 ++ p2)%string. by rewrite str_app_assoc.
Qed.

Lemma consumed_app p t : consumed (p ++ t) t = p.
Proof.
  unfold consumed. rewrite str_length_app, Nat.add_sub.
  induction p as [|c p IH]; simpl; [by destruct t|]. by rewrite IH.
Qed.

Lemma re_match_sound r s s' cs : re_match r s = Some (s', cs) -> rmatch r s s'.
Proof. intros (s1 & cs1 & H & [= -> ->])%mtch_sound. exact H. Qed.

Lemma re_match_nonempty_sound r s s' cs :
  re_match_nonempty r s = Some (s', cs) -> rmatch r s s' /\ String.length s' < String.length s.
Proof.
  intros (s1 & cs1 & H & Hk)%mtch_sound.
  destruct (String.length s1 <? String.length s) eqn:E; [|done]. injection Hk as -> ->.
  apply Nat.ltb_lt in E. done.
Qed.

(** [findall]'s fuel is enough. *)
Lemma findall_fuel_enough r s f1 f2 :
  String.length s < f1 -> String.length s < f2 -> findall_go r f1 s = findall_go r f2 s.
Proof.
  revert s f2. induction f1 as [|f1 IH]; intros s f2 H1 H2; [lia|]. destruct f2 as [|f2]; [lia|].
  cbn [findall_go].
  assert (Hskip : match s with EmptyString => [] | String _ s1 => findall_go r f1 s1 end =
                  match s with EmptyString => [] | String _ s1 => findall_go r f2 s1 end)
    by (destruct s; [done | apply IH; simpl in *; lia]).
  destruct (re_match r s) as [[s' cs]|]; [|done].
  destruct (String.length s' <? String.length s) eqn:E.
  - apply Nat.ltb_lt in E. rewrite (IH s' f2) by lia. done.
  - destruct (re_match_nonempty r s) as [[s2 cs2]|] eqn:E2; [|by rewrite Hskip].
    apply re_match_nonempty_sound in E2 as [_ ?]. rewrite (IH s2 f2) by lia. done.
Qed.

(** Every item [findall] returns is a match of the pattern somewhere in
    the text: the text is [pre ++ w ++ t] and [w] is an [r]-match. *)
Theorem findall_go_sound r f s w cs :
  In (w, cs) (findall_go r f s) -> exists pre t, s = (pre ++ w ++ t)%string /\ rmatch r (w ++ t) t.
Proof.
  revert s. induction f as [|f IH]; intros s; [done|]. cbn [findall_go].
  assert (Hskip : In (w, cs) (match s with EmptyString => [] | String _ s1 => findall_go r f s1 end) ->
                  exists pre t, s = (pre ++ w ++ t)%string /\ rmatch r (w ++ t) t).
  { destruct s as [|c s1]; [done|]. intros (pre & t & -> & H)%IH. by exists (String c pre), t. }
  assert (Hhere : forall s' cs', rmatch r s s' -> In (w, cs) ((consumed s s', cs') :: findall_go r f s') ->
                  exists pre t, s = (pre ++ w ++ t)%string /\ rmatch r (w ++ t) t).
  { intros s' cs' Hr [[= <- _] | Hin].
    - destruct (rmatch_suffix _ _ _ Hr) as [p ->]. rewrite consumed_app. by exists EmptyString, s'.
    - destruct (IH _ Hin) as (pre & t & -> & Ht). destruct (rmatch_suffix _ _ _ Hr) as [p ->].
      exists (p ++ pre)%string, t. split; [by rewrite str_app_assoc | done]. }
  destruct (re_match r s) as [[s' cs']|] eqn:E; [|exact Hskip].
  apply re_match_sound in E. destruct (String.length s' <? String.length s).
  - intros Hin. exact (Hhere s' cs' E Hin).
  - intros [[= <- _] | Hin].
    + destruct (rmatch_suffix _ _ _ E) as [p ->]. rewrite consumed_app. by exists EmptyString, s'.
    + destruct (re_match_nonempty r s) as [[s2 cs2]|] eqn:E2; [|exact (Hskip Hin)].
      apply re_match_nonempty_sound in E2 as [E2 _]. exact (Hhere s2 cs2 E2 Hin).
Qed.
