(* ===== verification/Json.v ===== *)
(** * Python's [json.loads] and [json.dumps]

    The post-processors parse model answers with [json.loads] and
    normalise values with [json.loads(json.dumps(x))]
    ([src/post_processing.py] lines 136 and 148).  This file models the
    two library functions on [pyval]:
    - [json_loads]: the recursive descent of [json.decoder] and
      [json.scanner] ([scan_once], [JSONObject], [JSONArray],
      [scanstring], [NUMBER_RE]), with its whitespace rule ([ \t\n\r]),
      the error raised on malformed input ([JSONDecodeError], including
      "Extra data" after the value), [dict(pairs)] for objects
      (duplicate keys: the last value at the first position), and a
      [TypeError] when the argument is not a [str];
    - [json_dumps]: [json.dumps] with the default separators and either
      value of [ensure_ascii].

    Characters are 8-bit code points ([U+0000]-[U+00FF]); a [\uXXXX]
    escape above [U+00FF] and the constants [NaN], [Infinity] are
    outside the model and raise.  The theorem [json_roundtrip] shows
    [json.loads(json.dumps(v))] returns the JSON image of [v] (tuples
    become lists, non-string keys become strings) for every value
    without floats or sets. *)

From S2P Require Import Prelude PyStr PyDict PyVal.
From Stdlib Require Import DecimalString DecimalFacts DecimalPos DecimalZ.

(** ** Decoding *)

Definition is_json_ws (c : ascii) : bool :=
  let n := nat_of_ascii c in (n =? 32) || (n =? 9) || (n =? 10) || (n =? 13).

(** [WHITESPACE.match(s, idx).end()]. *)
Fixpoint skip_ws (s : string) : string :=
  match s with
  | String c s' => if is_json_ws c then skip_ws s' else s
  | EmptyString => s
  end.

Definition hex_val (c : ascii) : option nat :=
  let n := nat_of_ascii c in
  if (48 <=? n) && (n <=? 57) then Some (n - 48)
  else if (97 <=? n) && (n <=? 102) then Some (n - 87)
  else if (65 <=? n) && (n <=? 70) then Some (n - 55)
  else None.

Definition hex4 (a b c d : ascii) : option nat :=
  a' ← hex_val a; b' ← hex_val b; c' ← hex_val c; d' ← hex_val d;
  Some (((a' * 16 + b') * 16 + c') * 16 + d').

(** [scanstring]: the characters after an opening quote up to the
    closing one; the text after it.  Control characters are rejected
    ([strict=True]). *)
Fixpoint scan_string (s : string) : result (string * string) :=
  match s with
  | EmptyString => Raise JSONDecodeError
  | String c s' =>
      if Ascii.eqb c dquote then Ok (EmptyString, s')
      else if Ascii.eqb c backslash then
        match s' with
        | EmptyString => Raise JSONDecodeError
        | String e s'' =>
            let simple (d : ascii) := '(str, rest) ← scan_string s''; Ok (String d str, rest) in
            let n := nat_of_ascii e in
            if Ascii.eqb e dquote || Ascii.eqb e backslash || (n =? 47) then simple e
            else if n =? 98 then simple (ascii_of_nat 8)
            else if n =? 102 then simple (ascii_of_nat 12)
            else if n =? 110 then simple (ascii_of_nat 10)
            else if n =? 114 then simple (ascii_of_nat 13)
            else if n =? 116 then simple (ascii_of_nat 9)
            else if n =? 117 then
              match s'' with
              | String h1 (String h2 (String h3 (String h4 s3))) =>
                  match hex4 h1 h2 h3 h4 with
                  | Some cp => if cp <? 256
                               then '(str, rest) ← scan_string s3; Ok (String (ascii_of_nat cp) str, rest)
                               else Raise JSONDecodeError
                  | None => Raise JSONDecodeError
                  end
              | _ => Raise JSONDecodeError
              end
            else Raise JSONDecodeError
        end
      else if nat_of_ascii c <? 32 then Raise JSONDecodeError
      else '(str, rest) ← scan_string s'; Ok (String c str, rest)
  end.

Definition is_digit_char (c : ascii) : bool := let n := nat_of_ascii c in (48 <=? n) && (n <=? 57).

(** The longest run of digits at the start. *)
Fixpoint digit_run (s : string) : string * string :=
  match s with
  | String c s' => if is_digit_char c then let '(d, r) := digit_run s' in (String c d, r) else (EmptyString, s)
  | EmptyString => (EmptyString, s)
  end.

Definition z_of_text (t : string) : Z := default 0%Z (option_map Z.of_int (NilZero.int_of_string t)).

(** [NUMBER_RE]: an integer part (an optional minus, then [0] or a
    digit run not starting with [0]), an optional fraction (a dot and
    at least one digit) and an optional exponent ([e] or [E], an
    optional sign, at least one digit). *)
Definition scan_int_part (s : string) : option (string * string) :=
  let '(sign, s1) := match s with String "-" t => ("-"%string, t) | _ => (EmptyString, s) end in
  match s1 with
  | String "0" t => Some (sign ++ "0", t)%string
  | String c t => if is_digit_char c then let '(d, r) := digit_run t in Some (sign ++ String c d, r)%string
                  else None
  | EmptyString => None
  end.

Definition scan_frac (s : string) : string * string :=
  match s with
  | String "." t => match digit_run t with
                    | (EmptyString, _) => (EmptyString, s)
                    | (d, r) => (d, r)
                    end
  | _ => (EmptyString, s)
  end.

Definition scan_exp (s : string) : option Z * string :=
  match s with
  | String e t =>
      if (e =? "e")%char || (e =? "E")%char then
        let '(sign, t1) := match t with
                           | String "-" u => ("-"%string, u)
                           | String "+" u => (EmptyString, u)
                           | _ => (EmptyString, t)
                           end in
        match digit_run t1 with
        | (EmptyString, _) => (None, s)
        | (d, r) => (Some (z_of_text (sign ++ d)%string), r)
        end
      else (None, s)
  | EmptyString => (None, s)
  end.

(** [int(integer)], or [float(integer + frac + exp)] as the exact
    decimal, with its trailing zeros removed. *)
Definition scan_number (s : string) : option (pyval * string) :=
  '(ip, r1) ← scan_int_part s;
  let '(frac, r2) := scan_frac r1 in
  let '(ex, r3) := scan_exp r2 in
  match frac, ex with
  | EmptyString, None => Some (PInt (z_of_text ip), r3)
  | _, _ =>
      let m := z_of_text (ip ++ frac)%string in
      let e := (default 0 ex - Z.of_nat (String.length frac))%Z in
      let '(m', e') := strip_zeros_go (String.length (ip ++ frac)%string) m e in
      Some (if (m' =? 0)%Z then PFloat 0 0 else PFloat m' e', r3)
  end.

(** [s[idx:idx + len(p)] == p], and the text after it. *)
Fixpoint strip_prefix (p s : string) : option string :=
  match p, s with
  | EmptyString, _ => Some s
  | String a p', String b s' => if Ascii.eqb a b then strip_prefix p' s' else None
  | _, _ => None
  end.

(** [dict(pairs)]. *)
Definition dict_of_pairs (pairs : list (string * pyval)) : pyval :=
  PDict (dict_of_list (map (fun kv => (PStr kv.1, kv.2)) pairs)).

Definition expect (c : ascii) (s : string) : result string :=
  match s with String d s' => if Ascii.eqb c d then Ok s' else Raise JSONDecodeError | _ => Raise JSONDecodeError end.

(** [scan_once] and the container parsers.  Every call but the first
    consumes a character before the next, so three calls per character
    is enough fuel. *)
Fixpoint parse_value (fuel : nat) (s : string) {struct fuel} : result (pyval * string) :=
  match fuel with
  | O => Raise JSONDecodeError
  | S f =>
      match s with
      | String c s' =>
          if Ascii.eqb c dquote then '(str, r) ← scan_string s'; Ok (PStr str, r)
          else if (c =? "{")%char then parse_object f (skip_ws s')
          else if (c =? "[")%char then parse_array f (skip_ws s')
          else match strip_prefix "null" s with Some r => Ok (PNone, r) | None =>
               match strip_prefix "true" s with Some r => Ok (PBool true, r) | None =>
               match strip_prefix "false" s with Some r => Ok (PBool false, r) | None =>
               of_option JSONDecodeError (scan_number s) end end end
      | EmptyString => Raise JSONDecodeError
      end
  end
with parse_array (fuel : nat) (s : string) {struct fuel} : result (pyval * string) :=
  match fuel with
  | O => Raise JSONDecodeError
  | S f =>
      match s with
      | String "]" r => Ok (PList [], r)
      | _ => '(items, r) ← parse_elems f s; Ok (PList items, r)
      end
  end
with parse_elems (fuel : nat) (s : string) {struct fuel} : result (list pyval * string) :=
  match fuel with
  | O => Raise JSONDecodeError
  | S f =>
      '(v, r) ← parse_value f s;
      match skip_ws r with
      | String "," r' => '(vs, r'') ← parse_elems f (skip_ws r'); Ok (v :: vs, r'')
      | String "]" r' => Ok ([v], r')
      | _ => Raise JSONDecodeError
      end
  end
with parse_object (fuel : nat) (s : string) {struct fuel} : result (pyval * string) :=
  match fuel with
  | O => Raise JSONDecodeError
  | S f =>
      match s with
      | String "}" r => Ok (PDict [], r)
      | _ => '(pairs, r) ← parse_members f s; Ok (dict_of_pairs pairs, r)
      end
  end
with parse_members (fuel : nat) (s : string) {struct fuel} : result (list (string * pyval) * string) :=
  match fuel with
  | O => Raise JSONDecodeError
  | S f =>
      s1 ← expect dquote s;
      '(key, r1) ← scan_string s1;
      r2 ← expect ":" (skip_ws r1);
      '(v, r3) ← parse_value f (skip_ws r2);
      match skip_ws r3 with
      | String "," r4 => '(ps, r5) ← parse_members f (skip_ws r4); Ok ((key, v) :: ps, r5)
      | String "}" r4 => Ok ([(key, v)], r4)
      | _ => Raise JSONDecodeError
      end
  end.

(** [json.loads(s)] for a [str] [s]. *)
Definition json_loads (s : string) : result pyval :=
  '(v, r) ← parse_value (3 * S (String.length s)) (skip_ws s);
  match skip_ws r with EmptyString => Ok v | _ => Raise JSONDecodeError end.

(** [json.loads(x)] for any value: only a [str] is accepted. *)
Definition json_loads_val (x : pyval) : result pyval :=
  match x with PStr s => json_loads s | _ => Raise TypeError end.

(** ** Encoding *)

Definition hex4_text (n : nat) : string :=
  String (hex_digit (n / 4096 mod 16)) (String (hex_digit (n / 256 mod 16))
    (String (hex_digit (n / 16 mod 16)) (String (hex_digit (n mod 16)) EmptyString))).

(** One character of a JSON string literal: [encode_basestring_ascii]
    when [ensure_ascii], [encode_basestring] otherwise. *)
Definition json_escape_char (ensure_ascii : bool) (c : ascii) : string :=
  let n := nat_of_ascii c in
  if Ascii.eqb c dquote || Ascii.eqb c backslash then String backslash (String c EmptyString)
  else if n =? 10 then String backslash (String "n" EmptyString)
  else if n =? 13 then String backslash (String "r" EmptyString)
  else if n =? 9 then String backslash (String "t" EmptyString)
  else if n =? 8 then String backslash (String "b" EmptyString)
  else if n =? 12 then String backslash (String "f" EmptyString)
  else if (n <? 32) || (ensure_ascii && (126 <? n)) then String backslash (String "u" (hex4_text n))
  else String c EmptyString.

Fixpoint json_escape (ensure_ascii : bool) (s : string) : string :=
  match s with
  | EmptyString => EmptyString
  | String c s' => (json_escape_char ensure_ascii c ++ json_escape ensure_ascii s')%string
  end.

Definition json_quote (ensure_ascii : bool) (s : string) : string :=
  String dquote (json_escape ensure_ascii s ++ String dquote EmptyString)%string.

(** A dictionary key: a [str] as itself; [int], [float], [bool] and
    [None] keys are converted to strings; anything else is a [TypeError]. *)
Definition json_key (k : pyval) : result string :=
  match k with
  | PStr s => Ok s
  | PInt z => Ok (repr_int z)
  | PFloat m e => Ok (repr_float m e)
  | PBool true => Ok "true"
  | PBool false => Ok "false"
  | PNone => Ok "null"
  | _ => Raise TypeError
  end.

(** [json.dumps(v, ensure_ascii=...)]: tuples are written as lists, a
    set is not serializable. *)
Fixpoint json_dumps (ea : bool) (v : pyval) : result string :=
  match v with
  | PNone => Ok "null"
  | PBool true => Ok "true"
  | PBool false => Ok "false"
  | PInt z => Ok (repr_int z)
  | PFloat m e => Ok (repr_float m e)
  | PStr s => Ok (json_quote ea s)
  | PList l | PTuple l =>
      items ← result_map (json_dumps ea) l;
      Ok ("[" ++ String.concat ", " items ++ "]")%string
  | PSet _ => Raise TypeError
  | PDict d =>
      items ← result_map (fun kv => ks ← json_key kv.1; y ← json_dumps ea kv.2;
                                    Ok (json_quote ea ks ++ ": " ++ y)%string) d;
      Ok ("{" ++ String.concat ", " items ++ "}")%string
  end.

(** ** Decoding what was encoded *)

Lemma scan_string_escape_char ea c t :
  scan_string (json_escape_char ea c ++ t) = '(str, rest) ← scan_string t; Ok (String c str, rest).
Proof.
  destruct ea; destruct c as [[] [] [] [] [] [] [] []]; reflexivity.
Qed.

Lemma scan_string_escape ea s t :
  scan_string (json_escape ea s ++ String dquote t) = Ok (s, t).
Proof.
  induction s as [|c s IH]; [reflexivity|].
  change (json_escape ea (String c s)) with (json_escape_char ea c ++ json_escape ea s)%string.
  rewrite str_app_assoc, scan_string_escape_char, IH. reflexivity.
Qed.

(** The text after a value: nothing, a delimiter of a container, or
    whitespace. *)
Definition value_end (t : string) : bool :=
  match t with
  | EmptyString => true
  | String c _ => (c =? ",")%char || (c =? "]")%char || (c =? "}")%char || is_json_ws c
  end.

Lemma parse_value_string f ea s t :
  parse_value (S f) (json_quote ea s ++ t) = Ok (PStr s, t).
Proof.
  unfold json_quote. rewrite str_app_cons. cbn [parse_value]. rewrite Ascii.eqb_refl.
  rewrite str_app_assoc, str_app_cons, str_app_nil_l, scan_string_escape. reflexivity.
Qed.

(** *** Integers *)

Lemma z_of_text_repr_int z : z_of_text (repr_int z) = z.
Proof.
  unfold z_of_text, repr_int. rewrite NilZero.isi; [apply DecimalZ.of_to | |].
  - destruct z; simpl; [discriminate | | discriminate].
    intros [= H]. by apply (DecimalPos.Unsigned.to_uint_nonnil p).
  - destruct z; simpl; [discriminate | discriminate |].
    intros [= H]. by apply (DecimalPos.Unsigned.to_uint_nonnil p).
Qed.

Lemma string_of_uint_digits u : str_forall is_digit_char (NilEmpty.string_of_uint u) = true.
Proof. induction u; simpl; rewrite ?IHu; reflexivity. Qed.

(** The decimal digits of a positive number do not start with [0]. *)
Lemma to_uint_head p : exists d u, NilEmpty.string_of_uint (Pos.to_uint p) = String d (NilEmpty.string_of_uint u) /\
                                   is_digit_char d = true /\ d <> "0"%char.
Proof.
  pose proof (DecimalPos.Unsigned.to_uint_nonzero p) as Hz.
  pose proof (DecimalPos.Unsigned.to_of (Pos.to_uint p)) as Hn.
  rewrite DecimalPos.Unsigned.of_to in Hn. change (N.to_uint (Npos p)) with (Pos.to_uint p) in Hn.
  destruct (Pos.to_uint p) as [|u|u|u|u|u|u|u|u|u|u] eqn:E;
    try (eexists _, u; split; [reflexivity | split; [reflexivity | discriminate]]).
  - exfalso. by apply (DecimalPos.Unsigned.to_uint_nonnil p).
  - exfalso. rewrite DecimalFacts.unorm_D0 in Hn.
    assert (Hu : u <> Decimal.Nil) by (intros ->; by apply Hz).
    pose proof (DecimalFacts.nb_digits_unorm u Hu) as Hle. rewrite <- Hn in Hle. simpl in Hle. lia.
Qed.

Lemma digit_run_app D t :
  str_forall is_digit_char D = true -> (forall c t', t = String c t' -> is_digit_char c = false) ->
  digit_run (D ++ t) = (D, t).
Proof.
  intros HD Ht. induction D as [|c D IH]; simpl in *.
  - destruct t as [|c t']; [done|]. simpl. by rewrite (Ht c t' eq_refl).
  - apply andb_true_iff in HD as [-> HD]. by rewrite IH.
Qed.

Lemma value_end_not_digit t : value_end t = true -> forall c t', t = String c t' -> is_digit_char c = false.
Proof. intros Hv c t' ->. simpl in Hv. destruct c as [[] [] [] [] [] [] [] []]; done. Qed.

Lemma value_end_tail t : value_end t = true -> scan_frac t = (EmptyString, t) /\ scan_exp t = (None, t).
Proof. destruct t as [|c t']; [done|]. simpl. destruct c as [[] [] [] [] [] [] [] []]; done. Qed.

Lemma scan_int_digits (sign : string) d u t :
  (sign = EmptyString \/ sign = "-"%string) -> is_digit_char d = true -> d <> "0"%char -> value_end t = true ->
  scan_int_part (sign ++ String d (NilEmpty.string_of_uint u) ++ t) = Some (sign ++ String d (NilEmpty.string_of_uint u), t)%string.
Proof.
  intros Hs Hd Hd0 Ht. unfold scan_int_part.
  assert (Hrun : digit_run (NilEmpty.string_of_uint u ++ t) = (NilEmpty.string_of_uint u, t))
    by (apply digit_run_app; [apply string_of_uint_digits | by apply value_end_not_digit]).
  destruct Hs as [-> | ->]; rewrite ?str_app_cons, ?str_app_nil_l, ?str_app_cons; cbn -[digit_run];
    (destruct d as [[] [] [] [] [] [] [] []]; try done; simpl in Hd; try discriminate;
     cbn -[digit_run]; by rewrite Hrun).
Qed.

(** [int]s are read back. *)
Lemma scan_number_repr_int z t : value_end t = true -> scan_number (repr_int z ++ t) = Some (PInt z, t).
Proof.
  intros Ht. destruct (value_end_tail t Ht) as [Hf He].
  assert (Hint : scan_int_part (repr_int z ++ t) = Some (repr_int z, t)).
  { destruct z as [|p|p].
    - destruct t as [|c t']; [done|]. reflexivity.
    - destruct (to_uint_head p) as (d & u & Hu & Hd & Hd0).
      change (repr_int (Z.pos p)) with (NilZero.string_of_uint (Pos.to_uint p)).
      replace (NilZero.string_of_uint (Pos.to_uint p)) with (NilEmpty.string_of_uint (Pos.to_uint p))
        by (destruct (Pos.to_uint p) eqn:E; [by destruct (DecimalPos.Unsigned.to_uint_nonnil p) | ..]; done).
      rewrite Hu. exact (scan_int_digits EmptyString d u t (or_introl eq_refl) Hd Hd0 Ht).
    - destruct (to_uint_head p) as (d & u & Hu & Hd & Hd0).
      change (repr_int (Z.neg p)) with (String "-" (NilZero.string_of_uint (Pos.to_uint p))).
      replace (NilZero.string_of_uint (Pos.to_uint p)) with (NilEmpty.string_of_uint (Pos.to_uint p))
        by (destruct (Pos.to_uint p) eqn:E; [by destruct (DecimalPos.Unsigned.to_uint_nonnil p) | ..]; done).
      rewrite Hu. exact (scan_int_digits "-" d u t (or_intror eq_refl) Hd Hd0 Ht). }
  unfold scan_number. rewrite Hint. cbn -[z_of_text]. rewrite Hf. cbn -[z_of_text]. rewrite He.
  by rewrite z_of_text_repr_int.
Qed.

(** *** The round trip *)

Definition key_safe (k : pyval) : bool :=
  match k with PStr _ | PInt _ | PBool _ | PNone => true | _ => false end.

(** Values [json.dumps] writes without floats: no [float], no [set], and
    dictionary keys that are strings, [int]s, [bool]s or [None]. *)
Fixpoint json_safe (v : pyval) : bool :=
  match v with
  | PNone | PBool _ | PInt _ | PStr _ => true
  | PFloat _ _ | PSet _ => false
  | PList l | PTuple l => forallb json_safe l
  | PDict d => forallb (fun kv => key_safe kv.1 && json_safe kv.2) d
  end.

Definition key_text (k : pyval) : string := match json_key k with Ok s => s | Raise _ => EmptyString end.

(** What [json.loads(json.dumps(v))] returns: tuples become lists, keys
    become strings, and [dict(pairs)] merges keys that became equal. *)
Fixpoint json_image (v : pyval) : pyval :=
  match v with
  | PList l | PTuple l => PList (map json_image l)
  | PDict d => dict_of_pairs (map (fun kv => (key_text kv.1, json_image kv.2)) d)
  | _ => v
  end.

(** The fuel [parse_value] needs for the text of [v]. *)
Fixpoint need (v : pyval) : nat :=
  match v with
  | PList l | PTuple l => S (S (fold_right (fun x n => S (need x + n)) 0 l))
  | PDict d => S (S (fold_right (fun kv n => S (need kv.2 + n)) 0 d))
  | _ => 1
  end.

Lemma skip_ws_head c s : is_json_ws c = false -> skip_ws (String c s) = String c s.
Proof. simpl. by intros ->. Qed.

(** A text [String c s'] with a head [c] that is neither whitespace nor
    a closing bracket. *)
Ltac head_ok := eexists _, _; split; [reflexivity | split; [reflexivity | discriminate]].

(** The text of a value starts with a character that is not
    whitespace. *)
Lemma json_dumps_head ea v s :
  json_safe v = true -> json_dumps ea v = Ok s ->
  exists c s', s = String c s' /\ is_json_ws c = false /\ c <> "]"%char.
Proof.
  intros Hsafe.
  destruct v as [| [] | z | m e | str | l | l | l | d]; simpl; try discriminate;
    try (intros [= <-]; head_ok).
  - destruct z as [|p|p]; intros [= <-]; [head_ok | | head_ok].
    destruct (to_uint_head p) as (d & u & Hu & Hd & _).
    change (repr_int (Z.pos p)) with (NilZero.string_of_uint (Pos.to_uint p)).
    replace (NilZero.string_of_uint (Pos.to_uint p)) with (NilEmpty.string_of_uint (Pos.to_uint p))
      by (destruct (Pos.to_uint p) eqn:E; [by destruct (DecimalPos.Unsigned.to_uint_nonnil p) | ..]; done).
    rewrite Hu. eexists _, _. split; [reflexivity|].
    destruct d as [[] [] [] [] [] [] [] []]; try discriminate; (split; [reflexivity | discriminate]).
  - destruct (result_map _ l); [intros [= <-]; head_ok | discriminate].
  - destruct (result_map _ l); [intros [= <-]; head_ok | discriminate].
  - destruct (result_map _ d); [intros [= <-]; head_ok | discriminate].
Qed.

(** The text of one element, read back with any fuel above [need]. *)
Definition reads_back (x : pyval) (s : string) : Prop :=
  json_safe x = true /\ (exists c s', s = String c s' /\ is_json_ws c = false /\ c <> "]"%char) /\
  forall f t, need x <= f -> value_end t = true -> parse_value f (s ++ t) = Ok (json_image x, t).

Lemma concat_cons2 sep s s2 items :
  String.concat sep (s :: s2 :: items) = (s ++ sep ++ String.concat sep (s2 :: items))%string.
Proof. reflexivity. Qed.

Lemma skip_ws_text c s' t : is_json_ws c = false -> skip_ws ((String c s') ++ t) = (String c s' ++ t)%string.
Proof. intros H. rewrite str_app_cons. by apply skip_ws_head. Qed.

Lemma is_json_ws_comma : is_json_ws "," = false. Proof. reflexivity. Qed.
Lemma is_json_ws_colon : is_json_ws ":" = false. Proof. reflexivity. Qed.
Lemma is_json_ws_space : is_json_ws " " = true. Proof. reflexivity. Qed.

Lemma concat_head sep c s' l : exists rest, String.concat sep (String c s' :: l) = String c rest.
Proof. destruct l; [by eexists | eexists; reflexivity]. Qed.

(** A run of JSON whitespace is skipped as a whole. *)
Lemma skip_ws_app w X : str_forall is_json_ws w = true -> skip_ws (w ++ X) = skip_ws X.
Proof.
  induction w as [|c w IH]; [done|]. rewrite str_app_cons. cbn [str_forall skip_ws].
  destruct (is_json_ws c); [exact IH | discriminate].
Qed.

Lemma value_end_ws w c r :
  str_forall is_json_ws w = true -> value_end (String c r) = true -> value_end (w ++ String c r) = true.
Proof.
  destruct w as [|d w]; [done|]. rewrite str_app_cons. cbn [str_forall value_end].
  destruct (is_json_ws d); [by rewrite !orb_true_r | discriminate].
Qed.

(** The texts of the elements of a list, separated by [,] and the
    whitespace [w] and closed by the whitespace [wc] and [\]]: [", "]
    and nothing for [json.dumps], a line break and an indentation for
    [json.dump] with [indent]. *)
Lemma parse_elems_ws w wc l items :
  str_forall is_json_ws w = true -> str_forall is_json_ws wc = true ->
  Forall2 reads_back l items -> l <> [] ->
  forall f t, fold_right (fun x n => S (need x + n)) 0 l <= f ->
  parse_elems f (String.concat ("," ++ w) items ++ wc ++ "]" ++ t) = Ok (map json_image l, t).
Proof.
  intros Hw Hwc. induction 1 as [|x s l items Hx Hl IH]; intros Hne f t Hf; [by destruct Hne|].
  destruct f as [|g]; [simpl in Hf; lia|]. simpl in Hf. destruct Hx as (_ & _ & Hx).
  destruct Hl as [|x2 s2 l2 items2 Hx2 Hl2].
  - cbn [String.concat parse_elems]. rewrite (Hx g (wc ++ "]" ++ t)%string) by (lia || by apply value_end_ws).
    rewrite bind_Ok, skip_ws_app by done. reflexivity.
  - rewrite concat_cons2. cbn [parse_elems]. rewrite !str_app_assoc.
    rewrite (Hx g _) by (lia || reflexivity). rewrite bind_Ok, str_app_cons, str_app_nil_l.
    rewrite skip_ws_head by reflexivity. cbv iota. rewrite skip_ws_app by done.
    destruct Hx2 as (_ & (c & s' & -> & Hc & _) & _).
    destruct (concat_head ("," ++ w) c s' items2) as [rest Hrest].
    rewrite Hrest, str_app_cons, skip_ws_head, <- str_app_cons, <- Hrest by done.
    rewrite (IH ltac:(discriminate) g t) by lia. reflexivity.
Qed.

(** The text of one dictionary item. *)
Definition member_reads_back (ea : bool) (kv : pyval * pyval) (s : string) : Prop :=
  key_safe kv.1 = true /\ exists y, s = (json_quote ea (key_text kv.1) ++ ": " ++ y)%string /\ reads_back kv.2 y.

Lemma skip_ws_colon X : skip_ws (": " ++ X) = String ":" (" " ++ X).
Proof. reflexivity. Qed.
Lemma skip_ws_space X : skip_ws (" " ++ X) = skip_ws X.
Proof. reflexivity. Qed.
Lemma skip_ws_comma X : skip_ws (", " ++ X) = String "," (" " ++ X).
Proof. reflexivity. Qed.

Lemma scan_quoted ea k t : scan_string ((json_escape ea k ++ String dquote "") ++ t) = Ok (k, t).
Proof. rewrite str_app_assoc, str_app_cons, str_app_nil_l. apply scan_string_escape. Qed.

Lemma parse_member_head ea k y R :
  (exists c y', y = String c y' /\ is_json_ws c = false /\ c <> "]"%char) ->
  forall g, parse_members (S g) (json_quote ea k ++ ": " ++ y ++ R) =
  '(v, r3) ← parse_value g (y ++ R);
  match skip_ws r3 with
  | String "," r4 => '(ps, r5) ← parse_members g (skip_ws r4); Ok ((k, v) :: ps, r5)
  | String "}" r4 => Ok ([(k, v)], r4)
  | _ => Raise JSONDecodeError
  end.
Proof.
  intros (c & y' & -> & Hc & _) g. unfold json_quote. rewrite str_app_cons. cbn [parse_members].
  unfold expect. rewrite Ascii.eqb_refl, bind_Ok, scan_quoted, bind_Ok, skip_ws_colon.
  cbv beta iota. rewrite Ascii.eqb_refl, bind_Ok, skip_ws_space, skip_ws_text by done. reflexivity.
Qed.

Lemma member_text_head ea kv s : member_reads_back ea kv s -> exists c s', s = String c s' /\ c = dquote.
Proof. intros (_ & y & -> & _). unfold json_quote. rewrite str_app_cons. by eexists _, _. Qed.

(** The dictionary items, separated and closed as in [parse_elems_ws]. *)
Lemma parse_members_ws ea w wc d items :
  str_forall is_json_ws w = true -> str_forall is_json_ws wc = true ->
  Forall2 (member_reads_back ea) d items -> d <> [] ->
  forall f t, fold_right (fun kv n => S (need kv.2 + n)) 0 d <= f ->
  parse_members f (String.concat ("," ++ w) items ++ wc ++ "}" ++ t) =
  Ok (map (fun kv => (key_text kv.1, json_image kv.2)) d, t).
Proof.
  intros Hw Hwc. induction 1 as [|kv s d items Hkv Hd IH]; intros Hne f t Hf; [by destruct Hne|].
  destruct f as [|g]; [simpl in Hf; lia|]. simpl in Hf.
  destruct Hkv as (_ & y & -> & _ & Hhead & Hy).
  destruct Hd as [|kv2 s2 d2 items2 Hkv2 Hd2].
  - cbn [String.concat]. rewrite !str_app_assoc, parse_member_head by done.
    rewrite (Hy g (wc ++ "}" ++ t)%string) by (lia || by apply value_end_ws).
    rewrite bind_Ok, skip_ws_app by done. reflexivity.
  - rewrite concat_cons2, !str_app_assoc, parse_member_head by done.
    rewrite (Hy g _) by (lia || reflexivity). rewrite bind_Ok, str_app_cons, str_app_nil_l.
    rewrite skip_ws_head by reflexivity. cbv iota. rewrite skip_ws_app by done.
    destruct (member_text_head _ _ _ Hkv2) as (c & s' & -> & ->).
    destruct (concat_head ("," ++ w) dquote s' items2) as [rest Hrest].
    rewrite Hrest, str_app_cons, skip_ws_head, <- str_app_cons, <- Hrest by done.
    rewrite (IH ltac:(discriminate) g t) by lia. reflexivity.
Qed.

Lemma substring_0_long m t : String.length t <= m -> String.substring 0 m t = t.
Proof.
  revert m. induction t as [|c t IH]; intros m Hm; [by destruct m|].
  destruct m as [|m]; simpl in *; [lia|]. rewrite IH; [done | lia].
Qed.

Lemma strip_prefix_app p t : strip_prefix p (p ++ t) = Some t.
Proof. induction p as [|c p IH]; [by destruct t | rewrite str_app_cons; simpl; by rewrite Ascii.eqb_refl]. Qed.

Lemma parse_value_keyword g (kw : string) (v : pyval) t :
  (kw = "null"%string /\ v = PNone) \/ (kw = "true"%string /\ v = PBool true) \/
  (kw = "false"%string /\ v = PBool false) ->
  parse_value (S g) (kw ++ t) = Ok (v, t).
Proof.
  intros [[-> ->] | [[-> ->] | [-> ->]]]; cbn [parse_value];
    rewrite !str_app_cons; cbn -[strip_prefix]; rewrite <- !str_app_cons, strip_prefix_app; reflexivity.
Qed.

Lemma repr_int_head z : exists c s', repr_int z = String c s' /\ (is_digit_char c = true \/ c = "-"%char).
Proof.
  destruct z as [|p|p]; [by eexists _, _; split; [reflexivity | left]| | by eexists _, _; split; [reflexivity | right]].
  destruct (to_uint_head p) as (d & u & Hu & Hd & _).
  change (repr_int (Z.pos p)) with (NilZero.string_of_uint (Pos.to_uint p)).
  replace (NilZero.string_of_uint (Pos.to_uint p)) with (NilEmpty.string_of_uint (Pos.to_uint p))
    by (destruct (Pos.to_uint p) eqn:E; [by destruct (DecimalPos.Unsigned.to_uint_nonnil p) | ..]; done).
  rewrite Hu. eexists _, _. split; [reflexivity | by left].
Qed.

Lemma parse_value_int g z t : value_end t = true -> parse_value (S g) (repr_int z ++ t) = Ok (PInt z, t).
Proof.
  intros Ht. pose proof (scan_number_repr_int z t Ht) as Hn.
  destruct (repr_int_head z) as (c & s' & Hz & Hc). rewrite Hz in Hn |- *. rewrite str_app_cons in Hn |- *.
  cbn [parse_value].
  destruct Hc as [Hc | ->]; [destruct c as [[] [] [] [] [] [] [] []]; try discriminate|];
    cbn -[scan_number]; by rewrite Hn.
Qed.

Lemma parse_array_open h c r : c <> "]"%char ->
  parse_array (S h) (String c r) = '(items, r') ← parse_elems h (String c r); Ok (PList items, r').
Proof. intros Hc. destruct c as [[] [] [] [] [] [] [] []]; try reflexivity; by destruct Hc. Qed.

(** A list: [\[], the whitespace [wo], the elements and [\]]. *)
Lemma parse_list_ws wo w wc l items f t :
  str_forall is_json_ws wo = true -> str_forall is_json_ws w = true -> str_forall is_json_ws wc = true ->
  Forall2 reads_back l items -> S (S (fold_right (fun x n => S (need x + n)) 0 l)) <= f ->
  parse_value f (("[" ++ wo ++ String.concat ("," ++ w) items ++ wc ++ "]") ++ t) = Ok (PList (map json_image l), t).
Proof.
  intros Hwo Hw Hwc Hl Hf. destruct f as [|[|h]]; [lia | lia|].
  rewrite !str_app_assoc, str_app_cons, str_app_nil_l. cbn [parse_value Ascii.eqb dquote].
  rewrite skip_ws_app by done. destruct Hl as [|x s l items Hx Hl].
  - cbn [String.concat]. rewrite str_app_nil_l, skip_ws_app by done. reflexivity.
  - destruct Hx as (Hxs & (c & s' & -> & Hc & Hc') & Hxr).
    destruct (concat_head ("," ++ w) c s' items) as [rest Hrest].
    rewrite Hrest, str_app_cons, skip_ws_head by done.
    rewrite parse_array_open by done. rewrite <- str_app_cons, <- Hrest.
    rewrite (parse_elems_ws w wc (x :: l) (String c s' :: items)); [reflexivity | done | done | | discriminate | lia].
    constructor; [|done]. split; [done|]. split; [by eexists _, _|]. done.
Qed.

(** A dictionary: [{], the whitespace [wo], the items and [}]. *)
Lemma parse_dict_ws ea wo w wc d items f t :
  str_forall is_json_ws wo = true -> str_forall is_json_ws w = true -> str_forall is_json_ws wc = true ->
  Forall2 (member_reads_back ea) d items -> S (S (fold_right (fun kv n => S (need kv.2 + n)) 0 d)) <= f ->
  parse_value f (("{" ++ wo ++ String.concat ("," ++ w) items ++ wc ++ "}") ++ t) =
  Ok (dict_of_pairs (map (fun kv => (key_text kv.1, json_image kv.2)) d), t).
Proof.
  intros Hwo Hw Hwc Hd Hf. destruct f as [|[|h]]; [lia | lia|].
  rewrite !str_app_assoc, str_app_cons, str_app_nil_l. cbn [parse_value Ascii.eqb dquote].
  rewrite skip_ws_app by done. destruct Hd as [|kv s d items Hkv Hd].
  - cbn [String.concat]. rewrite str_app_nil_l, skip_ws_app by done. reflexivity.
  - destruct (member_text_head _ _ _ Hkv) as (c & s' & -> & ->).
    destruct (concat_head ("," ++ w) dquote s' items) as [rest Hrest].
    rewrite Hrest, str_app_cons, skip_ws_head by done.
    cbn [parse_object]. rewrite <- str_app_cons, <- Hrest.
    rewrite (parse_members_ws ea w wc (kv :: d) (String dquote s' :: items)); [reflexivity | done | done | | discriminate | lia].
    by constructor.
Qed.

Lemma value_end_all_ws w : str_forall is_json_ws w = true -> value_end w = true.
Proof.
  destruct w as [|d w]; [done|]. cbn [str_forall value_end].
  destruct (is_json_ws d); [by rewrite !orb_true_r | discriminate].
Qed.

(** A text that [parse_value] reads back, followed by whitespace only,
    is read by [json.loads] when it is long enough for the fuel. *)
Lemma loads_reads_back v s w :
  reads_back v s -> need v <= 3 * String.length s -> str_forall is_json_ws w = true ->
  json_loads (s ++ w) = Ok (json_image v).
Proof.
  intros (_ & (c & r & Ec & Hc & _) & Hp) Hn Hw. unfold json_loads.
  rewrite Ec, skip_ws_text, <- Ec by done.
  rewrite Hp by (rewrite ?str_length_app; lia || by apply value_end_all_ws).
  rewrite bind_Ok. replace (skip_ws w) with EmptyString; [done|].
  by rewrite <- (str_app_nil_r w), skip_ws_app.
Qed.

Section Roundtrip.
Context (ea : bool).

Definition dumps_ok (v : pyval) : Prop := json_safe v = true -> exists s, json_dumps ea v = Ok s /\ reads_back v s.

Lemma dumps_ok_list l :
  list_all pyval dumps_ok l -> forallb json_safe l = true ->
  exists items, result_map (json_dumps ea) l = Ok items /\ Forall2 reads_back l items.
Proof.
  induction 1 as [|x Hx l _ IH]; simpl; [by exists [] |].
  intros (Hsx & Hsl)%andb_true_iff. destruct (Hx Hsx) as (s & -> & Hs). destruct (IH Hsl) as (items & -> & Hi).
  exists (s :: items). split; [done | by constructor].
Qed.

Lemma json_key_safe k : key_safe k = true -> json_key k = Ok (key_text k).
Proof. destruct k as [| [] | | | | | | |]; done. Qed.

Lemma dumps_ok_dict d :
  list_all (pyval * pyval) (prod_all pyval dumps_ok pyval dumps_ok) d ->
  forallb (fun kv => key_safe kv.1 && json_safe kv.2) d = true ->
  exists items, result_map (fun kv => ks ← json_key kv.1; y ← json_dumps ea kv.2;
                                      Ok (json_quote ea ks ++ ": " ++ y)%string) d = Ok items /\
                Forall2 (member_reads_back ea) d items.
Proof.
  induction 1 as [|[k x] Hkx d _ IH]; simpl; [by exists [] |].
  intros ((Hk & Hsx)%andb_true_iff & Hsd)%andb_true_iff. inversion Hkx as [? _ ? Hx]; subst.
  destruct (Hx Hsx) as (s & Es & Hs). destruct (IH Hsd) as (items & Ei & Hi).
  rewrite json_key_safe, Es, Ei by done. simpl.
  eexists. split; [reflexivity|]. constructor; [|done]. split; [done|]. by exists s.
Qed.

Lemma forall2_nil_r {A B} (R : A -> B -> Prop) l : Forall2 R l [] -> l = [].
Proof. by inversion 1. Qed.

(** Every value without floats or sets is written by [json.dumps] and
    read back by [json.loads] as its JSON image, with any fuel above
    [need]. *)
Lemma dumps_reads_back v : dumps_ok v.
Proof.
  induction v as [| b | z | m e | str | l IH | l IH | l IH | d IH] using pyval_ind;
    intros Hsafe; simpl in Hsafe; try discriminate.
  - eexists. split; [reflexivity|]. split; [done|]. split; [head_ok|].
    intros [|g] t Hf Ht; [simpl in Hf; lia|]. apply (parse_value_keyword g "null"). tauto.
  - destruct b; (eexists; split; [reflexivity|]; split; [done|];
      split; [head_ok|];
      intros [|g] t Hf Ht; [simpl in Hf; lia|]).
    + apply (parse_value_keyword g "true"). tauto.
    + apply (parse_value_keyword g "false"). tauto.
  - eexists. split; [reflexivity|]. split; [done|]. split; [by apply (json_dumps_head ea (PInt z))|].
    intros [|g] t Hf Ht; [simpl in Hf; lia|]. by apply parse_value_int.
  - eexists. split; [reflexivity|]. split; [done|]. split; [by apply (json_dumps_head ea (PStr str))|].
    intros [|g] t Hf Ht; [simpl in Hf; lia|]. apply parse_value_string.
  - destruct (dumps_ok_list l IH Hsafe) as (items & Ei & Hi).
    eexists. split; [simpl; rewrite Ei; reflexivity|]. split; [done|].
    split; [head_ok|].
    intros f t Hf _. by apply (parse_list_ws EmptyString " " EmptyString).
  - destruct (dumps_ok_list l IH Hsafe) as (items & Ei & Hi).
    eexists. split; [simpl; rewrite Ei; reflexivity|]. split; [done|].
    split; [head_ok|].
    intros f t Hf _. by apply (parse_list_ws EmptyString " " EmptyString).
  - destruct (dumps_ok_dict d IH Hsafe) as (items & Ei & Hi).
    eexists. split; [simpl; rewrite Ei; reflexivity|]. split; [done|].
    split; [head_ok|].
    intros f t Hf _. by apply (parse_dict_ws ea EmptyString " " EmptyString).
Qed.

Definition sumlen (items : list string) : nat := fold_right (fun s n => String.length s + n) 0 items.

Lemma concat_length sep items : items <> [] ->
  String.length (String.concat sep items) + String.length sep = sumlen items + String.length sep * length items.
Proof.
  induction items as [|s [|s2 items] IH]; intros Hne; [done | simpl; lia|].
  rewrite concat_cons2, !str_length_app. specialize (IH ltac:(discriminate)). simpl in *. nia.
Qed.

Lemma fold_need_list l items :
  Forall2 (fun x s => need x <= 3 * String.length s) l items ->
  need (PList l) <= 2 + length items + 3 * sumlen items.
Proof. unfold sumlen; induction 1; cbn [need fold_right length] in *; lia. Qed.

Lemma fold_need_dict (d : list (pyval * pyval)) items :
  Forall2 (fun kv s => need kv.2 + 12 <= 3 * String.length s) d items ->
  need (PDict d) + 11 * length d <= 2 + 3 * sumlen items.
Proof. unfold sumlen; induction 1; cbn [need fold_right length] in *; lia. Qed.

Lemma need_le_list (l : list pyval) items :
  list_all pyval (fun v => json_safe v = true -> forall s, json_dumps ea v = Ok s -> need v <= 3 * String.length s) l ->
  forallb json_safe l = true -> Forall2 (fun x y => json_dumps ea x = Ok y) l items ->
  Forall2 (fun x s => need x <= 3 * String.length s) l items.
Proof.
  intros Hall Hs H2. revert Hall Hs. induction H2 as [|x y l items Hxy H2 IH]; intros Hall Hs; [constructor|].
  inversion Hall as [|? Hx ? Hl]; subst. simpl in Hs. apply andb_true_iff in Hs as [Hsx Hsl].
  constructor; [by apply Hx | by apply IH].
Qed.

Lemma json_quote_length s : 2 <= String.length (json_quote ea s).
Proof. unfold json_quote. cbn [String.length]. rewrite str_length_app. simpl. lia. Qed.

Lemma need_le_dict (d : list (pyval * pyval)) items :
  list_all (pyval * pyval) (prod_all pyval (fun _ => True) pyval
    (fun v => json_safe v = true -> forall s, json_dumps ea v = Ok s -> need v <= 3 * String.length s)) d ->
  forallb (fun kv => key_safe kv.1 && json_safe kv.2) d = true ->
  result_map (fun kv => ks ← json_key kv.1; y ← json_dumps ea kv.2;
                        Ok (json_quote ea ks ++ ": " ++ y)%string) d = Ok items ->
  Forall2 (fun kv s => need kv.2 + 12 <= 3 * String.length s) d items.
Proof.
  revert items. induction d as [|[k x] d IH]; intros items Hall Hs Ei; simpl in Ei; [by injection Ei as <-|].
  inversion Hall as [|? Hkx ? Hd]; subst. inversion Hkx as [? _ ? Hx]; subst.
  simpl in Hs. apply andb_true_iff in Hs as [[_ Hsx]%andb_true_iff Hsd].
  destruct (json_key k) as [ks|]; [|discriminate]. destruct (json_dumps ea x) as [y|] eqn:Ey; [|discriminate].
  simpl in Ei. destruct (result_map _ d) as [items'|] eqn:Ei'; [|discriminate]. injection Ei as <-.
  constructor; [|by apply IH].
  pose proof (Hx Hsx y eq_refl). pose proof (json_quote_length ks).
  simpl. rewrite !str_length_app. simpl. lia.
Qed.

Lemma need_le v : json_safe v = true -> forall s, json_dumps ea v = Ok s -> need v <= 3 * String.length s.
Proof.
  induction v as [| b | z | m e | str | l IH | l IH | l IH | d IH] using pyval_ind;
    intros Hsafe s Hs; simpl in Hsafe; try discriminate.
  - injection Hs as <-. simpl. lia.
  - destruct b; injection Hs as <-; simpl; lia.
  - destruct (json_dumps_head ea (PInt z) s eq_refl Hs) as (c & s' & -> & _). simpl. lia.
  - injection Hs as <-. unfold json_quote. simpl. lia.
  - simpl in Hs. destruct (result_map _ l) as [items|] eqn:Ei; [|discriminate]. injection Hs as <-.
    pose proof (fold_need_list l items (need_le_list l items IH Hsafe (result_map_ok _ _ _ Ei))) as Hf.
    rewrite str_app_cons, str_app_nil_l. cbn [String.length]. rewrite str_length_app.
    destruct items as [|i items]; [simpl in *; lia|].
    pose proof (concat_length ", " (i :: items) ltac:(discriminate)). simpl in *. lia.
  - simpl in Hs. destruct (result_map _ l) as [items|] eqn:Ei; [|discriminate]. injection Hs as <-.
    pose proof (fold_need_list l items (need_le_list l items IH Hsafe (result_map_ok _ _ _ Ei))) as Hf.
    change (need (PTuple l)) with (need (PList l)).
    rewrite str_app_cons, str_app_nil_l. cbn [String.length]. rewrite str_length_app.
    destruct items as [|i items]; [simpl in *; lia|].
    pose proof (concat_length ", " (i :: items) ltac:(discriminate)). simpl in *. lia.
  - simpl in Hs. destruct (result_map _ d) as [items|] eqn:Ei; [|discriminate]. injection Hs as <-.
    assert (Hd : list_all (pyval * pyval) (prod_all pyval (fun _ => True) pyval
      (fun v => json_safe v = true -> forall s, json_dumps ea v = Ok s -> need v <= 3 * String.length s)) d).
    { clear -IH. induction IH as [|[a b] Hkv d _ IH']; [apply nil_all|].
      apply cons_all; [|done]. inversion Hkv; by apply pair_all. }
    pose proof (fold_need_dict d items (need_le_dict d items Hd Hsafe Ei)) as Hf.
    pose proof (Forall2_length _ _ _ (result_map_ok _ _ _ Ei)) as Hlen.
    rewrite str_app_cons, str_app_nil_l. cbn [String.length]. rewrite str_length_app.
    destruct items as [|i items]; [simpl in *; lia|].
    pose proof (concat_length ", " (i :: items) ltac:(discriminate)). simpl in *. lia.
Qed.

Lemma dumps_loads v s :
  json_safe v = true -> json_dumps ea v = Ok s -> json_loads s = Ok (json_image v).
Proof.
  intros Hsafe Hs. destruct (dumps_reads_back v Hsafe) as (s' & Es' & Hr).
  rewrite Hs in Es'. injection Es' as <-. rewrite <- (str_app_nil_r s).
  apply loads_reads_back; [done | by apply need_le | done].
Qed.

(** A line [json.dumps(v) + '\n'] reads back as well: the newline is
    whitespace after the value. *)
Lemma dumps_loads_line v s :
  json_safe v = true -> json_dumps ea v = Ok s -> json_loads (s ++ nl) = Ok (json_image v).
Proof.
  intros Hsafe Hs. destruct (dumps_reads_back v Hsafe) as (s' & Es' & Hr).
  rewrite Hs in Es'. injection Es' as <-.
  apply loads_reads_back; [done | by apply need_le | done].
Qed.

End Roundtrip.

(** Round trip: whatever [json.dumps] writes for a value without
    floats or sets, [json.loads] reads back as the value's JSON image
    (tuples become lists, keys become strings), with or without
    [ensure_ascii]. *)
Theorem json_roundtrip ea v s :
  json_safe v = true -> json_dumps ea v = Ok s -> json_loads s = Ok (json_image v).
Proof. exact (dumps_loads ea v s). Qed.

Definition demo_json_value : pyval :=
  PDict [(PStr "a", PTuple [PInt 1; PBool true; PNone]); (PStr "b", PStr "x/y")].

Definition demo_json_text : string :=
  match json_dumps true demo_json_value with Ok s => s | Raise _ => EmptyString end.

Lemma json_roundtrip_witness :
  json_loads demo_json_text = Ok (PDict [(PStr "a", PList [PInt 1; PBool true; PNone]); (PStr "b", PStr "x/y")]).
Proof. apply (json_roundtrip true demo_json_value); vm_compute; reflexivity. Defined.
