(* ===== verification/FileSys.v ===== *)
(** * The files the scripts read and write

    Every script reads its inputs with [open(path, 'r')] and then
    [f.readlines()] (JSON lines) or [json.load(f)], and writes its
    outputs with [f.write] of JSON lines or with [json.dump(x, f,
    indent=4, ensure_ascii=False)].  The file system is a finite map from
    paths to the decoded text of the files ([gmap string string]);
    reading translates line endings as Python's text mode does
    ([newline=None]), and writing on POSIX writes [\n] as is.  A path is
    built with [os.path.join] or with an f-string, and a file name is
    cut down with [split('/')[-1].split('.')[0]]. *)

From stdpp Require Import gmap.
From S2P Require Import Prelude PyStr PyVal Json.
From Stdlib Require Import DecimalString.

Abbreviation fsys := (gmap string string).

(** [open(path, 'r')]: [FileNotFoundError] for a path that is absent. *)
Definition open_read (fs : fsys) (path : string) : result string :=
  of_option FileNotFoundError (fs !! path).

(** [open(path, 'w')] and writing [text]: the file is replaced. *)
Definition write_file (fs : fsys) (path text : string) : fsys := <[path := text]> fs.

Definition lf : ascii := "010".
Definition cr : ascii := "013".

(** Universal newlines on reading: [\r\n] and a lone [\r] become [\n]. *)
Fixpoint universal_newlines (s : string) : string :=
  match s with
  | EmptyString => EmptyString
  | String c s' =>
      if Ascii.eqb c cr then
        match s' with
        | String d s'' => if Ascii.eqb d lf then String lf (universal_newlines s'') else String lf (universal_newlines s')
        | EmptyString => String lf EmptyString
        end
      else String c (universal_newlines s')
  end.

(** The lines of a text, each with its [\n]; the last one without it
    when the text does not end with a newline. *)
Fixpoint lines_go (s cur : string) : list string :=
  match s with
  | EmptyString => if String.eqb cur EmptyString then [] else [cur]
  | String c s' =>
      if Ascii.eqb c lf then (cur ++ String c EmptyString)%string :: lines_go s' EmptyString
      else lines_go s' (cur ++ String c EmptyString)%string
  end.

(** [f.readlines()]. *)
Definition readlines (s : string) : list string := lines_go (universal_newlines s) EmptyString.

(** [with open(path) as f: data = [json.loads(line) for line in f.readlines()]]:
    [read_jsonlines] of [general_evaluation_final.py], and the
    [read_data] of the compilers. *)
Definition read_jsonlines (fs : fsys) (path : string) : result (list pyval) :=
  s ← open_read fs path; result_map json_loads (readlines s).

(** [json.load(open(path))]. *)
Definition json_load (fs : fsys) (path : string) : result pyval :=
  s ← open_read fs path; json_loads (universal_newlines s).

Fixpoint spaces (n : nat) : string :=
  match n with O => EmptyString | S n' => String " " (spaces n') end.

(** [json.dump(v, f, indent=4, ensure_ascii=ea)] at nesting [level]:
    an empty container is [[]] or [{}]; the items of another are on
    lines of their own, indented by four spaces a level and separated by
    [,]; scalars are written as [json.dumps] writes them. *)
Fixpoint json_dump_indent (ea : bool) (level : nat) (v : pyval) : result string :=
  let ni := (nl ++ spaces (4 * S level))%string in
  let close := (nl ++ spaces (4 * level))%string in
  match v with
  | PList [] | PTuple [] => Ok "[]"
  | PList l | PTuple l =>
      items ← result_map (json_dump_indent ea (S level)) l;
      Ok ("[" ++ ni ++ String.concat ("," ++ ni) items ++ close ++ "]")%string
  | PDict [] => Ok "{}"
  | PDict d =>
      items ← result_map (fun kv => ks ← json_key kv.1; y ← json_dump_indent ea (S level) kv.2;
                                    Ok (json_quote ea ks ++ ": " ++ y)%string) d;
      Ok ("{" ++ ni ++ String.concat ("," ++ ni) items ++ close ++ "}")%string
  | PSet _ => Raise TypeError
  | _ => json_dumps ea v
  end.

(** [with open(path, 'w') as f: json.dump(v, f, indent=4, ensure_ascii=False)]. *)
Definition json_dump_file (fs : fsys) (path : string) (v : pyval) : result fsys :=
  s ← json_dump_indent false 0 v; Ok (write_file fs path s).

(** [json.dump(v, f, indent=4)] with the default [ensure_ascii=True]. *)
Definition json_dump_file_ascii (fs : fsys) (path : string) (v : pyval) : result fsys :=
  s ← json_dump_indent true 0 v; Ok (write_file fs path s).

(** [for file in files: ...] where the body reads and writes files: the
    file system the files done leave, and the exception that stopped
    the loop. *)
Fixpoint for_files (body : fsys -> string -> result fsys) (files : list string) (fs : fsys) : fsys * option exc :=
  match files with
  | [] => (fs, None)
  | file :: rest =>
      match body fs file with
      | Ok fs' => for_files body rest fs'
      | Raise e => (fs, Some e)
      end
  end.

(** [os.path.join(a, b)] on POSIX. *)
Definition path_join (a b : string) : string :=
  if py_startswith "/" b then b
  else if String.eqb a EmptyString || String.eqb (py_split_last "/" a) EmptyString then (a ++ b)%string
  else (a ++ "/" ++ b)%string.

(** [path.split('/')[-1].split('.')[0]]: the file name without its
    extension. *)
Definition path_stem (path : string) : string :=
  hd EmptyString (py_split "." (py_split_last "/" path)).

(** ** Lines written and read back *)

(** A character that ends no line. *)
Definition line_char (c : ascii) : bool := negb (Ascii.eqb c lf) && negb (Ascii.eqb c cr).

(** [f.write(f'{x}\n')] for a text [x] without line break. *)
Definition text_line (s : string) : Prop := exists b, s = (b ++ nl)%string /\ str_forall line_char b = true.

Lemma str_forall_impl (p q : ascii -> bool) s :
  (forall c, p c = true -> q c = true) -> str_forall p s = true -> str_forall q s = true.
Proof. intros H. induction s as [|c s IH]; simpl; [done|]. rewrite !andb_true_iff. intros [? ?]; auto. Qed.

Lemma str_forall_substring p n m s : str_forall p s = true -> str_forall p (String.substring n m s) = true.
Proof.
  revert n m. induction s as [|c s IH]; intros [|n] [|m]; simpl; rewrite ?andb_true_iff; try done;
    intros [Hc Hs]; rewrite ?Hc; simpl; auto.
Qed.

Definition not_cr (c : ascii) : bool := negb (Ascii.eqb c cr).

Lemma universal_newlines_no_cr s : str_forall not_cr s = true -> universal_newlines s = s.
Proof.
  induction s as [|c s IH]; simpl; [done|]. intros (Hc & Hs)%andb_true_iff.
  apply negb_true_iff in Hc. by rewrite Hc, IH.
Qed.

Lemma line_char_not_cr c : line_char c = true -> not_cr c = true.
Proof. unfold line_char. by intros (_ & ?)%andb_true_iff. Qed.

Lemma lines_go_line b t cur :
  str_forall line_char b = true -> lines_go (b ++ nl ++ t) cur = (cur ++ b ++ nl)%string :: lines_go t EmptyString.
Proof.
  revert cur. induction b as [|c b IH]; intros cur; simpl.
  - intros _. by rewrite str_app_nil_l.
  - intros (Hc & Hb)%andb_true_iff. unfold line_char in Hc. apply andb_true_iff in Hc as [Hc _].
    apply negb_true_iff in Hc. rewrite Hc, IH by done.
    by rewrite str_app_assoc.
Qed.

Lemma concat_empty_cons l rest : String.concat EmptyString (l :: rest) = (l ++ String.concat EmptyString rest)%string.
Proof. destruct rest; simpl; [by rewrite str_app_nil_r | done]. Qed.

Lemma text_lines_no_cr lines : Forall text_line lines -> str_forall not_cr (String.concat EmptyString lines) = true.
Proof.
  induction 1 as [|l lines (b & -> & Hb) _ IH]; [done|].
  rewrite concat_empty_cons, !str_forall_app, IH, andb_true_r.
  apply andb_true_iff. split; [|done]. by eapply str_forall_impl; [apply line_char_not_cr|].
Qed.

(** Lines written one by one with their [\n] are read back by
    [readlines] as they were written. *)
Lemma readlines_text_lines lines : Forall text_line lines -> readlines (String.concat EmptyString lines) = lines.
Proof.
  intros Hl. unfold readlines. rewrite universal_newlines_no_cr by by apply text_lines_no_cr.
  induction Hl as [|l lines (b & -> & Hb) _ IH]; [done|].
  rewrite concat_empty_cons, str_app_assoc, lines_go_line, IH by done. by rewrite str_app_nil_l.
Qed.

(** ** [json.dumps] writes one line *)

Lemma digit_line_char c : is_digit_char c = true -> line_char c = true.
Proof. destruct c as [[] [] [] [] [] [] [] []]; done. Qed.

Lemma repr_int_line z : str_forall line_char (repr_int z) = true.
Proof.
  assert (Hu : forall u, str_forall line_char (NilZero.string_of_uint u) = true).
  { intros u. unfold NilZero.string_of_uint. destruct u; try reflexivity;
      (eapply str_forall_impl; [apply digit_line_char | apply string_of_uint_digits]). }
  unfold repr_int, NilZero.string_of_int. destruct (Z.to_int z); simpl; rewrite ?Hu; done.
Qed.

Lemma zeros_line n : str_forall line_char (zeros n) = true.
Proof. induction n; simpl; by rewrite ?IHn. Qed.

Lemma repr_float_line m e : str_forall line_char (repr_float m e) = true.
Proof.
  unfold repr_float, digits_of. destruct (strip_zeros_go _ _ _) as [m' e'].
  repeat (case_match || rewrite !str_forall_app || rewrite ?repr_int_line, ?zeros_line);
    rewrite ?str_forall_substring by apply repr_int_line; done.
Qed.

Lemma json_quote_line ea s : str_forall line_char (json_quote ea s) = true.
Proof.
  unfold json_quote. simpl. rewrite str_forall_app. simpl.
  induction s as [|c s IH]; [done|]. simpl. rewrite str_forall_app, andb_true_r in *. rewrite IH, andb_true_r.
  destruct ea, c as [[] [] [] [] [] [] [] []]; done.
Qed.

Lemma concat_forall p sep items :
  str_forall p sep = true -> Forall (fun s => str_forall p s = true) items ->
  str_forall p (String.concat sep items) = true.
Proof.
  intros Hsep. induction 1 as [|x items Hx _ IH]; [done|].
  destruct items as [|y items]; [exact Hx|].
  change (String.concat sep (x :: y :: items)) with (x ++ sep ++ String.concat sep (y :: items))%string.
  by rewrite !str_forall_app, Hx, Hsep, IH.
Qed.

Lemma result_map_line {A} (f : A -> result string) l items :
  Forall (fun x => forall s, f x = Ok s -> str_forall line_char s = true) l ->
  result_map f l = Ok items -> Forall (fun s => str_forall line_char s = true) items.
Proof.
  intros Hl Hm. apply result_map_ok in Hm. induction Hm; inversion Hl; subst; constructor; eauto.
Qed.

(** The text [json.dumps] writes has no line break. *)
Lemma items_line (f : pyval -> result string) l items :
  list_all pyval (fun v => forall s, f v = Ok s -> str_forall line_char s = true) l ->
  result_map f l = Ok items -> Forall (fun s => str_forall line_char s = true) items.
Proof. intros IH E. eapply result_map_line; [|exact E]. clear E. induction IH; constructor; eauto. Qed.

Lemma json_dumps_line ea v s : json_dumps ea v = Ok s -> str_forall line_char s = true.
Proof.
  revert s. induction v as [| b | z | m e | str | l IH | l IH | l IH | d IH] using pyval_ind; intros s; simpl.
  - by intros [= <-].
  - destruct b; by intros [= <-].
  - intros [= <-]. apply repr_int_line.
  - intros [= <-]. apply repr_float_line.
  - intros [= <-]. apply json_quote_line.
  - destruct (result_map _ l) as [items|] eqn:E; simpl; [intros [= <-] | discriminate].
    rewrite !str_forall_app, concat_forall; [done..|]. by eapply items_line.
  - destruct (result_map _ l) as [items|] eqn:E; simpl; [intros [= <-] | discriminate].
    rewrite !str_forall_app, concat_forall; [done..|]. by eapply items_line.
  - discriminate.
  - destruct (result_map _ d) as [items|] eqn:E; simpl; [intros [= <-] | discriminate].
    rewrite !str_forall_app, concat_forall; [done..|].
    eapply result_map_line; [|exact E]. clear E.
    induction IH as [|kv Hkv d _ IHd]; constructor; [|done].
    destruct Hkv as [k _ v Hv]. intros t. simpl. destruct (json_key k); [|discriminate]. simpl.
    destruct (json_dumps ea v) eqn:Ev; [|discriminate].
    intros [= <-]. by rewrite !str_forall_app, json_quote_line, (Hv _ eq_refl).
Qed.

(** ** JSON lines *)

(** [with open(path, 'w') as f: for x in xs: f.write(json.dumps(x,
    ensure_ascii=ea) + '\n')]. *)
Definition write_jsonl (fs : fsys) (path : string) (ea : bool) (xs : list pyval) : result fsys :=
  lines ← result_map (fun x => s ← json_dumps ea x; Ok (s ++ nl)%string) xs;
  Ok (write_file fs path (String.concat EmptyString lines)).

Lemma jsonl_lines ea xs lines :
  result_map (fun x => s ← json_dumps ea x; Ok (s ++ nl)%string) xs = Ok lines ->
  Forall text_line lines /\ Forall (fun x => json_safe x = true) xs ->
  result_map json_loads lines = Ok (map json_image xs).
Proof.
  revert lines. induction xs as [|x xs IH]; intros lines; cbn [result_map]; [by intros [= <-]|].
  destruct (json_dumps ea x) as [s|] eqn:Ex; rewrite ?bind_Ok; [|discriminate].
  destruct (result_map _ xs) as [ls|] eqn:Exs; rewrite ?bind_Ok; [|discriminate].
  intros [= <-] [(_ & Hl)%Forall_cons (Hx & Hxs)%Forall_cons]. cbn [result_map map].
  rewrite (dumps_loads_line ea x s Hx Ex), bind_Ok, (IH ls eq_refl (conj Hl Hxs)), bind_Ok. reflexivity.
Qed.

Lemma jsonl_text_lines ea xs lines :
  result_map (fun x => s ← json_dumps ea x; Ok (s ++ nl)%string) xs = Ok lines -> Forall text_line lines.
Proof.
  intros Hm%result_map_ok. induction Hm as [|x l y ys Hy _ IH]; constructor; [|done].
  destruct (json_dumps ea x) as [t|] eqn:E; [|discriminate]. injection Hy as <-.
  exists t. split; [done|]. by eapply json_dumps_line.
Qed.

Lemma jsonl_dumps_ok ea xs :
  Forall (fun x => json_safe x = true) xs ->
  exists lines, result_map (fun x => s ← json_dumps ea x; Ok (s ++ nl)%string) xs = Ok lines.
Proof.
  induction 1 as [|x xs Hx _ (lines & IH)]; simpl; [by eexists|].
  destruct (dumps_reads_back ea x Hx) as (s & -> & _). simpl. rewrite IH. by eexists.
Qed.

Lemma write_jsonl_read fs fs' path ea xs :
  Forall (fun x => json_safe x = true) xs -> write_jsonl fs path ea xs = Ok fs' ->
  read_jsonlines fs' path = Ok (map json_image xs).
Proof.
  intros Hsafe. unfold write_jsonl.
  destruct (result_map _ xs) as [lines|] eqn:Hl; rewrite ?bind_Ok; [intros [= <-] | discriminate].
  unfold read_jsonlines, open_read, write_file. rewrite lookup_insert_eq. cbn [of_option]. rewrite bind_Ok.
  rewrite readlines_text_lines by (eapply jsonl_text_lines; exact Hl).
  by apply (jsonl_lines ea xs lines Hl); split; [eapply jsonl_text_lines; exact Hl|].
Qed.

Lemma write_jsonl_frame fs fs' path ea xs q :
  write_jsonl fs path ea xs = Ok fs' -> q <> path -> fs' !! q = fs !! q.
Proof.
  unfold write_jsonl. destruct (result_map _ xs); rewrite ?bind_Ok; [intros [= <-] Hq | discriminate].
  by apply lookup_insert_ne.
Qed.

(** Round trip of the JSON-lines files that connect the scripts: a file
    written record by record with [json.dumps(x) + '\n'] is written
    without error when its records have no float and no set, and
    [read_jsonlines] (and every [read_data] of the compilers) reads back
    the JSON image of each record, in order. *)
Theorem jsonl_roundtrip fs path ea xs :
  Forall (fun x => json_safe x = true) xs ->
  exists fs', write_jsonl fs path ea xs = Ok fs' /\ read_jsonlines fs' path = Ok (map json_image xs).
Proof.
  intros Hsafe. destruct (jsonl_dumps_ok ea xs Hsafe) as (lines & Hl).
  assert (E : write_jsonl fs path ea xs = Ok (write_file fs path (String.concat EmptyString lines)))
    by (unfold write_jsonl; by rewrite Hl).
  eexists. split; [exact E|]. by eapply write_jsonl_read.
Qed.

Lemma jsonl_roundtrip_witness :
  exists fs', write_jsonl ∅ "data/test.jsonl" false [PDict [(PStr "text", PStr "Lyon"); (PStr "n", PInt 2)]; PList [PNone]] = Ok fs' /\
    read_jsonlines fs' "data/test.jsonl" = Ok (map json_image [PDict [(PStr "text", PStr "Lyon"); (PStr "n", PInt 2)]; PList [PNone]]).
Proof. apply jsonl_roundtrip. repeat constructor. Defined.

(** ** [json.dump] with [indent=4] read back *)

Lemma spaces_ws n : str_forall is_json_ws (spaces n) = true.
Proof. by induction n. Qed.

Lemma spaces_not_cr n : str_forall not_cr (spaces n) = true.
Proof. by induction n. Qed.

Lemma spaces_length n : String.length (spaces n) = n.
Proof. induction n; simpl; lia. Qed.

Section Indent.
Context (ea : bool).

(** The text [json.dump] writes of [v], at any nesting level: read
    back by [parse_value] as the JSON image of [v], without [\r] (so that
    reading in text mode keeps it), and long enough for the fuel of
    [json.loads]. *)
Definition dump_ok (v : pyval) : Prop :=
  json_safe v = true -> forall level, exists s, json_dump_indent ea level v = Ok s /\
    reads_back v s /\ str_forall not_cr s = true /\ need v <= 3 * String.length s.

Lemma dump_scalar v level :
  json_safe v = true -> json_dump_indent ea level v = json_dumps ea v ->
  exists s, json_dump_indent ea level v = Ok s /\
    reads_back v s /\ str_forall not_cr s = true /\ need v <= 3 * String.length s.
Proof.
  intros Hs ->. destruct (dumps_reads_back ea v Hs) as (s & Es & Hr).
  exists s. split_and!; [done | done | | by apply (need_le ea)].
  apply (str_forall_impl _ _ _ line_char_not_cr). by eapply json_dumps_line.
Qed.

Lemma dump_ok_list level l :
  list_all pyval dump_ok l -> forallb json_safe l = true ->
  exists items, result_map (json_dump_indent ea level) l = Ok items /\
    Forall2 (fun x s => reads_back x s /\ str_forall not_cr s = true /\ need x <= 3 * String.length s) l items.
Proof.
  induction 1 as [|x Hx l _ IH]; simpl; [by exists [] |].
  intros (Hsx & Hsl)%andb_true_iff. destruct (Hx Hsx level) as (s & -> & Hs).
  destruct (IH Hsl) as (items & -> & Hi). exists (s :: items). split; [done | by constructor].
Qed.

Lemma dump_ok_dict level d :
  list_all (pyval * pyval) (prod_all pyval dump_ok pyval dump_ok) d ->
  forallb (fun kv => key_safe kv.1 && json_safe kv.2) d = true ->
  exists items, result_map (fun kv => ks ← json_key kv.1; y ← json_dump_indent ea level kv.2;
                                      Ok (json_quote ea ks ++ ": " ++ y)%string) d = Ok items /\
    Forall2 (fun kv s => member_reads_back ea kv s /\ str_forall not_cr s = true /\
                         need kv.2 + 12 <= 3 * String.length s) d items.
Proof.
  induction 1 as [|[k x] Hkx d _ IH]; simpl; [by exists [] |].
  intros ((Hk & Hsx)%andb_true_iff & Hsd)%andb_true_iff. inversion Hkx as [? _ ? Hx]; subst.
  destruct (Hx Hsx level) as (s & Es & Hs & Hcr & Hn). destruct (IH Hsd) as (items & Ei & Hi).
  rewrite json_key_safe, Es, Ei by done. simpl.
  eexists. split; [reflexivity|]. constructor; [|done]. split_and!; [split; [exact Hk | by exists s; split] | |].
  - rewrite !str_forall_app, Hcr, andb_true_r. apply (str_forall_impl _ _ _ line_char_not_cr), json_quote_line.
  - pose proof (json_quote_length ea (key_text k)). rewrite !str_length_app. cbn [String.length snd]. lia.
Qed.

Lemma newline_indent_ws n : str_forall is_json_ws (nl ++ spaces n) = true.
Proof. exact (spaces_ws n). Qed.

Lemma newline_indent_not_cr n : str_forall not_cr ("," ++ nl ++ spaces n) = true.
Proof. exact (spaces_not_cr n). Qed.

Lemma newline_indent_length n : String.length (nl ++ spaces n) = S n.
Proof. exact (f_equal S (spaces_length n)). Qed.

(** The text of a container with items, written on lines of their own:
    read back when the items are, free of [\r] when they are, and long
    enough for the fuel when [need] of each item fits in its text. *)
Lemma indent_text_not_cr (o c : string) level items :
  str_forall not_cr o = true -> str_forall not_cr c = true ->
  Forall (fun s => str_forall not_cr s = true) items ->
  str_forall not_cr (o ++ nl ++ spaces (4 * S level) ++ String.concat ("," ++ nl ++ spaces (4 * S level)) items
                       ++ nl ++ spaces (4 * level) ++ c) = true.
Proof.
  intros Ho Hc Hi. rewrite !str_forall_app, Ho, Hc, concat_forall by (done || apply newline_indent_not_cr).
  by rewrite !(spaces_not_cr _).
Qed.

Lemma indent_text_length (o c : string) level items k :
  items <> [] -> String.length o = 1 -> String.length c = 1 ->
  k <= 2 + length items + 3 * sumlen items ->
  k <= 3 * String.length (o ++ nl ++ spaces (4 * S level) ++ String.concat ("," ++ nl ++ spaces (4 * S level)) items
                            ++ nl ++ spaces (4 * level) ++ c).
Proof.
  intros Hne Ho Hc Hk. pose proof (concat_length ("," ++ nl ++ spaces (4 * S level)) items Hne) as Hl.
  rewrite !str_length_app, !spaces_length in Hl. rewrite !str_length_app, !spaces_length, Ho, Hc.
  cbn [String.length nl] in Hl |- *.
  destruct items as [|i items]; [done|]. cbn [length] in *. nia.
Qed.

Lemma dump_list level l :
  list_all pyval dump_ok l -> forallb json_safe l = true ->
  exists s, json_dump_indent ea level (PList l) = Ok s /\
    reads_back (PList l) s /\ str_forall not_cr s = true /\ need (PList l) <= 3 * String.length s.
Proof.
  intros IH Hsafe. destruct (dump_ok_list (S level) l IH Hsafe) as (items & Ei & Hi).
  destruct l as [|x l'].
  - exists "[]"%string. split; [done|]. split; [|split; [done | simpl; lia]].
    split; [done|]. split; [head_ok|]. intros f t Hf _.
    exact (parse_list_ws EmptyString EmptyString EmptyString [] [] f t eq_refl eq_refl eq_refl (Forall2_nil_2 _ _ _) Hf).
  - eexists. split; [cbn [json_dump_indent]; rewrite Ei; reflexivity|].
    assert (Hne : items <> []) by (destruct items; [inversion Hi | discriminate]).
    split; [|split].
    + split; [done|]. split; [head_ok|]. intros f t Hf _.
      apply parse_list_ws; [apply newline_indent_ws.. | | done].
      eapply Forall2_impl; [exact Hi | by intros ? ? []].
    + apply indent_text_not_cr; [done | done |].
      clear -Hi. induction Hi as [|? ? ? ? (_ & ? & _)]; by constructor.
    + apply indent_text_length; [done | done | done |]. apply fold_need_list.
      eapply Forall2_impl; [exact Hi | by intros ? ? (_ & _ & ?)].
Qed.

Lemma dump_dict level d :
  list_all (pyval * pyval) (prod_all pyval dump_ok pyval dump_ok) d ->
  forallb (fun kv => key_safe kv.1 && json_safe kv.2) d = true ->
  exists s, json_dump_indent ea level (PDict d) = Ok s /\
    reads_back (PDict d) s /\ str_forall not_cr s = true /\ need (PDict d) <= 3 * String.length s.
Proof.
  intros IH Hsafe. destruct (dump_ok_dict (S level) d IH Hsafe) as (items & Ei & Hi).
  destruct d as [|kv d'].
  - exists "{}"%string. split; [done|]. split; [|split; [done | simpl; lia]].
    split; [done|]. split; [head_ok|]. intros f t Hf _.
    exact (parse_dict_ws ea EmptyString EmptyString EmptyString [] [] f t eq_refl eq_refl eq_refl (Forall2_nil_2 _ _ _) Hf).
  - eexists. split; [cbn [json_dump_indent]; rewrite Ei; reflexivity|].
    assert (Hne : items <> []) by (destruct items; [inversion Hi | discriminate]).
    split; [|split].
    + split; [done|]. split; [head_ok|]. intros f t Hf _.
      apply (parse_dict_ws ea); [apply newline_indent_ws.. | | done].
      eapply Forall2_impl; [exact Hi | by intros ? ? []].
    + apply indent_text_not_cr; [done | done |].
      clear -Hi. induction Hi as [|? ? ? ? (_ & ? & _)]; by constructor.
    + apply indent_text_length; [done | done | done |].
      assert (Hn : Forall2 (fun kv s => need kv.2 + 12 <= 3 * String.length s) (kv :: d') items)
        by (eapply Forall2_impl; [exact Hi | by intros ? ? (_ & _ & ?)]).
      pose proof (fold_need_dict _ _ Hn). lia.
Qed.

(** Every value without floats or sets is written by [json.dump] at
    any level, and the text has the three properties of [dump_ok]. *)
Lemma dump_reads_back v : dump_ok v.
Proof.
  induction v as [| b | z | m e | str | l IH | l IH | l IH | d IH] using pyval_ind;
    intros Hsafe level; simpl in Hsafe; try discriminate; try (apply dump_scalar; [done | reflexivity]).
  - by apply dump_list.
  - destruct (dump_list level l IH Hsafe) as (s & Es & Hs). exists s. split; [exact Es | exact Hs].
  - by apply dump_dict.
Qed.

End Indent.

Lemma json_safe_list l : Forall (fun v => json_safe v = true) l -> json_safe (PList l) = true.
Proof. induction 1 as [|v l Hv _ IH]; [done|]. simpl in *. by rewrite Hv, IH. Qed.

Lemma json_dump_file_load fs fs' path v :
  json_safe v = true -> json_dump_file fs path v = Ok fs' -> json_load fs' path = Ok (json_image v).
Proof.
  intros Hs. destruct (dump_reads_back false v Hs 0) as (s & Es & Hr & Hcr & Hn).
  unfold json_dump_file, json_load, open_read, write_file. rewrite Es, bind_Ok. intros [= <-].
  rewrite lookup_insert_eq. cbn [of_option]. rewrite bind_Ok, universal_newlines_no_cr by done.
  rewrite <- (str_app_nil_r s). by apply loads_reads_back.
Qed.

Lemma json_dump_file_frame fs fs' path v q :
  json_dump_file fs path v = Ok fs' -> q <> path -> fs' !! q = fs !! q.
Proof.
  unfold json_dump_file. destruct (json_dump_indent false 0 v); rewrite ?bind_Ok; [intros [= <-] Hq | discriminate].
  by apply lookup_insert_ne.
Qed.

(** Round trip of the files written with [json.dump(v, f, indent=4,
    ensure_ascii=False)] (templates, summaries, evaluation outputs): a
    value without floats or sets is written without error, [json.load]
    reads back its JSON image, and every other file is left as it was. *)
Theorem json_dump_roundtrip fs path v :
  json_safe v = true ->
  exists fs', json_dump_file fs path v = Ok fs' /\ json_load fs' path = Ok (json_image v) /\
    forall q, q <> path -> fs' !! q = fs !! q.
Proof.
  intros Hs. destruct (dump_reads_back false v Hs 0) as (s & Es & _).
  assert (E : json_dump_file fs path v = Ok (write_file fs path s)) by (unfold json_dump_file; by rewrite Es).
  exists (write_file fs path s). split_and!; [done | by eapply json_dump_file_load | ].
  intros q. exact (json_dump_file_frame fs _ path v q E).
Qed.

Lemma json_dump_roundtrip_witness :
  exists fs', json_dump_file ∅ "out/stats.json" (PList [PDict [(PStr "file", PStr "entities_1.json"); (PStr "all entities", PInt 3)]; PTuple []]) = Ok fs' /\
    json_load fs' "out/stats.json" = Ok (json_image (PList [PDict [(PStr "file", PStr "entities_1.json"); (PStr "all entities", PInt 3)]; PTuple []])) /\
    forall q, q <> "out/stats.json" -> fs' !! q = (∅ : fsys) !! q.
Proof. apply json_dump_roundtrip. reflexivity. Defined.
