(* ===== verification/PyLiteral.v ===== *)
(** * Python's [ast.literal_eval]

    [load_structure], [extract_list_of_dicts] and
    [extract_enumerated_list_of_tuples]
    ([src/2_inference_module/post_process_generated_string.py] lines 28,
    71 and 133) read model answers with [ast.literal_eval].  This file
    models it on [pyval] for the literals those answers contain:
    - string literals in single or double quotes, with the prefixes
      [u] and [r], the escapes of the language ([\\], a backslash before either quote,
      [\a] [\b] [\f] [\n] [\r] [\t] [\v], octal, [\x], [\u], [\U],
      backslash-newline) and an unknown escape kept as written, and
      implicit concatenation of adjacent literals;
    - decimal integers (no leading zeros, [_] between digits) and
      floats (fraction and exponent, kept as exact decimals), with an
      optional sign;
    - [True], [False], [None], [set()]; lists, tuples (parenthesised or
      bare at the top level), dictionaries (last value at the first
      position) and sets (the first occurrence of each element), with
      trailing commas; a [TypeError] for an unhashable key or element;
    - the tokenizer's whitespace: blanks, comments and backslash-newline
      between tokens, newlines only inside brackets, [lstrip(" \t")] of
      the text and the blank lines around the expression.

    Outside the subset the model raises where Python may not: byte
    strings, triple quotes, hexadecimal, octal and binary integers,
    complex numbers, a sign before a parenthesised number, [\N{...}] and
    code points above U+00FF (the characters are 8-bit).  Python raises
    [SyntaxError], [ValueError] or [TypeError] on malformed input; the
    model raises one of them, not always the same one.  Dictionary keys
    and set elements are compared structurally ([1], [1.0] and [True]
    are distinct keys here), and a set keeps the order of its literal,
    where CPython iterates it in hash order. *)

From S2P Require Import Prelude PyStr PyDict PyVal Json.

(** ** Whitespace *)

Definition is_inline_ws (c : ascii) : bool :=
  let n := nat_of_ascii c in (n =? 32) || (n =? 9) || (n =? 12).

Definition is_newline (c : ascii) : bool :=
  let n := nat_of_ascii c in (n =? 10) || (n =? 13).

(** The whitespace between two tokens: blanks, backslash-newline and
    comments; inside brackets ([nl]) newlines as well.  [incom]: inside
    a comment. *)
Fixpoint skip_lws (nl incom : bool) (s : string) : string :=
  match s with
  | EmptyString => s
  | String c s' =>
      if incom then
        (if is_newline c then (if nl then skip_lws nl false s' else s) else skip_lws nl true s')
      else if is_inline_ws c || (nl && is_newline c) then skip_lws nl false s'
      else if (c =? "#")%char then skip_lws nl true s'
      else if Ascii.eqb c backslash then
        match s' with
        | String d s'' =>
            if (nat_of_ascii d =? 10) then skip_lws nl false s''
            else if (nat_of_ascii d =? 13) then
              match s'' with
              | String e s3 => if (nat_of_ascii e =? 10) then skip_lws nl false s3 else skip_lws nl false s''
              | EmptyString => EmptyString
              end
            else s
        | EmptyString => s
        end
      else s
  end.

Definition ws (nl : bool) (s : string) : string := skip_lws nl false s.

(** [text.lstrip(" \t")]. *)
Fixpoint lstrip_st (s : string) : string :=
  match s with
  | String c s' => if (nat_of_ascii c =? 32) || (nat_of_ascii c =? 9) then lstrip_st s' else s
  | EmptyString => s
  end.

(** The start of the first line that is not blank. *)
Fixpoint skip_blank_lines (s line : string) : string :=
  match s with
  | EmptyString => line
  | String c s' =>
      if is_newline c then skip_blank_lines s' s'
      else if is_inline_ws c then skip_blank_lines s' line
      else line
  end.

(** The indentation of the first line: a form feed resets it, and the
    line must not be indented ([pending]: a blank since the last form
    feed). *)
Fixpoint indent_ok (pending : bool) (s : string) : option string :=
  match s with
  | String c s' =>
      if nat_of_ascii c =? 12 then indent_ok false s'
      else if is_inline_ws c then indent_ok true s'
      else if pending then None else Some s
  | EmptyString => if pending then None else Some s
  end.

(** After the expression: blank lines, each ended by a newline; a last
    line holding only blanks is an indentation. *)
Fixpoint blank_lines (mid : bool) (s : string) : bool :=
  match s with
  | EmptyString => negb mid
  | String c s' =>
      if is_newline c then blank_lines false s'
      else if nat_of_ascii c =? 12 then blank_lines false s'
      else if is_inline_ws c then blank_lines true s'
      else false
  end.

Definition trailing_ok (s : string) : bool :=
  match ws false s with
  | EmptyString => true
  | String c s' => is_newline c && blank_lines false s'
  end.

(** ** String literals *)

Definition oct_val (c : ascii) : option nat :=
  let n := nat_of_ascii c in if (48 <=? n) && (n <=? 55) then Some (n - 48) else None.

(** A code point decoded from an escape, then the rest of the literal. *)
Definition emit (cp : nat) (r : result (string * string)) : result (string * string) :=
  if cp <? 256 then '(str, rest) ← r; Ok (String (ascii_of_nat cp) str, rest) else Raise ValueError.

Definition simple_escape (e : ascii) : option ascii :=
  let n := nat_of_ascii e in
  if Ascii.eqb e backslash || Ascii.eqb e squote || Ascii.eqb e dquote then Some e
  else if n =? 97 then Some (ascii_of_nat 7)
  else if n =? 98 then Some (ascii_of_nat 8)
  else if n =? 102 then Some (ascii_of_nat 12)
  else if n =? 110 then Some (ascii_of_nat 10)
  else if n =? 114 then Some (ascii_of_nat 13)
  else if n =? 116 then Some (ascii_of_nat 9)
  else if n =? 118 then Some (ascii_of_nat 11)
  else None.

(** The characters of a literal quoted by [q] after its opening quote,
    and the text after the closing quote. *)
Fixpoint scan_pystr (raw : bool) (q : ascii) (s : string) : result (string * string) :=
  match s with
  | EmptyString => Raise SyntaxError
  | String c s' =>
      if Ascii.eqb c q then Ok (EmptyString, s')
      else if is_newline c then Raise SyntaxError
      else if Ascii.eqb c backslash then
        match s' with
        | EmptyString => Raise SyntaxError
        | String e s'' =>
            if raw then '(str, r) ← scan_pystr raw q s''; Ok (String c (String e str), r)
            else if nat_of_ascii e =? 10 then scan_pystr raw q s''
            else if nat_of_ascii e =? 13 then
              match s'' with
              | String e2 s3 => if nat_of_ascii e2 =? 10 then scan_pystr raw q s3 else scan_pystr raw q s''
              | EmptyString => scan_pystr raw q s''
              end
            else match simple_escape e with
            | Some d => '(str, r) ← scan_pystr raw q s''; Ok (String d str, r)
            | None =>
            match oct_val e with
            | Some d1 =>
                match s'' with
                | String c2 s3 =>
                    match oct_val c2 with
                    | Some d2 =>
                        match s3 with
                        | String c3 s4 =>
                            match oct_val c3 with
                            | Some d3 => emit (d1 * 64 + d2 * 8 + d3) (scan_pystr raw q s4)
                            | None => emit (d1 * 8 + d2) (scan_pystr raw q s3)
                            end
                        | EmptyString => emit (d1 * 8 + d2) (scan_pystr raw q s3)
                        end
                    | None => emit d1 (scan_pystr raw q s'')
                    end
                | EmptyString => emit d1 (scan_pystr raw q s'')
                end
            | None =>
            if (e =? "x")%char then
              match s'' with
              | String h1 (String h2 s3) =>
                  match hex_val h1, hex_val h2 with
                  | Some a, Some b => emit (a * 16 + b) (scan_pystr raw q s3)
                  | _, _ => Raise SyntaxError
                  end
              | _ => Raise SyntaxError
              end
            else if (e =? "u")%char then
              match s'' with
              | String h1 (String h2 (String h3 (String h4 s3))) =>
                  match hex4 h1 h2 h3 h4 with
                  | Some cp => emit cp (scan_pystr raw q s3)
                  | None => Raise SyntaxError
                  end
              | _ => Raise SyntaxError
              end
            else if (e =? "U")%char then
              match s'' with
              | String h1 (String h2 (String h3 (String h4 (String h5 (String h6 (String h7 (String h8 s3))))))) =>
                  match hex4 h1 h2 h3 h4, hex4 h5 h6 h7 h8 with
                  | Some a, Some b => emit (a * 256 * 256 + b) (scan_pystr raw q s3)
                  | _, _ => Raise SyntaxError
                  end
              | _ => Raise SyntaxError
              end
            else if (e =? "N")%char then Raise ValueError
            else '(str, r) ← scan_pystr raw q s''; Ok (String c (String e str), r)
            end
            end
        end
      else '(str, r) ← scan_pystr raw q s'; Ok (String c str, r)
  end.

Definition is_quote (c : ascii) : bool := Ascii.eqb c squote || Ascii.eqb c dquote.

(** A string token at the start of [s]: [None] when [s] does not start
    with one.  Three quotes open a triple-quoted literal, outside the
    model. *)
Definition str_token (s : string) : option (result (string * string)) :=
  let quoted (raw : bool) (q : ascii) (t : string) :=
    match t with
    | String a (String b _) => if Ascii.eqb a q && Ascii.eqb b q then Raise ValueError else scan_pystr raw q t
    | _ => scan_pystr raw q t
    end in
  match s with
  | String c t =>
      if is_quote c then Some (quoted false c t)
      else if (c =? "u")%char || (c =? "U")%char || (c =? "r")%char || (c =? "R")%char then
        match t with
        | String q t' => if is_quote q then Some (quoted ((c =? "r")%char || (c =? "R")%char) q t') else None
        | EmptyString => None
        end
      else None
  | EmptyString => None
  end.

(** Implicit concatenation: the string tokens that follow the first. *)
Fixpoint str_seq (fuel : nat) (nl : bool) (acc s : string) : result (string * string) :=
  match fuel with
  | O => Raise SyntaxError
  | S f =>
      match str_token (ws nl s) with
      | Some r => '(str, rest) ← r; str_seq f nl (acc ++ str)%string rest
      | None => Ok (acc, s)
      end
  end.

(** ** Numbers *)

(** A run of digits with single underscores between them; [None] for a
    misplaced underscore. *)
Fixpoint udigits (s : string) : option (string * string) :=
  match s with
  | String c s' =>
      if is_digit_char c then '(d, r) ← udigits s'; Some (String c d, r)
      else if (c =? "_")%char then
        match s' with
        | String c2 _ => if is_digit_char c2 then udigits s' else None
        | EmptyString => None
        end
      else Some (EmptyString, s)
  | EmptyString => Some (EmptyString, s)
  end.

Definition starts_digit (s : string) : bool :=
  match s with String c _ => is_digit_char c | EmptyString => false end.

Definition opt_udigits (s : string) : option (string * string) :=
  if starts_digit s then udigits s else Some (EmptyString, s).

(** An exponent: [e] or [E], an optional sign, digits. *)
Definition py_exp (s : string) : option (Z * string) :=
  match s with
  | String e t =>
      if (e =? "e")%char || (e =? "E")%char then
        let '(neg, t1) := match t with
                          | String "-" u => (true, u)
                          | String "+" u => (false, u)
                          | _ => (false, t)
                          end in
        if starts_digit t1 then
          match udigits t1 with
          | Some (d, r) => Some ((if neg then - z_of_text d else z_of_text d)%Z, r)
          | None => None
          end
        else None
      else None
  | EmptyString => None
  end.

Fixpoint all_zero (s : string) : bool :=
  match s with String c s' => (c =? "0")%char && all_zero s' | EmptyString => true end.

Definition mk_float (d1 d2 : string) (ex : Z) : pyval :=
  let m := z_of_text (d1 ++ d2)%string in
  let e := (ex - Z.of_nat (String.length d2))%Z in
  let '(m', e') := strip_zeros_go (String.length (d1 ++ d2)%string) m e in
  if (m' =? 0)%Z then PFloat 0 0 else PFloat m' e'.

(** A number token at a digit or at a dot followed by a digit. *)
Definition scan_pynum (s : string) : result (pyval * string) :=
  match opt_udigits s with
  | None => Raise SyntaxError
  | Some (d1, r1) =>
      let num :=
        match r1 with
        | String "." r2 =>
            match opt_udigits r2 with
            | None => Raise SyntaxError
            | Some (d2, r3) =>
                match py_exp r3 with
                | Some (ex, r4) => Ok (mk_float d1 d2 ex, r4)
                | None => Ok (mk_float d1 d2 0, r3)
                end
            end
        | _ =>
            match py_exp r1 with
            | Some (ex, r4) => Ok (mk_float d1 EmptyString ex, r4)
            | None =>
                match d1 with
                | String "0" d1' => if all_zero d1' then Ok (PInt 0, r1) else Raise SyntaxError
                | _ => Ok (PInt (z_of_text d1), r1)
                end
            end
        end in
      '(v, r) ← num;
      match r with
      | String c _ => if (c =? "j")%char || (c =? "J")%char then Raise ValueError else Ok (v, r)
      | EmptyString => Ok (v, r)
      end
  end.

Definition number_start (s : string) : bool :=
  match s with
  | String c t => is_digit_char c || ((c =? ".")%char && starts_digit t)
  | EmptyString => false
  end.

Definition negate (v : pyval) : pyval :=
  match v with PInt z => PInt (- z) | PFloat m e => PFloat (- m) e | _ => v end.

(** ** Names *)

Definition is_ident_char (c : ascii) : bool :=
  let n := nat_of_ascii c in
  is_digit_char c || ((65 <=? n) && (n <=? 90)) || ((97 <=? n) && (n <=? 122)) || (n =? 95).

Fixpoint ident_run (s : string) : string * string :=
  match s with
  | String c s' => if is_ident_char c then let '(d, r) := ident_run s' in (String c d, r) else (EmptyString, s)
  | EmptyString => (EmptyString, s)
  end.

(** ** Containers *)

(** The first occurrence of each element. *)
Fixpoint dedup_first (seen l : list pyval) : list pyval :=
  match l with
  | [] => []
  | x :: l' => if bool_decide (x ∈ seen) then dedup_first seen l' else x :: dedup_first (x :: seen) l'
  end.

(** [dict(zip(keys, values))] and [set(elts)]. *)
Definition mk_dict (kvs : list (pyval * pyval)) : result pyval :=
  if forallb (fun kv => hashable kv.1) kvs then Ok (PDict (dict_of_list kvs)) else Raise TypeError.

Definition mk_set (vs : list pyval) : result pyval :=
  if forallb hashable vs then Ok (PSet (dedup_first [] vs)) else Raise TypeError.

Definition starts_with (c : ascii) (s : string) : bool :=
  match s with String d _ => Ascii.eqb c d | EmptyString => false end.

(** ** Expressions

    [name_err] is what a name other than [True], [False], [None] and
    [set()] raises: [ValueError] in [ast.literal_eval] (a malformed
    node), [NameError] in [eval] (an undefined name). *)

Section Parse.
Context (name_err : exc).

(** [lit_value fuel nl s]: the literal at the start of [s], which is at
    a token; [nl]: inside brackets.  The container parsers are entered
    after the opening bracket and the whitespace after it. *)
Fixpoint lit_value (fuel : nat) (nl : bool) (s : string) {struct fuel} : result (pyval * string) :=
  match fuel with
  | O => Raise SyntaxError
  | S f =>
      match str_token s with
      | Some r => '(str, rest) ← r; '(str', rest') ← str_seq (S (String.length rest)) nl str rest; Ok (PStr str', rest')
      | None =>
      match s with
      | String "[" s' => lit_list f (ws true s')
      | String "(" s' => lit_paren f (ws true s')
      | String "{" s' => lit_brace f (ws true s')
      | String c s' =>
          if (c =? "-")%char || (c =? "+")%char then
            let t := ws nl s' in
            if number_start t then '(v, r) ← scan_pynum t; Ok (if (c =? "-")%char then negate v else v, r)
            else Raise ValueError
          else if number_start s then scan_pynum s
          else
            let '(name, rest) := ident_run s in
            match name with
            | EmptyString => Raise SyntaxError
            | _ =>
                if String.eqb name "True" then Ok (PBool true, rest)
                else if String.eqb name "False" then Ok (PBool false, rest)
                else if String.eqb name "None" then Ok (PNone, rest)
                else if String.eqb name "set" then
                  match ws nl rest with
                  | String "(" r1 => match ws true r1 with String ")" r2 => Ok (PSet [], r2) | _ => Raise ValueError end
                  | _ => Raise ValueError
                  end
                else Raise name_err
            end
      | EmptyString => Raise SyntaxError
      end
      end
  end
with lit_list (fuel : nat) (s : string) {struct fuel} : result (pyval * string) :=
  match fuel with
  | O => Raise SyntaxError
  | S f =>
      match s with
      | String "]" r => Ok (PList [], r)
      | _ => '(items, r) ← lit_items f "]" s; Ok (PList items, r)
      end
  end
(** Elements separated by commas, an optional trailing comma, then the
    closing bracket [close]. *)
with lit_items (fuel : nat) (close : ascii) (s : string) {struct fuel} : result (list pyval * string) :=
  match fuel with
  | O => Raise SyntaxError
  | S f =>
      '(v, r) ← lit_value f true s;
      match ws true r with
      | String c r' =>
          if (c =? ",")%char then
            let r'' := ws true r' in
            match r'' with
            | String d r3 => if Ascii.eqb d close then Ok ([v], r3)
                             else '(vs, r4) ← lit_items f close r''; Ok (v :: vs, r4)
            | EmptyString => Raise SyntaxError
            end
          else if Ascii.eqb c close then Ok ([v], r')
          else Raise SyntaxError
      | EmptyString => Raise SyntaxError
      end
  end
(** [()], a parenthesised expression, or a tuple. *)
with lit_paren (fuel : nat) (s : string) {struct fuel} : result (pyval * string) :=
  match fuel with
  | O => Raise SyntaxError
  | S f =>
      match s with
      | String ")" r => Ok (PTuple [], r)
      | _ =>
          '(v, r) ← lit_value f true s;
          match ws true r with
          | String ")" r' => Ok (v, r')
          | String "," r' =>
              let r'' := ws true r' in
              match r'' with
              | String ")" r3 => Ok (PTuple [v], r3)
              | _ => '(vs, r3) ← lit_items f ")" r''; Ok (PTuple (v :: vs), r3)
              end
          | _ => Raise SyntaxError
          end
      end
  end
(** [{}], a dictionary, or a set: the first element decides. *)
with lit_brace (fuel : nat) (s : string) {struct fuel} : result (pyval * string) :=
  match fuel with
  | O => Raise SyntaxError
  | S f =>
      match s with
      | String "}" r => Ok (PDict [], r)
      | _ =>
          '(k, r) ← lit_value f true s;
          match ws true r with
          | String ":" r' =>
              '(v, r2) ← lit_value f true (ws true r');
              '(kvs, r3) ← lit_members f (ws true r2);
              d ← mk_dict ((k, v) :: kvs); Ok (d, r3)
          | String "," r' =>
              let r'' := ws true r' in
              match r'' with
              | String "}" r3 => st ← mk_set [k]; Ok (st, r3)
              | _ => '(vs, r3) ← lit_items f "}" r''; st ← mk_set (k :: vs); Ok (st, r3)
              end
          | String "}" r' => st ← mk_set [k]; Ok (st, r')
          | _ => Raise SyntaxError
          end
      end
  end
(** The members after the first, at the comma or brace that follows a
    member. *)
with lit_members (fuel : nat) (s : string) {struct fuel} : result (list (pyval * pyval) * string) :=
  match fuel with
  | O => Raise SyntaxError
  | S f =>
      match s with
      | String "}" r => Ok ([], r)
      | String "," r =>
          let r' := ws true r in
          match r' with
          | String "}" r2 => Ok ([], r2)
          | _ =>
              '(k, r2) ← lit_value f true r';
              match ws true r2 with
              | String ":" r3 =>
                  '(v, r4) ← lit_value f true (ws true r3);
                  '(kvs, r5) ← lit_members f (ws true r4);
                  Ok ((k, v) :: kvs, r5)
              | _ => Raise SyntaxError
              end
          end
      | _ => Raise SyntaxError
      end
  end.

(** The elements of a bare top-level tuple after a comma. *)
Fixpoint lit_top (fuel : nat) (s : string) : result (list pyval * string) :=
  match fuel with
  | O => Raise SyntaxError
  | S f =>
      let s' := ws false s in
      if trailing_ok s' then Ok ([], s')
      else
        '(v, r) ← lit_value (3 * S (String.length s')) false s';
        match ws false r with
        | String "," r2 => '(vs, r3) ← lit_top f r2; Ok (v :: vs, r3)
        | r2 => Ok ([v], r2)
        end
  end.

(** The literal of a whole text: [lstrip(" \t")], blank lines, the
    expression (a bare tuple if it has a top-level comma) and blank
    lines after it. *)
Definition literal_eval_gen (text : string) : result pyval :=
  s ← of_option SyntaxError (indent_ok false (skip_blank_lines (lstrip_st text) (lstrip_st text)));
  '(v, r) ← lit_value (3 * S (String.length s)) false s;
  '(v', r') ←
    match ws false r with
    | String "," r1 => '(vs, r2) ← lit_top (S (String.length r1)) r1; Ok (PTuple (v :: vs), r2)
    | r1 => Ok (v, r1)
    end;
  if trailing_ok r' then Ok v' else Raise SyntaxError.

End Parse.

(** [ast.literal_eval(text)] for a [str]. *)
Definition literal_eval (text : string) : result pyval := literal_eval_gen ValueError text.

(** [eval(text)] on a [str] holding a literal display: the same value;
    an undefined name raises [NameError].  Expressions other than
    literal displays (operators, calls, attributes) are outside the
    model. *)
Definition py_eval (text : string) : result pyval := literal_eval_gen NameError text.

(** [ast.literal_eval(x)] for any value: a value that is not a [str]
    is not an AST node either. *)
Definition literal_eval_val (x : pyval) : result pyval :=
  match x with PStr s => literal_eval s | _ => Raise ValueError end.
