(* ===== verification/Extractors.v ===== *)
(** * The extraction strategies of the post-processor

    [src/2_inference_module/post_process_generated_string.py] lines
    18-210: [load_structure] and the thirteen [extract_*] functions that
    each try one textual shape of a model answer and return either what
    they recovered or a sentinel string saying they found nothing.  Each
    is a function [string -> result pyval] built from the regular
    expressions of [Regex] (compiled from the source's pattern text,
    verbatim), [json_loads] and [literal_eval]; a [Raise] is an
    exception that escapes the function, an exception caught by the
    function's [try] is its [except] branch ([try_except]).

    In a pattern, [~] stands for the double quote, which a string of
    this file cannot hold; [dq] puts it back. *)

From S2P Require Import Prelude PyStr PyDict PyVal Regex Json PyLiteral.

(** ** Patterns and sentinels *)

Fixpoint dq (s : string) : string :=
  match s with
  | EmptyString => EmptyString
  | String c s' => String (if (c =? "~")%char then dquote else c) (dq s')
  end.

(** [re.findall(pattern, text, flags)]: [re.error] for a pattern that
    does not compile. *)
Definition findall_p (dotall : bool) (pattern text : string) : result (list (list string)) :=
  match re_compile dotall pattern with
  | Some r => Ok (re_findall r text)
  | None => Raise ValueError
  end.

(** [re.compile(pattern, flags).search(text)]. *)
Definition search_p (dotall : bool) (pattern text : string) : result (option (string * string * caps)) :=
  match re_compile dotall pattern with
  | Some r => Ok (re_search r text)
  | None => Raise ValueError
  end.

Definition pat_series : string := "\['(.*?)', '(.*?)', '(.*?)'\]".
Definition pat_lol_block : string := "(\[\[.*?\]\])".
Definition pat_lol_triple : string := "\['(.*?)',\s*'(.*?)',\s*'(.*?)'\]".
Definition pat_lod : string := "\[\s*\{.*?\}\s*\]".
Definition pat_json : string := "```(?:json)?\n([\s\S]*?)\n```".
Definition pat_tuples : string := dq "\(~([^~]+)~, ~([^~]+)~, ~([^~]+)~\)".
Definition pat_enum_list : string := "\d+\.\s+\[(.*?)\]".
Definition pat_enum_dict : string := "\d+\.\s+({.*?})".
Definition pat_enum_tuple : string := "\(\s*(.*?)\s*,\s*(.*?)\s*,\s*(.*?)\s*\)".
Definition pat_dash_tuples : string := "\d+\.\s+(.*?)\n".
Definition pat_dash_strings : string := "\d+\.\s*([^\n]+)".
Definition pat_dict_strings : string := "Subject: (.*?), Predicate: (.*?), Object: (.*?)\n".
Definition pat_dict_strings2 : string := "Subject: (.*?)\n\nPredicate: (.*?)\n\nObject: (.*?)\n\n".

Definition SENT_STRUCTURE : string := "Structure may be in the text. Try REGEX.".
Definition NO_SERIES : string := "No series of lists found in the text.".
Definition NO_LIST_OF_LISTS : string := "No list of lists found in the text.".
Definition NO_LIST_OF_DICTS : string := "List of dictionaries not found in the text.".
Definition NO_JSON : string := "JSON string not found in the text.".
Definition NO_TUPLES : string := "No list of tuples found in the text.".
Definition NO_ENUM_LIST : string := "No enumerated list found in the text.".
Definition NO_ENUM_DICTS : string := "No enumerated dicts found in the text.".
Definition NO_ENUM_LIST_OF_TUPLES : string := "No enumerated list of tuples found in the text.".
Definition NO_ENUM_TUPLES : string := "No enumerated tuples found in the text.".
Definition NO_DASH_TUPLES : string := "No enumerated tuples seperated by - found in the text.".
Definition NO_DASH_STRINGS : string := "No enumerated items separated by - found in the text.".
Definition NO_DICT_STRINGS : string := "No enumerated dict strings found in the text.".
Definition NO_STRUCTURE : string := "No structure found in the text.".

(** [[list(match) for match in matches]] for a pattern with groups. *)
Definition lists_of (matches : list (list string)) : pyval :=
  PList (map (fun m => PList (map PStr m)) matches).

(** The one group of each match of a pattern with one group. *)
Definition firsts (matches : list (list string)) : list string :=
  map (fun m => nth 0 m EmptyString) matches.

(** [if extraction == []: extraction = sentinel]. *)
Definition or_sentinel (sentinel : string) (extraction : pyval) : pyval :=
  if pyval_eqb extraction (PList []) then PStr sentinel else extraction.

(** ** The strategies *)

(** [load_structure] (lines 18-37): [json.loads], then
    [ast.literal_eval] with the [triples]/[triple] unwrapping and a
    final [json.loads] of the result. *)
Definition unwrap_triples (e : pyval) : result pyval :=
  has_triples ← py_in "triples" e;
  if (has_triples : bool) then getitem_str e "triples"
  else (has_triple ← py_in "triple" e;
        if (has_triple : bool) then getitem_str e "triple" else Ok e).

Definition literal_branch (text : string) : pyval :=
  try_except
    (e ← literal_eval text; e1 ← unwrap_triples e; json_loads_val e1)
    (fun _ => PStr SENT_STRUCTURE).

Definition load_structure (text : string) : pyval :=
  let extraction := try_except (json_loads text) (fun _ => PStr SENT_STRUCTURE) in
  if pyval_eqb extraction (PStr SENT_STRUCTURE) then literal_branch text else extraction.

(** [extract_series_of_lists] (lines 39-45). *)
Definition extract_series_of_lists (text : string) : result pyval :=
  matches ← findall_p false pat_series text;
  Ok (or_sentinel NO_SERIES (lists_of matches)).

(** [extract_list_of_lists] (lines 47-60): the first [[[...]]] block,
    then the quoted triples inside it; [.group] of [None] is an
    [AttributeError]. *)
Definition extract_list_of_lists (text : string) : result pyval :=
  Ok (try_except
    (m ← search_p true pat_lol_block text;
     m' ← of_option AttributeError m;
     part ← of_option TypeError (group m' 1);
     triples ← findall_p false pat_lol_triple part;
     Ok (lists_of triples))
    (fun _ => PStr NO_LIST_OF_LISTS)).

(** [extract_list_of_dicts] (lines 62-77). *)
Definition extract_list_of_dicts (text : string) : result pyval :=
  m ← search_p true pat_lod text;
  match m with
  | Some m' => Ok (try_except (literal_eval m'.1.1) (fun _ => PStr NO_LIST_OF_DICTS))
  | None => Ok (PStr NO_LIST_OF_DICTS)
  end.

(** [extract_json_string] (lines 79-88): the last fenced block. *)
Definition extract_json_string (text : string) : result pyval :=
  matches ← findall_p false pat_json text;
  Ok (try_except
    (block ← of_option IndexError (last (firsts matches)); json_loads block)
    (fun _ => PStr NO_JSON)).

(** [extract_list_of_tuples] (lines 90-102). *)
Definition extract_list_of_tuples (text : string) : result pyval :=
  Ok (try_except
    (matches ← findall_p false pat_tuples text; Ok (or_sentinel NO_TUPLES (lists_of matches)))
    (fun _ => PStr NO_TUPLES)).

(** [extract_enumerated_lists] (lines 105-115). *)
Definition extract_enumerated_lists (text : string) : result pyval :=
  Ok (try_except
    (items ← findall_p false pat_enum_list text;
     let extraction := PList (map (fun item => PList (map PStr (py_split ", " (py_replace "'" "" item))))
                                  (firsts items)) in
     Ok (or_sentinel NO_ENUM_LIST extraction))
    (fun _ => PStr NO_ENUM_LIST)).

(** [extract_enumerated_dicts] (lines 117-129): one failed
    [json.loads] empties the whole list. *)
Definition extract_enumerated_dicts (text : string) : result pyval :=
  Ok (try_except
    (items ← findall_p false pat_enum_dict text;
     let extraction := try_except (vs ← result_map json_loads (firsts items); Ok (PList vs))
                                  (fun _ => PList []) in
     Ok (or_sentinel NO_ENUM_DICTS extraction))
    (fun _ => PStr NO_ENUM_DICTS)).

(** [extract_enumerated_list_of_tuples] (lines 131-136): no [try], so
    an item that [ast.literal_eval] rejects raises out of the function. *)
Definition extract_enumerated_list_of_tuples (text : string) : result pyval :=
  items ← findall_p false pat_enum_list text;
  vs ← result_map literal_eval (firsts items);
  Ok (or_sentinel NO_ENUM_LIST_OF_TUPLES (PList vs)).

(** [extract_enumerated_tuples] (lines 138-145). *)
Definition extract_enumerated_tuples (text : string) : result pyval :=
  matches ← findall_p false pat_enum_tuple text;
  Ok (or_sentinel NO_ENUM_TUPLES (lists_of matches)).

(** [extract_dash_separeted_tuples] (lines 147-155). *)
Definition extract_dash_separeted_tuples (text : string) : result pyval :=
  Ok (try_except
    (items ← findall_p false pat_dash_tuples text;
     let extraction := PList (map (fun item => PList (map PStr (py_split " - " (py_replace (dq "~") "" item))))
                                  (firsts items)) in
     Ok (or_sentinel NO_DASH_TUPLES extraction))
    (fun _ => PStr NO_DASH_TUPLES)).

(** [extract_enumerated_dash_separated_strings] (lines 157-172): the
    last numbered line only, cut at every dot; the pieces holding
    [" - "] split on it. *)
Definition extract_enumerated_dash_separated_strings (text : string) : result pyval :=
  let extraction :=
    try_except
      (matches ← findall_p false pat_dash_strings text;
       lastm ← of_option IndexError (last (firsts matches));
       let pieces := py_split "." lastm in
       Ok (PList (map (fun i => PList (map PStr (py_split " - " i)))
                      (filter (fun i => py_contains " - " i) pieces))))
      (fun _ => PStr NO_DASH_STRINGS) in
  Ok (or_sentinel NO_DASH_STRINGS extraction).

(** The dictionary literal [{'subject': m[0], 'predicate': m[1], 'object': m[2]}]. *)
Definition triple_dict (ks : list string) (m : list string) : pyval :=
  PDict (zip (map PStr ks) (map PStr m)).

(** [extract_enumerated_dict_strings] (lines 174-187). *)
Definition extract_enumerated_dict_strings (text : string) : result pyval :=
  Ok (try_except
    (matches ← findall_p false pat_dict_strings text;
     Ok (or_sentinel NO_DICT_STRINGS (PList (map (triple_dict spo) matches))))
    (fun _ => PStr NO_DICT_STRINGS)).

(** [extract_enumerated_dict_strings2] (lines 189-210): the loop only
    rebinds [triple]; the one [append] after it adds the last binding,
    and an empty loop leaves [triple] unbound ([UnboundLocalError], a
    [NameError]). *)
Definition extract_enumerated_dict_strings2 (text : string) : result pyval :=
  Ok (try_except
    (matches ← findall_p true pat_dict_strings2 text;
     let triple := fold_left (fun _ m => Some (triple_dict SPO (map py_strip m))) matches None in
     t ← of_option NameError triple;
     Ok (or_sentinel NO_DICT_STRINGS (PList [t])))
    (fun _ => PStr NO_DICT_STRINGS)).

(** ** What each strategy returns

    Every strategy but [extract_enumerated_list_of_tuples] returns a
    value; all but [load_structure], [extract_list_of_dicts] and
    [extract_json_string] return either their own sentinel or a value
    that is not a [str].  The patterns are all in the subset of
    [re_compile] ([pattern_compiles]). *)

Definition is_str (v : pyval) : bool := match v with PStr _ => true | _ => false end.

Definition sent_or_nonstr (s : string) (v : pyval) : Prop := v = PStr s \/ is_str v = false.

Definition compiles (dotall : bool) (pattern : string) : bool := bool_decide (is_Some (re_compile dotall pattern)).

Lemma findall_p_ok d p text : compiles d p = true -> exists ms, findall_p d p text = Ok ms.
Proof. unfold compiles, findall_p. destruct (re_compile d p); [eauto | intros []%bool_decide_eq_true; discriminate]. Qed.

Lemma search_p_ok d p text : compiles d p = true -> exists m, search_p d p text = Ok m.
Proof. unfold compiles, search_p. destruct (re_compile d p); [eauto | intros []%bool_decide_eq_true; discriminate]. Qed.

Lemma or_sentinel_shape s v : sent_or_nonstr s v -> sent_or_nonstr s (or_sentinel s v).
Proof. unfold or_sentinel. destruct (pyval_eqb _ _); [by left | done]. Qed.

Lemma list_nonstr s l : sent_or_nonstr s (PList l).
Proof. by right. Qed.

Lemma try_except_shape s (body : result pyval) :
  (forall v, body = Ok v -> sent_or_nonstr s v) -> sent_or_nonstr s (try_except body (fun _ => PStr s)).
Proof. destruct body; simpl; [eauto | by left]. Qed.

#[export] Hint Resolve or_sentinel_shape list_nonstr : py.

(** Rewrite [findall_p] on a pattern of the source to its value. *)
Ltac compiled :=
  repeat match goal with
  | |- context [findall_p ?d ?p ?t] =>
      let ms := fresh "ms" in let E := fresh "E" in
      destruct (findall_p_ok d p t ltac:(vm_compute; reflexivity)) as [ms E]; rewrite E; clear E
  | |- context [search_p ?d ?p ?t] =>
      let m := fresh "m" in let E := fresh "E" in
      destruct (search_p_ok d p t ltac:(vm_compute; reflexivity)) as [m E]; rewrite E; clear E
  end.

Ltac shape_ok :=
  compiled; cbn [mbind result_bind]; eexists; split; [reflexivity|];
  first [ apply try_except_shape; intros ? ?; py_simp; auto with py
        | auto with py ].

Lemma series_of_lists_shape text : exists v, extract_series_of_lists text = Ok v /\ sent_or_nonstr NO_SERIES v.
Proof. unfold extract_series_of_lists, lists_of. shape_ok. Qed.

Lemma list_of_lists_shape text : exists v, extract_list_of_lists text = Ok v /\ sent_or_nonstr NO_LIST_OF_LISTS v.
Proof.
  unfold extract_list_of_lists. eexists. split; [reflexivity|].
  apply try_except_shape. intros v Hv. py_simp. unfold lists_of. auto with py.
Qed.

Lemma list_of_tuples_shape text : exists v, extract_list_of_tuples text = Ok v /\ sent_or_nonstr NO_TUPLES v.
Proof.
  unfold extract_list_of_tuples. eexists. split; [reflexivity|].
  apply try_except_shape. intros v Hv. py_simp. unfold lists_of. auto with py.
Qed.

Lemma enumerated_lists_shape text : exists v, extract_enumerated_lists text = Ok v /\ sent_or_nonstr NO_ENUM_LIST v.
Proof.
  unfold extract_enumerated_lists. eexists. split; [reflexivity|].
  apply try_except_shape. intros v Hv. py_simp. auto with py.
Qed.

Lemma enumerated_dicts_shape text : exists v, extract_enumerated_dicts text = Ok v /\ sent_or_nonstr NO_ENUM_DICTS v.
Proof.
  unfold extract_enumerated_dicts. eexists. split; [reflexivity|].
  apply try_except_shape. intros v Hv. py_simp. apply or_sentinel_shape.
  destruct (result_map _ _); simpl; auto with py.
Qed.

Lemma enumerated_tuples_shape text : exists v, extract_enumerated_tuples text = Ok v /\ sent_or_nonstr NO_ENUM_TUPLES v.
Proof. unfold extract_enumerated_tuples, lists_of. shape_ok. Qed.

Lemma dash_separeted_tuples_shape text : exists v, extract_dash_separeted_tuples text = Ok v /\ sent_or_nonstr NO_DASH_TUPLES v.
Proof.
  unfold extract_dash_separeted_tuples. eexists. split; [reflexivity|].
  apply try_except_shape. intros v Hv. py_simp. auto with py.
Qed.

Lemma dash_separated_strings_shape text :
  exists v, extract_enumerated_dash_separated_strings text = Ok v /\ sent_or_nonstr NO_DASH_STRINGS v.
Proof.
  unfold extract_enumerated_dash_separated_strings. eexists. split; [reflexivity|].
  apply or_sentinel_shape, try_except_shape. intros v Hv. py_simp. auto with py.
Qed.

Lemma dict_strings_shape text : exists v, extract_enumerated_dict_strings text = Ok v /\ sent_or_nonstr NO_DICT_STRINGS v.
Proof.
  unfold extract_enumerated_dict_strings. eexists. split; [reflexivity|].
  apply try_except_shape. intros v Hv. py_simp. auto with py.
Qed.

Lemma dict_strings2_shape text : exists v, extract_enumerated_dict_strings2 text = Ok v /\ sent_or_nonstr NO_DICT_STRINGS v.
Proof.
  unfold extract_enumerated_dict_strings2. eexists. split; [reflexivity|].
  apply try_except_shape. intros v Hv. py_simp. auto with py.
Qed.

Lemma list_of_dicts_ok text : exists v, extract_list_of_dicts text = Ok v.
Proof. unfold extract_list_of_dicts. compiled. cbn [mbind result_bind]. destruct m; eauto. Qed.

Lemma json_string_ok text : exists v, extract_json_string text = Ok v.
Proof. unfold extract_json_string. compiled. cbn [mbind result_bind]. eauto. Qed.

Lemma enumerated_list_of_tuples_shape text v :
  extract_enumerated_list_of_tuples text = Ok v -> sent_or_nonstr NO_ENUM_LIST_OF_TUPLES v.
Proof. unfold extract_enumerated_list_of_tuples. intros Hv. py_simp. auto with py. Qed.

(** [extract_enumerated_lists] and [extract_enumerated_list_of_tuples]
    search the same pattern: when the first finds nothing, so does the
    second, which then returns its sentinel without calling
    [ast.literal_eval]. *)
Lemma enumerated_list_of_tuples_after_lists text :
  extract_enumerated_lists text = Ok (PStr NO_ENUM_LIST) ->
  extract_enumerated_list_of_tuples text = Ok (PStr NO_ENUM_LIST_OF_TUPLES).
Proof.
  unfold extract_enumerated_lists, extract_enumerated_list_of_tuples. compiled.
  cbn [mbind result_bind try_except]. unfold or_sentinel.
  destruct (firsts ms); [reflexivity | discriminate].
Qed.

(** The [ast.literal_eval] branch of [load_structure] ends in
    [json.loads], which accepts only a [str]: whatever it recovers is the
    JSON decoding of a string literal (or of the string under a
    [triples]/[triple] key); a Python list or dict literal is never
    recovered by this branch. *)
Theorem literal_branch_needs_str text v :
  literal_branch text = v -> v <> PStr SENT_STRUCTURE ->
  exists e s, literal_eval text = Ok e /\ unwrap_triples e = Ok (PStr s) /\ json_loads s = Ok v.
Proof.
  unfold literal_branch. intros <- Hne.
  destruct (literal_eval text) as [e|] eqn:E; simpl in *; [|done].
  destruct (unwrap_triples e) as [e1|] eqn:U; simpl in *; [|done].
  destruct e1 as [| | | | s | | | |]; simpl in *; try done.
  destruct (json_loads s) eqn:J; simpl in *; [eauto | done].
Qed.

Lemma fold_some_last {A B} (f : B -> A) (l : list B) (o : option A) :
  fold_left (fun _ m => Some (f m)) l o = match last l with Some m => Some (f m) | None => o end.
Proof.
  revert o. induction l as [|b l IH]; intros o; [done|].
  simpl. rewrite IH. destruct l; simpl; [done|]. destruct (last (b0 :: l)) eqn:L; [done|].
  exfalso. clear IH. revert b0 L. induction l; simpl; [discriminate|]. intros ? L. eauto.
Qed.

(** [extract_enumerated_dict_strings2] keeps only the last match: the
    [append] stands after the loop, so of all the
    [Subject:/Predicate:/Object:] blocks found, one triple is returned. *)
Theorem dict_strings2_last_only text ms :
  findall_p true pat_dict_strings2 text = Ok ms ->
  extract_enumerated_dict_strings2 text =
    Ok (match last ms with
        | Some m => PList [triple_dict SPO (map py_strip m)]
        | None => PStr NO_DICT_STRINGS end).
Proof.
  unfold extract_enumerated_dict_strings2. intros ->. cbn [mbind result_bind].
  rewrite fold_some_last. destruct (last ms); reflexivity.
Qed.

(** ** Witnesses *)

Definition demo_dict2 : string :=
  "Subject: a" ++ nl ++ nl ++ "Predicate: p" ++ nl ++ nl ++ "Object: b" ++ nl ++ nl ++
  "Subject: c" ++ nl ++ nl ++ "Predicate: q" ++ nl ++ nl ++ "Object: d" ++ nl ++ nl.

Lemma literal_branch_needs_str_witness :
  exists e s, literal_eval "'[1]'" = Ok e /\ unwrap_triples e = Ok (PStr s) /\ json_loads s = Ok (PList [PInt 1]).
Proof. apply (literal_branch_needs_str "'[1]'"); [vm_compute; reflexivity | discriminate]. Defined.

Lemma dict_strings2_last_only_witness :
  extract_enumerated_dict_strings2 demo_dict2 = Ok (PList [triple_dict SPO ["c"; "q"; "d"]]).
Proof.
  rewrite (dict_strings2_last_only demo_dict2 [["a"; "p"; "b"]; ["c"; "q"; "d"]]) by (vm_compute; reflexivity).
  reflexivity.
Defined.

(** A Python list literal is not recovered by [load_structure]: both
    [json.loads] and the [literal_eval] branch fail on it. *)
Example literal_list_not_recovered :
  load_structure "[('a', 'b', 'c')]" = PStr SENT_STRUCTURE.
Proof. vm_compute. reflexivity. Qed.
