(* ===== verification/Cascade.v ===== *)
(** * The sentinel cascade of the post-processor's [main]

    [src/2_inference_module/post_process_generated_string.py] lines
    238-307: for every record of an input file, the stripped
    [generated_text] goes through [load_structure] and then through
    thirteen [if extraction == <sentinel>: extraction = extract_...(text)]
    tests, each comparing the current value with the sentinel of the
    strategy before it.  A list holding sets is then rewritten (lines
    294-300), the final sentinel becomes [[]], and the value is stored
    under [postprocessed].

    [cascade] is the chain of tests, [convert_sets] the rewriting loop
    with its aliasing of [extraction] and [new_extraction], and
    [postprocess_text] / [process_record] / [post_process_file] the body
    of the loop over records.  The theorems compare the cascade with the
    typed first-success chain the specification describes
    (section 9), show that no exception escapes it when no result
    equals a later sentinel, and that a result equal to a later
    sentinel makes it skip strategies and run one whose exception
    escapes. *)

From S2P Require Import Prelude PyStr PyDict PyVal Regex Json PyLiteral Extractors.

(** ** The cascade *)

(** A strategy, and the sentinel of the strategy before it (the value
    that makes [main] call it). *)
Definition stage : Type := string * (string -> result pyval).

(** [if extraction == sent: extraction = f(text)]. *)
Definition run_stage (text : string) (extraction : pyval) (st : stage) : result pyval :=
  if pyval_eqb extraction (PStr st.1) then st.2 text else Ok extraction.

(** Lines 251-292, in the source's order. *)
Definition stages : list stage :=
  [(SENT_STRUCTURE, extract_enumerated_dict_strings);
   (NO_DICT_STRINGS, extract_enumerated_dict_strings2);
   (NO_DICT_STRINGS, extract_series_of_lists);
   (NO_SERIES, extract_list_of_lists);
   (NO_LIST_OF_LISTS, extract_list_of_dicts);
   (NO_LIST_OF_DICTS, extract_json_string);
   (NO_JSON, extract_list_of_tuples);
   (NO_TUPLES, extract_enumerated_lists);
   (NO_ENUM_LIST, extract_enumerated_dash_separated_strings);
   (NO_DASH_STRINGS, extract_enumerated_dicts);
   (NO_ENUM_DICTS, extract_enumerated_list_of_tuples);
   (NO_ENUM_LIST_OF_TUPLES, extract_enumerated_tuples);
   (NO_ENUM_TUPLES, extract_dash_separeted_tuples);
   (NO_DASH_TUPLES, fun _ => Ok (PStr NO_STRUCTURE))].

Definition cascade (text : string) : result pyval :=
  fold_result (run_stage text) stages (load_structure text).

(** ** Sets (lines 294-300)

    [extraction = new_extraction] rebinds [extraction] to the list that
    the loop keeps appending to, while the [for] goes on over the old
    list: once a set has been seen, the final value is [new_extraction]
    with every set converted and every other item left out.  [rebound]
    records whether the rebinding happened. *)
Definition set_step (acc : list pyval * bool) (item : pyval) : list pyval * bool :=
  match item with
  | PSet l => (acc.1 ++ [PList l], true)
  | _ => acc
  end.

Definition convert_sets (extraction : pyval) : pyval :=
  match extraction with
  | PList items =>
      let '(new_extraction, rebound) := fold_left set_step items ([], false) in
      if rebound then PList new_extraction else extraction
  | _ => extraction
  end.

Definition is_set (v : pyval) : bool := match v with PSet _ => true | _ => false end.
Definition set_items (v : pyval) : pyval := match v with PSet l => PList l | _ => v end.

(** ** One record *)

(** Lines 248-306 for the stripped text. *)
Definition postprocess_text (text : string) : result pyval :=
  extraction ← cascade text;
  let extraction := convert_sets extraction in
  Ok (if pyval_eqb extraction (PStr NO_STRUCTURE) then PList [] else extraction).

(** Lines 246-307: [text = d["generated_text"].strip()], the cascade,
    and the store. *)
Definition process_record (d : pyval) : result pyval :=
  g ← getitem_str d "generated_text";
  text ← str_or AttributeError g;
  extraction ← postprocess_text (py_strip text);
  setitem_str d "postprocessed" extraction.

(** Lines 240-307 for the data of one file ([json.load] of it):
    [for i, d in enumerate(data)]. *)
Definition post_process_file (data : pyval) : result (list pyval) :=
  records ← py_iter data;
  result_map process_record records.

(** ** The typed chain of the specification

    Section 9 of the specification describes the cascade as an ordered
    list of strategies returning an option, tried until one succeeds.
    A strategy's result is its sentinel exactly when it found nothing. *)
Definition found (sentinel : string) (v : pyval) : option pyval :=
  if pyval_eqb v (PStr sentinel) then None else Some v.

(** The strategies with their own sentinels, [load_structure] first. *)
Definition strategies : list (string * (string -> result pyval)) :=
  [(SENT_STRUCTURE, fun t => Ok (load_structure t));
   (NO_DICT_STRINGS, extract_enumerated_dict_strings);
   (NO_DICT_STRINGS, extract_enumerated_dict_strings2);
   (NO_SERIES, extract_series_of_lists);
   (NO_LIST_OF_LISTS, extract_list_of_lists);
   (NO_LIST_OF_DICTS, extract_list_of_dicts);
   (NO_JSON, extract_json_string);
   (NO_TUPLES, extract_list_of_tuples);
   (NO_ENUM_LIST, extract_enumerated_lists);
   (NO_DASH_STRINGS, extract_enumerated_dash_separated_strings);
   (NO_ENUM_DICTS, extract_enumerated_dicts);
   (NO_ENUM_LIST_OF_TUPLES, extract_enumerated_list_of_tuples);
   (NO_ENUM_TUPLES, extract_enumerated_tuples);
   (NO_DASH_TUPLES, extract_dash_separeted_tuples)].

Fixpoint first_success (l : list (string * (string -> result pyval))) (text : string) : result (option pyval) :=
  match l with
  | [] => Ok None
  | (sent, f) :: l' => v ← f text; match found sent v with Some w => Ok (Some w) | None => first_success l' text end
  end.

(** The parse of the specification: [Unrecoverable] is the final
    sentinel of [main]. *)
Definition parse_spec (text : string) : result pyval :=
  o ← first_success strategies text; Ok (default (PStr NO_STRUCTURE) o).

(** The tests of [main] for a list of strategies: each strategy runs
    when the value equals the sentinel of the one before it; [final]
    runs after the last. *)
Fixpoint chain_stages (final : string -> result pyval) (s : string) (l : list (string * (string -> result pyval))) : list stage :=
  match l with
  | [] => [(s, final)]
  | (s', f') :: l' => (s, f') :: chain_stages final s' l'
  end.

(** A strategy that found something returns no sentinel of a later
    strategy: the hypothesis under which testing sentinels is the same
    as testing success. *)
Fixpoint no_collision (l : list (string * (string -> result pyval))) (text : string) : Prop :=
  match l with
  | [] => True
  | (s, f) :: l' =>
      (forall v, f text = Ok v -> v <> PStr s -> Forall (fun s' => v <> PStr s') (map fst l')) /\
      no_collision l' text
  end.

(** ** The cascade is the first-success chain *)

Lemma stages_chain :
  stages = chain_stages (fun _ => Ok (PStr NO_STRUCTURE)) SENT_STRUCTURE (tail strategies).
Proof. reflexivity. Qed.

Lemma pyval_eqb_str_ne v s : v <> PStr s -> pyval_eqb v (PStr s) = false.
Proof. intros Hne. apply not_true_is_false. by rewrite pyval_eqb_eq. Qed.

Lemma found_ne s v : v <> PStr s -> found s v = Some v.
Proof. intros Hne. unfold found. by rewrite pyval_eqb_str_ne. Qed.

Lemma found_eq s : found s (PStr s) = None.
Proof. unfold found. by rewrite (proj2 (pyval_eqb_eq _ _) eq_refl). Qed.

Lemma run_stage_skip text v s f : v <> PStr s -> run_stage text v (s, f) = Ok v.
Proof. intros Hne. unfold run_stage. cbn [fst]. by rewrite pyval_eqb_str_ne. Qed.

Lemma run_stage_hit text s f : run_stage text (PStr s) (s, f) = f text.
Proof. unfold run_stage. cbn [fst snd]. by rewrite (proj2 (pyval_eqb_eq _ _) eq_refl). Qed.

(** A value that is no sentinel of the stages passes through them. *)
Lemma fold_stages_skip text (l : list stage) v :
  Forall (fun s => v <> PStr s) (map fst l) -> fold_result (run_stage text) l v = Ok v.
Proof.
  induction l as [|[s f] l IH]; intros Hl; [done|].
  inversion Hl as [|? ? Hs Hl']; subst. cbn [fold_result]. rewrite run_stage_skip by done. by apply IH.
Qed.

Section Chain.
Context (text : string) (final : pyval).

Lemma fold_chain s l v :
  no_collision l text -> (v <> PStr s -> Forall (fun s' => v <> PStr s') (map fst l)) ->
  fold_result (run_stage text) (chain_stages (fun _ => Ok final) s l) v =
  match found s v with
  | Some w => Ok w
  | None => o ← first_success l text; Ok (default final o)
  end.
Proof.
  revert s v. induction l as [|[s' f'] l IH]; intros s v Hnc Hv.
  - cbn [chain_stages fold_result first_success].
    destruct (decide (v = PStr s)) as [->|Hne]; [rewrite run_stage_hit, found_eq | rewrite run_stage_skip, found_ne by done];
      reflexivity.
  - destruct Hnc as [Hhead Hnc]. cbn [chain_stages fold_result].
    destruct (decide (v = PStr s)) as [->|Hne].
    + rewrite run_stage_hit, found_eq.
      cbn [first_success]. destruct (f' text) as [v'|e]; [|reflexivity]. cbn [mbind result_bind].
      rewrite (IH s' v' Hnc (Hhead v' eq_refl)). by destruct (found s' v').
    + specialize (Hv Hne). rewrite found_ne by done.
      rewrite run_stage_skip by done. cbn [mbind result_bind].
      apply fold_stages_skip. clear -Hv. revert s' Hv.
      induction l as [|[s2 f2] l IH]; intros s' Hv; cbn in *; [exact Hv|].
      inversion Hv as [|? ? H1 H2]; subst. constructor; [done|]. exact (IH s2 H2).
Qed.

End Chain.

Lemma cascade_chain text :
  no_collision strategies text -> cascade text = parse_spec text.
Proof.
  intros [Hhead Hnc]. unfold cascade, parse_spec. rewrite stages_chain.
  rewrite (fold_chain text (PStr NO_STRUCTURE) SENT_STRUCTURE (tail strategies) (load_structure text) Hnc
             (Hhead _ eq_refl)).
  cbn [first_success strategies mbind result_bind]. by destruct (found _ _).
Qed.

(** C5: The refinement: when no strategy's result collides with a later
    sentinel, [main]'s chain of sentinel tests computes the first
    success of the strategies, [Unrecoverable] being its last
    sentinel. *)
Theorem cascade_first_success text :
  no_collision strategies text -> cascade text = parse_spec text.
Proof. exact (cascade_chain text). Qed.

(** ** No exception escapes the chain of strategies *)

Lemma found_None s v : found s v = None -> v = PStr s.
Proof. unfold found. destruct (pyval_eqb v (PStr s)) eqn:E; [intros _; by apply pyval_eqb_eq | discriminate]. Qed.

(** Run one strategy that returns a value inside [first_success]. *)
Ltac next_strategy H :=
  let v := fresh "v" in let E := fresh "E" in let F := fresh "F" in
  destruct H as (v & E & _); rewrite E; cbn [mbind result_bind];
  destruct (found _ v) eqn:F; [eauto|]; cbn [first_success].

Lemma first_success_ok text : exists o, first_success strategies text = Ok o.
Proof.
  cbn [first_success strategies mbind result_bind].
  destruct (found _ (load_structure text)); [eauto|]. cbn [first_success].
  next_strategy (dict_strings_shape text).
  next_strategy (dict_strings2_shape text).
  next_strategy (series_of_lists_shape text).
  next_strategy (list_of_lists_shape text).
  destruct (list_of_dicts_ok text) as [v5 E5]; rewrite E5; cbn [mbind result_bind].
  destruct (found _ v5); [eauto|]. cbn [first_success].
  destruct (json_string_ok text) as [v6 E6]; rewrite E6; cbn [mbind result_bind].
  destruct (found _ v6); [eauto|]. cbn [first_success].
  next_strategy (list_of_tuples_shape text).
  destruct (enumerated_lists_shape text) as (w & Ew & _); rewrite Ew; cbn [mbind result_bind].
  destruct (found _ w) eqn:Fw; [eauto|]. cbn [first_success].
  apply found_None in Fw. subst w.
  next_strategy (dash_separated_strings_shape text).
  next_strategy (enumerated_dicts_shape text).
  rewrite (enumerated_list_of_tuples_after_lists text Ew). cbn [mbind result_bind].
  rewrite found_eq. cbn [first_success].
  next_strategy (enumerated_tuples_shape text).
  next_strategy (dash_separeted_tuples_shape text).
  eauto.
Qed.

(** ** When the sentinels do not collide *)

(** [v] is none of the sentinels. *)
Definition not_sentinel (v : pyval) : Prop := Forall (fun s => v <> PStr s) (map fst strategies).

Lemma nonstr_not_str v (l : list string) : is_str v = false -> Forall (fun s => v <> PStr s) l.
Proof. intros Hv. apply Forall_forall. intros s _ ->. discriminate. Qed.

Lemma shape_no_collision s v (l : list string) :
  sent_or_nonstr s v -> v <> PStr s -> Forall (fun s' => v <> PStr s') l.
Proof. intros [->|Hv] Hne; [done | by apply nonstr_not_str]. Qed.

Lemma not_sentinel_sub v l : not_sentinel v -> incl l (map fst strategies) -> Forall (fun s => v <> PStr s) l.
Proof. unfold not_sentinel. rewrite !Forall_forall. intros H Hl s Hs. apply H, list_elem_of_In, Hl, list_elem_of_In, Hs. Qed.

(** A strategy of known shape does not collide; a strategy covered by
    a hypothesis of [no_collision_of] neither. *)
Local Ltac by_shape L :=
    intros v Hv Hne; destruct (L) as (w & Ew & Hw); rewrite Ew in Hv; injection Hv as <-;
    by apply (shape_no_collision _ _ _ Hw).
Local Ltac by_hyp H := intros v Hv Hne; apply not_sentinel_sub; [by apply H | intros s; simpl; tauto].

(** Only [load_structure], [extract_list_of_dicts] and
    [extract_json_string] can return a [str] of their own choosing: when
    none of them returns a sentinel (other than its own), the strategies
    do not collide. *)
Lemma no_collision_of text :
  (load_structure text <> PStr SENT_STRUCTURE -> not_sentinel (load_structure text)) ->
  (forall v, extract_list_of_dicts text = Ok v -> v <> PStr NO_LIST_OF_DICTS -> not_sentinel v) ->
  (forall v, extract_json_string text = Ok v -> v <> PStr NO_JSON -> not_sentinel v) ->
  no_collision strategies text.
Proof.
  intros Hl Hd Hj.
  cbn [no_collision strategies map fst].
  repeat split.
  - intros v [= <-] Hne. apply not_sentinel_sub; [by apply Hl | intros s; simpl; tauto].
  - by_shape (dict_strings_shape text).
  - by_shape (dict_strings2_shape text).
  - by_shape (series_of_lists_shape text).
  - by_shape (list_of_lists_shape text).
  - by_hyp Hd.
  - by_hyp Hj.
  - by_shape (list_of_tuples_shape text).
  - by_shape (enumerated_lists_shape text).
  - by_shape (dash_separated_strings_shape text).
  - by_shape (enumerated_dicts_shape text).
  - intros v Hv Hne. exact (shape_no_collision _ _ _ (enumerated_list_of_tuples_shape text v Hv) Hne).
  - by_shape (enumerated_tuples_shape text).
  - by_shape (dash_separeted_tuples_shape text).
Qed.

(** ** Main theorems *)

(** C6: When [load_structure], [extract_list_of_dicts] and
    [extract_json_string] return no sentinel but their own, the cascade
    of [main] returns a value: no exception escapes it. *)
Theorem cascade_total text :
  (load_structure text <> PStr SENT_STRUCTURE -> not_sentinel (load_structure text)) ->
  (forall v, extract_list_of_dicts text = Ok v -> v <> PStr NO_LIST_OF_DICTS -> not_sentinel v) ->
  (forall v, extract_json_string text = Ok v -> v <> PStr NO_JSON -> not_sentinel v) ->
  exists v, cascade text = Ok v.
Proof.
  intros Hl Hd Hj. rewrite cascade_chain by (by apply no_collision_of).
  unfold parse_spec. destruct (first_success_ok text) as [o ->]. eauto.
Qed.

(** A text that [json.loads] reads as a value other than a sentinel
    string is recovered by the first strategy, whatever the later
    strategies would find. *)
Theorem cascade_json_first text v :
  json_loads text = Ok v -> not_sentinel v -> cascade text = Ok v.
Proof.
  intros Hj Hv. unfold cascade, load_structure. rewrite Hj. cbn [try_except].
  assert (Hne : v <> PStr SENT_STRUCTURE) by (inversion Hv; done).
  rewrite pyval_eqb_str_ne by done.
  apply fold_stages_skip. apply not_sentinel_sub; [done | intros s; simpl; tauto].
Qed.


Lemma fold_set_step items acc b :
  fold_left set_step items (acc, b) =
  (acc ++ map set_items (filter is_set items), b || existsb is_set items).
Proof.
  revert acc b. induction items as [|x items IH]; intros acc b; simpl.
  - by rewrite app_nil_r, orb_false_r.
  - destruct x; simpl; rewrite IH; try done.
    by rewrite <- app_assoc, orb_true_r.
Qed.

(** The set rewriting of lines 294-300 keeps only the sets of a list
    holding one, converted to lists: every other item of that list is
    lost.  A list without sets, and any other value, is left alone. *)
Theorem convert_sets_spec items :
  convert_sets (PList items) =
  if existsb is_set items then PList (map set_items (filter is_set items)) else PList items.
Proof. unfold convert_sets. rewrite fold_set_step. simpl. by destruct (existsb is_set items). Qed.

(** ** Sentinel collisions *)

Lemma run_stage_skip_str text s s' f : String.eqb s s' = false -> run_stage text (PStr s) (s', f) = Ok (PStr s).
Proof. intros Hne. apply run_stage_skip. intros [= ->]. by rewrite String.eqb_refl in Hne. Qed.

(** C7: A value equal to a later strategy's sentinel makes [main] skip the
    strategies in between: when the extraction after the fenced-block
    strategy (line 267) is the sentinel of the enumerated dicts, the tests
    of the four next strategies (list of tuples, enumerated lists, dash
    separated strings, enumerated dicts) fail and [main] calls
    [extract_enumerated_list_of_tuples] on the text, whose exception
    escapes, then continues with the stages after it. *)
Theorem cascade_crash text :
  fold_result (run_stage text) (firstn 6 stages) (load_structure text) = Ok (PStr NO_ENUM_DICTS) ->
  cascade text = (v ← extract_enumerated_list_of_tuples text; fold_result (run_stage text) (skipn 11 stages) v).
Proof.
  intros H. unfold cascade. rewrite <- (take_drop 6 stages), fold_result_app, H, bind_Ok.
  cbn [stages drop fold_result].
  rewrite (run_stage_skip_str _ _ NO_JSON), bind_Ok, (run_stage_skip_str _ _ NO_TUPLES), bind_Ok, (run_stage_skip_str _ _ NO_ENUM_LIST), bind_Ok,
    (run_stage_skip_str _ _ NO_DASH_STRINGS), bind_Ok, run_stage_hit by reflexivity. reflexivity.
Qed.

(** ** Answers that show how the cascade behaves *)

(** The end-to-end scenario of section 8.6 of the specification. *)
Definition fenced_answer : string :=
  "Here is the result:" ++ nl ++ "```json" ++ nl ++ dq "[[~paris~, ~capital of~, ~france~]]" ++ nl ++ "```".

(** A fenced block holding a JSON string equal to a sentinel, then a
    numbered line whose brackets hold no literal. *)
Definition crash_answer : string :=
  "```" ++ nl ++ dq "~No enumerated dicts found in the text.~" ++ nl ++ "```" ++ nl ++ "1. [x]".

(** A JSON string equal to a sentinel. *)
Definition sentinel_answer : string := dq "~No series of lists found in the text.~".

Definition json_triples_answer : string := dq "[[~a~,~b~,~c~]]".

(** The fenced-block answer of section 8.6 is not recovered: the
    list-of-lists strategy finds the [[[...]]] block, finds no
    single-quoted triple inside it, and returns [[]], which is no
    sentinel, so the cascade stops there although the fenced-block
    strategy would have read the triple. *)
Theorem fenced_answer_not_recovered :
  cascade fenced_answer = Ok (PList []) /\
  extract_json_string fenced_answer = Ok (PList [PList [PStr "paris"; PStr "capital of"; PStr "france"]]).
Proof. split; vm_compute; reflexivity. Qed.

(** Sentinel tests differ from success tests: a JSON string equal to a
    sentinel is recovered by the first strategy of the specification's
    chain, while [main] treats it as a failure of a later strategy and
    ends with no structure. *)
Theorem sentinel_collision :
  cascade sentinel_answer = Ok (PStr NO_STRUCTURE) /\ parse_spec sentinel_answer = Ok (PStr NO_SERIES).
Proof. split; vm_compute; reflexivity. Qed.

(** ** Witnesses *)

(** The fenced block holds the sentinel of the enumerated dicts; the
    enumerated-list-of-tuples strategy then raises on [1. [x]]. *)
Lemma cascade_crash_witness :
  cascade crash_answer =
    (v ← extract_enumerated_list_of_tuples crash_answer; fold_result (run_stage crash_answer) (skipn 11 stages) v) /\
  extract_enumerated_list_of_tuples crash_answer = Raise ValueError.
Proof. split; [apply cascade_crash; vm_compute; reflexivity | vm_compute; reflexivity]. Defined.

Lemma cascade_json_first_witness :
  cascade json_triples_answer = Ok (PList [PList [PStr "a"; PStr "b"; PStr "c"]]).
Proof.
  apply cascade_json_first; [vm_compute; reflexivity|].
  repeat constructor; discriminate.
Defined.

Lemma cascade_total_witness : exists v, cascade fenced_answer = Ok v.
Proof.
  apply cascade_total.
  - vm_compute. intros H. by destruct H.
  - intros v Hv. vm_compute in Hv. injection Hv as <-. intros H. by destruct H.
  - intros v Hv _. vm_compute in Hv. injection Hv as <-. repeat constructor; discriminate.
Defined.

Lemma cascade_first_success_witness : cascade fenced_answer = parse_spec fenced_answer.
Proof.
  apply cascade_first_success. apply no_collision_of.
  - vm_compute. intros H. by destruct H.
  - intros v Hv. vm_compute in Hv. injection Hv as <-. intros H. by destruct H.
  - intros v Hv _. vm_compute in Hv. injection Hv as <-. repeat constructor; discriminate.
Defined.
