(* ===== verification/PostProcessing.v ===== *)
(** * The post-processor of linked outputs

    [src/post_processing.py]: the older post-processor, which reads the
    answers of the zero-shot chain-of-thought and ReAct prompts and of
    the other prompt files.  Every answer is lower-cased and stripped,
    then
    - for the chain-of-thought file, parenthesised triples are read
      with [extract_zero_shot_CoT];
    - for the ReAct file, a fenced JSON block is read
      ([extract_json_object_from_string]); without one the answer is
      [eval]-ed and normalised by [json.loads(json.dumps(.))], or cut
      from its first [{] to its last [}] and [eval]-ed again
      ([extract_and_load_json]); any exception falls back to
      [get_extracted_triples];
    - for any other file the answer is [eval]-ed and normalised, with
      [get_extracted_triples] as the fallback.

    Python rebinds [input_string] to the value [eval] returned, and the
    handlers see that binding: [react_body] returns it with the result.
    [eval] is [py_eval] on literal displays.

    The theorems: [get_extracted_triples] never raises on a [str] and
    keeps only the last [[[...]]] block of the answer, with every field
    lower-cased and stripped; without a block it iterates over the
    characters of its own sentinel and returns [[['.']]]. *)

From S2P Require Import Prelude PyStr PyDict PyVal Regex Json PyLiteral Extractors.

(** ** String helpers *)

(** [s.find(sub)]: the first index of [sub], or [-1]. *)
Fixpoint py_find (sub s : string) : Z :=
  if String.prefix sub s then 0%Z
  else match s with
       | EmptyString => (-1)%Z
       | String _ s' => let i := py_find sub s' in if (i <? 0)%Z then i else (i + 1)%Z
       end.

(** [s.rfind(sub)]: the last index of [sub], or [-1]. *)
Fixpoint py_rfind (sub s : string) : Z :=
  match s with
  | EmptyString => if String.prefix sub s then 0%Z else (-1)%Z
  | String _ s' =>
      let i := py_rfind sub s' in
      if (0 <=? i)%Z then (i + 1)%Z else if String.prefix sub s then 0%Z else (-1)%Z
  end.

(** [json.loads(json.dumps(x))]. *)
Definition json_normalise (x : pyval) : result pyval :=
  d ← json_dumps true x; json_loads d.

(** ** The extractors *)

Definition NO_TRIPLES : string := "No triples found.".
Definition NO_JSON_OBJECT : string := "No JSON object found in the input string.".

Definition pat_nested : string := "\[\[(.*?)\]\]".
Definition pat_cot : string := "\(([^,]+),\s*([^,]+),\s*([^)]+)\)".
Definition pat_react : string := "```json\n(.*?)```".

(** [extract_last_list_of_lists] (lines 17-30): newlines, double
    quotes, backslashes and single quotes are removed, then the
    contents of every [[[...]]] are found. *)
Definition clean_answer (s : string) : string :=
  py_strip (py_replace "'" "" (py_replace "\" "" (py_replace (dq "~") "" (py_replace nl "" s)))).

Definition nested_blocks (s : string) : result (list string) :=
  nested ← findall_p false pat_nested (clean_answer s); Ok (firsts nested).

Definition extract_last_list_of_lists (v : pyval) : result pyval :=
  s ← str_or AttributeError v;
  blocks ← nested_blocks s;
  Ok (or_sentinel NO_TRIPLES (PList (map PStr blocks))).

(** [extract_zero_shot_CoT] (lines 32-40). *)
Definition extract_zero_shot_CoT (s : string) : result pyval :=
  matches ← findall_p false pat_cot s;
  Ok (or_sentinel NO_TRIPLES (PList (map (fun m => PTuple (map (fun x => PStr (py_strip x)) m)) matches))).

(** One candidate of [get_extracted_triples] (lines 49-57): brackets,
    quotes and newlines removed, split into triples at ["], "] and into
    fields at [", "], each field lower-cased and stripped. *)
Definition process_candidate (c : string) : pyval :=
  let c1 := py_strip (py_replace nl "" (py_replace "'" "" (py_replace "[" "" c))) in
  PList (map (fun t => PList (map (fun item => PStr (py_strip (py_lower item))) (py_split ", " t)))
             (py_split "], " c1)).

(** [get_extracted_triples] (lines 43-59): the last candidate. *)
Definition get_extracted_triples (v : pyval) : result pyval :=
  canditates ← extract_last_list_of_lists v;
  cs ← py_iter canditates;
  processed ← result_map (fun c => c' ← str_or AttributeError c; Ok (process_candidate c')) cs;
  of_option IndexError (last processed).

(** [extract_json_object_from_string] (lines 61-74): [json.loads] of the
    first fenced JSON block, outside any [try]. *)
Definition extract_json_object_from_string (s : string) : result pyval :=
  m ← search_p true pat_react s;
  match m with
  | Some m' => block ← of_option TypeError (group m' 1); json_loads block
  | None => Ok (PStr NO_JSON_OBJECT)
  end.

(** [except (ValueError, json.JSONDecodeError)]. *)
Definition value_error (e : exc) : bool :=
  match e with ValueError | JSONDecodeError => true | _ => false end.

(** [extract_and_load_json] (lines 76-89): the text from the first [{]
    to the last [}], [eval]-ed, then [json.loads]; only [ValueError]
    (and [JSONDecodeError]) gives [None]. *)
Definition extract_and_load_json (v : pyval) : result pyval :=
  try_catch
    (s ← str_or AttributeError v;
     let json_string := py_slice s (py_find "{" s) (py_rfind "}" s + 1) in
     x ← py_eval json_string;
     json_loads_val x)
    (fun e => if value_error e then Ok PNone else Raise e).

(** ** One record (lines 121-156) *)

(** The [try] of lines 131-138 for the ReAct answer [s]: its outcome,
    and the value bound to [input_string] when it ended. *)
Definition react_body (s : string) : result pyval * pyval :=
  match extract_json_object_from_string s with
  | Raise e => (Raise e, PStr s)
  | Ok t =>
      if pyval_eqb t (PStr NO_JSON_OBJECT) then
        let '(r, binding) :=
          match py_eval s with
          | Ok x => (json_normalise x, x)
          | Raise e => (Raise e, PStr s)
          end in
        match r with
        | Ok t' => (Ok t', binding)
        | Raise _ => (extract_and_load_json binding, binding)
        end
      else (Ok t, PStr s)
  end.

(** The [try] of lines 146-150 for the other answers. *)
Definition default_body (s : string) : result pyval * pyval :=
  match py_eval s with
  | Ok x => (json_normalise x, x)
  | Raise e => (Raise e, PStr s)
  end.

(** A [try] whose bare [except] calls [get_extracted_triples] on the
    current binding of [input_string]. *)
Definition or_fallback (body : result pyval * pyval) : result pyval :=
  try_catch body.1 (fun _ => get_extracted_triples body.2).

Definition CoT_file : string := "zero_shot_CoT_prompts_test.json".
Definition ReAct_file : string := "zero_shot_ReAct_prompts_test.json".

(** [triples] for the answer [d['extraction']] of a record of [file]. *)
Definition process_extraction (file : string) (v : pyval) : result pyval :=
  s0 ← str_or AttributeError v;
  let s := py_strip (py_lower s0) in
  if String.eqb file CoT_file then extract_zero_shot_CoT s
  else if String.eqb file ReAct_file then or_fallback (react_body s)
  else or_fallback (default_body s).

Definition process_pp_record (file : string) (d : pyval) : result pyval :=
  v ← getitem_str d "extraction";
  triples ← process_extraction file v;
  setitem_str d "postprocessed" triples.

(** Lines 114-156 for the data of one file. *)
Definition process_pp_file (file : string) (data : pyval) : result (list pyval) :=
  records ← py_iter data;
  result_map (process_pp_record file) records.

(** ** [get_extracted_triples] *)

Lemma nested_blocks_ok s : exists blocks, nested_blocks s = Ok blocks.
Proof. unfold nested_blocks. compiled. cbn [mbind result_bind]. eauto. Qed.

Lemma result_map_str_ok (cs : list string) :
  result_map (fun c => c' ← str_or AttributeError c; Ok (process_candidate c')) (map PStr cs) =
  Ok (map process_candidate cs).
Proof. induction cs as [|c cs IH]; simpl; [done|]. by rewrite IH. Qed.

Lemma last_map {A B} (f : A -> B) l : last (map f l) = option_map f (last l).
Proof. induction l as [|x [|y l] IH]; simpl in *; auto. Qed.

Lemma get_extracted_triples_blocks s blocks :
  nested_blocks s = Ok blocks ->
  get_extracted_triples (PStr s) =
  Ok (match last blocks with Some c => process_candidate c | None => PList [PList [PStr "."]] end).
Proof.
  intros Hb. unfold get_extracted_triples, extract_last_list_of_lists. cbn [str_or mbind result_bind].
  rewrite Hb. cbn [mbind result_bind]. unfold or_sentinel.
  destruct blocks as [|b bs]; [reflexivity|].
  change (map PStr (b :: bs)) with (PStr b :: map PStr bs). cbn [pyval_eqb py_iter mbind result_bind].
  rewrite <- (map_cons PStr b bs), result_map_str_ok. cbn [mbind result_bind].
  rewrite last_map. destruct (last (b :: bs)) eqn:E; [reflexivity|].
  exfalso. clear Hb. revert b E. induction bs as [|x bs IH]; intros b E; [discriminate | exact (IH x E)].
Qed.

(** C10: [get_extracted_triples] on a [str] returns the processing of the
    last [[[...]]] block; with no block it iterates over the characters
    of its sentinel ["No triples found."] and returns the processing of
    ["."].  It never raises. *)
Theorem get_extracted_triples_last s blocks :
  nested_blocks s = Ok blocks ->
  get_extracted_triples (PStr s) =
  Ok (match last blocks with Some c => process_candidate c | None => PList [PList [PStr "."]] end).
Proof. exact (get_extracted_triples_blocks s blocks). Qed.

(** Every field [get_extracted_triples] returns is lower case. *)
Theorem get_extracted_triples_lower s ts :
  get_extracted_triples (PStr s) = Ok (PList ts) ->
  Forall (fun t => exists fs, t = PList (map PStr fs) /\ Forall (fun x => py_lower x = x) fs) ts.
Proof.
  destruct (nested_blocks_ok s) as [blocks Hb]. rewrite (get_extracted_triples_blocks s blocks Hb).
  assert (Hc : forall c ts, process_candidate c = PList ts ->
             Forall (fun t => exists fs, t = PList (map PStr fs) /\ Forall (fun x => py_lower x = x) fs) ts).
  { intros c ts' Hp. unfold process_candidate in Hp. injection Hp as <-. apply Forall_map, Forall_forall. intros t _.
    eexists. rewrite map_map. split; [reflexivity|].
    apply Forall_map, Forall_forall. intros x _. apply lower_strip_lower. }
  destruct (last blocks) as [c|]; intros Ht; injection Ht as E; [apply (Hc c); unfold process_candidate; by rewrite E | subst ts].
  repeat constructor. exists ["."%string]. split; [done|]. by repeat constructor.
Qed.

(** ** Records of the other prompt files *)

(** [json.loads(json.dumps(x))] is the JSON image of a value without
    floats or sets. *)
Lemma json_normalise_safe x : json_safe x = true -> json_normalise x = Ok (json_image x).
Proof.
  intros Hs. destruct (dumps_reads_back true x Hs) as (d & Ed & _).
  unfold json_normalise. rewrite Ed. cbn [mbind result_bind]. by apply (dumps_loads true).
Qed.

Lemma json_normalise_set l : json_normalise (PSet l) = Raise TypeError.
Proof. reflexivity. Qed.

(** An answer of another prompt file that [eval] reads as a literal
    without floats or sets is stored as its JSON image. *)
Theorem process_extraction_literal file s x :
  file <> CoT_file -> file <> ReAct_file ->
  py_eval (py_strip (py_lower s)) = Ok x -> json_safe x = true ->
  process_extraction file (PStr s) = Ok (json_image x).
Proof.
  intros Hc Hr He Hs. unfold process_extraction. cbn [str_or mbind result_bind].
  rewrite (proj2 (String.eqb_neq _ _) Hc), (proj2 (String.eqb_neq _ _) Hr).
  unfold or_fallback, default_body. rewrite He. cbn [fst]. by rewrite json_normalise_safe.
Qed.

(** C11: An answer of another prompt file that [eval] reads as a set makes
    the record raise: [json.dumps] rejects the set, and the fallback
    [get_extracted_triples] receives the set that [input_string] was
    rebound to and calls [.replace] on it. *)
Theorem process_extraction_set_crash file s l :
  file <> CoT_file -> file <> ReAct_file ->
  py_eval (py_strip (py_lower s)) = Ok (PSet l) ->
  process_extraction file (PStr s) = Raise AttributeError.
Proof.
  intros Hc Hr He. unfold process_extraction. cbn [str_or mbind result_bind].
  rewrite (proj2 (String.eqb_neq _ _) Hc), (proj2 (String.eqb_neq _ _) Hr).
  unfold or_fallback, default_body. rewrite He. reflexivity.
Qed.

(** ** Witnesses *)

Definition demo_nested : string := "Triples: [['A', 'B', 'C'], ['D', 'E', 'F']] and [['x', 'y', 'z']]".

Lemma get_extracted_triples_last_witness :
  get_extracted_triples (PStr demo_nested) = Ok (PList [PList [PStr "x"; PStr "y"; PStr "z"]]).
Proof.
  rewrite (get_extracted_triples_last demo_nested ["A, B, C], [D, E, F"; "x, y, z"]%string);
    [reflexivity | vm_compute; reflexivity].
Defined.

Lemma get_extracted_triples_lower_witness :
  Forall (fun t => exists fs, t = PList (map PStr fs) /\ Forall (fun x => py_lower x = x) fs)
    [PList [PStr "x"; PStr "y"; PStr "z"]].
Proof. apply (get_extracted_triples_lower demo_nested). vm_compute. reflexivity. Defined.

Lemma process_extraction_literal_witness :
  process_extraction "f.json" (PStr "[['Paris', 'capital of', 'France']]") =
  Ok (PList [PList [PStr "paris"; PStr "capital of"; PStr "france"]]).
Proof.
  apply (process_extraction_literal "f.json" _ (PList [PList [PStr "paris"; PStr "capital of"; PStr "france"]]));
    [discriminate | discriminate | vm_compute; reflexivity | reflexivity].
Defined.

Lemma process_extraction_set_crash_witness :
  process_extraction "f.json" (PStr "{'a', 'b', 'c'}") = Raise AttributeError.
Proof.
  apply (process_extraction_set_crash "f.json" _ [PStr "a"; PStr "b"; PStr "c"]);
    [discriminate | discriminate | vm_compute; reflexivity].
Defined.
