(* ===== verification/Retry.v ===== *)
(** * The [@retry] decorator

    The three remote calls of [src/general_evaluation_final.py] are
    decorated with [@retry(tries=3, delay=2, max_delay=25)] or
    [@retry(tries=3, delay=2, max_delay=5)] from the [retry] package.
    The decorator runs the function; when it raises, it decrements the
    remaining tries, re-raises if none is left, and otherwise sleeps the
    current delay, then updates it to [min(delay * backoff + jitter,
    max_delay)] and tries again.  [backoff] defaults to 1 and [jitter] to
    0, so with the repository's arguments the delay never grows.

    The decorated function is modelled by what it does at each attempt:
    [f : nat -> result A] gives the outcome of attempt number [i]
    (counted from 0).  [retry_call] returns the outcome together with the
    list of sleeps made, from which the number of attempts is read. *)

From S2P Require Import Prelude.

Record retry_policy := {
  tries : nat;
  delay : Z;
  max_delay : option Z;
  backoff : Z;
  jitter : Z
}.

(** [@retry(tries=3, delay=2, max_delay=25)] *)
Definition policy_search : retry_policy :=
  {| tries := 3; delay := 2%Z; max_delay := Some 25%Z; backoff := 1%Z; jitter := 0%Z |}.

(** [@retry(tries=3, delay=2, max_delay=5)] *)
Definition policy_sparql : retry_policy :=
  {| tries := 3; delay := 2%Z; max_delay := Some 5%Z; backoff := 1%Z; jitter := 0%Z |}.

(** [_delay *= backoff; _delay += jitter; _delay = min(_delay, max_delay)]. *)
Definition next_delay (p : retry_policy) (d : Z) : Z :=
  let d' := (d * backoff p + jitter p)%Z in
  match max_delay p with Some m => Z.min d' m | None => d' end.

Section Retry.
Context {A : Type} (p : retry_policy) (f : nat -> result A).

(** The loop of [__retry_internal]; [k] is the number of tries left
    after the current attempt. *)
Fixpoint retry_go (k : nat) (attempt : nat) (d : Z) : result A * list Z :=
  match f attempt with
  | Ok a => (Ok a, [])
  | Raise e =>
      match k with
      | O => (Raise e, [])
      | S k' => let '(r, sleeps) := retry_go k' (S attempt) (next_delay p d) in (r, d :: sleeps)
      end
  end.

(** A call of the decorated function, for [tries >= 1]. *)
Definition retry_call : result A * list Z := retry_go (tries p - 1) 0 (delay p).

(** ** Attempts, sleeps and outcome *)

Lemma retry_go_sleeps k attempt d : length (retry_go k attempt d).2 <= k.
Proof.
  revert attempt d. induction k as [|k IH]; intros attempt d; simpl;
    destruct (f attempt); simpl; try lia.
  destruct (retry_go k (S attempt) (next_delay p d)) eqn:E. simpl.
  specialize (IH (S attempt) (next_delay p d)). rewrite E in IH. simpl in IH. lia.
Qed.

(** The first successful attempt ends the loop with its value. *)
Lemma retry_go_first_success k attempt d n a :
  n <= k ->
  (forall i, i < n -> exists e, f (attempt + i) = Raise e) ->
  f (attempt + n) = Ok a ->
  (retry_go k attempt d).1 = Ok a /\ length (retry_go k attempt d).2 = n.
Proof.
  revert k attempt d. induction n as [|n IH]; intros k attempt d Hn Hfail Hok.
  - rewrite Nat.add_0_r in Hok. destruct k; simpl; rewrite Hok; auto.
  - destruct k as [|k]; [lia|]. simpl.
    destruct (Hfail 0 ltac:(lia)) as [e He]. rewrite Nat.add_0_r in He. rewrite He.
    destruct (IH k (S attempt) (next_delay p d)) as [H1 H2].
    + lia.
    + intros i Hi. destruct (Hfail (S i) ltac:(lia)) as [e' He']. exists e'.
      by replace (S attempt + i) with (attempt + S i) by lia.
    + by replace (S attempt + n) with (attempt + S n) by lia.
    + destruct (retry_go k (S attempt) (next_delay p d)). simpl in *. auto.
Qed.

(** When every attempt fails, the last exception propagates after
    [k + 1] attempts. *)
Lemma retry_go_exhausted k attempt d :
  (forall i, i <= k -> exists e, f (attempt + i) = Raise e) ->
  exists e, f (attempt + k) = Raise e /\ retry_go k attempt d = (Raise e, (retry_go k attempt d).2)
            /\ length (retry_go k attempt d).2 = k.
Proof.
  revert attempt d. induction k as [|k IH]; intros attempt d Hfail.
  - destruct (Hfail 0 ltac:(lia)) as [e He]. exists e. simpl. rewrite Nat.add_0_r in *. by rewrite He.
  - destruct (Hfail 0 ltac:(lia)) as [e0 He0]. rewrite Nat.add_0_r in He0.
    destruct (IH (S attempt) (next_delay p d)) as (e & He & Hr & Hl).
    { intros i Hi. destruct (Hfail (S i) ltac:(lia)) as [e' He']. exists e'.
      by replace (S attempt + i) with (attempt + S i) by lia. }
    exists e. replace (attempt + S k) with (S attempt + k) by lia. split; [done|]. simpl. rewrite He0.
    destruct (retry_go k (S attempt) (next_delay p d)) as [r sl]. simpl in *.
    injection Hr as ->. split; [done|]. simpl. lia.
Qed.

(** A value returned by the loop is the value of one of the attempts. *)
Lemma retry_go_Ok_inv k attempt d a : (retry_go k attempt d).1 = Ok a -> exists n, f n = Ok a.
Proof.
  revert attempt d. induction k as [|k IH]; intros attempt d; simpl;
    destruct (f attempt) eqn:E; simpl; intros Hr.
  - injection Hr as <-. eauto.
  - discriminate.
  - injection Hr as <-. eauto.
  - destruct (retry_go k (S attempt) (next_delay p d)) eqn:R. simpl in Hr.
    apply (IH (S attempt) (next_delay p d)). by rewrite R.
Qed.

(** An attempt function that never raises is called exactly once. *)
Lemma retry_call_total (g : nat -> A) :
  (forall i, f i = Ok (g i)) -> retry_call = (Ok (g 0), []).
Proof.
  intros H. unfold retry_call.
  match goal with |- retry_go ?k _ _ = _ => destruct k end; simpl; by rewrite H.
Qed.

End Retry.

(** With [backoff = 1] and [jitter = 0] every sleep equals the initial
    delay when it is below [max_delay]. *)
Lemma next_delay_constant p d :
  backoff p = 1%Z -> jitter p = 0%Z -> (forall m, max_delay p = Some m -> (d <= m)%Z) ->
  next_delay p d = d.
Proof.
  intros Hb Hj Hm. unfold next_delay. rewrite Hb, Hj.
  destruct (max_delay p) eqn:E; [specialize (Hm z eq_refl); lia | lia].
Qed.

Lemma retry_go_sleeps_constant {A} p (f : nat -> result A) k attempt d :
  backoff p = 1%Z -> jitter p = 0%Z -> (forall m, max_delay p = Some m -> (d <= m)%Z) ->
  Forall (fun s => s = d) (retry_go p f k attempt d).2.
Proof.
  intros Hb Hj Hm. revert attempt. induction k as [|k IH]; intros attempt; simpl;
    destruct (f attempt); simpl; try constructor.
  rewrite (next_delay_constant p d Hb Hj Hm).
  specialize (IH (S attempt)). destruct (retry_go p f k (S attempt) d). simpl in *.
  by constructor.
Qed.

(** a decorated call whose attempt [n] succeeds after [n] failures,
    with [n] below [tries], returns that attempt's value after [n]
    sleeps: transient failures are retried until the service answers. *)
Theorem retry_call_eventually {A} p (f : nat -> result A) n a :
  n < tries p -> (forall i, i < n -> exists e, f i = Raise e) -> f n = Ok a ->
  (retry_call p f).1 = Ok a /\ length (retry_call p f).2 = n.
Proof.
  intros Hn Hfail Hok. unfold retry_call.
  apply (retry_go_first_success p f (tries p - 1) 0 (delay p) n a); [lia | done | done].
Qed.

(** ** Instances *)

Definition fails_once (i : nat) : result nat := if i <? 1 then Raise RequestError else Ok i.

Lemma retry_go_first_success_witness :
  (retry_go policy_search fails_once 2 0 2%Z).1 = Ok 1 /\ length (retry_go policy_search fails_once 2 0 2%Z).2 = 1.
Proof.
  apply (retry_go_first_success policy_search fails_once 2 0 2%Z 1 1);
    [lia | intros i Hi; exists RequestError; destruct i; [reflexivity | lia] | reflexivity].
Defined.

Lemma retry_go_exhausted_witness :
  exists e, (fun _ : nat => @Raise nat RequestError) (0 + 2) = Raise e /\
    retry_go policy_search (fun _ => @Raise nat RequestError) 2 0 2%Z =
      (Raise e, (retry_go policy_search (fun _ => @Raise nat RequestError) 2 0 2%Z).2) /\
    length (retry_go policy_search (fun _ => @Raise nat RequestError) 2 0 2%Z).2 = 2.
Proof. apply retry_go_exhausted. intros i _. exists RequestError. reflexivity. Defined.

Lemma retry_call_eventually_witness :
  (retry_call policy_search fails_once).1 = Ok 1 /\ length (retry_call policy_search fails_once).2 = 1.
Proof.
  apply (retry_call_eventually policy_search fails_once 1 1);
    [simpl; lia | intros i Hi; exists RequestError; destruct i; [reflexivity | lia] | reflexivity].
Defined.
