(* ===== verification/Wikidata.v ===== *)
(** * The remote Wikidata calls of [general_evaluation_final.py]

    The evaluation talks to two endpoints: the label search API
    ([wbsearchentities], in [get_wiki_ID]) and the SPARQL endpoint (in
    [execute_sparql_query] and [check_triple_exists]).  A request is
    identified by the template it fills and the values substituted into
    it ([request]).  The service is an interface, [WikidataService]:
    [respond r i] is the decoded JSON answer to request [r] at attempt
    [i] of the current call, or the exception raised while sending or
    decoding it.  Every theorem below holds for every service.

    [RequestError] stands for the [requests.exceptions.RequestException]
    family (HTTP errors from [raise_for_status], connection errors,
    timeouts, undecodable JSON bodies); the other exceptions are the ones
    Python raises while indexing the decoded answer. *)

From S2P Require Import Prelude PyVal Retry.

Inductive search_type := QEntity | QProperty.

(** The four SPARQL templates of [evaluate]: [domain_check],
    [range_check], [instanceOf_check] and [subclassOf_check], with the
    value substituted for [$item]. *)
Inductive sparql_query :=
| QDomain (item : string)
| QRange (item : string)
| QInstanceOf (item : string)
| QSubclassOf (item : string).

Inductive request :=
| Search (query : string) (t : search_type)
| Sparql (q : sparql_query)
| Ask (subject predicate object : string).

Class WikidataService := { respond : request -> nat -> result pyval }.

(** The sentinel that stands for an unresolved string. *)
Definition no_wikiID : pyval := PStr "no-wikiID".

Definition is_no_wikiID (v : pyval) : bool :=
  match v with PStr s => String.eqb s "no-wikiID" | _ => false end.

Section Calls.
Context `{WikidataService}.

(** The body of [get_wiki_ID] (lines 63-72): build the URL for the query
    type, fetch, and return [data['search'][0]['id']]; the bare
    [except] turns any exception into ['no-wikiID']. *)
Definition get_wiki_ID_body (query : string) (t : search_type) (attempt : nat) : result pyval :=
  Ok (try_except
        (data ← respond (Search query t) attempt;
         hits ← getitem_str data "search";
         first ← getitem_idx hits 0;
         getitem_str first "id")
        (fun _ => no_wikiID)).

(** [@retry(tries=3, delay=2, max_delay=25) def get_wiki_ID]. *)
Definition get_wiki_ID (query : string) (t : search_type) : result pyval * list Z :=
  retry_call policy_search (get_wiki_ID_body query t).

(** The body of [execute_sparql_query] (lines 86-107): the four
    [except] clauses catch the whole [RequestException] family, print,
    and fall off the end of the function, returning [None]. *)
Definition execute_sparql_query_body (q : sparql_query) (attempt : nat) : result pyval :=
  match respond (Sparql q) attempt with
  | Ok data => Ok data
  | Raise RequestError => Ok PNone
  | Raise e => Raise e
  end.

(** [@retry(tries=3, delay=2, max_delay=5) def execute_sparql_query]. *)
Definition execute_sparql_query (q : sparql_query) : result pyval * list Z :=
  retry_call policy_sparql (execute_sparql_query_body q).

(** The body of [check_triple_exists] (lines 75-83): no [try], so a
    failed request or a reply without ['boolean'] raises. *)
Definition check_triple_exists_body (s p o : string) (attempt : nat) : result pyval :=
  data ← respond (Ask s p o) attempt;
  getitem_str data "boolean".

(** [@retry(tries=3, delay=2, max_delay=25) def check_triple_exists]. *)
Definition check_triple_exists (s p o : string) : result pyval * list Z :=
  retry_call policy_search (check_triple_exists_body s p o).

(** ** What the decorated calls do *)

(** [get_wiki_ID] never raises and sends exactly one request: its body
    swallows every exception, so the decorator never retries. *)
Lemma get_wiki_ID_one_attempt query t :
  get_wiki_ID query t =
  (Ok (try_except
         (data ← respond (Search query t) 0;
          hits ← getitem_str data "search";
          first ← getitem_idx hits 0;
          getitem_str first "id")
         (fun _ => no_wikiID)), []).
Proof. unfold get_wiki_ID. apply retry_call_total with (g := fun i => _). intros i. reflexivity. Qed.

(** A failed search resolves to the sentinel. *)
Lemma get_wiki_ID_failure query t e :
  respond (Search query t) 0 = Raise e -> get_wiki_ID query t = (Ok no_wikiID, []).
Proof. intros He. rewrite get_wiki_ID_one_attempt, He. reflexivity. Qed.

(** [execute_sparql_query] never raises on a [RequestException]: it
    returns [None] after a single attempt. *)
Lemma execute_sparql_query_request_error q :
  respond (Sparql q) 0 = Raise RequestError -> execute_sparql_query q = (Ok PNone, []).
Proof.
  intros He. unfold execute_sparql_query, retry_call. simpl.
  unfold execute_sparql_query_body. by rewrite He.
Qed.

(** [check_triple_exists] retries: when its three attempts fail, the
    last exception escapes after two sleeps of two seconds. *)
Lemma check_triple_exists_exhausted s p o :
  (forall i, i <= 2 -> exists e, check_triple_exists_body s p o i = Raise e) ->
  exists e, check_triple_exists s p o = (Raise e, [2%Z; 2%Z]).
Proof.
  intros Hfail. unfold check_triple_exists, retry_call.
  change (tries policy_search - 1) with 2. change (delay policy_search) with 2%Z.
  destruct (retry_go_exhausted policy_search (check_triple_exists_body s p o) 2 0 2 Hfail)
    as (e & _ & Hr & Hl).
  pose proof (retry_go_sleeps_constant policy_search (check_triple_exists_body s p o) 2 0 2
                eq_refl eq_refl ltac:(intros m [= <-]; lia)) as Hc.
  exists e. rewrite Hr. f_equal.
  destruct (retry_go policy_search (check_triple_exists_body s p o) 2 0 2) as [r sl].
  simpl in *. destruct sl as [|a [|b [|c l]]]; simpl in Hl; try lia.
  by inversion Hc as [|? ? -> Hc']; inversion Hc' as [|? ? -> _].
Qed.

End Calls.

(** ** Instances: a service whose every request fails *)

#[local] Instance down_service : WikidataService := {| respond _ _ := Raise RequestError |}.

Lemma check_triple_exists_exhausted_witness :
  exists e, check_triple_exists "Q90" "P1376" "Q142" = (Raise e, [2%Z; 2%Z]).
Proof. apply check_triple_exists_exhausted. intros i _. exists RequestError. reflexivity. Defined.

Lemma execute_sparql_query_request_error_witness : execute_sparql_query (QDomain "P1376") = (Ok PNone, []).
Proof. apply execute_sparql_query_request_error. reflexivity. Defined.

