(* ===== verification/Hierarchy.v ===== *)
(** * Class hierarchies, domains and ranges

    [get_bindings_from_sparql_query] (lines 109-156 of
    [src/general_evaluation_final.py]) turns the JSON answer of one of
    the four SPARQL templates into dictionaries from labels to Wikidata
    ids: for [instanceOf]/[subclassOf], one dictionary per hop
    ([zero_hop] .. [three_hop], read from the variables [instanceOf] or
    [subclassOf], [superClass], [superSuperClass],
    [superSuperSuperClass]); for [domain]/[range], a single dictionary.
    [merge_dicts] merges the instance-of and subclass-of hierarchies of
    an entity, [find_matching_classes] finds the first hop holding a
    class of the relation's domain or range, and
    [convert_match_level_to_integer] turns the hop name into 0..3.

    Labels are dictionary keys; the SPARQL JSON results format makes
    every ['value'] a string, and the model reads a label as a string
    (a non-string label raises [TypeError] here, where Python would use
    it as a key). *)

From S2P Require Import Prelude PyStr PyDict PyVal Retry Wikidata.

(** What [get_bindings_from_sparql_query] returns. *)
Inductive bindings_result :=
| HopResults (h : dict string (dict string string))
| ClassResults (c : dict string string).

Definition hop_names : list string := ["zero_hop"; "one_hop"; "two_hop"; "three_hop"].

(** One [if var in i: ...] block of the loop: read the id (the last
    segment of the URI) and the label of [var], and record them. *)
Definition add_var (var : string) (row : pyval) (d : dict string string) : result (dict string string) :=
  present ← py_in var row;
  if (present : bool) then
    cell ← getitem_str row var;
    uri ← getitem_str cell "value";
    uri_s ← str_or AttributeError uri;
    lcell ← getitem_str row (var ++ "Label");
    label ← getitem_str lcell "value";
    label_s ← str_or TypeError label;
    Ok (dict_set d label_s (py_split_last "/" uri_s))
  else Ok d.

(** The body of the [instanceOf]/[subclassOf] loop for one row. *)
Definition hop_row (qt : string) (acc : dict string string * dict string string * dict string string * dict string string)
    (row : pyval) : result (dict string string * dict string string * dict string string * dict string string) :=
  let '(z, o, t, th) := acc in
  z' ← add_var qt row z;
  o' ← add_var "superClass" row o;
  t' ← add_var "superSuperClass" row t;
  th' ← add_var "superSuperSuperClass" row th;
  Ok (z', o', t', th').

(** [get_bindings_from_sparql_query] after the query: [response] is what
    [execute_sparql_query] returned. *)
Definition bindings_of_response (response : pyval) (qt : string) : result bindings_result :=
  results ← getitem_str response "results";
  bindings ← getitem_str results "bindings";
  if String.eqb qt "instanceOf" || String.eqb qt "subclassOf" then
    rows ← py_iter bindings;
    '(z, o, t, th) ← fold_result (hop_row qt) rows ([], [], [], []);
    Ok (HopResults [("zero_hop", z); ("one_hop", o); ("two_hop", t); ("three_hop", th)])
  else if String.eqb qt "domain" || String.eqb qt "range" then
    rows ← py_iter bindings;
    c ← fold_result (fun d row => add_var qt row d) rows [];
    Ok (ClassResults c)
  else Raise NameError.

Definition get_bindings_from_sparql_query `{WikidataService} (q : sparql_query) (qt : string)
  : result bindings_result :=
  response ← (execute_sparql_query q).1;
  bindings_of_response response qt.

(** [merge_dicts] on two label dictionaries: their values are strings,
    so every key of the second dictionary overwrites. *)
Definition merge_leaf (d1 d2 : dict string string) : dict string string :=
  fold_left (fun m kv => dict_set m kv.1 kv.2) d2 d1.

(** [merge_dicts] on two hop dictionaries: a hop present in both (both
    values are dictionaries) is merged recursively, a new hop is copied. *)
Definition merge_dicts (d1 d2 : dict string (dict string string)) : dict string (dict string string) :=
  fold_left (fun m kv =>
               match dict_get m kv.1 with
               | Some inner => dict_set m kv.1 (merge_leaf inner kv.2)
               | None => dict_set m kv.1 kv.2
               end) d2 d1.

(** The inner loop of [find_matching_classes]: the first [(label, id)]
    whose id is among the relation's classes. *)
Definition find_in_classes (classes rel : dict string string) : option (string * string) :=
  List.find (fun lw => bool_decide (lw.2 ∈ dict_values rel)) classes.

(** [find_matching_classes]: [(match_exists, matching_level,
    matched_wikiID, matched_label)]. *)
Fixpoint find_matching_classes (ent : dict string (dict string string)) (rel : dict string string)
  : bool * option string * option string * option string :=
  match ent with
  | [] => (false, None, None, None)
  | (hop, classes) :: ent' =>
      match find_in_classes classes rel with
      | Some (label, wid) => (true, Some hop, Some wid, Some label)
      | None => find_matching_classes ent' rel
      end
  end.

(** A matching level after [convert_match_level_to_integer]: an
    integer, or the unchanged input. *)
Inductive level := LvlNone | LvlName (s : string) | LvlInt (n : nat).

Definition convert_match_level_to_integer (m : option string) : level :=
  match m with
  | None => LvlNone
  | Some s =>
      if String.eqb s "zero_hop" then LvlInt 0
      else if String.eqb s "one_hop" then LvlInt 1
      else if String.eqb s "two_hop" then LvlInt 2
      else if String.eqb s "three_hop" then LvlInt 3
      else LvlName s
  end.

(** ** The hop search *)

Lemma find_in_classes_Some classes rel label wid :
  find_in_classes classes rel = Some (label, wid) ->
  In (label, wid) classes /\ wid ∈ dict_values rel.
Proof.
  unfold find_in_classes. intros H. split; [by eapply find_some|].
  apply find_some in H as [_ H]. by apply bool_decide_eq_true in H.
Qed.

Lemma find_in_classes_None classes rel :
  find_in_classes classes rel = None <-> forall label wid, In (label, wid) classes -> wid ∉ dict_values rel.
Proof.
  unfold find_in_classes. split.
  - intros H label wid Hin. apply (find_none _ _ H) in Hin. by apply bool_decide_eq_false in Hin.
  - intros H. destruct (List.find _ classes) as [[l w]|] eqn:E; [|done].
    apply find_some in E as [Hin Hw]. apply bool_decide_eq_true in Hw. by destruct (H l w Hin).
Qed.

(** [find_matching_classes] scans the hops in order and stops at the
    first one that holds a class of the relation: every earlier hop
    holds none, and the returned id and label are an entry of that hop
    whose id is among the relation's classes. *)
Lemma find_matching_classes_first ent rel hop wid label :
  find_matching_classes ent rel = (true, Some hop, Some wid, Some label) ->
  exists pre classes post,
    ent = pre ++ (hop, classes) :: post /\
    (forall h c, In (h, c) pre -> find_in_classes c rel = None) /\
    find_in_classes classes rel = Some (label, wid) /\
    In (label, wid) classes /\ wid ∈ dict_values rel.
Proof.
  induction ent as [|[h c] ent IH]; simpl; [discriminate|].
  destruct (find_in_classes c rel) as [[l w]|] eqn:E.
  - intros [= <- <- <-]. exists [], c, ent. split; [done|]. split; [by intros ?? []|].
    split; [done|]. by apply find_in_classes_Some.
  - intros (pre & classes & post & -> & Hpre & Hf & Hin)%IH.
    exists ((h, c) :: pre), classes, post. split; [done|]. split; [|done].
    intros h' c' [[= <- <-]|Hin']; [done | by eapply Hpre].
Qed.

(** A failed search means no hop holds any class of the relation. *)
Lemma find_matching_classes_none ent rel :
  (find_matching_classes ent rel).1.1.1 = false <->
  forall hop classes label wid, In (hop, classes) ent -> In (label, wid) classes -> wid ∉ dict_values rel.
Proof.
  induction ent as [|[h c] ent IH]; simpl; [split; [by intros _ ???? []| done]|].
  destruct (find_in_classes c rel) as [[l w]|] eqn:E; simpl.
  - split; [discriminate|]. intros H. apply find_in_classes_Some in E as [Hin Hw].
    by destruct (H h c l w (or_introl eq_refl) Hin).
  - rewrite IH. rewrite find_in_classes_None in E. split.
    + intros H hop classes label wid [[= <- <-]|Hin]; [apply E | eapply H; eauto].
    + intros H hop classes label wid Hin Hlw. eapply H; [by right | exact Hlw].
Qed.

(** The search returns either a full match or nothing. *)
Lemma find_matching_classes_cases ent rel :
  find_matching_classes ent rel = (false, None, None, None) \/
  exists hop wid label, find_matching_classes ent rel = (true, Some hop, Some wid, Some label).
Proof.
  induction ent as [|[h c] ent IH]; simpl; [by left|].
  destruct (find_in_classes c rel) as [[l w]|]; [right; eauto | exact IH].
Qed.

(** ** Merging the instance-of and subclass-of hierarchies *)

(** Last writer wins, label by label: a label of the second dictionary
    takes its value there, any other label keeps the first one's. *)
Lemma merge_leaf_get d1 d2 k :
  dict_wf d2 ->
  dict_get (merge_leaf d1 d2) k = (match dict_get d2 k with Some v => Some v | None => dict_get d1 k end).
Proof.
  unfold merge_leaf. revert d1. induction d2 as [|[k' v'] d2 IH]; intros d1 Hwf; simpl; [done|].
  apply dict_wf_cons in Hwf as [Hk' Hwf]. rewrite IH by done.
  rewrite dict_get_set. case_decide as Hkk; subst; simpl.
  - rewrite decide_True by done. by rewrite (proj2 (dict_get_None d2 k) Hk').
  - by rewrite decide_False by congruence.
Qed.

(** A hop present in both hierarchies is the label-wise merge of the
    two; a hop present in one is taken from it. *)
Lemma merge_dicts_get d1 d2 hop :
  dict_wf d2 ->
  dict_get (merge_dicts d1 d2) hop =
  match dict_get d2 hop, dict_get d1 hop with
  | Some v2, Some v1 => Some (merge_leaf v1 v2)
  | Some v2, None => Some v2
  | None, o => o
  end.
Proof.
  unfold merge_dicts. revert d1. induction d2 as [|[k' v'] d2 IH]; intros d1 Hwf;
    cbn [fold_left dict_get]; [done|].
  apply dict_wf_cons in Hwf as [Hk' Hwf]. rewrite IH by done.
  destruct (decide (hop = k')) as [->|Hne]; cbn [fst snd].
  - rewrite (proj2 (dict_get_None d2 k') Hk'). cbn.
    destruct (dict_get d1 k'); by rewrite dict_get_set_eq.
  - rewrite ?decide_False by done.
    destruct (dict_get d1 k'); rewrite dict_get_set_ne by congruence; done.
Qed.

(** Merging keeps the hop order of the first hierarchy when the second
    has no new hop. *)
Lemma merge_dicts_keys d1 d2 :
  (forall k, k ∈ dict_keys d2 -> k ∈ dict_keys d1) -> dict_keys (merge_dicts d1 d2) = dict_keys d1.
Proof.
  unfold merge_dicts. revert d1. induction d2 as [|[k' v'] d2 IH]; intros d1 Hsub; simpl; [done|].
  assert (Hk' : k' ∈ dict_keys d1) by (apply Hsub; unfold dict_keys; simpl; set_solver).
  assert (Hkeys : forall w, dict_keys (dict_set d1 k' w) = dict_keys d1)
    by (intros w; rewrite dict_keys_set; by rewrite bool_decide_true).
  destruct (dict_get d1 k'); rewrite IH, Hkeys; try done;
    intros k Hk; rewrite Hkeys; apply Hsub; unfold dict_keys in *; simpl; set_solver.
Qed.

(** ** Hop names and levels *)

Lemma hop_result_keys (z o t th : dict string string) :
  dict_keys [("zero_hop", z); ("one_hop", o); ("two_hop", t); ("three_hop", th)] = hop_names.
Proof. reflexivity. Qed.

(** Every hierarchy [get_bindings_from_sparql_query] returns has the four
    hops, in the order zero, one, two, three. *)
Lemma bindings_of_response_keys response qt h :
  bindings_of_response response qt = Ok (HopResults h) -> dict_keys h = hop_names.
Proof.
  unfold bindings_of_response. intros H. py_simp.
  destruct (String.eqb qt "instanceOf" || String.eqb qt "subclassOf");
    [|destruct (String.eqb qt "domain" || String.eqb qt "range")]; py_simp.
  match goal with H : match ?x with _ => _ end = _ |- _ => destruct x as [[[z o] t] th] end.
  py_simp. reflexivity.
Qed.

(** A hop of a hierarchy with the four standard hops converts to its
    position in [hop_names], an integer in 0..3. *)
Lemma convert_hop_name hop :
  hop ∈ hop_names ->
  exists n, convert_match_level_to_integer (Some hop) = LvlInt n /\ hop_names !! n = Some hop.
Proof.
  unfold hop_names. intros Hin.
  repeat (apply elem_of_cons in Hin as [->|Hin]; [eexists; split; reflexivity|]).
  by apply elem_of_nil in Hin.
Qed.

Lemma find_matching_classes_level ent rel hop wid label :
  dict_keys ent = hop_names ->
  find_matching_classes ent rel = (true, Some hop, Some wid, Some label) ->
  exists n, convert_match_level_to_integer (Some hop) = LvlInt n /\ hop_names !! n = Some hop.
Proof.
  intros Hkeys (pre & classes & post & -> & _)%find_matching_classes_first.
  apply convert_hop_name. rewrite <- Hkeys. unfold dict_keys. rewrite map_app. simpl. set_solver.
Qed.

(** ** Typed views used by the evaluation loop *)

(** The [domain]/[range] result as a label dictionary. *)
Definition get_class_dict `{WikidataService} (q : sparql_query) (qt : string) : result (dict string string) :=
  r ← get_bindings_from_sparql_query q qt;
  match r with ClassResults c => Ok c | HopResults _ => Raise TypeError end.

(** The [instanceOf]/[subclassOf] result as a hop dictionary. *)
Definition get_hop_dict `{WikidataService} (q : sparql_query) (qt : string)
  : result (dict string (dict string string)) :=
  r ← get_bindings_from_sparql_query q qt;
  match r with HopResults h => Ok h | ClassResults _ => Raise TypeError end.

(** The [Raise TypeError] branches above are unreachable: the query type
    decides the shape. *)
Lemma bindings_of_response_shape response qt r :
  bindings_of_response response qt = Ok r ->
  ((qt = "instanceOf" \/ qt = "subclassOf") /\ exists h, r = HopResults h) \/
  ((qt = "domain" \/ qt = "range") /\ exists c, r = ClassResults c).
Proof.
  unfold bindings_of_response. intros H. py_simp.
  destruct (String.eqb qt "instanceOf" || String.eqb qt "subclassOf") eqn:E1;
    [|destruct (String.eqb qt "domain" || String.eqb qt "range") eqn:E2]; py_simp.
  - match goal with H : match ?x with _ => _ end = _ |- _ => destruct x as [[[z o] t] th] end.
    py_simp. left. split; [|eauto].
    apply orb_true_iff in E1 as [?%String.eqb_eq | ?%String.eqb_eq]; auto.
  - right. split; [|eauto].
    apply orb_true_iff in E2 as [?%String.eqb_eq | ?%String.eqb_eq]; auto.
Qed.

(** C31: A failed SPARQL request aborts [get_bindings_from_sparql_query]:
    [execute_sparql_query] returns [None] and [None['results']] raises
    [TypeError], which nothing in [evaluate] catches. *)
Lemma get_bindings_request_error `{WikidataService} q qt :
  respond (Sparql q) 0 = Raise RequestError -> get_bindings_from_sparql_query q qt = Raise TypeError.
Proof.
  intros He. unfold get_bindings_from_sparql_query.
  rewrite (execute_sparql_query_request_error q He). reflexivity.
Qed.

(** ** Instances *)

Definition demo_hierarchy : dict string (dict string string) :=
  [("zero_hop", [("capital", "Q5119")]); ("one_hop", [("city", "Q515")]); ("two_hop", []); ("three_hop", [])].

Definition demo_range : dict string string := [("city", "Q515")].

Lemma find_matching_classes_first_witness :
  exists pre classes post,
    demo_hierarchy = pre ++ ("one_hop", classes) :: post /\
    (forall h c, In (h, c) pre -> find_in_classes c demo_range = None) /\
    find_in_classes classes demo_range = Some ("city", "Q515") /\
    In ("city", "Q515") classes /\ "Q515" ∈ dict_values demo_range.
Proof. apply find_matching_classes_first. vm_compute. reflexivity. Defined.

Lemma merge_leaf_get_witness :
  dict_get (merge_leaf [("city", "Q515"); ("human", "Q5")] [("city", "Q1549591")]) "city" =
  (match dict_get [("city", "Q1549591")] "city" with
   | Some v => Some v | None => dict_get [("city", "Q515"); ("human", "Q5")] "city" end).
Proof. apply merge_leaf_get. apply (bool_decide_unpack _). vm_compute. reflexivity. Defined.

Lemma merge_dicts_get_witness :
  dict_get (merge_dicts demo_hierarchy [("one_hop", [("town", "Q3957")])]) "one_hop" =
  match dict_get [("one_hop", [("town", "Q3957")])] "one_hop", dict_get demo_hierarchy "one_hop" with
  | Some v2, Some v1 => Some (merge_leaf v1 v2)
  | Some v2, None => Some v2
  | None, o => o
  end.
Proof. apply merge_dicts_get. apply (bool_decide_unpack _). vm_compute. reflexivity. Defined.

Definition demo_instanceOf_response : pyval :=
  PDict [(PStr "results", PDict [(PStr "bindings", PList [PDict
    [(PStr "instanceOf", PDict [(PStr "value", PStr "http://www.wikidata.org/entity/Q5119")]);
     (PStr "instanceOfLabel", PDict [(PStr "value", PStr "capital")])]])])].

Lemma bindings_of_response_keys_witness :
  dict_keys [("zero_hop", [("capital", "Q5119")]); ("one_hop", []); ("two_hop", []); ("three_hop", [])] =
  hop_names.
Proof. apply (bindings_of_response_keys demo_instanceOf_response "instanceOf"). vm_compute. reflexivity. Defined.

#[local] Instance failing_service : WikidataService := {| respond _ _ := Raise RequestError |}.

Lemma get_bindings_request_error_witness :
  get_bindings_from_sparql_query (QDomain "P1376") "domain" = Raise TypeError.
Proof. apply get_bindings_request_error. reflexivity. Defined.
