(* ===== verification/WikidataEval.v ===== *)
(** * The evaluation loop of [general_evaluation_final.py]

    [evaluate] (lines 199-568) reads, for every input file, the
    post-processed items, reads each item's triples with [read_triples],
    and for each triple resolves its three strings to Wikidata ids,
    fetches the relation's domain and range and the entities' class
    hierarchies, matches them, checks the statement, and records
    everything in counters and in an audit dictionary keyed by the
    triple.

    The per-file state of the loop is the record [eval_state]: the
    lists [extraction_reading_problems], [all_triples],
    [malformed_triples], the sets [all_relations] and [all_entities], the
    integer counters (a function from the counter names of the source to
    [nat]), [triple_dict], and the log of the remote calls made, in
    order.  The body of the loop is written in a state-and-exception
    monad [EvalM]: an exception raised by a remote call or by indexing
    escapes the loop and the whole run, as in the source, which has no
    [try] around it. *)

From S2P Require Import Prelude PyStr PyDict PyVal Retry Wikidata Hierarchy.

(** The counters of [evaluate], by their names in the source. *)
Inductive counter :=
| has_domain_range
| domain_range_matches
| zero_hop_matches
| one_hop_matches
| two_hop_matches
| three_hop_matches
| statement_matches
| both_statement_and_domain_range_matches
| has_domain_range_no_subject_no_object
| has_domain_range_only_subject_has_wikiId
| has_domain_range_only_subject_has_wikiId_and_match
| has_domain_range_only_object_has_wikiId
| has_domain_range_only_object_has_wikiId_and_match
| triples_with_all_components_in_wikidata.

#[export] Instance counter_eq_dec : EqDecision counter.
Proof. solve_decision. Defined.

(** An audit record, [triple_dict[triple_as_key]]: a JSON object. *)
Definition audit := dict string pyval.

Record eval_state := {
  extraction_reading_problems : list pyval;
  all_triples : list (list pyval);
  malformed_triples : list (list pyval);
  all_relations : list (string * pyval);
  all_entities : list (string * pyval);
  counts : counter -> nat;
  triple_dict : dict string audit;
  calls : list request
}.

Definition init_state : eval_state :=
  {| extraction_reading_problems := []; all_triples := []; malformed_triples := [];
     all_relations := []; all_entities := []; counts := fun _ => 0;
     triple_dict := []; calls := [] |}.

(** [s.add(x)] on a set kept as a duplicate-free list. *)
Definition set_add {A} `{EqDecision A} (x : A) (s : list A) : list A :=
  if decide (x ∈ s) then s else s ++ [x].

(** ** The state-and-exception monad *)

(** An action returns its outcome and the state reached, also when it
    raises: the effects made before a [raise] are not undone. *)
Definition EvalM (A : Type) : Type := eval_state -> result A * eval_state.

#[export] Instance evalM_ret : MRet EvalM := fun A a st => (Ok a, st).
#[export] Instance evalM_bind : MBind EvalM := fun A B f m st =>
  match m st with (Ok a, st') => f a st' | (Raise e, st') => (Raise e, st') end.

Definition modify (f : eval_state -> eval_state) : EvalM unit := fun st => (Ok tt, f st).
Definition lift {A} (r : result A) : EvalM A := fun st => (r, st).

(** [try: m except: h]. *)
Definition catchM {A} (m : EvalM A) (h : exc -> EvalM A) : EvalM A := fun st =>
  match m st with (Ok a, st') => (Ok a, st') | (Raise e, st') => h e st' end.

(** [for x in l: f(x)]. *)
Fixpoint forM_ {A} (l : list A) (f : A -> EvalM unit) : EvalM unit :=
  match l with
  | [] => mret tt
  | x :: l' => _ ← f x; forM_ l' f
  end.

Definition with_problems f st : eval_state :=
  {| extraction_reading_problems := f (extraction_reading_problems st); all_triples := all_triples st;
     malformed_triples := malformed_triples st; all_relations := all_relations st;
     all_entities := all_entities st; counts := counts st; triple_dict := triple_dict st; calls := calls st |}.
Definition with_all_triples f st : eval_state :=
  {| extraction_reading_problems := extraction_reading_problems st; all_triples := f (all_triples st);
     malformed_triples := malformed_triples st; all_relations := all_relations st;
     all_entities := all_entities st; counts := counts st; triple_dict := triple_dict st; calls := calls st |}.
Definition with_malformed f st : eval_state :=
  {| extraction_reading_problems := extraction_reading_problems st; all_triples := all_triples st;
     malformed_triples := f (malformed_triples st); all_relations := all_relations st;
     all_entities := all_entities st; counts := counts st; triple_dict := triple_dict st; calls := calls st |}.
Definition with_relations f st : eval_state :=
  {| extraction_reading_problems := extraction_reading_problems st; all_triples := all_triples st;
     malformed_triples := malformed_triples st; all_relations := f (all_relations st);
     all_entities := all_entities st; counts := counts st; triple_dict := triple_dict st; calls := calls st |}.
Definition with_entities f st : eval_state :=
  {| extraction_reading_problems := extraction_reading_problems st; all_triples := all_triples st;
     malformed_triples := malformed_triples st; all_relations := all_relations st;
     all_entities := f (all_entities st); counts := counts st; triple_dict := triple_dict st; calls := calls st |}.
Definition with_counts f st : eval_state :=
  {| extraction_reading_problems := extraction_reading_problems st; all_triples := all_triples st;
     malformed_triples := malformed_triples st; all_relations := all_relations st;
     all_entities := all_entities st; counts := f (counts st); triple_dict := triple_dict st; calls := calls st |}.
Definition with_triple_dict f st : eval_state :=
  {| extraction_reading_problems := extraction_reading_problems st; all_triples := all_triples st;
     malformed_triples := malformed_triples st; all_relations := all_relations st;
     all_entities := all_entities st; counts := counts st; triple_dict := f (triple_dict st); calls := calls st |}.
Definition with_calls f st : eval_state :=
  {| extraction_reading_problems := extraction_reading_problems st; all_triples := all_triples st;
     malformed_triples := malformed_triples st; all_relations := all_relations st;
     all_entities := all_entities st; counts := counts st; triple_dict := triple_dict st; calls := f (calls st) |}.

(** [c += 1]. *)
Definition incr (c : counter) : EvalM unit :=
  modify (with_counts (fun f c' => if decide (c = c') then S (f c') else f c')).

(** [triple_dict[key] = {...}]. *)
Definition record_new (key : string) (a : audit) : EvalM unit :=
  modify (with_triple_dict (fun td => dict_set td key a)).

(** [triple_dict[key][field] = v]. *)
Definition record (key field : string) (v : pyval) : EvalM unit :=
  modify (with_triple_dict (fun td => dict_set td key (dict_set (default [] (dict_get td key)) field v))).

(** The remote calls, logged before they are sent. *)
Definition log_call (r : request) : EvalM unit := modify (with_calls (fun cs => cs ++ [r])).

Section Calls.
Context `{WikidataService}.

Definition wiki_id (query : string) (t : search_type) : EvalM pyval :=
  _ ← log_call (Search query t); lift (get_wiki_ID query t).1.

Definition class_dict (q : sparql_query) (qt : string) : EvalM (dict string string) :=
  _ ← log_call (Sparql q); lift (get_class_dict q qt).

Definition hop_dict (q : sparql_query) (qt : string) : EvalM (dict string (dict string string)) :=
  _ ← log_call (Sparql q); lift (get_hop_dict q qt).

Definition statement (s p o : string) : EvalM pyval :=
  _ ← log_call (Ask s p o); lift (check_triple_exists s p o).1.

End Calls.

(** JSON views of the dictionaries stored in the audit record. *)
Definition pv_classes (d : dict string string) : pyval :=
  PDict (map (fun kv => (PStr kv.1, PStr kv.2)) d).
Definition pv_hops (h : dict string (dict string string)) : pyval :=
  PDict (map (fun kv => (PStr kv.1, pv_classes kv.2)) h).
Definition pv_level (l : level) : pyval :=
  match l with LvlNone => PNone | LvlName s => PStr s | LvlInt n => PInt (Z.of_nat n) end.
Definition pv_opt_str (o : option string) : pyval :=
  match o with Some s => PStr s | None => PNone end.

(** ** One triple (lines 341-500) *)

(** Line 218, in the source's order (with its two repeated entries). *)
Definition complicated_relations : list string :=
  ["are "; "can be "; "at "; "author "; "became "; "become "; "becomes "; "began "; "can be ";
   "can "; "had "; "had a "; "has an "; "has a "; "has an "; "has been "; "in "; "is "; "is a ";
   "is an "; "main "; "most "; "must "; "must be "; "was "; "was a "; "was an "; "will "; "will be "].

(** [f'{triple[0]} && {triple[1]} && {triple[2]}'] *)
Definition triple_as_key (t0 t1 t2 : pyval) : string :=
  py_str t0 ++ " && " ++ py_str t1 ++ " && " ++ py_str t2.

(** [max(domain_matching_level, range_matching_level)]: both are
    integers whenever it is evaluated (see [find_matching_classes_level]). *)
Definition level_max (a b : level) : result nat :=
  match a, b with LvlInt m, LvlInt n => Ok (Nat.max m n) | _, _ => Raise TypeError end.

Section Step.
Context `{WikidataService}.

(** Lines 363-371: for every prefix the relation starts with, look up
    the text after the prefix; the last lookup wins. *)
Fixpoint relation_fallback (prefixes : list string) (rel : string) (predicate : pyval) : EvalM pyval :=
  match prefixes with
  | [] => mret predicate
  | i :: rest =>
      if py_startswith i rel
      then p ← wiki_id (py_split_last i rel) QProperty; relation_fallback rest rel p
      else relation_fallback rest rel predicate
  end.

Definition resolve_relation_fallback (t1 : pyval) : EvalM pyval :=
  catchM (rel ← lift (str_or AttributeError t1); relation_fallback complicated_relations rel no_wikiID)
         (fun _ => mret no_wikiID).

(** Lines 383-409: domain and range of the relation; returns them with
    the flag ["Predicate has Domain & Range"]. *)
Definition domain_range_part (key : string) (predicate : pyval)
  : EvalM (dict string string * dict string string * bool) :=
  domain_results ← class_dict (QDomain (py_str predicate)) "domain";
  _ ← (if bool_decide (domain_results = []) then record key "has Domain" (PBool false)
       else _ ← record key "has Domain" (PBool true); record key "Domain" (pv_classes domain_results));
  range_results ← class_dict (QRange (py_str predicate)) "range";
  _ ← (if bool_decide (range_results = []) then record key "has Range" (PBool false)
       else _ ← record key "has Range" (PBool true); record key "Range" (pv_classes range_results));
  let dr := negb (bool_decide (domain_results = [])) && negb (bool_decide (range_results = [])) in
  _ ← (if dr then _ ← record key "Predicate has Domain & Range" (PBool true); incr has_domain_range
       else record key "Predicate has Domain & Range" (PBool false));
  mret (domain_results, range_results, dr).

(** Lines 411-436 (side ["Subject"], [domain]) and 438-463 (side
    ["Object"], [range]): the entity's hierarchy, its match against the
    relation's classes, and the partial-evidence counters.  [other] is
    the id of the other entity. *)
Definition entity_part (key side field : string) (entity other : pyval) (classes : dict string string)
    (dr : bool) (only : counter) (only_match : counter) (missing_field : string) : EvalM (bool * level) :=
  insOf ← hop_dict (QInstanceOf (py_str entity)) "instanceOf";
  _ ← record key (side ++ " instanceOf") (pv_hops insOf);
  subOf ← hop_dict (QSubclassOf (py_str entity)) "subclassOf";
  _ ← record key (side ++ " subclassOf") (pv_hops subOf);
  let '(m, lvl, wid, label) := find_matching_classes (merge_dicts insOf subOf) classes in
  let lvl' := convert_match_level_to_integer lvl in
  _ ← (if m then
         _ ← record key (field ++ " match") (PBool true);
         _ ← record key (field ++ " matching level") (pv_level lvl');
         _ ← record key (field ++ " matched label") (pv_opt_str label);
         record key (field ++ " matched wikiID") (pv_opt_str wid)
       else record key (field ++ " match") (PBool false));
  _ ← (if dr && is_no_wikiID other then
         _ ← incr only;
         _ ← record key missing_field (PBool true);
         if m then incr only_match else mret tt
       else mret tt);
  mret (m, lvl').

(** Lines 469-500: the statement check and the combined counters. *)
Definition statement_part (key : string) (subject predicate object : pyval) (dr : bool)
    (dm rm : bool * level) : EvalM unit :=
  _ ← incr triples_with_all_components_in_wikidata;
  _ ← record key "All components in Wikidata" (PBool true);
  statement_check ← statement (py_str subject) (py_str predicate) (py_str object);
  _ ← (if py_is_true statement_check
       then _ ← incr statement_matches; record key "Triple statement in Wikidata" (PBool true)
       else record key "Triple statement in Wikidata" (PBool false));
  let drm := dr && dm.1 && rm.1 in
  _ ← (if drm then
         _ ← incr domain_range_matches;
         _ ← record key "Domain&Range Match" (PBool true);
         lvl ← lift (level_max dm.2 rm.2);
         _ ← record key "Triple matching level" (PInt (Z.of_nat lvl));
         match lvl with
         | 0 => incr zero_hop_matches
         | 1 => incr one_hop_matches
         | 2 => incr two_hop_matches
         | 3 => incr three_hop_matches
         | _ => mret tt
         end
       else record key "Domain&Range Match" (PBool false));
  if drm && py_is_true statement_check
  then _ ← record key "Both Statement and Domain&Range Match" (PBool true);
       incr both_statement_and_domain_range_matches
  else mret tt.

(** Lines 373-500 once the three ids are known. *)
Definition eval_resolved (key : string) (subject predicate object : pyval) : EvalM unit :=
  _ ← record key "Wiki triple" (PList [subject; predicate; object]);
  if is_no_wikiID predicate then
    _ ← record key "All components in Wikidata" (PBool false);
    _ ← record key "has Domain" (PBool false);
    record key "has Range" (PBool false)
  else
    '(domain_results, range_results, dr) ← domain_range_part key predicate;
    dm ← (if is_no_wikiID subject then mret (false, LvlNone)
          else entity_part key "Subject" "Domain" subject object domain_results dr
                 has_domain_range_only_subject_has_wikiId
                 has_domain_range_only_subject_has_wikiId_and_match "Object not found in Wikidata");
    rm ← (if is_no_wikiID object then mret (false, LvlNone)
          else entity_part key "Object" "Range" object subject range_results dr
                 has_domain_range_only_object_has_wikiId
                 has_domain_range_only_object_has_wikiId_and_match "Subject not found in Wikidata");
    _ ← (if dr && is_no_wikiID subject && is_no_wikiID object
         then _ ← incr has_domain_range_no_subject_no_object;
              record key "Both subject and object not found in Wikidata" (PBool true)
         else mret tt);
    if negb (is_no_wikiID subject) && negb (is_no_wikiID object)
    then statement_part key subject predicate object dr dm rm
    else record key "All components in Wikidata" (PBool false).

(** The body of [for triple in triples] (lines 341-500). *)
Definition eval_triple (input_text : pyval) (triple : list pyval) : EvalM unit :=
  _ ← modify (with_all_triples (fun l => l ++ [triple]));
  match triple with
  | [t0; t1; t2] =>
      let key := triple_as_key t0 t1 t2 in
      _ ← record_new key [("Extracted from", input_text); ("String triple", PList triple)];
      subject ← wiki_id (py_str t0) QEntity;
      object ← wiki_id (py_str t2) QEntity;
      predicate ← wiki_id (py_str t1) QProperty;
      _ ← modify (with_relations (set_add (py_str t1, predicate)));
      _ ← modify (with_entities (set_add (py_str t0, subject)));
      _ ← modify (with_entities (set_add (py_str t2, object)));
      predicate' ← (if is_no_wikiID predicate then resolve_relation_fallback t1 else mret predicate);
      eval_resolved key subject predicate' object
  | _ => modify (with_malformed (fun l => l ++ [triple]))
  end.

End Step.

(** ** Items and files (lines 299-339) *)

Section Loop.
Context `{WikidataService}.

(** One item of the file: its text comes from the gold file at the same
    index; its value is read with [read_triples]. *)
Definition eval_item (gold_data : list pyval) (file : string) (index : nat) (item : pyval) : EvalM unit :=
  gold ← lift (of_option IndexError (gold_data !! index));
  input_text ← lift (getitem_str gold "Text");
  postprocessed ← lift (getitem_str item "postprocessed");
  match read_triples postprocessed with
  | None => modify (with_problems (fun l => l ++ [PTuple [postprocessed; PStr file]]))
  | Some triples => forM_ triples (eval_triple input_text)
  end.

(** The loop over one file's items, from a fresh state. *)
Definition eval_file (gold_data : list pyval) (file : string) (extractions : list pyval)
  : result unit * eval_state :=
  forM_ (zip (seq 0 (length extractions)) extractions)
        (fun ie => eval_item gold_data file ie.1 ie.2) init_state.

(** The loop over files (line 299): the outputs of the files finished
    before an exception are written; the exception ends the run. *)
Fixpoint evaluate_files (gold_data : list pyval) (files : list (string * list pyval))
  : list (string * eval_state) * option exc :=
  match files with
  | [] => ([], None)
  | (file, extractions) :: rest =>
      match eval_file gold_data file extractions with
      | (Ok _, st) => let '(outs, err) := evaluate_files gold_data rest in ((file, st) :: outs, err)
      | (Raise e, _) => ([], Some e)
      end
  end.

End Loop.
