(* ===== verification/EvalProps.v ===== *)
(** * Properties of the evaluation loop

    The theorems about [WikidataEval]: what each block of the per-triple
    step does to the counters and to the log of remote calls, the
    statement check being issued exactly for fully resolved triples, the
    per-triple counting specification that [eval_triple] refines, and the
    counter invariants that hold after any sequence of triples, items and
    files.

    The proofs are compositional: [pres R m] says that action [m] relates
    its initial and final states by [R], whatever it returns; it is closed
    under [mret], [≫=], [if], [catchM] and [forM_], so that the proof for
    a block is a call to [pres_auto] once its primitive actions are known
    to preserve [R]. *)

From S2P Require Import Prelude PyStr PyDict PyVal Retry Wikidata Hierarchy WikidataEval.

Create HintDb eval discriminated.

(** ** Actions that relate their initial and final states *)

Section Pres.
Context (R : eval_state -> eval_state -> Prop) `{!PreOrder R}.

Definition pres {A} (m : EvalM A) : Prop := forall st r st', m st = (r, st') -> R st st'.

Lemma pres_ret {A} (a : A) : pres (mret a).
Proof. intros st r st' [= _ <-]. reflexivity. Qed.

Lemma pres_bind {A B} (m : EvalM A) (f : A -> EvalM B) :
  pres m -> (forall a, pres (f a)) -> pres (m ≫= f).
Proof.
  intros Hm Hf st r st'. unfold mbind, evalM_bind. destruct (m st) as [[a|e] st1] eqn:E.
  - intros H. etrans; [exact (Hm _ _ _ E) | exact (Hf a _ _ _ H)].
  - intros [= _ <-]. exact (Hm _ _ _ E).
Qed.

Lemma pres_lift {A} (r : result A) : pres (lift r).
Proof. intros st r' st' [= _ <-]. reflexivity. Qed.

Lemma pres_modify f : (forall st, R st (f st)) -> pres (modify f).
Proof. intros Hf st r st' [= _ <-]. apply Hf. Qed.

Lemma pres_if {A} (b : bool) (m1 m2 : EvalM A) : pres m1 -> pres m2 -> pres (if b then m1 else m2).
Proof. by destruct b. Qed.

Lemma pres_catch {A} (m : EvalM A) (h : exc -> EvalM A) :
  pres m -> (forall e, pres (h e)) -> pres (catchM m h).
Proof.
  intros Hm Hh st r st'. unfold catchM. destruct (m st) as [[a|e] st1] eqn:E.
  - intros [= _ <-]. exact (Hm _ _ _ E).
  - intros H. etrans; [exact (Hm _ _ _ E) | exact (Hh e _ _ _ H)].
Qed.

Lemma pres_forM {A} (l : list A) (f : A -> EvalM unit) : (forall x, pres (f x)) -> pres (forM_ l f).
Proof. intros Hf. induction l; simpl; [apply pres_ret | apply pres_bind; auto]. Qed.

Lemma pres_match_pair {A B C} (p : A * B) (k : A -> B -> EvalM C) :
  (forall a b, pres (k a b)) -> pres (let '(a, b) := p in k a b).
Proof. destruct p; auto. Qed.

Lemma pres_match_nat {A} (n : nat) (m0 m1 m2 m3 mk : EvalM A) :
  pres m0 -> pres m1 -> pres m2 -> pres m3 -> pres mk ->
  pres (match n with 0 => m0 | 1 => m1 | 2 => m2 | 3 => m3 | _ => mk end).
Proof. by destruct n as [|[|[|[|]]]]. Qed.

End Pres.

#[export] Hint Resolve pres_ret pres_bind pres_lift pres_if pres_catch pres_forM pres_match_pair
  pres_match_nat : eval.

(** [pres_auto]: decompose an action into its primitive steps. *)
Ltac pres_auto :=
  repeat (intros; match goal with
  | |- PreOrder _ => typeclasses eauto
  | |- pres _ (_ ≫= _) => apply pres_bind
  | |- pres _ (if true then _ else _) => cbv beta iota
  | |- pres _ (if false then _ else _) => cbv beta iota
  | |- pres _ (if _ then _ else _) => apply pres_if
  | |- pres _ (let '(_, _) := ?p in _) => destruct p
  | |- pres _ (match ?n with 0 => _ | _ => _ end) => destruct n as [|[|[|[|]]]]
  | |- pres _ (domain_range_part _ _) => unfold domain_range_part
  | |- pres _ (entity_part _ _ _ _ _ _ _ _ _ _) => unfold entity_part
  | |- pres _ (statement_part _ _ _ _ _ _ _) => unfold statement_part
  | |- pres _ (lift _) => apply pres_lift
  | |- pres _ (mret _) => apply pres_ret
  | |- pres _ (forM_ _ _) => apply pres_forM
  | |- pres _ (catchM _ _) => apply pres_catch
  | |- pres _ _ => first [eassumption | solve [eauto with eval typeclass_instances]]
  end).

(** ** The relations used *)

(** The counters are untouched. *)
Definition same_counts (st st' : eval_state) : Prop := counts st' = counts st.

(** The log only grows, and what is added holds no statement query. *)
Definition is_ask (r : request) : bool := match r with Ask _ _ _ => true | _ => false end.
Definition no_ask_added (st st' : eval_state) : Prop :=
  exists new, calls st' = calls st ++ new /\ Forall (fun r => is_ask r = false) new.

#[export] Instance same_counts_preorder : PreOrder same_counts.
Proof. split; [intros st; done | intros a b c H1 H2; unfold same_counts in *; congruence]. Qed.

#[export] Instance no_ask_added_preorder : PreOrder no_ask_added.
Proof.
  split.
  - intros st. exists []. by rewrite app_nil_r.
  - intros a b c (n1 & H1 & F1) (n2 & H2 & F2). exists (n1 ++ n2).
    rewrite H2, H1, app_assoc. split; [done|]. by apply Forall_app.
Qed.

Lemma no_ask_added_log r : is_ask r = false -> forall st, no_ask_added st (with_calls (fun cs => cs ++ [r]) st).
Proof. intros Hr st. exists [r]. split; [done|]. by constructor. Qed.

Lemma same_counts_modify f : (forall st, counts (f st) = counts st) -> pres same_counts (modify f).
Proof. intros Hf. apply pres_modify. intros st. apply Hf. Qed.

Lemma no_ask_modify f : (forall st, calls (f st) = calls st) -> pres no_ask_added (modify f).
Proof. intros Hf. apply pres_modify. intros st. exists []. by rewrite Hf, app_nil_r. Qed.

Lemma no_ask_log_call r : is_ask r = false -> pres no_ask_added (log_call r).
Proof. intros Hr. apply pres_modify. by apply no_ask_added_log. Qed.

#[export] Hint Extern 1 (pres same_counts (modify _)) => apply same_counts_modify; reflexivity : eval.
#[export] Hint Extern 1 (pres no_ask_added (modify _)) => apply no_ask_modify; reflexivity : eval.
#[export] Hint Extern 1 (pres no_ask_added (log_call _)) => apply no_ask_log_call; reflexivity : eval.
#[export] Hint Extern 2 (pres _ (log_call _)) => unfold log_call : eval.
#[export] Hint Extern 2 (pres _ (record _ _ _)) => unfold record : eval.
#[export] Hint Extern 2 (pres _ (record_new _ _)) => unfold record_new : eval.
#[export] Hint Extern 2 (pres _ (incr _)) => unfold incr : eval.

(** Every remote call but [statement] leaves the counters alone and adds
    no statement query to the log. *)
Lemma wiki_id_same_counts `{WikidataService} q t : pres same_counts (wiki_id q t).
Proof. unfold wiki_id. pres_auto. Qed.
Lemma wiki_id_no_ask `{WikidataService} q t : pres no_ask_added (wiki_id q t).
Proof. unfold wiki_id. pres_auto. Qed.
Lemma class_dict_same_counts `{WikidataService} q qt : pres same_counts (class_dict q qt).
Proof. unfold class_dict. pres_auto. Qed.
Lemma class_dict_no_ask `{WikidataService} q qt : pres no_ask_added (class_dict q qt).
Proof. unfold class_dict. pres_auto. Qed.
Lemma hop_dict_same_counts `{WikidataService} q qt : pres same_counts (hop_dict q qt).
Proof. unfold hop_dict. pres_auto. Qed.
Lemma hop_dict_no_ask `{WikidataService} q qt : pres no_ask_added (hop_dict q qt).
Proof. unfold hop_dict. pres_auto. Qed.
Lemma statement_same_counts `{WikidataService} s p o : pres same_counts (statement s p o).
Proof. unfold statement. pres_auto. Qed.
Lemma incr_no_ask `{WikidataService} c : pres no_ask_added (incr c).
Proof. pres_auto. Qed.

#[export] Hint Resolve wiki_id_same_counts wiki_id_no_ask class_dict_same_counts class_dict_no_ask
  hop_dict_same_counts hop_dict_no_ask statement_same_counts incr_no_ask : eval.

Lemma relation_fallback_pres `{WikidataService} R `{!PreOrder R} prefixes rel p :
  (forall q t, pres R (wiki_id q t)) -> pres R (relation_fallback prefixes rel p).
Proof. intros Hw. revert p. induction prefixes; intros p; simpl; pres_auto. Qed.

Lemma resolve_relation_fallback_pres `{WikidataService} R `{!PreOrder R} t1 :
  (forall q t, pres R (wiki_id q t)) -> pres R (resolve_relation_fallback t1).
Proof.
  intros Hw. unfold resolve_relation_fallback. pres_auto.
  intros. by apply relation_fallback_pres.
Qed.

#[export] Hint Resolve relation_fallback_pres resolve_relation_fallback_pres : eval.

Lemma entity_part_no_ask `{WikidataService} key side field e other classes dr only only_match missing :
  pres no_ask_added (entity_part key side field e other classes dr only only_match missing).
Proof. unfold entity_part. pres_auto. Qed.

Lemma domain_range_part_no_ask `{WikidataService} key p : pres no_ask_added (domain_range_part key p).
Proof. unfold domain_range_part. pres_auto. Qed.

#[export] Hint Resolve entity_part_no_ask domain_range_part_no_ask : eval.

(** ** The statement check is gated by resolution (spec 4.4) *)

(** When the subject, the relation or the object did not resolve, the
    block of lines 373-500 sends no statement query. *)
Lemma eval_resolved_no_ask `{WikidataService} key s p o :
  is_no_wikiID s = true \/ is_no_wikiID p = true \/ is_no_wikiID o = true ->
  pres no_ask_added (eval_resolved key s p o).
Proof.
  intros Hno. unfold eval_resolved.
  destruct (is_no_wikiID p) eqn:Hp; [pres_auto|].
  assert (Hso : negb (is_no_wikiID s) && negb (is_no_wikiID o) = false)
    by (destruct Hno as [-> | [? | ->]]; [done | congruence | by rewrite andb_false_r]).
  rewrite Hso. pres_auto.
Qed.


(** ** Inverting a completed action *)

Lemma evalM_bind_inv {A B} (m : EvalM A) (f : A -> EvalM B) st b st'' :
  (m ≫= f) st = (Ok b, st'') -> exists a st', m st = (Ok a, st') /\ f a st' = (Ok b, st'').
Proof. unfold mbind, evalM_bind. destruct (m st) as [[a|e] st'] eqn:E; [eauto | discriminate]. Qed.

(** [binv H]: split a completed [≫=] chain in [H] into its steps. *)
Ltac binv H :=
  repeat match type of H with
  | (_ ≫= _) _ = (Ok _, _) =>
      let a := fresh "a" in let st := fresh "st" in let Hm := fresh "Hm" in
      apply evalM_bind_inv in H as (a & st & Hm & H)
  end.

(** The log only grows. *)
Definition calls_grow (st st' : eval_state) : Prop := exists new, calls st' = calls st ++ new.

#[export] Instance calls_grow_preorder : PreOrder calls_grow.
Proof.
  split; [intros st; exists []; by rewrite app_nil_r|].
  intros a b c (n1 & H1) (n2 & H2). exists (n1 ++ n2). by rewrite H2, H1, app_assoc.
Qed.

Lemma calls_grow_modify f : (forall st, calls (f st) = calls st \/ exists r, calls (f st) = calls st ++ [r]) ->
  pres calls_grow (modify f).
Proof.
  intros Hf. apply pres_modify. intros st. unfold calls_grow.
  destruct (Hf st) as [-> | [r ->]]; [exists []; by rewrite app_nil_r | by eexists].
Qed.

#[export] Hint Extern 1 (pres calls_grow (modify _)) =>
  apply calls_grow_modify; intros; first [left; reflexivity | right; eexists; reflexivity] : eval.

Lemma statement_calls_grow `{WikidataService} s p o : pres calls_grow (statement s p o).
Proof. unfold statement. pres_auto. Qed.
Lemma wiki_id_calls_grow `{WikidataService} q t : pres calls_grow (wiki_id q t).
Proof. unfold wiki_id. pres_auto. Qed.

#[export] Hint Resolve statement_calls_grow wiki_id_calls_grow : eval.

(** [x] is among the calls made between [st] and [st']. *)
Definition added (x : request) (st st' : eval_state) : Prop :=
  exists new, calls st' = calls st ++ new /\ x ∈ new.

Lemma grow_added x st1 st2 st3 : calls_grow st1 st2 -> added x st2 st3 -> added x st1 st3.
Proof. intros [n1 H1] (n2 & H2 & Hx). exists (n1 ++ n2). rewrite H2, H1, app_assoc. set_solver. Qed.

Lemma added_grow x st1 st2 st3 : added x st1 st2 -> calls_grow st2 st3 -> added x st1 st3.
Proof. intros (n1 & H1 & Hx) [n2 H2]. exists (n1 ++ n2). rewrite H2, H1, app_assoc. set_solver. Qed.

Lemma log_added x st : added x st (with_calls (fun cs => cs ++ [x]) st).
Proof. exists [x]. set_solver. Qed.

Ltac pres_apply H := eapply (fun Hp : pres _ _ => Hp _ _ _ H); pres_auto.

(** A completed [statement_part] has sent the statement query for the
    three ids. *)
Lemma statement_part_asks `{WikidataService} key s p o dr dm rm st st' :
  statement_part key s p o dr dm rm st = (Ok tt, st') ->
  added (Ask (py_str s) (py_str p) (py_str o)) st st'.
Proof.
  unfold statement_part. intros H1.
  apply evalM_bind_inv in H1 as (? & st1 & H01 & H1).
  apply evalM_bind_inv in H1 as (? & st2 & H12 & H1).
  apply evalM_bind_inv in H1 as (sc & st3 & Hs & H1).
  unfold statement, mbind, evalM_bind, log_call, modify, lift in Hs. injection Hs as _ <-.
  eapply grow_added; [|eapply added_grow; [apply log_added | pres_apply H1]].
  etrans; [pres_apply H01 | pres_apply H12].
Qed.

Lemma class_dict_calls_grow `{WikidataService} q qt : pres calls_grow (class_dict q qt).
Proof. unfold class_dict. pres_auto. Qed.
Lemma hop_dict_calls_grow `{WikidataService} q qt : pres calls_grow (hop_dict q qt).
Proof. unfold hop_dict. pres_auto. Qed.

#[export] Hint Resolve class_dict_calls_grow hop_dict_calls_grow : eval.

(** When the three ids resolved, a completed block of lines 373-500
    sends the statement query for exactly those ids. *)
Lemma eval_resolved_asks `{WikidataService} key s p o st st' :
  is_no_wikiID s = false -> is_no_wikiID p = false -> is_no_wikiID o = false ->
  eval_resolved key s p o st = (Ok tt, st') ->
  added (Ask (py_str s) (py_str p) (py_str o)) st st'.
Proof.
  intros Hs Hp Ho H1. unfold eval_resolved in H1. rewrite Hs, Hp, Ho in H1. cbv beta iota in H1.
  apply evalM_bind_inv in H1 as (? & st1 & H01 & H1).
  apply evalM_bind_inv in H1 as ([[d r] dr] & st2 & H12 & H1).
  apply evalM_bind_inv in H1 as (dm & st3 & H23 & H1).
  apply evalM_bind_inv in H1 as (rm & st4 & H34 & H1).
  apply evalM_bind_inv in H1 as (? & st5 & H45 & H1).
  change (statement_part key s p o dr dm rm st5 = (Ok tt, st')) in H1.
  eapply grow_added; [|by eapply statement_part_asks].
  etrans; [pres_apply H01|]. etrans; [unfold domain_range_part in H12; pres_apply H12|].
  etrans; [unfold entity_part in H23; pres_apply H23|].
  etrans; [unfold entity_part in H34; pres_apply H34|]. pres_apply H45.
Qed.

(** The three strings of a triple have Wikidata ids. *)
Definition all_resolved (s p o : pyval) : Prop :=
  is_no_wikiID s = false /\ is_no_wikiID p = false /\ is_no_wikiID o = false.

(** Some statement query is among the requests [new]. *)
Definition asks_statement (new : list request) : Prop := exists a b c, Ask a b c ∈ new.

(** C1: The statement query is sent exactly for the triples whose three
    strings resolved (spec 4.4 and 8.5): the block of lines 373-500
    adds a statement query to the log if and only if subject, relation
    and object all have Wikidata ids, and it is then the query for those
    ids. *)
Theorem eval_resolved_statement_iff `{WikidataService} key s p o st st' :
  eval_resolved key s p o st = (Ok tt, st') ->
  exists new, calls st' = calls st ++ new /\
    (asks_statement new <-> all_resolved s p o) /\
    (all_resolved s p o -> Ask (py_str s) (py_str p) (py_str o) ∈ new).
Proof.
  unfold asks_statement, all_resolved.
  intros H1.
  assert (Hg : calls_grow st st') by (unfold eval_resolved in H1; pres_apply H1).
  destruct Hg as [new Hnew]. exists new. split; [done|].
  assert (Hres : is_no_wikiID s = false -> is_no_wikiID p = false -> is_no_wikiID o = false ->
                 Ask (py_str s) (py_str p) (py_str o) ∈ new).
  { intros Hs Hp Ho. destruct (eval_resolved_asks key s p o st st' Hs Hp Ho H1) as (n & Hn & Hin).
    rewrite Hnew in Hn. apply app_inv_head in Hn. by subst. }
  split; [|intros (Hs & Hp & Ho); by apply Hres]. split.
  - intros (a & b & c & Hin).
    destruct (is_no_wikiID s) eqn:Hs; [|destruct (is_no_wikiID p) eqn:Hp; [|destruct (is_no_wikiID o) eqn:Ho]];
      try (split; [done | split; done]);
      (destruct (eval_resolved_no_ask key s p o ltac:(auto) st _ st' H1) as (new' & Hn' & Hf);
       rewrite Hnew in Hn'; apply app_inv_head in Hn'; subst new';
       rewrite Forall_forall in Hf; by specialize (Hf _ Hin)).
  - intros (Hs & Hp & Ho). eauto.
Qed.

(** ** Counting: the per-triple specification *)

(** [c += 1] on the counter table, and a sequence of such increments. *)
Definition bump (c : counter) (f : counter -> nat) : counter -> nat :=
  fun c' => if decide (c = c') then S (f c') else f c'.

Definition bumps (l : list counter) (f : counter -> nat) : counter -> nat :=
  fold_left (fun g c => bump c g) l f.

Lemma bumps_app l1 l2 f : bumps (l1 ++ l2) f = bumps l2 (bumps l1 f).
Proof. unfold bumps. by rewrite fold_left_app. Qed.

Lemma bump_bumps c f : bump c f = bumps [c] f.
Proof. reflexivity. Qed.

Lemma bumps_count l f c : bumps l f c = f c + List.count_occ (decide_rel eq) l c.
Proof.
  revert f. induction l as [|c' l IH]; intros f; [simpl; lia|].
  change (bumps (c' :: l) f) with (bumps l (bump c' f)). rewrite IH. unfold bump.
  cbn [List.count_occ]. repeat case_match; subst; try congruence; lia.
Qed.

(** What the loop body observed for one triple. *)
Record outcome := {
  o_wf : bool;      (** the triple has three elements *)
  o_pred : bool;    (** the relation resolved (directly or by a prefix) *)
  o_subj : bool;    (** the subject resolved *)
  o_obj : bool;     (** the object resolved *)
  o_dr : bool;      (** the relation declares a domain and a range *)
  o_dm : bool;      (** the subject's hierarchy matches the domain *)
  o_rm : bool;      (** the object's hierarchy matches the range *)
  o_stmt : bool;    (** the statement is in Wikidata *)
  o_lvl : nat       (** the larger of the two matching levels *)
}.

Definition hop_counter (n : nat) : list counter :=
  match n with
  | 0 => [zero_hop_matches]
  | 1 => [one_hop_matches]
  | 2 => [two_hop_matches]
  | 3 => [three_hop_matches]
  | _ => []
  end.

Definition when (b : bool) (l : list counter) : list counter := if b then l else [].

(** The counters one triple increments, in the order of the source
    (spec 4.5): the domain/range flag, the partial-evidence counters of
    the subject side, of the object side and of the case where neither
    resolved, then the counters of fully resolved triples. *)
Definition triple_bumps (o : outcome) : list counter :=
  when (o_wf o && o_pred o) (
    when (o_dr o) [has_domain_range] ++
    when (o_subj o && o_dr o && negb (o_obj o))
      ([has_domain_range_only_subject_has_wikiId] ++
       when (o_dm o) [has_domain_range_only_subject_has_wikiId_and_match]) ++
    when (o_obj o && o_dr o && negb (o_subj o))
      ([has_domain_range_only_object_has_wikiId] ++
       when (o_rm o) [has_domain_range_only_object_has_wikiId_and_match]) ++
    when (o_dr o && negb (o_subj o) && negb (o_obj o)) [has_domain_range_no_subject_no_object] ++
    when (o_subj o && o_obj o)
      ([triples_with_all_components_in_wikidata] ++
       when (o_stmt o) [statement_matches] ++
       when (o_dr o && o_dm o && o_rm o) ([domain_range_matches] ++ hop_counter (o_lvl o)) ++
       when (o_dr o && o_dm o && o_rm o && o_stmt o) [both_statement_and_domain_range_matches])).

(** The outcomes the code can produce: a domain (range) match needs a
    resolved subject (object), and a combined match has a level in 0..3. *)
Definition outcome_wf (o : outcome) : Prop :=
  (o_dm o = true -> o_subj o = true) /\ (o_rm o = true -> o_obj o = true) /\
  (o_dr o && o_dm o && o_rm o = true -> o_lvl o <= 3).

(** ** Counting: what each block increments *)

Lemma incr_counts c st r st' : incr c st = (r, st') -> counts st' = bump c (counts st).
Proof. by intros [= _ <-]. Qed.

Lemma mret_inv {A} (a b : A) st st' : mret (M := EvalM) a st = (Ok b, st') -> a = b /\ st' = st.
Proof. by intros [= -> <-]. Qed.

(** [crewrite]: express the final counters through the initial ones. *)
Ltac crewrite :=
  repeat match goal with E : counts ?a = _ |- context [counts ?a] => rewrite E; clear E end.

(** [counts_done]: close a goal [counts st' = bumps l (counts st)] once
    every step's effect on the counters is an equation in the context. *)
Ltac counts_done :=
  crewrite; rewrite ?bump_bumps, <- ?bumps_app; f_equal;
  cbn [when app andb]; rewrite ?app_nil_r, <- ?app_assoc; reflexivity.

(** [csame H]: the action of [H] leaves the counters alone. *)
Ltac csame H := let E := fresh "E" in
  assert (E : same_counts _ _) by pres_apply H; unfold same_counts in E.

Lemma hop_dict_keys `{WikidataService} q qt st h st' :
  hop_dict q qt st = (Ok h, st') -> dict_keys h = hop_names.
Proof.
  unfold hop_dict. intros H1. apply evalM_bind_inv in H1 as (? & ? & _ & H1).
  injection H1 as Hh _. unfold get_hop_dict in Hh. py_simp.
  destruct a as [h'|]; [|discriminate]. injection Hh as <-.
  unfold get_bindings_from_sparql_query in Ha. py_simp. by eapply bindings_of_response_keys.
Qed.

Lemma domain_range_part_counts `{WikidataService} key p st d r dr st' :
  domain_range_part key p st = (Ok (d, r, dr), st') ->
  dr = negb (bool_decide (d = [])) && negb (bool_decide (r = [])) /\
  counts st' = bumps (when dr [has_domain_range]) (counts st).
Proof.
  unfold domain_range_part. intros H1.
  apply evalM_bind_inv in H1 as (d' & st1 & H01 & H1). csame H01.
  apply evalM_bind_inv in H1 as (? & st2 & H12 & H1). csame H12.
  apply evalM_bind_inv in H1 as (r' & st3 & H23 & H1). csame H23.
  apply evalM_bind_inv in H1 as (? & st4 & H34 & H1). csame H34.
  apply evalM_bind_inv in H1 as (? & st5 & H45 & H1).
  apply mret_inv in H1 as [[= -> -> <-] ->]. split; [done|].
  destruct (negb _ && negb _); simpl.
  - apply evalM_bind_inv in H45 as (? & st6 & H46 & H65). csame H46.
    apply incr_counts in H65. rewrite H65. unfold bumps. simpl. congruence.
  - csame H45. unfold bumps. simpl. congruence.
Qed.

(** The class-hierarchy block of one side: a match comes with an integer
    level in 0..3, and the partial-evidence counters move only when the
    other side did not resolve. *)
Lemma entity_part_counts `{WikidataService} key side field e other classes dr only only_match missing
    st m lvl st' :
  entity_part key side field e other classes dr only only_match missing st = (Ok (m, lvl), st') ->
  (m = true -> exists n, lvl = LvlInt n /\ n <= 3) /\
  counts st' = bumps (when (dr && is_no_wikiID other) ([only] ++ when m [only_match])) (counts st).
Proof.
  unfold entity_part. intros H1.
  apply evalM_bind_inv in H1 as (insOf & st1 & H01 & H1). csame H01.
  apply evalM_bind_inv in H1 as (? & st2 & H12 & H1). csame H12.
  apply evalM_bind_inv in H1 as (subOf & st3 & H23 & H1). csame H23.
  apply evalM_bind_inv in H1 as (? & st4 & H34 & H1). csame H34.
  destruct (find_matching_classes (merge_dicts insOf subOf) classes) as [[[m' l0] wid] label] eqn:Ef.
  apply evalM_bind_inv in H1 as (? & st5 & H45 & H1). csame H45.
  apply evalM_bind_inv in H1 as (? & st6 & H56 & H1).
  apply mret_inv in H1 as [[= <- <-] ->]. split.
  - intros ->. destruct (find_matching_classes_cases (merge_dicts insOf subOf) classes)
      as [Hc | (hop & w & lb & Hc)]; rewrite Ef in Hc; [discriminate|]. injection Hc as -> -> ->.
    apply find_matching_classes_level in Ef as (n & -> & Hn).
    + exists n. split; [done|]. apply lookup_lt_Some in Hn. simpl in Hn. lia.
    + apply hop_dict_keys in H01, H23. rewrite merge_dicts_keys; [done|]. by rewrite H01, H23.
  - destruct (dr && is_no_wikiID other); simpl.
    + apply evalM_bind_inv in H56 as (? & st7 & H57 & H76). apply incr_counts in H57.
      apply evalM_bind_inv in H76 as (? & st8 & H78 & H86). csame H78.
      destruct m'; simpl in H86.
      * apply incr_counts in H86. rewrite H86. unfold bumps; simpl. congruence.
      * apply mret_inv in H86 as [_ ->]. unfold bumps; simpl. congruence.
    + apply mret_inv in H56 as [_ ->]. unfold bumps; simpl. congruence.
Qed.

Lemma statement_part_counts `{WikidataService} key s p o dr dm rm st st' :
  statement_part key s p o dr dm rm st = (Ok tt, st') ->
  exists stmt lvl,
    (dr && dm.1 && rm.1 = true -> level_max dm.2 rm.2 = Ok lvl) /\
    counts st' = bumps ([triples_with_all_components_in_wikidata] ++ when stmt [statement_matches] ++
                        when (dr && dm.1 && rm.1) ([domain_range_matches] ++ hop_counter lvl) ++
                        when (dr && dm.1 && rm.1 && stmt) [both_statement_and_domain_range_matches])
                       (counts st).
Proof.
  unfold statement_part. intros H1.
  apply evalM_bind_inv in H1 as (? & st1 & H01 & H1). apply incr_counts in H01.
  apply evalM_bind_inv in H1 as (? & st2 & H12 & H1). csame H12.
  apply evalM_bind_inv in H1 as (sc & st3 & H23 & H1). csame H23.
  apply evalM_bind_inv in H1 as (? & st4 & H34 & H1).
  assert (E4 : counts st4 = bumps (when (py_is_true sc) [statement_matches]) (counts st3)).
  { destruct (py_is_true sc); simpl in H34 |- *.
    - apply evalM_bind_inv in H34 as (? & st5 & H35 & H54). apply incr_counts in H35. csame H54.
      unfold bumps; simpl. congruence.
    - csame H34. unfold bumps; simpl. congruence. }
  apply evalM_bind_inv in H1 as (? & st5 & H45 & H1).
  destruct (dr && dm.1 && rm.1) eqn:Edrm; simpl in H45, H1.
  - apply evalM_bind_inv in H45 as (? & st6 & H46 & H45). apply incr_counts in H46.
    apply evalM_bind_inv in H45 as (? & st7 & H67 & H45). csame H67.
    apply evalM_bind_inv in H45 as (lvl & st8 & H78 & H45). injection H78 as Hl <-.
    apply evalM_bind_inv in H45 as (? & st9 & H89 & H45). csame H89.
    exists (py_is_true sc), lvl. split; [by intros _|].
    assert (E5 : counts st5 = bumps ([domain_range_matches] ++ hop_counter lvl) (counts st4)).
    { rewrite bumps_app. unfold bumps at 2. simpl.
      destruct lvl as [|[|[|[|]]]]; simpl in H45 |- *;
        first [apply incr_counts in H45 | apply mret_inv in H45 as [_ ->]];
        rewrite ?H45; unfold bumps; simpl; congruence. }
    destruct (py_is_true sc); simpl in H1.
    + apply evalM_bind_inv in H1 as (? & st10 & H10 & H1). csame H10. apply incr_counts in H1.
      counts_done.
    + apply mret_inv in H1 as [_ ->]. counts_done.
  - csame H45. rewrite ?andb_false_l in H1. apply mret_inv in H1 as [_ ->].
    exists (py_is_true sc), 0. split; [done|].
    counts_done.
Qed.

(** The subject (object) block of [eval_resolved]: skipped when the
    entity is unresolved, [entity_part] otherwise. *)
Lemma entity_opt_counts `{WikidataService} key side field e other classes dr only only_match missing
    st m st' :
  (if is_no_wikiID e then mret (false, LvlNone)
   else entity_part key side field e other classes dr only only_match missing) st = (Ok m, st') ->
  (m.1 = true -> is_no_wikiID e = false /\ exists n, m.2 = LvlInt n /\ n <= 3) /\
  counts st' = bumps (when (negb (is_no_wikiID e) && dr && is_no_wikiID other)
                           ([only] ++ when m.1 [only_match])) (counts st).
Proof.
  destruct (is_no_wikiID e) eqn:He; intros H1.
  - apply mret_inv in H1 as [<- ->]. by split.
  - destruct m as [m lvl]. apply entity_part_counts in H1 as [Hm E]. split; [intros Hm1; split; [done | by apply Hm] | done].
Qed.

Lemma no_subject_no_object_counts `{WikidataService} key (b : bool) st st' :
  ((if b then _ ← incr has_domain_range_no_subject_no_object;
              record key "Both subject and object not found in Wikidata" (PBool true)
    else mret tt) : EvalM unit) st = (Ok tt, st') ->
  counts st' = bumps (when b [has_domain_range_no_subject_no_object]) (counts st).
Proof.
  destruct b; intros H1.
  - apply evalM_bind_inv in H1 as (? & st1 & H01 & H1). apply incr_counts in H01. csame H1. counts_done.
  - by apply mret_inv in H1 as [_ ->].
Qed.

Lemma level_max_le a b m n l :
  a = LvlInt m -> b = LvlInt n -> m <= 3 -> n <= 3 -> level_max a b = Ok l -> l <= 3.
Proof. intros -> -> Hm Hn [= <-]. lia. Qed.

(** The counters a completed [eval_resolved] increments are those of
    [triple_bumps] for an outcome whose resolution flags are the ones of
    the three ids. *)
Lemma eval_resolved_counts `{WikidataService} key s p o st st' :
  eval_resolved key s p o st = (Ok tt, st') ->
  exists out, outcome_wf out /\ o_wf out = true /\ o_pred out = negb (is_no_wikiID p) /\
    o_subj out = negb (is_no_wikiID s) /\ o_obj out = negb (is_no_wikiID o) /\
    counts st' = bumps (triple_bumps out) (counts st).
Proof.
  unfold eval_resolved. intros H1.
  apply evalM_bind_inv in H1 as (? & st1 & H01 & H1). csame H01.
  destruct (is_no_wikiID p) eqn:Hp.
  - csame H1.
    exists {| o_wf := true; o_pred := false; o_subj := negb (is_no_wikiID s);
              o_obj := negb (is_no_wikiID o); o_dr := false; o_dm := false; o_rm := false;
              o_stmt := false; o_lvl := 0 |}.
    split; [repeat split; done|]. do 4 (split; [done|]). counts_done.
  - apply evalM_bind_inv in H1 as ([[d r] dr] & st2 & H12 & H1).
    apply domain_range_part_counts in H12 as [_ E12].
    apply evalM_bind_inv in H1 as (dm & st3 & H23 & H1). apply entity_opt_counts in H23 as [Hdm E23].
    apply evalM_bind_inv in H1 as (rm & st4 & H34 & H1). apply entity_opt_counts in H34 as [Hrm E34].
    apply evalM_bind_inv in H1 as ([] & st5 & H45 & H1). apply no_subject_no_object_counts in H45.
    destruct (is_no_wikiID s) eqn:Hs, (is_no_wikiID o) eqn:Ho; simpl in H1.
    1-3: csame H1;
      exists {| o_wf := true; o_pred := true; o_subj := negb (is_no_wikiID s);
                o_obj := negb (is_no_wikiID o); o_dr := dr; o_dm := dm.1; o_rm := rm.1;
                o_stmt := false; o_lvl := 0 |};
      rewrite Hs, Ho; split;
      [ repeat split; simpl; intros Hx; rewrite ?andb_true_iff in Hx;
        try (destruct (Hdm ltac:(tauto)); congruence);
        try (destruct (Hrm ltac:(tauto)); congruence); tauto
      | do 4 (split; [done|]);
        destruct dm as [[] ?], rm as [[] ?], dr; simpl in *;
        try (destruct (Hdm eq_refl); congruence); try (destruct (Hrm eq_refl); congruence);
        counts_done ].
    apply statement_part_counts in H1 as (stmt & lvl & Hl & E5).
    exists {| o_wf := true; o_pred := true; o_subj := true; o_obj := true; o_dr := dr;
              o_dm := dm.1; o_rm := rm.1; o_stmt := stmt; o_lvl := lvl |}.
    split.
    { repeat split; simpl; try done. intros Hx.
      destruct (Hdm ltac:(destruct dr, dm.1; done)) as [_ (m & Em & Hm3)].
      destruct (Hrm ltac:(destruct dr, dm.1, rm.1; done)) as [_ (n & En & Hn3)].
      exact (level_max_le _ _ m n lvl Em En Hm3 Hn3 (Hl Hx)). }
    do 4 (split; [done|]). destruct dr, (dm.1), (rm.1), stmt; counts_done.
Qed.

(** ** The list of triples and of malformed triples *)

(** Only the first and last steps of [eval_triple] touch the two lists. *)
Definition same_triples (st st' : eval_state) : Prop :=
  all_triples st' = all_triples st /\ malformed_triples st' = malformed_triples st.

#[export] Instance same_triples_preorder : PreOrder same_triples.
Proof. split; [done | intros a b c [? ?] [? ?]; split; congruence]. Qed.

Lemma same_triples_modify f :
  (forall st, all_triples (f st) = all_triples st /\ malformed_triples (f st) = malformed_triples st) ->
  pres same_triples (modify f).
Proof. intros Hf. apply pres_modify. apply Hf. Qed.

#[export] Hint Extern 1 (pres same_triples (modify _)) =>
  apply same_triples_modify; intros; split; reflexivity : eval.
#[export] Hint Extern 2 (pres _ (wiki_id _ _)) => unfold wiki_id : eval.
#[export] Hint Extern 2 (pres _ (class_dict _ _)) => unfold class_dict : eval.
#[export] Hint Extern 2 (pres _ (hop_dict _ _)) => unfold hop_dict : eval.
#[export] Hint Extern 2 (pres _ (statement _ _ _)) => unfold statement : eval.

Lemma eval_resolved_same_triples `{WikidataService} key s p o :
  pres same_triples (eval_resolved key s p o).
Proof. unfold eval_resolved. pres_auto. Qed.

#[export] Hint Resolve eval_resolved_same_triples : eval.

(** What one triple does, as the counting specification states it: the
    outcome is well formed, marks the triple malformed exactly when it
    does not have three elements, and gives the counter increments; the
    triple is appended to [all_triples], and to [malformed_triples] when
    it is malformed. *)
Definition triple_step (t : list pyval) (out : outcome) (st st' : eval_state) : Prop :=
  outcome_wf out /\ o_wf out = bool_decide (length t = 3) /\
  counts st' = bumps (triple_bumps out) (counts st) /\
  all_triples st' = all_triples st ++ [t] /\
  malformed_triples st' = malformed_triples st ++ (if o_wf out then [] else [t]).

Definition malformed_outcome : outcome :=
  {| o_wf := false; o_pred := false; o_subj := false; o_obj := false; o_dr := false;
     o_dm := false; o_rm := false; o_stmt := false; o_lvl := 0 |}.

(** [tsame H]: the action of [H] leaves the two lists of triples alone. *)
Ltac tsame H := let E := fresh "T" in
  assert (E : same_triples _ _) by pres_apply H; destruct E as [? ?].

Lemma wiki_id_inv `{WikidataService} q t st x st' :
  wiki_id q t st = (Ok x, st') -> (get_wiki_ID q t).1 = Ok x.
Proof. unfold wiki_id. intros H1. binv H1. by destruct (get_wiki_ID q t).1; injection H1 as ->. Qed.

(** A well-formed triple: the three lookups, the relation fallback when
    the relation did not resolve, then [eval_resolved] on the ids, after
    steps that only append the triple to [all_triples]. *)
Lemma eval_triple_parts `{WikidataService} input t0 t1 t2 st st' :
  eval_triple input [t0; t1; t2] st = (Ok tt, st') ->
  exists s p0 p o st1,
    (get_wiki_ID (py_str t0) QEntity).1 = Ok s /\ (get_wiki_ID (py_str t1) QProperty).1 = Ok p0 /\
    (get_wiki_ID (py_str t2) QEntity).1 = Ok o /\ (is_no_wikiID p0 = false -> p = p0) /\
    eval_resolved (triple_as_key t0 t1 t2) s p o st1 = (Ok tt, st') /\
    counts st1 = counts st /\ all_triples st1 = all_triples st ++ [[t0; t1; t2]] /\
    malformed_triples st1 = malformed_triples st.
Proof.
  unfold eval_triple. intros H1. cbv zeta in H1. binv H1.
  exists a1, a3, a7, a2, st8. split_and!.
  - exact (wiki_id_inv _ _ _ _ _ Hm1).
  - exact (wiki_id_inv _ _ _ _ _ Hm3).
  - exact (wiki_id_inv _ _ _ _ _ Hm2).
  - intros E. rewrite E in Hm7. by injection Hm7 as ->.
  - exact H1.
  - injection Hm as _ <-. clear H1.
    repeat match goal with Hx : _ ?s1 = (Ok _, ?s2) |- _ => csame Hx; clear Hx end. simpl in *. congruence.
  - injection Hm as _ <-. clear H1.
    repeat match goal with Hx : _ ?s1 = (Ok _, ?s2) |- _ => tsame Hx; clear Hx end. simpl in *. congruence.
  - injection Hm as _ <-. clear H1.
    repeat match goal with Hx : _ ?s1 = (Ok _, ?s2) |- _ => tsame Hx; clear Hx end. simpl in *. congruence.
Qed.

(** One iteration of [for triple in triples] (lines 341-500) refines
    the counting specification. *)
Lemma eval_triple_refines `{WikidataService} input t st st' :
  eval_triple input t st = (Ok tt, st') -> exists out, triple_step t out st st'.
Proof.
  intros H1. destruct t as [|t0 [|t1 [|t2 [|t3 rest]]]];
    try (unfold eval_triple in H1; apply evalM_bind_inv in H1 as (? & st1 & [= _ <-] & H1);
         injection H1 as <-; exists malformed_outcome;
         repeat split; intros Hx; simpl in Hx; discriminate).
  destruct (eval_triple_parts _ _ _ _ _ _ H1) as (s & p0 & p & o & st1 & _ & _ & _ & _ & Hr & Ec & Et & Em).
  destruct (eval_resolved_counts _ _ _ _ _ _ Hr) as (out & Hwf & Hw & _ & _ & _ & Ec').
  tsame Hr. exists out. unfold triple_step. rewrite Hw.
  split_and!; [done | reflexivity | by rewrite Ec', Ec | congruence | rewrite app_nil_r; congruence].
Qed.


(** ** Sequences of triples, items and files *)

(** What a sequence of triples does: one outcome per triple. *)
Definition run_step (ts : list (list pyval)) (outs : list outcome) (st st' : eval_state) : Prop :=
  Forall outcome_wf outs /\
  Forall2 (fun t out => o_wf out = bool_decide (length t = 3)) ts outs /\
  counts st' = bumps (concat (map triple_bumps outs)) (counts st) /\
  all_triples st' = all_triples st ++ ts /\
  malformed_triples st' = malformed_triples st ++ filter (fun t => length t ≠ 3) ts.

Lemma run_step_nil st st' :
  counts st' = counts st -> all_triples st' = all_triples st ->
  malformed_triples st' = malformed_triples st -> run_step [] [] st st'.
Proof. intros Hc Ht Hm. repeat split; rewrite ?app_nil_r; auto. Qed.

Lemma run_step_app ts1 outs1 ts2 outs2 st1 st2 st3 :
  run_step ts1 outs1 st1 st2 -> run_step ts2 outs2 st2 st3 ->
  run_step (ts1 ++ ts2) (outs1 ++ outs2) st1 st3.
Proof.
  intros (W1 & F1 & C1 & T1 & M1) (W2 & F2 & C2 & T2 & M2). repeat split.
  - by apply Forall_app.
  - by apply Forall2_app.
  - by rewrite C2, C1, map_app, concat_app, bumps_app.
  - by rewrite T2, T1, app_assoc.
  - by rewrite M2, M1, filter_app, app_assoc.
Qed.

Lemma triple_step_run t out st st' : triple_step t out st st' -> run_step [t] [out] st st'.
Proof.
  intros (W & Ew & C & T & M). repeat split; [by constructor | by constructor | | done |].
  - by rewrite C; simpl; rewrite app_nil_r.
  - rewrite M, filter_cons, filter_nil. f_equal.
    destruct (o_wf out); symmetry in Ew;
      [apply bool_decide_eq_true in Ew | apply bool_decide_eq_false in Ew];
      by destruct (decide (length t ≠ 3)).
Qed.

(** The triples of one item, in order. *)
Lemma forM_eval_triple_run `{WikidataService} input ts st st' :
  forM_ ts (eval_triple input) st = (Ok tt, st') -> exists outs, run_step ts outs st st'.
Proof.
  revert st. induction ts as [|t ts IH]; intros st H1; simpl in H1.
  - apply mret_inv in H1 as [_ ->]. exists []. by apply run_step_nil.
  - apply evalM_bind_inv in H1 as ([] & st1 & H01 & H1).
    destruct (eval_triple_refines _ _ _ _ H01) as [out Hout]. destruct (IH _ H1) as [outs Houts].
    exists (out :: outs). apply (run_step_app [t] [out] ts outs _ st1); [|done].
    by apply triple_step_run.
Qed.

(** Some sequence of triples: the relation is a preorder. *)
Definition runs (st st' : eval_state) : Prop := exists ts outs, run_step ts outs st st'.

#[export] Instance runs_preorder : PreOrder runs.
Proof.
  split.
  - intros st. exists [], []. by apply run_step_nil.
  - intros a b c (ts1 & o1 & H1) (ts2 & o2 & H2). exists (ts1 ++ ts2), (o1 ++ o2).
    by eapply run_step_app.
Qed.

(** A completed loop whose body completes in [R]. *)
Lemma forM_ok {A} (R : eval_state -> eval_state -> Prop) `{!PreOrder R} (l : list A) f :
  (forall x st st', f x st = (Ok tt, st') -> R st st') ->
  forall st st', forM_ l f st = (Ok tt, st') -> R st st'.
Proof.
  intros Hf. induction l as [|x l IH]; intros st st' H1; simpl in H1.
  - by apply mret_inv in H1 as [_ ->].
  - apply evalM_bind_inv in H1 as ([] & st1 & H01 & H1). etrans; [exact (Hf _ _ _ H01) | exact (IH _ _ H1)].
Qed.

Lemma eval_item_runs `{WikidataService} gold_data file index item st st' :
  eval_item gold_data file index item st = (Ok tt, st') -> runs st st'.
Proof.
  unfold eval_item. intros H1. binv H1. repeat match goal with Hm : lift _ _ = _ |- _ => injection Hm as _ <- end.
  destruct (read_triples _) as [ts|].
  - destruct (forM_eval_triple_run _ _ _ _ H1) as [outs Hr]. by exists ts, outs.
  - injection H1 as <-. exists [], []. by apply run_step_nil.
Qed.

(** A completed file is a sequence of triples run from the initial state. *)
Lemma eval_file_runs `{WikidataService} gold_data file extractions st :
  eval_file gold_data file extractions = (Ok tt, st) -> runs init_state st.
Proof.
  unfold eval_file. apply forM_ok; [apply _|]. intros [i x] st1 st2. apply eval_item_runs.
Qed.

(** ** Counter invariants *)

Definition cnt (c : counter) (l : list counter) : nat := List.count_occ (decide_rel eq) l c.

(** How many times one triple increments each counter, for every
    outcome the code can produce. *)
Lemma triple_bumps_facts o : outcome_wf o ->
  let n c := cnt c (triple_bumps o) in
  n both_statement_and_domain_range_matches <= n statement_matches /\
  n statement_matches <= n triples_with_all_components_in_wikidata /\
  n both_statement_and_domain_range_matches <= n domain_range_matches /\
  n domain_range_matches <= n triples_with_all_components_in_wikidata /\
  n domain_range_matches = n zero_hop_matches + n one_hop_matches + n two_hop_matches + n three_hop_matches /\
  n has_domain_range_only_subject_has_wikiId + n has_domain_range_only_object_has_wikiId +
    n has_domain_range_no_subject_no_object + n domain_range_matches <= n has_domain_range /\
  n has_domain_range_only_subject_has_wikiId_and_match <= n has_domain_range_only_subject_has_wikiId /\
  n has_domain_range_only_object_has_wikiId_and_match <= n has_domain_range_only_object_has_wikiId /\
  n has_domain_range <= (if o_wf o then 1 else 0) /\
  n triples_with_all_components_in_wikidata <= (if o_wf o then 1 else 0).
Proof.
  destruct o as [wf pr s ob dr dm rm stm lvl]. unfold outcome_wf, cnt, triple_bumps. simpl.
  intros (Hs & Ho & Hl).
  destruct wf, pr; simpl; [|lia..].
  destruct s, ob, dr, dm, rm, stm; simpl in *; try (discriminate || lia);
    specialize (Hl eq_refl); destruct lvl as [|[|[|[|]]]]; simpl; lia.
Qed.

Lemma sum_list_with_add {A} (f g : A -> nat) l :
  sum_list_with f l + sum_list_with g l = sum_list_with (fun x => f x + g x) l.
Proof. induction l; simpl; lia. Qed.

Lemma sum_list_with_mono {A} (f g : A -> nat) l :
  Forall (fun x => f x <= g x) l -> sum_list_with f l <= sum_list_with g l.
Proof. induction 1; simpl; lia. Qed.

Lemma sum_list_with_ext_Forall {A} (f g : A -> nat) l :
  Forall (fun x => f x = g x) l -> sum_list_with f l = sum_list_with g l.
Proof. induction 1; simpl; lia. Qed.

(** From the initial state, a counter is the sum over the outcomes. *)
Lemma run_counts ts outs st c :
  run_step ts outs init_state st -> counts st c = sum_list_with (fun o => cnt c (triple_bumps o)) outs.
Proof.
  intros (_ & _ & C & _). rewrite C, bumps_count. simpl. clear C.
  induction outs as [|o outs IH]; [done|]. simpl. unfold cnt in *. by rewrite count_occ_app, IH.
Qed.

(** One outcome is well formed per triple of three elements. *)
Lemma run_wf_count ts outs st st' :
  run_step ts outs st st' ->
  sum_list_with (fun o => if o_wf o then 1 else 0) outs + length (filter (fun t => length t ≠ 3) ts) =
  length ts.
Proof.
  intros (_ & F & _). induction F as [|t o ts outs Ew F IH]; [done|].
  rewrite filter_cons. simpl. rewrite Ew.
  destruct (decide (length t = 3)) as [E|E].
  - rewrite bool_decide_eq_true_2 by done. rewrite decide_False by lia. lia.
  - rewrite bool_decide_eq_false_2 by done. rewrite decide_True by done. simpl. lia.
Qed.

(** [lift_facts H]: prove a linear relation between counters after a
    run by summing [triple_bumps_facts] over its outcomes. *)
Ltac lift_facts Hrun :=
  let W := fresh "W" in
  pose proof Hrun as (W & _);
  rewrite ?(run_counts _ _ _ _ Hrun); rewrite ?sum_list_with_add;
  first [apply sum_list_with_mono | apply sum_list_with_ext_Forall];
  eapply Forall_impl; [exact W|]; intros ?o ?Ho;
  destruct (triple_bumps_facts o Ho) as (? & ? & ? & ? & ? & ? & ? & ? & ? & ?); simpl in *; lia.

(** A completed file's counters, as the outcomes of its triples. *)
Lemma eval_file_run `{WikidataService} gold_data file extractions st :
  eval_file gold_data file extractions = (Ok tt, st) ->
  exists ts outs, run_step ts outs init_state st.
Proof. apply eval_file_runs. Qed.

(** The statement and domain/range matches are nested below the fully resolved triples. *)
Definition match_chain (st : eval_state) : Prop :=
  counts st both_statement_and_domain_range_matches <= counts st statement_matches <=
    counts st triples_with_all_components_in_wikidata /\
  counts st both_statement_and_domain_range_matches <= counts st domain_range_matches <=
    counts st triples_with_all_components_in_wikidata.

(** Every domain/range match is counted at one hop level. *)
Definition hop_levels_sum (st : eval_state) : Prop :=
  counts st domain_range_matches =
    counts st zero_hop_matches + counts st one_hop_matches + counts st two_hop_matches +
    counts st three_hop_matches.

(** The partial-evidence cases are disjoint and their match counters bounded. *)
Definition partial_evidence (st : eval_state) : Prop :=
  counts st has_domain_range_only_subject_has_wikiId + counts st has_domain_range_only_object_has_wikiId +
    counts st has_domain_range_no_subject_no_object + counts st domain_range_matches <=
    counts st has_domain_range /\
  counts st has_domain_range_only_subject_has_wikiId_and_match <=
    counts st has_domain_range_only_subject_has_wikiId /\
  counts st has_domain_range_only_object_has_wikiId_and_match <=
    counts st has_domain_range_only_object_has_wikiId.

(** The malformed triples are the triples without three elements, and the counted triples are among the others. *)
Definition triple_bounds (st : eval_state) : Prop :=
  malformed_triples st = filter (fun t => length t ≠ 3) (all_triples st) /\
  counts st triples_with_all_components_in_wikidata + length (malformed_triples st) <=
    length (all_triples st) /\
  counts st has_domain_range + length (malformed_triples st) <= length (all_triples st).

(** C3: the statement and domain/range matches of a file are nested:
    a combined match is a statement match and a domain/range match, and
    each of these needs a triple whose three components resolved. *)
Theorem eval_file_match_chain `{WikidataService} gold_data file extractions st :
  eval_file gold_data file extractions = (Ok tt, st) -> match_chain st.
Proof. unfold match_chain. intros (ts & outs & Hrun)%eval_file_run. repeat split; lift_facts Hrun. Qed.

(** C4: every domain/range match of a file is counted at exactly one
    hop level. *)
Theorem eval_file_hop_levels `{WikidataService} gold_data file extractions st :
  eval_file gold_data file extractions = (Ok tt, st) -> hop_levels_sum st.
Proof. unfold hop_levels_sum. intros (ts & outs & Hrun)%eval_file_run. lift_facts Hrun. Qed.

(** among the triples whose relation has a domain and a range, the
    cases "only the subject resolved", "only the object resolved",
    "neither resolved" and "domain and range matched" are disjoint, and
    a partial match is counted only with its partial case. *)
Theorem eval_file_partial_evidence `{WikidataService} gold_data file extractions st :
  eval_file gold_data file extractions = (Ok tt, st) -> partial_evidence st.
Proof. unfold partial_evidence. intros (ts & outs & Hrun)%eval_file_run. repeat split; lift_facts Hrun. Qed.

(** the malformed triples of a file are exactly its triples that do
    not have three elements, and the triples counted as fully resolved,
    or as having a relation with domain and range, are among the others. *)
Theorem eval_file_triple_bounds `{WikidataService} gold_data file extractions st :
  eval_file gold_data file extractions = (Ok tt, st) -> triple_bounds st.
Proof.
  unfold triple_bounds.
  intros (ts & outs & Hrun)%eval_file_run.
  pose proof (run_wf_count _ _ _ _ Hrun) as Hn. pose proof Hrun as (W & _ & _ & T & M).
  simpl in T, M. rewrite T, M. split; [done|].
  assert (Hle : forall c, (c = triples_with_all_components_in_wikidata \/ c = has_domain_range) ->
            counts st c <= sum_list_with (fun o => if o_wf o then 1 else 0) outs).
  { intros c Hc. rewrite (run_counts _ _ _ _ Hrun). apply sum_list_with_mono.
    eapply Forall_impl; [exact W|]. intros o Ho.
    destruct (triple_bumps_facts o Ho) as (? & ? & ? & ? & ? & ? & ? & ? & ? & ?).
    destruct Hc as [-> | ->]; simpl in *; lia. }
  pose proof (Hle _ (or_introl eq_refl)). pose proof (Hle _ (or_intror eq_refl)). lia.
Qed.

(** ** A concrete run

    A service that resolves every label, gives the relation the domain
    [human] and the range [city], puts every entity in [human] with
    superclass [city], and confirms every statement; one item with a
    well-formed and a malformed triple. *)

Definition demo_cell (var label id : string) : list (pyval * pyval) :=
  [(PStr var, PDict [(PStr "value", PStr ("http://www.wikidata.org/entity/" ++ id))]);
   (PStr (var ++ "Label"), PDict [(PStr "value", PStr label)])].

Definition demo_sparql (rows : list (list (pyval * pyval))) : pyval :=
  PDict [(PStr "results", PDict [(PStr "bindings", PList (map PDict rows))])].

#[local] Instance demo_service : WikidataService := {|
  respond r _ :=
    match r with
    | Search q _ => Ok (PDict [(PStr "search", PList [PDict [(PStr "id", PStr ("Q-" ++ q))]])])
    | Sparql (QDomain _) => Ok (demo_sparql [demo_cell "domain" "human" "Q5"])
    | Sparql (QRange _) => Ok (demo_sparql [demo_cell "range" "city" "Q515"])
    | Sparql (QInstanceOf _) =>
        Ok (demo_sparql [demo_cell "instanceOf" "human" "Q5" ++ demo_cell "superClass" "city" "Q515"])
    | Sparql (QSubclassOf _) => Ok (demo_sparql [])
    | Ask _ _ _ => Ok (PDict [(PStr "boolean", PBool true)])
    end |}.

Definition demo_gold : list pyval := [PDict [(PStr "Text", PStr "Paris is the capital of France.")]].

Definition demo_extractions : list pyval :=
  [PDict [(PStr "postprocessed",
           PList [PList [PStr "Paris"; PStr "capital of"; PStr "France"]; PList [PStr "Paris"; PStr "France"]])]].

Definition demo_run : result unit * eval_state := eval_file demo_gold "demo.json" demo_extractions.

Lemma eval_resolved_statement_iff_witness :
  exists new, calls (eval_resolved "k" (PStr "Q1") (PStr "P2") (PStr "Q3") init_state).2 = [] ++ new /\
    (asks_statement new <-> all_resolved (PStr "Q1") (PStr "P2") (PStr "Q3")) /\
    (all_resolved (PStr "Q1") (PStr "P2") (PStr "Q3") ->
     Ask (py_str (PStr "Q1")) (py_str (PStr "P2")) (py_str (PStr "Q3")) ∈ new).
Proof. apply (eval_resolved_statement_iff "k" _ _ _ init_state). vm_compute. reflexivity. Defined.


Lemma eval_file_match_chain_witness : match_chain demo_run.2.
Proof. apply (eval_file_match_chain demo_gold "demo.json" demo_extractions). vm_compute. reflexivity. Defined.

Lemma eval_file_hop_levels_witness : hop_levels_sum demo_run.2.
Proof. apply (eval_file_hop_levels demo_gold "demo.json" demo_extractions). vm_compute. reflexivity. Defined.

Lemma eval_file_partial_evidence_witness : partial_evidence demo_run.2.
Proof. apply (eval_file_partial_evidence demo_gold "demo.json" demo_extractions). vm_compute. reflexivity. Defined.

Lemma eval_file_triple_bounds_witness : triple_bounds demo_run.2.
Proof. apply (eval_file_triple_bounds demo_gold "demo.json" demo_extractions). vm_compute. reflexivity. Defined.
