(* ===== verification/EvalScript.v ===== *)
(** * The file loops of the post-processor and of the evaluator

    [main] of [post_process_generated_string.py] (lines 216-311) lists
    its input folder, post-processes every file and writes
    [post_processed_{file}] to the output folder; [evaluate] of
    [general_evaluation_final.py] (lines 199-568) reads the gold file,
    lists its input folder, evaluates every file and writes four files
    for it: the audit dictionary, the results dictionary, and the
    relations and entities it met.  Both loops run on the file system of
    [FileSys]; a directory listing ([os.listdir]) is an argument, [None]
    when the folder does not exist, and lists names in the order of the
    operating system.  Each loop returns the file system together with
    the exception that ended it: the files written before an exception
    stay written. *)

From stdpp Require Import gmap.
From S2P Require Import Prelude PyStr PyDict PyVal Json FileSys Cascade PostProcessing Wikidata WikidataEval.

(** ** [post_process_generated_string.py] *)

(** [read_extraction_file] (lines 11-16): [json.load], then
    [print(len(data))]. *)
Definition read_extraction_file (fs : fsys) (file_path : string) : result pyval :=
  data ← json_load fs file_path; _ ← py_len data; Ok data.

Section FileLoop.
(** What a script does with the data of one file: the list of
    records it writes. *)
Variable process : string -> pyval -> result (list pyval).

(** One file of the loop (lines 240-311). *)
Definition post_process_one (input_folder out_dir : string) (fs : fsys) (file : string) : result fsys :=
  let filepath := path_join input_folder file in
  let outfile := ("post_processed_" ++ file)%string in
  data ← read_extraction_file fs filepath;
  post_processed_data ← process file data;
  json_dump_file fs (path_join out_dir outfile) (PList post_processed_data).

(** [for file in tqdm(file_names)]: the files written so far, and the
    exception that ended the loop. *)
Fixpoint post_process_loop (input_folder out_dir : string) (files : list string) (fs : fsys) : fsys * option exc :=
  match files with
  | [] => (fs, None)
  | file :: rest =>
      match post_process_one input_folder out_dir fs file with
      | Ok fs' => post_process_loop input_folder out_dir rest fs'
      | Raise e => (fs, Some e)
      end
  end.

(** [main] (lines 229-311): a missing folder is only reported, and
    [file_names] is then unbound at the loop. *)
Definition post_process_main_with (input_folder out_dir : string) (listing : option (list string)) (fs : fsys)
    : fsys * option exc :=
  match listing with
  | None => (fs, Some NameError)
  | Some file_names => post_process_loop input_folder out_dir file_names fs
  end.

End FileLoop.

(** [main] of [post_process_generated_string.py]. *)
Definition post_process_main : string -> string -> option (list string) -> fsys -> fsys * option exc :=
  post_process_main_with (fun _ data => post_process_file data).

(** [main] of [post_processing.py] (lines 105-160): the same loop, with
    the per-file processing of that script, which depends on the file
    name. *)
Definition post_processing_main : string -> string -> option (list string) -> fsys -> fsys * option exc :=
  post_process_main_with process_pp_file.

(** ** [general_evaluation_final.py] *)

(** The JSON image of the audit dictionary [triple_dict]. *)
Definition pv_triple_dict (d : dict string audit) : pyval :=
  PDict (map (fun ka => (PStr ka.1, PDict (map (fun fv => (PStr fv.1, fv.2)) ka.2))) d).

(** A pair of the sets [all_relations] and [all_entities], as
    [json.dump] writes a tuple. *)
Definition pv_pair (p : string * pyval) : pyval := PTuple [PStr p.1; p.2].

Definition count (st : eval_state) (c : counter) : pyval := PInt (Z.of_nat (counts st c)).

(** [results_dict] (lines 515-537); [evaluation_time] is the text
    [f"{elapsed_time:.2f} minutes"] of the wall-clock time, which the
    model does not measure. *)
Definition results_dict (file evaluation_time : string) (st : eval_state) : pyval :=
  PDict [(PStr "Evaluated file", PStr file);
         (PStr "Evaluation time", PStr evaluation_time);
         (PStr "Number of extracted triples", PInt (Z.of_nat (length (all_triples st))));
         (PStr "Number of malformed triples", PInt (Z.of_nat (length (malformed_triples st))));
         (PStr "Number of triples has domain&range in Wikidata", count st has_domain_range);
         (PStr "Number of triples with matching domain&range in Wikidata", count st domain_range_matches);
         (PStr "Number of triples with zero hop match", count st zero_hop_matches);
         (PStr "Number of triples with one hop match", count st one_hop_matches);
         (PStr "Number of triples with two hop match", count st two_hop_matches);
         (PStr "Number of triples with three hop match", count st three_hop_matches);
         (PStr "Number of triples has domain&range in Wikidata and only subject has wikiID (obj=no-wikiID)",
          count st has_domain_range_only_subject_has_wikiId);
         (PStr "Number of triples has domain&range in Wikidata and only subject has wikiID (obj=no-wikiID) and the domain matches",
          count st has_domain_range_only_subject_has_wikiId_and_match);
         (PStr "Number of triples has domain&range in Wikidata and only object has wikiID (sbj=no-wikiID)",
          count st has_domain_range_only_object_has_wikiId);
         (PStr "Number of triples has domain&range in Wikidata and only object has wikiID (sbj=no-wikiID) and range matches",
          count st has_domain_range_only_object_has_wikiId_and_match);
         (PStr "Number of triples has domain&range but subject and object both NOT found in Wikidata",
          count st has_domain_range_no_subject_no_object);
         (PStr "Number of triples with all components in Wikidata", count st triples_with_all_components_in_wikidata);
         (PStr "Number of triples with matching statement in Wikidata", count st statement_matches);
         (PStr "Number of triples with both statement and domain&range in Wikidata",
          count st both_statement_and_domain_range_matches)].

(** [file.replace("post_processed_", "_")]: the part of an output name
    that comes from the input file. *)
Definition output_name (file : string) : string := py_replace "post_processed_" "_" file.

(** The four output paths of a file (lines 539-566). *)
Definition triples_file (out_dir file : string) : string :=
  path_join (path_join out_dir "triples") ("triples_checked_from" ++ output_name file).
Definition results_file (out_dir file : string) : string :=
  path_join (path_join out_dir "results") ("results_from" ++ output_name file).
Definition relations_file (out_dir file : string) : string :=
  path_join (path_join out_dir "extracted_relations_and_entities") ("relations_from" ++ output_name file).
Definition entities_file (out_dir file : string) : string :=
  path_join (path_join out_dir "extracted_relations_and_entities") ("entities_from" ++ output_name file).

Section Evaluate.
Context `{WikidataService}.

(** The iteration order of [list(s)] for the sets of pairs. *)
Variable set_list : list (string * pyval) -> list (string * pyval).
(** The formatted evaluation time of each file. *)
Variable evaluation_time : string -> string.

(** Lines 539-566: the four files written for an evaluated file. *)
Definition write_outputs (out_dir file : string) (st : eval_state) (fs : fsys) : result fsys :=
  fs1 ← json_dump_file fs (triples_file out_dir file) (pv_triple_dict (triple_dict st));
  fs2 ← json_dump_file fs1 (results_file out_dir file) (results_dict file (evaluation_time file) st);
  fs3 ← json_dump_file fs2 (relations_file out_dir file) (PList (map pv_pair (set_list (all_relations st))));
  json_dump_file fs3 (entities_file out_dir file) (PList (map pv_pair (set_list (all_entities st)))).

(** One file of the loop (lines 298-566): [json.load] of the file, the
    evaluation from a fresh state, and the four outputs. *)
Definition evaluate_one (gold_data : list pyval) (input_dir out_dir : string) (fs : fsys) (file : string)
    : result fsys :=
  extractions ← json_load fs (path_join input_dir file);
  items ← py_iter extractions;
  match eval_file gold_data file items with
  | (Ok _, st) => write_outputs out_dir file st fs
  | (Raise e, _) => Raise e
  end.

Fixpoint evaluate_loop (gold_data : list pyval) (input_dir out_dir : string) (files : list string) (fs : fsys)
    : fsys * option exc :=
  match files with
  | [] => (fs, None)
  | file :: rest =>
      match evaluate_one gold_data input_dir out_dir fs file with
      | Ok fs' => evaluate_loop gold_data input_dir out_dir rest fs'
      | Raise e => (fs, Some e)
      end
  end.

(** [evaluate] once its arguments are parsed (lines 211-568): a missing
    input folder is only reported, so [os.listdir] raises
    [FileNotFoundError]; the last line logs the loop variable [file],
    unbound when the folder is empty. *)
Definition evaluate_main (input_dir gold_file out_dir : string) (listing : option (list string)) (fs : fsys)
    : fsys * option exc :=
  match read_jsonlines fs gold_file with
  | Raise e => (fs, Some e)
  | Ok gold_data =>
      match listing with
      | None => (fs, Some FileNotFoundError)
      | Some files =>
          match evaluate_loop gold_data input_dir out_dir files fs with
          | (fs', Some e) => (fs', Some e)
          | (fs', None) => (fs', if bool_decide (files = []) then Some NameError else None)
          end
      end
  end.

End Evaluate.

(** ** Properties *)

(** ** Output paths *)

(** The separator [path_join a] puts before a relative name. *)
Definition path_sep (a : string) : string :=
  if String.eqb a EmptyString || String.eqb (py_split_last "/" a) EmptyString then EmptyString else "/".

Lemma path_join_sep a b : py_startswith "/" b = false -> path_join a b = (a ++ path_sep a ++ b)%string.
Proof. intros Hb. unfold path_join, path_sep. rewrite Hb. by destruct (_ || _). Qed.

(** Two output paths [out_dir/d/n] agree only where [d] followed by
    [n] does. *)
Lemma output_path_eq out d1 d2 n1 n2 :
  py_startswith "/" d1 = false -> py_startswith "/" d2 = false ->
  py_startswith "/" n1 = false -> py_startswith "/" n2 = false ->
  path_join (path_join out d1) n1 = path_join (path_join out d2) n2 ->
  (d1 ++ path_sep (path_join out d1) ++ n1)%string = (d2 ++ path_sep (path_join out d2) ++ n2)%string.
Proof.
  intros H1 H2 H3 H4 E. rewrite (path_join_sep _ n1), (path_join_sep _ n2) in E by done.
  set (s1 := path_sep (path_join out d1)) in *. set (s2 := path_sep (path_join out d2)) in *.
  rewrite (path_join_sep out d1), (path_join_sep out d2) in E by done.
  rewrite !str_app_assoc in E. by apply str_app_cancel_l, str_app_cancel_l in E.
Qed.

(** The four files of [file], as a list. *)
Definition output_files (out_dir file : string) : list string :=
  [triples_file out_dir file; results_file out_dir file; relations_file out_dir file; entities_file out_dir file].

(** The results file of a file is none of the three other output files
    of any file, and is shared exactly by the files of one output name. *)
Lemma results_file_other_dirs out g h :
  results_file out g <> triples_file out h /\ results_file out g <> relations_file out h /\
  results_file out g <> entities_file out h.
Proof.
  unfold results_file, triples_file, relations_file, entities_file.
  split_and!; intros E; apply output_path_eq in E; try reflexivity; discriminate.
Qed.

Lemma results_file_inj out g h : results_file out g = results_file out h -> output_name g = output_name h.
Proof.
  unfold results_file. intros E. apply output_path_eq in E; try reflexivity.
  by apply str_app_cancel_l, str_app_cancel_l, str_app_cancel_l in E.
Qed.

Lemma results_file_not_output out g h :
  output_name h <> output_name g -> results_file out g ∉ output_files out h.
Proof.
  intros Hne. destruct (results_file_other_dirs out g h) as (H1 & H2 & H3).
  unfold output_files. rewrite !not_elem_of_cons. split_and!; try done; [|apply not_elem_of_nil].
  intros E%results_file_inj. congruence.
Qed.

Section LoopProps.
Context `{WikidataService}.
Variable set_list : list (string * pyval) -> list (string * pyval).
Variable evaluation_time : string -> string.

Lemma json_dump_file_lookup fs fs' path v :
  json_dump_file fs path v = Ok fs' -> exists text, json_dump_indent false 0 v = Ok text /\ fs' !! path = Some text.
Proof.
  unfold json_dump_file, write_file. destruct (json_dump_indent false 0 v) as [text|]; [|discriminate].
  intros [= <-]. exists text. split; [done | apply lookup_insert_eq].
Qed.

Lemma write_outputs_frame out f st fs fs' q :
  write_outputs set_list evaluation_time out f st fs = Ok fs' -> q ∉ output_files out f -> fs' !! q = fs !! q.
Proof.
  unfold write_outputs, output_files. intros E Hq. rewrite !not_elem_of_cons in Hq.
  destruct Hq as (H1 & H2 & H3 & H4 & _).
  apply bind_Ok_inv in E as (fs1 & E1 & E). apply bind_Ok_inv in E as (fs2 & E2 & E).
  apply bind_Ok_inv in E as (fs3 & E3 & E4).
  rewrite (json_dump_file_frame _ _ _ _ _ E4 H4), (json_dump_file_frame _ _ _ _ _ E3 H3),
    (json_dump_file_frame _ _ _ _ _ E2 H2), (json_dump_file_frame _ _ _ _ _ E1 H1). done.
Qed.

(** The results file holds the dump of [results_dict]: the two files
    written after it are in another directory. *)
Lemma write_outputs_results out f st fs fs' :
  write_outputs set_list evaluation_time out f st fs = Ok fs' ->
  exists text, json_dump_indent false 0 (results_dict f (evaluation_time f) st) = Ok text /\
    fs' !! results_file out f = Some text.
Proof.
  unfold write_outputs. intros E.
  apply bind_Ok_inv in E as (fs1 & E1 & E). apply bind_Ok_inv in E as (fs2 & E2 & E).
  apply bind_Ok_inv in E as (fs3 & E3 & E4).
  destruct (json_dump_file_lookup _ _ _ _ E2) as (text & Et & Hl). exists text. split; [done|].
  destruct (results_file_other_dirs out f f) as (_ & Hr & He).
  by rewrite (json_dump_file_frame _ _ _ _ _ E4 He), (json_dump_file_frame _ _ _ _ _ E3 Hr).
Qed.

Lemma evaluate_one_frame gold_data input_dir out_dir fs f fs' q :
  evaluate_one set_list evaluation_time gold_data input_dir out_dir fs f = Ok fs' ->
  q ∉ output_files out_dir f -> fs' !! q = fs !! q.
Proof.
  unfold evaluate_one. intros E Hq.
  apply bind_Ok_inv in E as (ext & _ & E). apply bind_Ok_inv in E as (items & _ & E).
  destruct (eval_file gold_data f items) as [[]  st]; [|discriminate].
  exact (write_outputs_frame _ _ _ _ _ _ E Hq).
Qed.

(** A file that is evaluated: its data, the state of its loop, and the
    dump of its results in its results file. *)
Lemma evaluate_one_results gold_data input_dir out_dir fs g fs' :
  evaluate_one set_list evaluation_time gold_data input_dir out_dir fs g = Ok fs' ->
  exists ext items st text,
    json_load fs (path_join input_dir g) = Ok ext /\ py_iter ext = Ok items /\
    eval_file gold_data g items = (Ok tt, st) /\
    json_dump_indent false 0 (results_dict g (evaluation_time g) st) = Ok text /\
    fs' !! results_file out_dir g = Some text.
Proof.
  unfold evaluate_one. intros E.
  apply bind_Ok_inv in E as (ext & Ej & E). apply bind_Ok_inv in E as (items & Ei & E).
  destruct (eval_file gold_data g items) as [[[]|e] st] eqn:Ef; [|discriminate].
  destruct (write_outputs_results _ _ _ _ _ E) as (text & Et & Hl). eauto 10.
Qed.

Lemma evaluate_loop_app_ok gold_data input_dir out_dir l1 l2 fs fs' :
  evaluate_loop set_list evaluation_time gold_data input_dir out_dir (l1 ++ l2) fs = (fs', None) ->
  exists fs1, evaluate_loop set_list evaluation_time gold_data input_dir out_dir l1 fs = (fs1, None) /\
    evaluate_loop set_list evaluation_time gold_data input_dir out_dir l2 fs1 = (fs', None).
Proof.
  revert fs. induction l1 as [|f l1 IH]; intros fs E; simpl in E; [by exists fs|].
  destruct (evaluate_one _ _ _ _ _ fs f) as [fs1|e] eqn:Eo; [|discriminate].
  destruct (IH _ E) as (fs2 & E1 & E2). exists fs2. simpl. by rewrite Eo.
Qed.

Lemma evaluate_loop_frame gold_data input_dir out_dir l fs fs' q :
  evaluate_loop set_list evaluation_time gold_data input_dir out_dir l fs = (fs', None) ->
  Forall (fun h => q ∉ output_files out_dir h) l -> fs' !! q = fs !! q.
Proof.
  revert fs. induction l as [|f l IH]; intros fs E Hl; simpl in E; [by injection E as <-|].
  destruct (evaluate_one _ _ _ _ _ fs f) as [fs1|e] eqn:Eo; [|discriminate].
  apply Forall_cons in Hl as [Hf Hl]. rewrite (IH _ E Hl). exact (evaluate_one_frame _ _ _ _ _ _ _ Eo Hf).
Qed.

(** C25: Output files are named after [file.replace('post_processed_',
    '_')], so files with one output name share their four output files.
    After a run without exception, the results file of every file whose
    output name is that of [g] holds the dump of the results of [g], the
    last file of that output name in the listing: the results of
    [post_processed_a.json] are lost when [_a.json] comes after it. *)
Theorem results_overwritten input_dir gold_file out_dir pre g post fs fs' :
  evaluate_main set_list evaluation_time input_dir gold_file out_dir (Some (pre ++ g :: post)) fs = (fs', None) ->
  Forall (fun h => output_name h <> output_name g) post ->
  exists gold_data fs1 ext items st text,
    read_jsonlines fs gold_file = Ok gold_data /\
    json_load fs1 (path_join input_dir g) = Ok ext /\ py_iter ext = Ok items /\
    eval_file gold_data g items = (Ok tt, st) /\
    json_dump_indent false 0 (results_dict g (evaluation_time g) st) = Ok text /\
    forall f, output_name f = output_name g -> fs' !! results_file out_dir f = Some text.
Proof.
  unfold evaluate_main. intros E Hpost.
  destruct (read_jsonlines fs gold_file) as [gold_data|e] eqn:Eg; [|discriminate].
  destruct (evaluate_loop _ _ _ _ _ _ fs) as [fs2 [e|]] eqn:El; [discriminate|]. injection E as <- _.
  apply evaluate_loop_app_ok in El as (fs1 & _ & E2). simpl in E2.
  destruct (evaluate_one _ _ _ _ _ fs1 g) as [fs3|e] eqn:Eo; [|discriminate].
  destruct (evaluate_one_results _ _ _ _ _ _ Eo) as (ext & items & st & text & Ej & Ei & Ef & Et & Hl).
  exists gold_data, fs1, ext, items, st, text. split_and!; try done.
  intros f Hf. replace (results_file out_dir f) with (results_file out_dir g) by (unfold results_file; by rewrite Hf).
  rewrite (evaluate_loop_frame _ _ _ _ _ _ _ E2); [done|].
  eapply Forall_impl; [exact Hpost|]. intros h Hh. by apply results_file_not_output.
Qed.

End LoopProps.

Section Witnesses.

#[local] Instance offline : WikidataService := {| respond _ _ := Raise RequestError |}.

Definition keep_order (l : list (string * pyval)) : list (string * pyval) := l.
Definition two_minutes (_ : string) : string := "2.00 minutes".

Definition demo_eval_fs : fsys :=
  {[ "gold.jsonl" := EmptyString; "pp/post_processed_a.json" := "[]"; "pp/_a.json" := "[]"; "pp/bad.json" := "[" ]}.

(** [post_processed_a.json], then [_a.json]: both have the output name
    [_a.json]. *)
Lemma results_overwritten_witness :
  exists gold_data fs1 ext items st text,
    read_jsonlines demo_eval_fs "gold.jsonl" = Ok gold_data /\
    json_load fs1 (path_join "pp" "_a.json") = Ok ext /\ py_iter ext = Ok items /\
    eval_file gold_data "_a.json" items = (Ok tt, st) /\
    json_dump_indent false 0 (results_dict "_a.json" (two_minutes "_a.json") st) = Ok text /\
    forall f, output_name f = output_name "_a.json" ->
      (evaluate_main keep_order two_minutes "pp" "gold.jsonl" "out" (Some ["post_processed_a.json"; "_a.json"])
         demo_eval_fs).1 !! results_file "out" f = Some text.
Proof.
  apply (results_overwritten keep_order two_minutes "pp" "gold.jsonl" "out" ["post_processed_a.json"] "_a.json" []);
    [vm_compute; reflexivity | constructor].
Defined.

End Witnesses.
