(* ===== verification/GoldEval.v ===== *)
(** * Scoring extractions against the gold annotations

    [src/3_evaluation_module/evaluation_reference_to_annotations/evaluate.py]
    lines 58-167: for every extraction file, each record's
    [postprocessed] value is read with [read_triples] ([read_triples_ann]
    of [PyVal]) and compared with the lower-cased gold triples of the
    record at the same index of the gold file.  A record scores a
    precision and a recall; the file's scores are their averages, and
    F1 their harmonic mean.

    The scores are exact rationals ([Q]); Python computes them in binary
    floating point, whose rounding (relative error about [1e-16]) is not
    modelled.  The script's loop over the extraction files runs on the
    file system of [FileSys] ([evaluate]); the text [json.dump] writes
    for a file's results is a parameter, since Python's [repr] of the
    binary floats it prints is not modelled.  The progress bars,
    [print] and argparse are omitted.

    The theorems: every score lies in [0, 1]; a record's precision is
    the share of its extracted triples found in the gold list; the
    number of gold matches counts an extracted triple as often as it
    occurs, which inflates recall for repeated triples; a file without
    records raises [ZeroDivisionError]. *)

From S2P Require Import Prelude PyStr PyDict PyVal Json FileSys.
From Stdlib Require Import QArith Lqa.

(** ** One record (lines 91-154) *)

(** [[item.lower() for item in triple]] for a gold triple. *)
Definition lower_gold_triple (triple : pyval) : result pyval :=
  items ← py_iter triple;
  vs ← result_map (fun x => s ← str_or AttributeError x; Ok (PStr (py_lower s))) items;
  Ok (PList vs).

(** Lines 92-96. *)
Definition gold_triples_of (gold_record : pyval) : result (list pyval) :=
  gold ← getitem_str gold_record "Triples";
  triples ← py_iter gold;
  result_map lower_gold_triple triples.

(** Lines 114-124: a triple of three items, with its [str] items
    lower-cased and its other items dropped. *)
Definition lower_extracted (triple : list pyval) : option pyval :=
  if length triple =? 3 then
    Some (PList (flat_map (fun x => match x with PStr s => [PStr (py_lower s)] | _ => [] end) triple))
  else None.

Definition extracted_of (triples : list (list pyval)) : list pyval := omap lower_extracted triples.

(** [triple in l]. *)
Definition py_elem (x : pyval) (l : list pyval) : bool := existsb (pyval_eqb x) l.

(** Lines 131-144. *)
Definition true_pos (ex gold : list pyval) : nat := length (List.filter (fun t => py_elem t gold) ex).
Definition false_pos (ex gold : list pyval) : nat := length (List.filter (fun t => negb (py_elem t gold)) ex).
Definition false_neg (ex gold : list pyval) : nat := length (List.filter (fun t => negb (py_elem t ex)) gold).

(** [a / b] for counts, [0] when [b] is [0] (lines 146-154). *)
Definition ratio (a b : nat) : Q := if b =? 0 then 0 else inject_Z (Z.of_nat a) / inject_Z (Z.of_nat b).

(** A record's score: precision, recall, and its gold matches. *)
Record score := { s_prec : Q; s_rec : Q; s_matches : nat }.

Definition zero_score : score := {| s_prec := 0; s_rec := 0; s_matches := 0 |}.

Definition score_triples (ex gold : list pyval) : score :=
  let tp := true_pos ex gold in
  {| s_prec := ratio tp (tp + false_pos ex gold);
     s_rec := ratio tp (tp + false_neg ex gold);
     s_matches := tp |}.

(** Lines 91-154 for the record at [index]. *)
Definition score_record (gold_data : list pyval) (index : nat) (item : pyval) : result score :=
  gold_record ← of_option IndexError (gold_data !! index);
  gold ← gold_triples_of gold_record;
  pp ← getitem_str item "postprocessed";
  match read_triples_ann pp with
  | None => Ok zero_score
  | Some triples =>
      let ex := extracted_of triples in
      match ex with
      | [] => Ok zero_score
      | _ => Ok (score_triples ex gold)
      end
  end.

(** [enumerate(extractions)]. *)
Fixpoint score_records (gold_data : list pyval) (index : nat) (items : list pyval) : result (list score) :=
  match items with
  | [] => Ok []
  | item :: items' =>
      sc ← score_record gold_data index item;
      rest ← score_records gold_data (S index) items';
      Ok (sc :: rest)
  end.

(** ** One file (lines 87-165) *)

Definition sumQ (l : list Q) : Q := fold_left Qplus l 0.

(** [sum(l) / len(l)]. *)
Definition average (l : list Q) : result Q :=
  match length l with
  | O => Raise ZeroDivisionError
  | n => Ok (sumQ l / inject_Z (Z.of_nat n))
  end.

Definition f1 (p r : Q) : Q := if Qeq_bool (p + r) 0 then 0 else 2 * (p * r) / (p + r).

Record file_result := { f_prec : Q; f_rec : Q; f_f1 : Q; f_matches : nat }.

Definition evaluate_file (gold_data : list pyval) (extractions : pyval) : result file_result :=
  items ← py_iter extractions;
  scores ← score_records gold_data 0 items;
  p ← average (map s_prec scores);
  r ← average (map s_rec scores);
  Ok {| f_prec := p; f_rec := r; f_f1 := f1 p r;
        f_matches := fold_left Nat.add (map s_matches scores) 0%nat |}.

(** ** The script on the file system (lines 71-165) *)

Section Script.
(** The text of [json.dump({"Averaged results": {"precision": ...,
    "recall": ..., "f1": ...}, "Number of gold matches": ...}, f,
    indent=4, ensure_ascii=False)] for a file's results. *)
Variable results_text : file_result -> string.

(** One extraction file (lines 82-165): [json.load] of it, its scores,
    and the results file of the same name in [out_dir]. *)
Definition evaluate_extraction_file (input_dir out_dir : string) (gold_data : list pyval) (fs : fsys) (file : string)
    : result fsys :=
  extractions ← json_load fs (path_join input_dir file);
  r ← evaluate_file gold_data extractions;
  Ok (write_file fs (path_join out_dir file) (results_text r)).

(** [evaluate] after its arguments are parsed (lines 71-165): the gold
    file is read first, then the input directory is listed ([None]: it
    does not exist, which is only printed, and [os.listdir] raises). *)
Definition evaluate (input_dir gold_file out_dir : string) (listing : option (list string)) (fs : fsys)
    : fsys * option exc :=
  match read_jsonlines fs gold_file with
  | Raise e => (fs, Some e)
  | Ok gold_data =>
      match listing with
      | None => (fs, Some FileNotFoundError)
      | Some files => for_files (evaluate_extraction_file input_dir out_dir gold_data) files fs
      end
  end.

End Script.

(** ** Scores lie in [0, 1] *)

Definition unit_interval (q : Q) : Prop := 0 <= q /\ q <= 1.

Lemma inject_nat_le (a b : nat) : (a <= b)%nat -> inject_Z (Z.of_nat a) <= inject_Z (Z.of_nat b).
Proof. intros H. rewrite <- Zle_Qle. lia. Qed.

Lemma inject_nat_pos (b : nat) : b <> 0%nat -> 0 < inject_Z (Z.of_nat b).
Proof. intros H. change 0 with (inject_Z 0). rewrite <- Zlt_Qlt. lia. Qed.

Lemma ratio_unit a b : (a <= b)%nat -> unit_interval (ratio a b).
Proof.
  intros Hab. unfold ratio, unit_interval. destruct (Nat.eqb_spec b 0) as [->|Hb].
  - split; [apply Qle_refl | discriminate].
  - pose proof (inject_nat_pos b Hb) as Hpos. split.
    + apply Qle_shift_div_l; [done|]. rewrite Qmult_0_l.
      change 0 with (inject_Z (Z.of_nat 0)). apply inject_nat_le. lia.
    + apply Qle_shift_div_r; [done|]. rewrite Qmult_1_l. by apply inject_nat_le.
Qed.

#[export] Hint Resolve ratio_unit : py.

Lemma ratio_make a b : b <> 0%nat -> ratio a b == Z.of_nat a # Pos.of_nat b.
Proof.
  intros Hb. unfold ratio. destruct (Nat.eqb_spec b 0) as [E|_]; [lia|]. rewrite Qmake_Qdiv.
  rewrite <- (Nat2Pos.id b Hb) at 1. rewrite Znat.positive_nat_Z. reflexivity.
Qed.

(** With some false negatives, one more true positive raises [tp / (tp + fn)]. *)
Lemma ratio_lt_succ a f : f <> 0%nat -> ratio a (a + f) < ratio (S a) (S a + f).
Proof.
  intros Hf. rewrite !ratio_make by lia. unfold Qlt. cbn [Qnum Qden].
  rewrite <- (Znat.positive_nat_Z (Pos.of_nat (S a + f))), <- (Znat.positive_nat_Z (Pos.of_nat (a + f))),
    !Nat2Pos.id by lia.
  nia.
Qed.

Lemma py_elem_spec x l : py_elem x l = true <-> x ∈ l.
Proof. exact (list_contains_spec x l). Qed.

Lemma zero_score_unit : unit_interval (s_prec zero_score) /\ unit_interval (s_rec zero_score).
Proof. split; split; discriminate. Qed.

Lemma score_triples_unit ex gold :
  unit_interval (s_prec (score_triples ex gold)) /\ unit_interval (s_rec (score_triples ex gold)).
Proof. split; apply ratio_unit; lia. Qed.

Definition score_unit (sc : score) : Prop := unit_interval (s_prec sc) /\ unit_interval (s_rec sc).

Lemma score_record_unit gold_data index item sc :
  score_record gold_data index item = Ok sc -> score_unit sc.
Proof.
  unfold score_record. intros H. py_simp.
  destruct (read_triples_ann a1) as [triples|]; [|injection H as <-; apply zero_score_unit].
  destruct (extracted_of triples); injection H as <-; [apply zero_score_unit | apply score_triples_unit].
Qed.

Lemma score_records_unit gold_data index items scores :
  score_records gold_data index items = Ok scores -> Forall score_unit scores.
Proof.
  revert index scores. induction items as [|item items IH]; intros index scores; simpl; [by intros [= <-]|].
  intros H. py_simp. constructor; [by eapply score_record_unit | by eapply IH].
Qed.

(** A left-to-right sum of values of [0, 1], started at [acc]. *)
Lemma fold_Qplus_bounds (l : list Q) acc :
  Forall unit_interval l -> 0 <= acc ->
  0 <= fold_left Qplus l acc /\ fold_left Qplus l acc <= acc + inject_Z (Z.of_nat (length l)).
Proof.
  revert acc. induction l as [|x l IH]; intros acc Hl Hacc; cbn [fold_left length].
  - change (inject_Z (Z.of_nat 0)) with 0. split; lra.
  - inversion Hl as [|? ? [Hx0 Hx1] Hl']; subst.
    destruct (IH (acc + x) Hl' ltac:(lra)) as [H0 H1]. split; [done|].
    rewrite Nat2Z.inj_succ, <- Z.add_1_l, inject_Z_plus. change (inject_Z 1) with 1. lra.
Qed.

Lemma average_unit l q : Forall unit_interval l -> average l = Ok q -> unit_interval q.
Proof.
  unfold average, sumQ. intros Hl. destruct (length l) as [|n] eqn:En; [discriminate|].
  intros [= <-]. rewrite <- En.
  destruct (fold_Qplus_bounds l 0 Hl (Qle_refl 0)) as [H0 H1].
  assert (Hn : 0 < inject_Z (Z.of_nat (length l))) by (apply inject_nat_pos; lia).
  split; [apply Qle_shift_div_l | apply Qle_shift_div_r]; lra.
Qed.

Lemma f1_unit p r : unit_interval p -> unit_interval r -> unit_interval (f1 p r).
Proof.
  intros [Hp0 Hp1] [Hr0 Hr1]. unfold f1, unit_interval.
  destruct (Qeq_bool (p + r) 0) eqn:E; [split; lra|].
  apply Qeq_bool_neq in E. assert (Hpos : 0 < p + r) by lra.
  assert (Hpr : 0 <= p * r) by (apply Qmult_le_0_compat; lra).
  assert (Hp : p * r <= p * 1) by (apply Qmult_le_compat_nonneg; lra).
  assert (Hr : p * r <= 1 * r) by (apply Qmult_le_compat_nonneg; lra).
  rewrite Qmult_1_r in Hp. rewrite Qmult_1_l in Hr.
  split; [apply Qle_shift_div_l | apply Qle_shift_div_r]; try done; lra.
Qed.

(** ** Main theorems *)

Lemma scores_unit_map scores :
  Forall score_unit scores -> Forall unit_interval (map s_prec scores) /\ Forall unit_interval (map s_rec scores).
Proof.
  induction 1 as [|sc scores [Hp Hr] _ [IHp IHr]]; simpl; [done|]. split; by constructor.
Qed.

(** C8: The averaged precision, recall and F1 of a file lie in [0, 1]. *)
Theorem evaluate_file_unit gold_data extractions fr :
  evaluate_file gold_data extractions = Ok fr ->
  unit_interval (f_prec fr) /\ unit_interval (f_rec fr) /\ unit_interval (f_f1 fr).
Proof.
  unfold evaluate_file. intros H. py_simp.
  pose proof (score_records_unit _ _ _ _ Ha0) as Hs.
  destruct (scores_unit_map _ Hs) as [Hps Hrs].
  pose proof (average_unit _ _ Hps Ha1) as Hp. pose proof (average_unit _ _ Hrs Ha2) as Hr.
  simpl. split; [done | split; [done | by apply f1_unit]].
Qed.

(** A file without records divides by zero when it averages its
    scores. *)
Theorem evaluate_file_empty gold_data : evaluate_file gold_data (PList []) = Raise ZeroDivisionError.
Proof. reflexivity. Qed.

Lemma filter_length_partition {A} (f : A -> bool) (l : list A) :
  (length (List.filter f l) + length (List.filter (fun x => negb (f x)) l))%nat = length l.
Proof. induction l as [|x l IH]; [done|]. simpl. destruct (f x); simpl; lia. Qed.

(** A record's precision is the share of its extracted triples that are
    gold triples. *)
Theorem precision_share ex gold :
  s_prec (score_triples ex gold) = ratio (true_pos ex gold) (length ex).
Proof. unfold score_triples, true_pos, false_pos. simpl. by rewrite filter_length_partition. Qed.

(** C9: Recall counts an extracted triple as often as it occurs:
    repeating a triple the answer already holds, which finds no new gold
    triple, raises the recall of an answer that misses a gold triple, if
    the repeated triple is a gold one. *)
Theorem recall_counts_repeats ex gold t :
  t ∈ ex -> py_elem t gold = true -> false_neg ex gold <> 0%nat ->
  s_rec (score_triples ex gold) < s_rec (score_triples (t :: ex) gold).
Proof.
  intros Hex Hg Hfn. unfold score_triples. cbn [s_rec].
  assert (Etp : true_pos (t :: ex) gold = S (true_pos ex gold)) by (unfold true_pos; cbn; by rewrite Hg).
  assert (Efn : false_neg (t :: ex) gold = false_neg ex gold).
  { unfold false_neg. f_equal. apply List.filter_ext. intros x. cbn.
    destruct (pyval_eqb x t) eqn:E; [|done]. apply pyval_eqb_eq in E as ->.
    by rewrite (proj2 (py_elem_spec t ex) Hex). }
  rewrite Etp, Efn. by apply ratio_lt_succ.
Qed.

(** ** Witnesses *)

Definition demo_gold_record : pyval :=
  PDict [(PStr "Triples", PList [PList [PStr "Paris"; PStr "capital of"; PStr "France"];
                                 PList [PStr "Rome"; PStr "capital of"; PStr "Italy"]])].

Definition demo_extraction : pyval :=
  PList [PDict [(PStr "postprocessed", PList [PList [PStr "paris"; PStr "capital of"; PStr "france"]])]].

Lemma evaluate_file_unit_witness :
  exists fr, evaluate_file [demo_gold_record] demo_extraction = Ok fr /\
    (unit_interval (f_prec fr) /\ unit_interval (f_rec fr) /\ unit_interval (f_f1 fr)).
Proof.
  eexists. split; [vm_compute; reflexivity|].
  apply (evaluate_file_unit [demo_gold_record] demo_extraction). vm_compute. reflexivity.
Defined.

Lemma recall_counts_repeats_witness :
  s_rec (score_triples [PStr "a"] [PStr "a"; PStr "b"]) < s_rec (score_triples [PStr "a"; PStr "a"] [PStr "a"; PStr "b"]).
Proof. apply recall_counts_repeats; [left | reflexivity | discriminate]. Defined.
