(* ===== verification/LinkStats.v ===== *)
(** * Statistics of the linked entities and relations

    Two scripts of [src/3_evaluation_module/evaluation_reference_to_Wikidata]
    summarise the lists of [(surface form, Wikidata id)] pairs that the
    evaluation wrote out:
    - [count_linked_items.py] ([Module CountLinked]) counts, in every
      file of a directory, the pairs whose id is ['no-wikiID'] and the
      others, and keeps one summary per [entities*] or [relations*]
      file;
    - [get_domain_range_info.py] ([Module DomainRangeInfo]) asks
      Wikidata for the domain and the range of every linked relation of
      the [relations*] files and counts the relations that have them.
    Both sort their summaries by file name ([sorted(..., key=lambda x:
    x['file'])]); [sort_by] is a stable insertion sort, which gives
    the same list as Python's stable sort.

    The SPARQL functions of [get_domain_range_info.py] (lines 15-86)
    are a copy of those of [general_evaluation_final.py]; they are the
    definitions of [Wikidata] and [Hierarchy], used through the same
    [WikidataService] interface.  Here a directory is the list of its
    file names with their decoded contents; [StatsScripts] runs the same
    loops on the file system, reading each file with [json.load]. *)

From S2P Require Import Prelude PyStr PyDict PyVal Retry Wikidata Hierarchy.
From Stdlib Require Import Sorted.

(** ** Sorting summaries by file name *)

Section Sort.
Context {A : Type} (key : A -> string).

Definition key_le (x y : A) : bool :=
  match String.compare (key x) (key y) with Gt => false | _ => true end.

(** Insert after the elements whose key is not greater, which keeps the
    sort stable. *)
Fixpoint insert_by (x : A) (l : list A) : list A :=
  match l with
  | [] => [x]
  | y :: l' => if key_le y x then y :: insert_by x l' else x :: l
  end.

Fixpoint sort_by (l : list A) : list A :=
  match l with
  | [] => []
  | x :: l' => insert_by x (sort_by l')
  end.

Definition key_rel (x y : A) : Prop := key_le x y = true.

Lemma key_le_total x y : key_le x y = false -> key_le y x = true.
Proof.
  unfold key_le. rewrite String.compare_antisym.
  destruct (String.compare (key y) (key x)); simpl; congruence.
Qed.

Lemma insert_by_perm x l : insert_by x l ≡ₚ x :: l.
Proof.
  induction l as [|y l IH]; simpl; [done|].
  destruct (key_le y x); [|done]. rewrite IH. by constructor.
Qed.

Lemma sort_by_perm l : sort_by l ≡ₚ l.
Proof. induction l as [|x l IH]; simpl; [done|]. by rewrite insert_by_perm, IH. Qed.

Lemma insert_by_hd y x l : key_rel y x -> HdRel key_rel y l -> HdRel key_rel y (insert_by x l).
Proof.
  intros Hyx Hl. destruct l as [|z l]; simpl; [by constructor|].
  inversion Hl; subst. destruct (key_le z x); by constructor.
Qed.

Lemma insert_by_sorted x l : Sorted key_rel l -> Sorted key_rel (insert_by x l).
Proof.
  induction 1 as [|y l Hl IH Hhd]; simpl; [by repeat constructor|].
  destruct (key_le y x) eqn:E.
  - constructor; [done|]. by apply insert_by_hd.
  - constructor; [by constructor|]. constructor. by apply key_le_total.
Qed.

(** The sort returns a sorted permutation of its input. *)
Theorem sort_by_sorted_perm l : Sorted key_rel (sort_by l) /\ sort_by l ≡ₚ l.
Proof.
  split; [|apply sort_by_perm].
  induction l as [|x l IH]; simpl; [constructor | by apply insert_by_sorted].
Qed.

End Sort.

(** ** [count_linked_items.py] *)

Module CountLinked.

(** Lines 25-31: [i[1] == "no-wikiID"] for every pair [i]. *)
Definition count_step (acc : nat * nat) (i : pyval) : result (nat * nat) :=
  let '(linked, not_linked) := acc in
  x ← getitem_idx i 1;
  Ok (if pyval_eqb x no_wikiID then (linked, S not_linked) else (S linked, not_linked)).

Definition count_file (data : pyval) : result (nat * nat) :=
  items ← py_iter data;
  fold_result count_step items (0, 0).

Definition summary (file kind : string) (all linked not_linked : nat) : pyval :=
  PDict [(PStr "file", PStr file);
         (PStr ("all " ++ kind), PInt (Z.of_nat all));
         (PStr ("linked " ++ kind), PInt (Z.of_nat linked));
         (PStr ("not linked " ++ kind), PInt (Z.of_nat not_linked))].

(** Lines 22-45 for one file: every file is read and counted; a
    summary is kept for the [entities*] and [relations*] files. *)
Definition file_stats (file : string) (data : pyval) : result (list pyval) :=
  '(linked, not_linked) ← count_file data;
  n ← py_len data;
  let e := if py_startswith "entities" file then [summary file "entities" n linked not_linked] else [] in
  let r := if py_startswith "relations" file then [summary file "relations" n linked not_linked] else [] in
  Ok (e ++ r).

(** [x['file']] of a summary. *)
Definition file_key (v : pyval) : string :=
  match v with PDict d => match pdict_get_str "file" d with Some (PStr f) => f | _ => EmptyString end | _ => EmptyString end.

(** Lines 21-47 over the files of the directory. *)
Definition count_linked_items (dir : list (string * pyval)) : result (list pyval) :=
  all_stats ← fold_result (fun acc fd => st ← file_stats fd.1 fd.2; Ok (acc ++ st)) dir [];
  Ok (sort_by file_key all_stats).

(** A summary: a dictionary without the key [1]. *)
Definition no_key_one (v : pyval) : Prop := exists d, v = PDict d /\ pdict_get_int 1 d = None.

Lemma count_fold_len items a b l n :
  fold_result count_step items (a, b) = Ok (l, n) -> (l + n = a + b + length items)%nat.
Proof.
  revert a b. induction items as [|i items IH]; intros a b; simpl; [intros [= <- <-]; lia|].
  destruct (getitem_idx i 1) as [x|]; simpl; [|discriminate].
  destruct (pyval_eqb x no_wikiID); intros H; apply IH in H; lia.
Qed.

Lemma file_stats_summaries file data st : file_stats file data = Ok st -> Forall no_key_one st.
Proof.
  unfold file_stats. intros H. py_simp. destruct a as [l n]. py_simp.
  apply Forall_app; split; destr_if; repeat constructor; eexists; split; reflexivity.
Qed.

Lemma stats_fold_summaries dir acc all :
  Forall no_key_one acc ->
  fold_result (fun acc fd => st ← file_stats fd.1 fd.2; Ok (acc ++ st)) dir acc = Ok all ->
  Forall no_key_one all.
Proof.
  revert acc. induction dir as [|fd dir IH]; intros acc Hacc; simpl; [by intros [= <-]|].
  destruct (file_stats fd.1 fd.2) as [st|] eqn:E; simpl; [|discriminate].
  apply IH. apply Forall_app; split; [done | by eapply file_stats_summaries].
Qed.

(** The summary of a file counts every pair once, linked or not: ["all
    entities"] is ["linked entities"] plus ["not linked entities"], as
    the comment of line 35 says. *)
Theorem count_file_len data linked not_linked :
  count_file data = Ok (linked, not_linked) -> py_len data = Ok (linked + not_linked)%nat.
Proof.
  unfold count_file. intros H. py_simp. rewrite (py_iter_len _ _ Ha).
  by rewrite (count_fold_len _ _ _ _ _ H).
Qed.

(** The script cannot be run twice on its directory: it writes
    [stats.json] there, and a second run reads it like the other files
    and indexes its first summary with [1], a [KeyError]. *)
Theorem count_linked_items_rerun dir stats :
  count_linked_items dir = Ok stats -> stats <> [] ->
  count_linked_items (dir ++ [("stats.json"%string, PList stats)]) = Raise KeyError.
Proof.
  unfold count_linked_items. intros H Hne. py_simp.
  assert (Hs : Forall no_key_one (sort_by file_key a)).
  { rewrite (sort_by_perm file_key a). by apply (stats_fold_summaries dir []). }
  rewrite fold_result_app, Ha. simpl.
  destruct (sort_by file_key a) as [|s0 rest]; [done|].
  inversion Hs as [|? ? (d & -> & Hd) _]; subst.
  unfold file_stats, count_file. simpl. by rewrite Hd.
Qed.

End CountLinked.

(** ** [get_domain_range_info.py] *)

Module DomainRangeInfo.

(** [execute_sparql_query] and [get_bindings_from_sparql_query] (lines
    15-86): the same code as in [general_evaluation_final.py]. *)
Definition execute_sparql_query `{WikidataService} (q : sparql_query) : result pyval * list Z :=
  Wikidata.execute_sparql_query q.

Definition get_bindings_from_sparql_query `{WikidataService} (q : sparql_query) (qt : string)
  : result bindings_result :=
  Hierarchy.get_bindings_from_sparql_query q qt.

(** [results == {}] for the domain or range of a relation. *)
Definition nonempty_classes (b : bindings_result) : bool :=
  match b with ClassResults c => negb (bool_decide (c = [])) | HopResults _ => true end.

(** The counters of lines 131-133. *)
Record dr_counts := { has_domain : nat; has_range : nat; has_domain_and_range : nat }.

Definition dr_zero : dr_counts := {| has_domain := 0; has_range := 0; has_domain_and_range := 0 |}.

(** Lines 136-160 for one pair [i]. *)
Definition relation_step `{WikidataService} (c : dr_counts) (i : pyval) : result dr_counts :=
  relation ← getitem_idx i 1;
  if pyval_eqb relation no_wikiID then Ok c
  else
    dom ← get_bindings_from_sparql_query (QDomain (py_str relation)) "domain";
    let d := nonempty_classes dom in
    rng ← get_bindings_from_sparql_query (QRange (py_str relation)) "range";
    let r := nonempty_classes rng in
    Ok {| has_domain := if d then S (has_domain c) else has_domain c;
          has_range := if r then S (has_range c) else has_range c;
          has_domain_and_range := if d && r then S (has_domain_and_range c) else has_domain_and_range c |}.

Definition relation_file `{WikidataService} (data : pyval) : result dr_counts :=
  items ← py_iter data;
  fold_result relation_step items dr_zero.

Definition dr_summary (file : string) (c : dr_counts) : pyval :=
  PDict [(PStr "file", PStr file);
         (PStr "relations with domain", PInt (Z.of_nat (has_domain c)));
         (PStr "relations with range", PInt (Z.of_nat (has_range c)));
         (PStr "relations with domain and range", PInt (Z.of_nat (has_domain_and_range c)))].

(** Lines 127-166 over the files of the directory. *)
Definition get_domain_range_info `{WikidataService} (dir : list (string * pyval)) : result (list pyval) :=
  all_stats ←
    fold_result (fun acc fd =>
      if py_startswith "relations" fd.1 then c ← relation_file fd.2; Ok (acc ++ [dr_summary fd.1 c])
      else Ok acc) dir [];
  Ok (sort_by CountLinked.file_key all_stats).

(** The counters only grow, by at most one per pair, and a relation
    counted with both a domain and a range is counted with each. *)
Definition dr_bounded (c : dr_counts) (n : nat) : Prop :=
  (has_domain_and_range c <= has_domain c <= n)%nat /\ (has_domain_and_range c <= has_range c <= n)%nat.

Lemma relation_step_bounds `{WikidataService} c i c1 n :
  dr_bounded c n -> relation_step c i = Ok c1 -> dr_bounded c1 (S n).
Proof.
  unfold relation_step, dr_bounded. intros Hc Hs. py_simp.
  destruct (pyval_eqb a no_wikiID); py_simp; [lia|].
  destruct (nonempty_classes a0), (nonempty_classes a1); simpl; lia.
Qed.

Lemma relation_fold_bounds `{WikidataService} items c c' n :
  dr_bounded c n -> fold_result relation_step items c = Ok c' -> dr_bounded c' (n + length items).
Proof.
  revert c n. induction items as [|i items IH]; intros c n Hc; simpl.
  - intros Hf. injection Hf as <-. by rewrite Nat.add_0_r.
  - intros Hf. destruct (relation_step c i) as [c1|] eqn:Ec; cbn [mbind result_bind] in Hf; [|discriminate].
    rewrite <- Nat.add_succ_comm. exact (IH c1 (S n) (relation_step_bounds c i c1 n Hc Ec) Hf).
Qed.

(** For a file of [n] pairs, the relations with domain and range are
    at most those with a domain and at most those with a range, which
    are at most [n]. *)
Theorem relation_file_bounds `{WikidataService} data items c :
  py_iter data = Ok items -> relation_file data = Ok c -> dr_bounded c (length items).
Proof.
  unfold relation_file. intros Hi Hf. rewrite Hi in Hf. cbn [mbind result_bind] in Hf.
  apply (relation_fold_bounds items dr_zero c 0 ltac:(unfold dr_bounded; simpl; lia) Hf).
Qed.

End DomainRangeInfo.

(** ** Witnesses *)

Definition demo_entities : pyval :=
  PList [PList [PStr "Paris"; PStr "Q90"]; PList [PStr "Atlantis"; no_wikiID]; PList [PStr "France"; PStr "Q142"]].

Lemma count_file_len_witness : py_len demo_entities = Ok (2 + 1)%nat.
Proof. apply CountLinked.count_file_len. reflexivity. Defined.

Lemma count_linked_items_rerun_witness :
  CountLinked.count_linked_items [("entities_demo.json"%string, demo_entities); ("stats.json"%string,
    PList [CountLinked.summary "entities_demo.json" "entities" 3 2 1])] = Raise KeyError.
Proof.
  apply (CountLinked.count_linked_items_rerun [("entities_demo.json"%string, demo_entities)]); [reflexivity | discriminate].
Defined.

(** A service whose SPARQL answers have no bindings. *)
#[local] Instance empty_sparql : WikidataService :=
  {| respond _ _ := Ok (PDict [(PStr "results", PDict [(PStr "bindings", PList [])])]) |}.

Definition demo_relations : pyval :=
  PList [PList [PStr "capital of"; PStr "P36"]; PList [PStr "likes"; no_wikiID]].

Lemma relation_file_bounds_witness :
  DomainRangeInfo.dr_bounded {| DomainRangeInfo.has_domain := 0; DomainRangeInfo.has_range := 0;
                                DomainRangeInfo.has_domain_and_range := 0 |} 2.
Proof. apply (DomainRangeInfo.relation_file_bounds demo_relations (list_items demo_relations)); reflexivity. Defined.
