(* ===== verification/StatsScripts.v ===== *)
(** * The statistics scripts on the file system

    The [main] functions of [count_linked_items.py] and
    [get_domain_range_info.py]: list the input directory, read every
    file of it (every [relations*] file) with [json.load], summarise it
    with the functions of [LinkStats], and write the sorted summaries
    with [json.dump(indent=4)] into the same directory, as [stats.json]
    and [domain_range_stats.json].  The listing of [os.listdir] is an
    argument, [None] for a directory that does not exist (the scripts
    only print a message then, and [os.listdir] raises).  Reading and
    summarising alternate file by file as in the code, so that the first
    file that raises stops the loop. *)

From stdpp Require Import gmap.
From S2P Require Import Prelude PyStr PyDict PyVal Json FileSys Wikidata Hierarchy LinkStats.

(** [read_json_file] (lines 5-8 of both scripts). *)
Definition read_json_file (fs : fsys) (file_path : string) : result pyval := json_load fs file_path.

(** ** [count_linked_items.py] *)

(** [f'{args.input_dir}/stats.json'] (line 49). *)
Definition stats_file (input_dir : string) : string := (input_dir ++ "/stats.json")%string.

(** [main] after its arguments are parsed (lines 18-50). *)
Definition count_linked_items_main (input_dir : string) (listing : option (list string)) (fs : fsys)
    : result fsys :=
  files ← of_option FileNotFoundError listing;
  all_stats ← fold_result (fun all_stats file =>
                 data ← read_json_file fs (path_join input_dir file);
                 st ← CountLinked.file_stats file data; Ok (all_stats ++ st)) files [];
  json_dump_file fs (stats_file input_dir) (PList (sort_by CountLinked.file_key all_stats)).

(** ** [get_domain_range_info.py] *)

(** [f'{args.input_dir}/domain_range_stats.json'] (line 168). *)
Definition domain_range_stats_file (input_dir : string) : string :=
  (input_dir ++ "/domain_range_stats.json")%string.

Section DomainRange.
Context `{WikidataService}.

(** [main] after its arguments are parsed (lines 89-169); the two query
    templates are the [QDomain] and [QRange] queries of [Hierarchy]. *)
Definition get_domain_range_info_main (input_dir : string) (listing : option (list string)) (fs : fsys)
    : result fsys :=
  files ← of_option FileNotFoundError listing;
  all_stats ← fold_result (fun all_stats file =>
                 if py_startswith "relations" file then
                   data ← read_json_file fs (path_join input_dir file);
                   c ← DomainRangeInfo.relation_file data;
                   Ok (all_stats ++ [DomainRangeInfo.dr_summary file c])
                 else Ok all_stats) files [];
  json_dump_file fs (domain_range_stats_file input_dir) (PList (sort_by CountLinked.file_key all_stats)).

End DomainRange.

(** ** The loops as maps over the files *)

(** One file of [count_linked_items.py]: read, then summarised. *)
Definition count_file_stats (fs : fsys) (input_dir file : string) : result (list pyval) :=
  data ← read_json_file fs (path_join input_dir file); CountLinked.file_stats file data.

Lemma count_main_map input_dir files fs :
  count_linked_items_main input_dir (Some files) fs =
  sts ← result_map (count_file_stats fs input_dir) files;
  json_dump_file fs (stats_file input_dir) (PList (sort_by CountLinked.file_key (concat sts))).
Proof.
  unfold count_linked_items_main. cbn [of_option]. rewrite bind_Ok.
  rewrite (fold_result_concat _ (count_file_stats fs input_dir)) by (intros; unfold count_file_stats; by destruct (read_json_file _ _)).
  by destruct (result_map _ _).
Qed.

Lemma count_linked_items_map dir :
  CountLinked.count_linked_items dir =
  sts ← result_map (fun fd => CountLinked.file_stats fd.1 fd.2) dir; Ok (sort_by CountLinked.file_key (concat sts)).
Proof.
  unfold CountLinked.count_linked_items. rewrite (fold_result_concat _ (fun fd => CountLinked.file_stats fd.1 fd.2)) by done.
  by destruct (result_map _ _).
Qed.

(** ** The summaries written *)

Lemma file_stats_safe file data st :
  CountLinked.file_stats file data = Ok st -> Forall (fun v => json_safe v = true) st.
Proof.
  unfold CountLinked.file_stats. intros Hs. py_simp. destruct a as [l n]. py_simp.
  apply Forall_app; split; destr_if; repeat constructor.
Qed.

Lemma file_stats_nonempty file data st :
  py_startswith "entities" file = true \/ py_startswith "relations" file = true ->
  CountLinked.file_stats file data = Ok st -> st <> [].
Proof.
  unfold CountLinked.file_stats. intros Hf Hs. py_simp. destruct a as [l n]. py_simp.
  destruct Hf as [-> | ->]; [done|]. by destruct (py_startswith "entities" file).
Qed.

(** A JSON object read back has only [str] keys: indexing it with an
    [int] raises [KeyError]. *)
Lemma json_image_dict_int d i : getitem_idx (json_image (PDict d)) i = Raise KeyError.
Proof.
  assert (Hk : Forall (fun kv => exists s, kv.1 = PStr s)
                 (dict_of_list (map (fun kv => (PStr kv.1, kv.2)) (map (fun kv => (key_text kv.1, json_image kv.2)) d)))).
  { unfold dict_of_list. apply fold_left_invariant; [constructor|].
    intros x kv Hx (kv' & <- & _)%in_map_iff. apply dict_set_Forall; [done | by eexists]. }
  cbn [json_image dict_of_pairs getitem_idx]. induction Hk as [|[k v] d' (s & Hs) _ IH]; [done|].
  simpl in Hs. subst k. exact IH.
Qed.

(** The file that [count_linked_items.py] reads as its summaries are
    read back: a list whose first item is an object. *)
Lemma count_file_stats_object fs input_dir file d rest :
  read_json_file fs (path_join input_dir file) = Ok (PList (json_image (PDict d) :: rest)) ->
  count_file_stats fs input_dir file = Raise KeyError.
Proof.
  unfold count_file_stats. intros ->. rewrite bind_Ok.
  unfold CountLinked.file_stats, CountLinked.count_file. cbn [py_iter]. rewrite bind_Ok.
  cbn [fold_result]. unfold CountLinked.count_step. by rewrite json_image_dict_int.
Qed.

(** The core of the two theorems below: once the other files of the
    listing are summarised without error, a file of the directory that
    holds the JSON text of a list of objects makes the whole run raise
    [KeyError], in whatever order the directory is listed. *)
Lemma count_main_extra_file input_dir name files files' fs fs0 fs1 d rest :
  count_linked_items_main input_dir (Some files) fs = Ok fs0 ->
  Forall (fun f => fs1 !! path_join input_dir f = fs !! path_join input_dir f) files ->
  read_json_file fs1 (path_join input_dir name) = Ok (PList (json_image (PDict d) :: rest)) ->
  files' ≡ₚ name :: files ->
  count_linked_items_main input_dir (Some files') fs1 = Raise KeyError.
Proof.
  rewrite count_main_map. intros Hrun Hsame Hname Hperm. rewrite count_main_map.
  apply bind_Ok_inv in Hrun as (sts & Hsts%result_map_ok & _).
  rewrite (result_map_raise _ _ KeyError); [done | |].
  - rewrite Hperm. constructor; [left; by eapply count_file_stats_object|].
    clear Hname Hperm. induction Hsts as [|f st files sts Hf _ IH]; [constructor|].
    apply Forall_cons in Hsame as [Hsf Hsame]. constructor; [|by apply IH].
    right. exists st. rewrite <- Hf. unfold count_file_stats, read_json_file, json_load, open_read. by rewrite Hsf.
  - rewrite Hperm. left. by eapply count_file_stats_object.
Qed.

(** A list of objects written with [json.dump] is read back as a list
    whose first item is an object. *)
Lemma dumped_objects_read fs fs' p stats :
  json_dump_file fs p (PList stats) = Ok fs' ->
  Forall (fun v => json_safe v = true) stats -> Forall CountLinked.no_key_one stats -> stats <> [] ->
  exists d rest, json_load fs' p = Ok (PList (json_image (PDict d) :: rest)).
Proof.
  intros Hw Hsafe Hobj Hne. destruct stats as [|v rest]; [done|].
  apply Forall_cons in Hobj as [(d & -> & _) _].
  rewrite (json_dump_file_load _ _ _ _ (json_safe_list _ Hsafe) Hw).
  by exists d, (map json_image rest).
Qed.

Section DomainRangeMap.
Context `{WikidataService}.

(** One file of [get_domain_range_info.py]. *)
Definition dr_file_stats (fs : fsys) (input_dir file : string) : result (list pyval) :=
  if py_startswith "relations" file then
    data ← read_json_file fs (path_join input_dir file);
    c ← DomainRangeInfo.relation_file data; Ok [DomainRangeInfo.dr_summary file c]
  else Ok [].

Lemma dr_main_map input_dir files fs :
  get_domain_range_info_main input_dir (Some files) fs =
  sts ← result_map (dr_file_stats fs input_dir) files;
  json_dump_file fs (domain_range_stats_file input_dir) (PList (sort_by CountLinked.file_key (concat sts))).
Proof.
  unfold get_domain_range_info_main. cbn [of_option]. rewrite bind_Ok.
  rewrite (fold_result_concat _ (dr_file_stats fs input_dir)).
  - by destruct (result_map _ _).
  - intros acc file. unfold dr_file_stats. destruct (py_startswith "relations" file); [|by rewrite bind_Ok, app_nil_r].
    destruct (read_json_file _ _); [|done]. simpl. by destruct (DomainRangeInfo.relation_file _).
Qed.

Lemma dr_file_stats_summaries fs input_dir file st :
  dr_file_stats fs input_dir file = Ok st ->
  Forall (fun v => json_safe v = true) st /\ Forall CountLinked.no_key_one st.
Proof.
  unfold dr_file_stats. destruct (py_startswith "relations" file); [|by intros [= <-]].
  intros Hs. py_simp. split; repeat constructor. by eexists.
Qed.

Lemma dr_file_stats_nonempty fs input_dir file st :
  py_startswith "relations" file = true -> dr_file_stats fs input_dir file = Ok st -> st <> [].
Proof. unfold dr_file_stats. intros ->. intros Hs. by py_simp. Qed.

End DomainRangeMap.

(** The summaries of a successful run: objects without floats, not
    empty when one file of the listing was summarised. *)
Lemma sorted_summaries {A} (g : A -> result (list pyval)) (P : A -> Prop) files sts :
  Forall2 (fun f st => g f = Ok st) files sts ->
  (forall f st, g f = Ok st -> Forall (fun v => json_safe v = true) st /\ Forall CountLinked.no_key_one st) ->
  (forall f st, P f -> g f = Ok st -> st <> []) ->
  Exists P files ->
  Forall (fun v => json_safe v = true) (sort_by CountLinked.file_key (concat sts)) /\
  Forall CountLinked.no_key_one (sort_by CountLinked.file_key (concat sts)) /\
  sort_by CountLinked.file_key (concat sts) <> [].
Proof.
  intros H2 Hsum Hne Hex. split_and!; [rewrite (sort_by_perm CountLinked.file_key (concat sts)).. |].
  - apply Forall_concat. clear -H2 Hsum. induction H2; constructor; [by eapply Hsum | done].
  - apply Forall_concat. clear -H2 Hsum. induction H2; constructor; [by eapply Hsum | done].
  - intros Hnil%(f_equal length). rewrite (Permutation_length (sort_by_perm _ _)) in Hnil.
    induction H2 as [|f st files sts Hf H2 IH]; [by inversion Hex|].
    cbn [concat] in Hnil. rewrite length_app in Hnil.
    inversion Hex as [? ? Hp | ? ? Hp]; subst.
    + apply (Hne f st Hp Hf). destruct st; [done | simpl in *; lia].
    + apply IH; [done | simpl in *; lia].
Qed.

Lemma count_file_stats_summaries fs input_dir f st :
  count_file_stats fs input_dir f = Ok st ->
  Forall (fun v => json_safe v = true) st /\ Forall CountLinked.no_key_one st.
Proof.
  unfold count_file_stats. intros Hs. py_simp.
  split; [by eapply file_stats_safe | by eapply CountLinked.file_stats_summaries].
Qed.

Lemma count_file_stats_nonempty fs input_dir f st :
  py_startswith "entities" f = true \/ py_startswith "relations" f = true ->
  count_file_stats fs input_dir f = Ok st -> st <> [].
Proof. unfold count_file_stats. intros Hf Hs. py_simp. by eapply file_stats_nonempty. Qed.

(** The files of the listing other than [p] are read in the file system
    that [json.dump] to [p] left. *)
Lemma dump_keeps_files fs fs' p v input_dir files :
  json_dump_file fs p v = Ok fs' ->
  Forall (fun f => path_join input_dir f <> p) files ->
  Forall (fun f => fs' !! path_join input_dir f = fs !! path_join input_dir f) files.
Proof. intros Hw Hf. eapply Forall_impl; [exact Hf|]. intros f. by eapply json_dump_file_frame. Qed.

(** ** Properties *)

(** [count_linked_items.py] on the files as read: its loop is the loop
    of [CountLinked.count_linked_items] over the decoded files, in the
    order of the listing, and its result is written to [stats.json]. *)
Theorem count_linked_items_main_refines input_dir files fs datas :
  Forall2 (fun f data => read_json_file fs (path_join input_dir f) = Ok data) files datas ->
  count_linked_items_main input_dir (Some files) fs =
  stats ← CountLinked.count_linked_items (zip files datas); json_dump_file fs (stats_file input_dir) (PList stats).
Proof.
  intros H2. rewrite count_main_map, count_linked_items_map.
  assert (E : result_map (count_file_stats fs input_dir) files =
              result_map (fun fd => CountLinked.file_stats fd.1 fd.2) (zip files datas)).
  { induction H2 as [|f data files datas Hf _ IH]; [done|].
    cbn [zip result_map]. replace (count_file_stats fs input_dir f) with (CountLinked.file_stats f data)
      by (unfold count_file_stats; by rewrite Hf). by rewrite IH. }
  rewrite E. destruct (result_map _ (zip files datas)) as [sts|e]; reflexivity.
Qed.

(** C12: [count_linked_items.py] cannot be run twice on its directory: the
    first run writes [stats.json] into the directory it reads, and the
    second run, listing the directory in any order, reads it back as a
    list of summaries, indexes the first with [1] and raises
    [KeyError].  Assumed: the first run succeeds on a directory without
    [stats.json] whose name does not end with a slash, and summarises
    at least one [entities*] or [relations*] file. *)
Theorem count_linked_items_main_rerun input_dir files files' fs fs' :
  count_linked_items_main input_dir (Some files) fs = Ok fs' ->
  path_join input_dir "stats.json" = stats_file input_dir ->
  Forall (fun f => path_join input_dir f <> stats_file input_dir) files ->
  Exists (fun f => py_startswith "entities" f = true \/ py_startswith "relations" f = true) files ->
  files' ≡ₚ "stats.json" :: files ->
  count_linked_items_main input_dir (Some files') fs' = Raise KeyError.
Proof.
  intros Hrun Hpath Hother Hex Hperm. pose proof Hrun as Hrun'. rewrite count_main_map in Hrun'.
  apply bind_Ok_inv in Hrun' as (sts & Hsts%result_map_ok & Hw).
  destruct (sorted_summaries _ _ _ _ Hsts (count_file_stats_summaries fs input_dir)
              (count_file_stats_nonempty fs input_dir) Hex) as (Hsafe & Hobj & Hne).
  destruct (dumped_objects_read _ _ _ _ Hw Hsafe Hobj Hne) as (d & rest & Hread).
  eapply count_main_extra_file; [exact Hrun | by eapply dump_keeps_files | | exact Hperm].
  unfold read_json_file. by rewrite Hpath.
Qed.

Section Composition.
Context `{WikidataService}.

(** C13: [get_domain_range_info.py] writes [domain_range_stats.json] into
    the directory that [count_linked_items.py] reads (both default to
    the same [--input_dir]): on a directory where [count_linked_items.py]
    succeeds, once [get_domain_range_info.py] has summarised one
    [relations*] file there, [count_linked_items.py] raises [KeyError]
    in any order of the listing. *)
Theorem count_after_domain_range input_dir files files' fs fs0 fs1 :
  count_linked_items_main input_dir (Some files) fs = Ok fs0 ->
  get_domain_range_info_main input_dir (Some files) fs = Ok fs1 ->
  path_join input_dir "domain_range_stats.json" = domain_range_stats_file input_dir ->
  Forall (fun f => path_join input_dir f <> domain_range_stats_file input_dir) files ->
  Exists (fun f => py_startswith "relations" f = true) files ->
  files' ≡ₚ "domain_range_stats.json" :: files ->
  count_linked_items_main input_dir (Some files') fs1 = Raise KeyError.
Proof.
  intros Hcount Hdr Hpath Hother Hex Hperm. rewrite dr_main_map in Hdr.
  apply bind_Ok_inv in Hdr as (sts & Hsts%result_map_ok & Hw).
  destruct (sorted_summaries _ _ _ _ Hsts (dr_file_stats_summaries fs input_dir)
              (dr_file_stats_nonempty fs input_dir) Hex) as (Hsafe & Hobj & Hne).
  destruct (dumped_objects_read _ _ _ _ Hw Hsafe Hobj Hne) as (d & rest & Hread).
  eapply count_main_extra_file; [exact Hcount | by eapply dump_keeps_files | | exact Hperm].
  unfold read_json_file. by rewrite Hpath.
Qed.

End Composition.

(** ** Witnesses *)

Section Witnesses.

(** The text [json.dump] writes of a value. *)
Definition json_text (v : pyval) : string :=
  match json_dump_indent false 0 v with Ok s => s | Raise _ => EmptyString end.

Definition demo_entities_file : pyval :=
  PList [PList [PStr "Paris"; PStr "Q90"]; PList [PStr "Atlantis"; no_wikiID]].

Definition demo_relations_file : pyval :=
  PList [PList [PStr "capital of"; PStr "P36"]; PList [PStr "likes"; no_wikiID]].

Definition demo_dir : fsys :=
  {[ "out/entities_1.json" := json_text demo_entities_file; "out/relations_1.json" := json_text demo_relations_file ]}.

Definition demo_files : list string := ["entities_1.json"; "relations_1.json"].

Lemma count_linked_items_main_refines_witness :
  count_linked_items_main "out" (Some demo_files) demo_dir =
  stats ← CountLinked.count_linked_items (zip demo_files [demo_entities_file; demo_relations_file]);
  json_dump_file demo_dir (stats_file "out") (PList stats).
Proof. apply count_linked_items_main_refines. repeat constructor; vm_compute; reflexivity. Defined.

Definition demo_after_count : fsys :=
  match count_linked_items_main "out" (Some demo_files) demo_dir with Ok fs => fs | Raise _ => ∅ end.

Lemma count_linked_items_main_rerun_witness :
  count_linked_items_main "out" (Some ["entities_1.json"; "stats.json"; "relations_1.json"]) demo_after_count =
  Raise KeyError.
Proof.
  apply (count_linked_items_main_rerun "out" demo_files _ demo_dir).
  - vm_compute. reflexivity.
  - vm_compute. reflexivity.
  - repeat constructor; vm_compute; discriminate.
  - left. left. reflexivity.
  - apply perm_swap.
Defined.

(** A service whose SPARQL answers have no bindings. *)
#[local] Instance no_bindings : WikidataService :=
  {| respond _ _ := Ok (PDict [(PStr "results", PDict [(PStr "bindings", PList [])])]) |}.

Definition demo_after_domain_range : fsys :=
  match get_domain_range_info_main "out" (Some demo_files) demo_dir with Ok fs => fs | Raise _ => ∅ end.

Lemma count_after_domain_range_witness :
  count_linked_items_main "out" (Some ["domain_range_stats.json"; "relations_1.json"; "entities_1.json"])
    demo_after_domain_range = Raise KeyError.
Proof.
  apply (count_after_domain_range "out" demo_files _ demo_dir demo_after_count).
  - vm_compute. reflexivity.
  - vm_compute. reflexivity.
  - vm_compute. reflexivity.
  - repeat constructor; vm_compute; discriminate.
  - right. left. reflexivity.
  - unfold demo_files. solve_Permutation.
Defined.

End Witnesses.
