(* ===== verification/Conversion.v ===== *)
(** * Conversion of the RED-FM dataset

    [src/convert_REDFM.py] turns every instance of the RED-FM dataset
    (a text, its entities and its relations) into the record the prompt
    compilers read: the entities, a sentence giving the type and the
    Wikidata id of each, the relation labels, the triples as strings and
    as Wikidata ids, two corrupted triples made of random entities and a
    random relation, the triples mixed with the corrupted ones in random
    order, and an explanation for each corrupted triple.

    [Module Redfm] models [lookup_entity_type], [lookup_relations] and
    [convert_data] (lines 12-142).  The two tables read at module level,
    [entity_types] and [relations_json], are the variables of the
    section; the random draws run in the monad [rand] of [Random], so
    every theorem holds for every generator.  Each loop of
    [convert_data] is a step function on a record of the lists it
    appends to; the binding of [string_triple], which nothing resets
    between instances, is threaded from one instance to the next. *)

From Stdlib Require Import QArith Qround.
From S2P Require Import Prelude PyStr PyDict PyVal Random Retry Json.

Module Redfm.

(** [lookup_entity_type] (lines 12-21): the value of the last key equal
    to [type_string]; none leaves [ent_type] unbound
    ([UnboundLocalError], a [NameError]). *)
Definition lookup_entity_type (entity_types type_string : pyval) : result pyval :=
  match entity_types with
  | PDict d =>
      of_option NameError
        (fold_left (fun ent_type kv => if pyval_eqb kv.1 type_string then Some kv.2 else ent_type) d None)
  | _ => Raise AttributeError
  end.

(** [lookup_relations] (lines 24-31): [relation[search_key]] of the
    first relation whose ['Predicate number'] is [search_value], [None]
    when there is none. *)
Fixpoint lookup_relations_go (rs : list pyval) (search_value : pyval) (search_key : string) : result pyval :=
  match rs with
  | [] => Ok PNone
  | relation :: rs' =>
      pn ← getitem_str relation "Predicate number";
      if pyval_eqb pn search_value then getitem_str relation search_key
      else lookup_relations_go rs' search_value search_key
  end.

Definition lookup_relations (relations search_value : pyval) (search_key : string) : result pyval :=
  rs ← py_iter relations; lookup_relations_go rs search_value search_key.

(** [s.capitalize()] on a value: [AttributeError] on a non-[str]; a
    first character whose title case is not Latin-1 is outside the
    model ([ValueError]). *)
Definition capitalize_v (v : pyval) : result string :=
  s ← str_or AttributeError v; of_option ValueError (py_capitalize s).

(** [v[0].isupper()]. *)
Definition first_isupper (v : pyval) : result bool :=
  c ← getitem_idx v 0; s ← str_or AttributeError c; Ok (py_isupper s).

Section Convert.
Context `{RandomSource}.
Variables entity_types relations_json : pyval.

(** The lists the entity loop (lines 43-66) appends to. *)
Record ent_acc := {
  extracted_entities : list pyval;
  types : list pyval;
  entity_wiki_ids : list pyval
}.

Definition ent0 : ent_acc := {| extracted_entities := []; types := []; entity_wiki_ids := [] |}.

(** One iteration of [for entity in entities] (lines 49-66): a new
    surface form is recorded; the sentences are added only for a
    non-empty form that does not start with an upper-case letter, after
    capitalising it. *)
Definition entity_step (acc : ent_acc) (entity : pyval) : result ent_acc :=
  ent_string ← getitem_str entity "surfaceform";
  ent_wiki_id ← getitem_str entity "uri";
  ty ← getitem_str entity "type";
  ent_type ← lookup_entity_type entity_types ty;
  if list_contains ent_string (extracted_entities acc) then Ok acc
  else
    let extracted := extracted_entities acc ++ [ent_string] in
    let skip := {| extracted_entities := extracted; types := types acc;
                   entity_wiki_ids := entity_wiki_ids acc |} in
    if pyval_eqb ent_string (PStr "") then Ok skip
    else
      (up ← first_isupper ent_string;
       if (up : bool) then Ok skip
       else
         cap ← capitalize_v ent_string;
         t ← str_or AttributeError ent_type;
         Ok {| extracted_entities := extracted;
               types := types acc ++ [PStr (cap ++ " is a/an " ++ py_lower t ++ ".")];
               entity_wiki_ids := entity_wiki_ids acc ++
                 [PStr (cap ++ " has a Wikidata ID of " ++ py_str ent_wiki_id ++ ".")] |}).

(** The lists the relation loop (lines 68-96) appends to, and the last
    value bound to [string_triple].  The lists are reset for each
    instance (lines 68-71); [string_triple] is a local of [convert_data]
    that nothing resets, so it keeps the value an earlier instance bound. *)
Record rel_acc := {
  relations : list pyval;
  relations_wiki_ids : list pyval;
  string_triples : list pyval;
  wiki_triples : list pyval;
  last_string_triple : option pyval
}.

Definition rel0 (string_triple : option pyval) : rel_acc :=
  {| relations := []; relations_wiki_ids := []; string_triples := []; wiki_triples := [];
     last_string_triple := string_triple |}.

(** [if x not in l: l.append(x)]. *)
Definition add_new (x : pyval) (l : list pyval) : list pyval :=
  if list_contains x l then l else l ++ [x].

(** Lines 86-96 for a triple whose predicate label is [predicate]. *)
Definition record_triple (acc : rel_acc) (triple p predicate : pyval) : result rel_acc :=
  predicate_wiki_id ← lookup_relations relations_json p "Wikidata ID";
  subj ← getitem_str triple "subject";
  ssf ← getitem_str subj "surfaceform";
  obj ← getitem_str triple "object";
  osf ← getitem_str obj "surfaceform";
  let string_triple := PTuple [ssf; predicate; osf] in
  suri ← getitem_str subj "uri";
  ouri ← getitem_str obj "uri";
  let wiki_triple := PTuple [suri; predicate_wiki_id; ouri] in
  Ok {| relations := relations acc; relations_wiki_ids := relations_wiki_ids acc;
        string_triples := add_new string_triple (string_triples acc);
        wiki_triples := add_new wiki_triple (wiki_triples acc);
        last_string_triple := Some string_triple |}.

(** One iteration of [for triple in triples] (lines 74-96).  The first
    triple of a new relation records the label; if the label starts
    with an upper-case letter, [continue] skips the rest of the body, so
    that triple is not recorded; otherwise the triple is recorded with
    the capitalised label.  A later triple of the same relation is
    recorded with the label as looked up. *)
Definition relation_step (acc : rel_acc) (triple : pyval) : result rel_acc :=
  p ← getitem_str triple "predicate";
  predicate ← lookup_relations relations_json p "Relation";
  if list_contains predicate (relations acc) then record_triple acc triple p predicate
  else
    let acc1 := {| relations := relations acc ++ [predicate];
                   relations_wiki_ids := relations_wiki_ids acc;
                   string_triples := string_triples acc; wiki_triples := wiki_triples acc;
                   last_string_triple := last_string_triple acc |} in
    predicate_wiki_id ← lookup_relations relations_json p "Wikidata ID";
    up ← first_isupper predicate;
    if (up : bool) then Ok acc1
    else
      cap ← capitalize_v predicate;
      let acc2 := {| relations := relations acc1;
                     relations_wiki_ids := relations_wiki_ids acc1 ++
                       [PStr (cap ++ " has the Wikidata ID of " ++ py_str predicate_wiki_id ++ ".")];
                     string_triples := string_triples acc1; wiki_triples := wiki_triples acc1;
                     last_string_triple := last_string_triple acc1 |} in
      record_triple acc2 triple p (PStr cap).

(** One iteration of [for _ in range(num_triples)] (lines 101-107). *)
Definition made_up_step (extracted rels triples : list pyval) (made_up : list pyval) (_ : nat) : rand (list pyval) :=
  entity1 ← choice extracted;
  relation ← choice rels;
  entity2 ← choice extracted;
  let triple := PTuple [entity1; relation; entity2] in
  mret (if list_contains triple triples then made_up else made_up ++ [triple]).

(** Line 113: [filter(lambda x: x not in string_triple, ...)], where
    [string_triple] is the last triple built by the loop (unbound, a
    [NameError], if none was); the lambda only runs on a non-empty
    list. *)
Definition difference_triples (last_triple : option pyval) (made_up : list pyval) : result (list pyval) :=
  match made_up with
  | [] => Ok []
  | _ =>
      st ← of_option NameError last_triple;
      items ← py_iter st;
      Ok (List.filter (fun x => negb (list_contains x items)) made_up)
  end.

(** Lines 118-123. *)
Definition explanation_step (explanations : list pyval) (i : pyval) : result (list pyval) :=
  if pyval_eqb i (PList []) then Ok explanations
  else
    x1 ← getitem_idx i 1; x0 ← getitem_idx i 0; x2 ← getitem_idx i 2;
    let explanation := PStr ("The relation - " ++ py_str x1 ++ " - does not hold between " ++
                             py_str x0 ++ " and " ++ py_str x2 ++ ".") in
    Ok (add_new explanation explanations).

(** Lines 47-66 for one instance. *)
Definition entity_part (instance : pyval) : result ent_acc :=
  entities ← getitem_str instance "entities";
  es ← py_iter entities;
  fold_result entity_step es ent0.

(** Lines 68-96 for one instance, [string_triple] holding the value the
    earlier instances left in it. *)
Definition relation_part (string_triple : option pyval) (instance : pyval) : result rel_acc :=
  triples ← getitem_str instance "relations";
  ts ← py_iter triples;
  fold_result relation_step ts (rel0 string_triple).

(** The body of [for instance in data] (lines 39-139): the converted
    instance and the value [string_triple] holds afterwards. *)
Definition convert_instance (string_triple : option pyval) (instance : pyval) : rand (pyval * option pyval) :=
  given_text ← lift (getitem_str instance "text");
  ea ← lift (entity_part instance);
  ra ← lift (relation_part string_triple instance);
  made_up ← fold_rand (made_up_step (extracted_entities ea) (relations ra) (string_triples ra)) [0; 1] [];
  mixed ← shuffle (string_triples ra ++ made_up);
  difference ← lift (difference_triples (last_string_triple ra) made_up);
  explanations ← lift (fold_result explanation_step difference []);
  mret (PDict [(PStr "Text", given_text);
               (PStr "Entities", PList (extracted_entities ea));
               (PStr "Entity Types", PList (types ea));
               (PStr "Entity wiki ids", PList (entity_wiki_ids ea));
               (PStr "Relations", PList (relations ra));
               (PStr "Relation wiki ids", PList (relations_wiki_ids ra));
               (PStr "Triples", PList (string_triples ra));
               (PStr "Wiki Triples", PList (wiki_triples ra));
               (PStr "Mixed Triples", PList mixed);
               (PStr "Corrupted Triples", PList difference);
               (PStr "Explanations", PList explanations)],
        last_string_triple ra).

(** One iteration of [for instance in data]: append the converted
    instance, carry [string_triple] to the next one. *)
Definition convert_step (acc : list pyval * option pyval) (instance : pyval) : rand (list pyval * option pyval) :=
  r ← convert_instance acc.2 instance;
  mret (acc.1 ++ [r.1], r.2).

(** [convert_data] (lines 34-142); [string_triple] starts unbound. *)
Definition convert_data (data : pyval) : rand (list pyval) :=
  instances ← lift (py_iter data);
  acc ← fold_rand convert_step instances ([], None);
  mret acc.1.

End Convert.

(** ** Properties *)

Section Props.
Context `{RandomSource}.
Variables entity_types relations_json : pyval.

Lemma fold_type_absent (d : list (pyval * pyval)) (k : pyval) (acc : option pyval) :
  k ∉ dict_keys d ->
  fold_left (fun ent_type kv => if pyval_eqb kv.1 k then Some kv.2 else ent_type) d acc = acc.
Proof.
  revert acc. induction d as [|[k' v'] d IH]; intros acc Hk; simpl; [done|].
  destruct (pyval_eqb k' k) eqn:E; [apply pyval_eqb_eq in E; subst; set_solver|].
  apply IH. set_solver.
Qed.

Lemma fold_type_get (d : list (pyval * pyval)) (k : pyval) (acc : option pyval) :
  dict_wf d ->
  fold_left (fun ent_type kv => if pyval_eqb kv.1 k then Some kv.2 else ent_type) d acc =
  match dict_get d k with Some v => Some v | None => acc end.
Proof.
  revert acc. induction d as [|[k' v'] d IH]; intros acc Hwf; simpl; [done|].
  apply dict_wf_cons in Hwf as [Hk' Hwf].
  destruct (decide (k = k')) as [->|Hne].
  - rewrite (proj2 (pyval_eqb_eq k' k') eq_refl). by apply fold_type_absent.
  - destruct (pyval_eqb k' k) eqn:E; [apply pyval_eqb_eq in E; congruence|]. by apply IH.
Qed.

(** On a dictionary (no key twice), [lookup_entity_type] is the
    lookup [entity_types[type_string]], with the [KeyError] of a missing
    type replaced by the [NameError] of the unbound [ent_type]. *)
Theorem lookup_entity_type_get (d : list (pyval * pyval)) (k : pyval) :
  dict_wf d -> lookup_entity_type (PDict d) k = of_option NameError (dict_get d k).
Proof. intros Hwf. unfold lookup_entity_type. rewrite fold_type_get by done. by destruct (dict_get d k). Qed.

Lemma add_new_nodup x l : NoDup l -> NoDup (add_new x l).
Proof.
  unfold add_new. destruct (list_contains x l) eqn:E; [done|].
  intros Hl. apply NoDup_snoc; [done|]. rewrite <- list_contains_spec. congruence.
Qed.

Lemma entity_step_extracted acc e acc' :
  entity_step entity_types acc e = Ok acc' ->
  exists x, extracted_entities acc' = add_new x (extracted_entities acc).
Proof.
  unfold entity_step, add_new. intros E. py_simp. exists a.
  destruct (list_contains a _); [by invs E|].
  destruct (pyval_eqb a (PStr "")); [by invs E|]. py_simp.
  destruct a3; py_simp; done.
Qed.

Lemma entity_part_nodup inst ea : entity_part entity_types inst = Ok ea -> NoDup (extracted_entities ea).
Proof.
  unfold entity_part. intros E. py_simp.
  refine (fold_result_invariant (fun acc => NoDup (extracted_entities acc)) _ _ _ _ _ _ E); [constructor|].
  intros x b y Hx _ Hy. destruct (entity_step_extracted _ _ _ Hy) as [z ->]. by apply add_new_nodup.
Qed.

(** The relation loop keeps its lists free of duplicates, and
    [string_triple] is bound once a triple has been recorded. *)
Definition rel_inv (acc : rel_acc) : Prop :=
  NoDup (relations acc) /\ NoDup (string_triples acc) /\ NoDup (wiki_triples acc) /\
  (last_string_triple acc = None -> string_triples acc = []).

Lemma record_triple_inv acc t p pr acc' :
  NoDup (string_triples acc) -> NoDup (wiki_triples acc) ->
  record_triple relations_json acc t p pr = Ok acc' ->
  relations acc' = relations acc /\ NoDup (string_triples acc') /\ NoDup (wiki_triples acc') /\
  last_string_triple acc' <> None.
Proof.
  unfold record_triple. intros H1 H2 E. py_simp. split_and!; simpl; auto using add_new_nodup; discriminate.
Qed.

Lemma relation_step_inv acc t acc' :
  rel_inv acc -> relation_step relations_json acc t = Ok acc' -> rel_inv acc'.
Proof.
  intros (Hr & Hs & Hw & Hl) E. unfold relation_step in E. py_simp.
  destruct (list_contains a0 (relations acc)) eqn:C.
  - destruct (record_triple_inv _ _ _ _ _ Hs Hw E) as (Er & ? & ? & ?).
    unfold rel_inv. rewrite Er. split_and!; auto. intros ?; contradiction.
  - assert (Hr' : NoDup (relations acc ++ [a0])).
    { apply NoDup_snoc; [done|]. rewrite <- list_contains_spec. congruence. }
    py_simp. destruct a2; py_simp; [split_and!; auto|].
    apply record_triple_inv in E as (Er & ? & ? & ?); [|done|done].
    unfold rel_inv. rewrite Er. split_and!; auto. intros ?; contradiction.
Qed.

Lemma relation_part_inv o inst ra : relation_part relations_json o inst = Ok ra -> rel_inv ra.
Proof.
  unfold relation_part. intros E. py_simp.
  refine (fold_result_invariant rel_inv _ _ _ _ _ _ E); [split_and!; by try constructor|].
  intros x b y Hx _ Hy. exact (relation_step_inv _ _ _ Hx Hy).
Qed.

(** The triples of an instance that the [continue] of line 81 skips:
    each opens a new relation (the labels are pairwise distinct) whose
    label starts with an upper-case letter. *)
Definition skipped_triples (ts labels : list pyval) : Prop :=
  NoDup labels /\
  Forall2 (fun t label => exists p w, getitem_str t "predicate" = Ok p /\
             lookup_relations relations_json p "Relation" = Ok label /\
             lookup_relations relations_json p "Wikidata ID" = Ok w /\
             first_isupper label = Ok true) ts labels.

Lemma relation_fold_skipped ts labels acc :
  skipped_triples ts labels -> (forall l, l ∈ labels -> l ∉ relations acc) ->
  fold_result (relation_step relations_json) ts acc =
    Ok {| relations := relations acc ++ labels; relations_wiki_ids := relations_wiki_ids acc;
          string_triples := string_triples acc; wiki_triples := wiki_triples acc;
          last_string_triple := last_string_triple acc |}.
Proof.
  intros [Hnd Hf]. revert acc. induction Hf as [|t l ts labels (p & w & Hp & Hl & Hw & Hu) _ IH]; intros acc Hnew.
  - rewrite app_nil_r. by destruct acc.
  - apply NoDup_cons in Hnd as [Hl_ Hnd]. cbn [fold_result]. unfold relation_step.
    rewrite Hp; cbn; rewrite Hl; cbn. assert (list_contains l (relations acc) = false) as ->.
    { apply not_true_iff_false. rewrite list_contains_spec. apply Hnew. set_solver. }
    rewrite Hw; cbn; rewrite Hu; cbn. rewrite IH by (done || (cbn; intros l' Hl'; rewrite elem_of_app; set_solver)).
    cbn. by rewrite <- app_assoc.
Qed.

(** The made-up triples are triples. *)
Lemma made_up_tuples ex rels ts l m s made s' :
  fold_rand (made_up_step ex rels ts) l m s = Ok (made, s') ->
  Forall (fun t => exists a b c, t = PTuple [a; b; c]) m -> Forall (fun t => exists a b c, t = PTuple [a; b; c]) made.
Proof.
  revert m s. induction l as [|i l IH]; intros m s E Hm; simpl in E; [by injection E as <- _|].
  rand_simp E. unfold made_up_step in Ha. rand_simp Ha. injection Ha as <- <-.
  apply (IH _ _ E). destruct (list_contains _ ts); [done|]. apply Forall_app. split; [done|]. repeat econstructor.
Qed.

(** The explanation loop goes through on triples. *)
Lemma explanations_ok l acc :
  Forall (fun t => exists a b c, t = PTuple [a; b; c]) l -> exists ex, fold_result explanation_step l acc = Ok ex.
Proof.
  intros Hl. revert acc. induction Hl as [|t l (a & b & c & ->) _ IH]; intros acc; simpl; [eauto|].
  apply IH.
Qed.

(** The made-up triples are new and at most one per draw. *)
Lemma made_up_fold ex rels ts l m s made s' :
  fold_rand (made_up_step ex rels ts) l m s = Ok (made, s') ->
  Forall (fun t => t ∉ ts) m -> Forall (fun t => t ∉ ts) made /\ (length made <= length m + length l)%nat.
Proof.
  revert m s. induction l as [|i l IH]; intros m s E Hm; simpl in E.
  - injection E as <- _. simpl. split; [done | lia].
  - rand_simp E. unfold made_up_step in Ha. rand_simp Ha. injection Ha as <- <-.
    destruct (list_contains _ ts) eqn:C.
    + destruct (IH _ _ E Hm) as [? ?]. simpl. split; [done | lia].
    + destruct (IH _ _ E) as [? Hlen].
      { apply Forall_app. split; [done|]. constructor; [|constructor].
        rewrite <- list_contains_spec. congruence. }
      rewrite length_app in Hlen. simpl in *. split; [done | lia].
Qed.

Lemma difference_sublist o made d : difference_triples o made = Ok d -> d `sublist_of` made.
Proof.
  unfold difference_triples. destruct made as [|t made]; intros E; py_simp; [constructor|].
  exact (List_filter_sublist (fun x => negb (list_contains x a0)) (t :: made)).
Qed.

Lemma explanations_nodup l acc acc' :
  NoDup acc -> fold_result explanation_step l acc = Ok acc' -> NoDup acc'.
Proof.
  intros Hacc E. refine (fold_result_invariant NoDup _ _ _ _ Hacc _ E).
  intros x b y Hx _ Hy. unfold explanation_step in Hy.
  destruct (pyval_eqb b (PList [])); py_simp; auto using add_new_nodup.
Qed.

(** Peel [convert_instance] down to its parts. *)
Lemma convert_instance_parts o inst s d o' s' :
  convert_instance entity_types relations_json o inst s = Ok ((PDict d, o'), s') ->
  exists t ea ra made_up s1 mixed s2 difference explanations,
    entity_part entity_types inst = Ok ea /\ relation_part relations_json o inst = Ok ra /\
    o' = last_string_triple ra /\
    fold_rand (made_up_step (extracted_entities ea) (relations ra) (string_triples ra)) [0; 1] [] s = Ok (made_up, s1) /\
    shuffle (string_triples ra ++ made_up) s1 = Ok (mixed, s2) /\
    difference_triples (last_string_triple ra) made_up = Ok difference /\
    fold_result explanation_step difference [] = Ok explanations /\
    d = [(PStr "Text", t);
         (PStr "Entities", PList (extracted_entities ea));
         (PStr "Entity Types", PList (types ea));
         (PStr "Entity wiki ids", PList (entity_wiki_ids ea));
         (PStr "Relations", PList (relations ra));
         (PStr "Relation wiki ids", PList (relations_wiki_ids ra));
         (PStr "Triples", PList (string_triples ra));
         (PStr "Wiki Triples", PList (wiki_triples ra));
         (PStr "Mixed Triples", PList mixed);
         (PStr "Corrupted Triples", PList difference);
         (PStr "Explanations", PList explanations)].
Proof.
  unfold convert_instance. intros E. rand_simp E.
  apply lift_inv in Ha as [Ht ->]. apply lift_inv in Ha0 as [He ->]. apply lift_inv in Ha1 as [Hr ->].
  apply lift_inv in Ha4 as [Hd ->]. apply lift_inv in Ha5 as [Hx ->].
  apply rand_mret_inv in E as [[= <-] _].
  eexists _, _, _, _, _, _, _, _, _. split_and!; eauto.
Qed.

(** Every list of a converted instance that the code fills with
    [if x not in l: l.append(x)] is free of duplicates: the entities,
    the relation labels, the string and Wikidata triples and the
    explanations. *)
Theorem convert_instance_nodup o inst s d o' s' :
  convert_instance entity_types relations_json o inst s = Ok ((PDict d, o'), s') ->
  Forall (fun k => exists l, pdict_get_str k d = Some (PList l) /\ NoDup l)
         ["Entities"; "Relations"; "Triples"; "Wiki Triples"; "Explanations"]%string.
Proof.
  intros (t & ea & ra & made & s1 & mixed & s2 & dif & ex & He & Hr & _ & _ & _ & _ & Hx & ->)%convert_instance_parts.
  pose proof (entity_part_nodup _ _ He). destruct (relation_part_inv _ _ _ Hr) as (? & ? & ? & _).
  pose proof (explanations_nodup _ _ _ (NoDup_nil_2) Hx).
  repeat constructor; eexists; (split; [reflexivity | assumption]).
Qed.

(** C17: The mixed triples are a permutation of the triples followed by
    the made-up triples, for every generator; the made-up triples are
    at most two and none is a triple of the instance; the corrupted
    triples are a sublist of them. *)
Theorem convert_instance_mixed o inst s d o' s' :
  convert_instance entity_types relations_json o inst s = Ok ((PDict d, o'), s') ->
  exists ts made_up corrupted mixed,
    pdict_get_str "Triples" d = Some (PList ts) /\
    pdict_get_str "Mixed Triples" d = Some (PList mixed) /\
    pdict_get_str "Corrupted Triples" d = Some (PList corrupted) /\
    mixed ≡ₚ ts ++ made_up /\ corrupted `sublist_of` made_up /\
    Forall (fun t => t ∉ ts) made_up /\ (length made_up <= 2)%nat.
Proof.
  intros (t & ea & ra & made & s1 & mixed & s2 & dif & ex & _ & _ & _ & Hm & Hs & Hd & _ & ->)%convert_instance_parts.
  destruct (made_up_fold _ _ _ _ _ _ _ _ Hm (Forall_nil_2 _)) as [Hnew Hlen].
  exists (string_triples ra), made, dif, mixed. split_and!; try reflexivity.
  - exact (shuffle_perm _ _ _ _ Hs).
  - exact (difference_sublist _ _ _ Hd).
  - exact Hnew.
  - simpl in Hlen. lia.
Qed.

Lemma made_up_step_new ex rels ts m i s : ex <> [] -> rels <> [] ->
  exists T s', made_up_step ex rels ts m i s = Ok (if list_contains T ts then m else m ++ [T], s').
Proof.
  intros Hex Hrel. unfold made_up_step.
  destruct (choice_nonempty ex s Hex) as (e1 & s1 & E1).
  destruct (choice_nonempty rels s1 Hrel) as (r & s2 & E2).
  destruct (choice_nonempty ex s2 Hex) as (e2 & s3 & E3).
  rewrite (bind_rand_Ok _ _ _ _ _ E1), (bind_rand_Ok _ _ _ _ _ E2), (bind_rand_Ok _ _ _ _ _ E3). eauto.
Qed.

(** With no triple recorded, both draws make a triple. *)
Lemma made_up_no_triples ex rels s : ex <> [] -> rels <> [] ->
  exists made s', fold_rand (made_up_step ex rels []) [0; 1] [] s = Ok (made, s') /\ made <> [].
Proof.
  intros Hex Hrel. cbn [fold_rand].
  destruct (made_up_step_new ex rels [] [] 0 s Hex Hrel) as (T1 & s1 & E1).
  rewrite (bind_rand_Ok _ _ _ _ _ E1).
  destruct (made_up_step_new ex rels [] ([] ++ [T1]) 1 s1 Hex Hrel) as (T2 & s2 & E2).
  simpl in E2 |- *. rewrite (bind_rand_Ok _ _ _ _ _ E2). eexists _, _. split; [reflexivity | discriminate].
Qed.

(** C16: An instance without relations cannot be converted: whatever the
    generator and whatever [string_triple] holds, [random.choice] is
    called on an empty list (of entities or of relations) and raises
    [IndexError]. *)
Theorem convert_instance_no_relations o inst s t ea :
  getitem_str inst "text" = Ok t -> entity_part entity_types inst = Ok ea ->
  getitem_str inst "relations" = Ok (PList []) ->
  convert_instance entity_types relations_json o inst s = Raise IndexError.
Proof.
  intros Ht He Hr. unfold convert_instance.
  assert (Hra : relation_part relations_json o inst = Ok (rel0 o)) by (unfold relation_part; by rewrite Hr).
  rewrite (bind_rand_Ok _ _ _ _ _ (lift_Ok _ _ s Ht)), (bind_rand_Ok _ _ _ _ _ (lift_Ok _ _ s He)),
    (bind_rand_Ok _ _ _ _ _ (lift_Ok _ _ s Hra)).
  apply bind_rand_Raise. cbn [fold_rand]. apply bind_rand_Raise. unfold made_up_step.
  destruct (extracted_entities ea) as [|x xs] eqn:Ex; [by apply bind_rand_Raise|].
  destruct (choice_nonempty (x :: xs) s) as (e1 & s1 & E1); [done|].
  rewrite (bind_rand_Ok _ _ _ _ _ E1). by apply bind_rand_Raise.
Qed.

(** C14: The first triple of a relation whose label starts with an
    upper-case letter is skipped by the [continue] of line 81: on an
    instance whose triples each open such a relation, the loop records
    the labels and nothing else (no Wikidata-ID sentence, no string or
    Wikidata triple), and [string_triple] keeps the value it had before
    the instance. *)
Theorem relation_part_skipped o inst ts labels :
  getitem_str inst "relations" = Ok (PList ts) -> skipped_triples ts labels ->
  relation_part relations_json o inst =
    Ok {| relations := labels; relations_wiki_ids := []; string_triples := []; wiki_triples := [];
          last_string_triple := o |}.
Proof.
  intros Hr Hs. unfold relation_part. rewrite Hr. cbn.
  rewrite (relation_fold_skipped _ _ _ Hs); [done | set_solver].
Qed.

(** C15: [string_triple] of line 113 is the one the last recorded triple
    bound, in this instance or an earlier one.  When the first instance
    has entities and all its triples are skipped (C18), nothing has bound
    it, the made-up triples are not empty and [convert_data] raises
    [NameError]; the same instance after one that bound [string_triple]
    converts, and leaves the earlier binding in place. *)
Theorem convert_data_unbound_triple inst rest ts labels t ea s :
  getitem_str inst "text" = Ok t -> entity_part entity_types inst = Ok ea -> extracted_entities ea <> [] ->
  getitem_str inst "relations" = Ok (PList ts) -> skipped_triples ts labels -> labels <> [] ->
  convert_data entity_types relations_json (PList (inst :: rest)) s = Raise NameError /\
  forall st items s0, py_iter st = Ok items ->
    exists d s', convert_instance entity_types relations_json (Some st) inst s0 = Ok ((d, Some st), s').
Proof.
  intros Ht He Hex Hr Hs Hl.
  assert (Hra : forall o, relation_part relations_json o inst =
    Ok {| relations := labels; relations_wiki_ids := []; string_triples := []; wiki_triples := [];
          last_string_triple := o |}).
  { intros o. unfold relation_part. rewrite Hr. cbn. rewrite (relation_fold_skipped _ _ _ Hs); [done | set_solver]. }
  assert (Hconv : forall o s0, exists made mixed s2,
    made <> [] /\ Forall (fun t => exists a b c, t = PTuple [a; b; c]) made /\
    convert_instance entity_types relations_json o inst s0 =
      (difference ← lift (difference_triples o made);
       explanations ← lift (fold_result explanation_step difference []);
       mret (PDict [(PStr "Text", t);
               (PStr "Entities", PList (extracted_entities ea));
               (PStr "Entity Types", PList (types ea));
               (PStr "Entity wiki ids", PList (entity_wiki_ids ea));
               (PStr "Relations", PList labels);
               (PStr "Relation wiki ids", PList []);
               (PStr "Triples", PList []);
               (PStr "Wiki Triples", PList []);
               (PStr "Mixed Triples", PList mixed);
               (PStr "Corrupted Triples", PList difference);
               (PStr "Explanations", PList explanations)], o)) s2).
  { intros o s0. destruct (made_up_no_triples _ _ s0 Hex Hl) as (made & s1 & Hm & Hne).
    destruct (shuffle_go (pred (length ([] ++ made))) ([] ++ made) s1) as [mixed s2] eqn:Es.
    exists made, mixed, s2. split_and!; [done | exact (made_up_tuples _ _ _ _ _ _ _ _ Hm (Forall_nil_2 _)) |].
    unfold convert_instance.
    rewrite (bind_rand_Ok _ _ _ _ _ (lift_Ok _ _ s0 Ht)), (bind_rand_Ok _ _ _ _ _ (lift_Ok _ _ s0 He)),
      (bind_rand_Ok _ _ _ _ _ (lift_Ok _ _ s0 (Hra o))).
    cbn [relations string_triples]. rewrite (bind_rand_Ok _ _ _ _ _ Hm).
    assert (Hsh : shuffle ([] ++ made) s1 = Ok (mixed, s2)) by (unfold shuffle; by rewrite Es).
    by rewrite (bind_rand_Ok _ _ _ _ _ Hsh). }
  split.
  - destruct (Hconv None s) as (made & mixed & s2 & Hne & _ & Hc).
    unfold convert_data. cbn [py_iter]. rewrite (bind_rand_Ok _ _ _ _ _ (lift_Ok _ _ s eq_refl)).
    apply bind_rand_Raise. cbn [fold_rand]. apply bind_rand_Raise. unfold convert_step. apply bind_rand_Raise. cbn [snd].
    rewrite Hc. apply bind_rand_Raise, lift_Raise. by destruct made.
  - intros st items s0 Hi. destruct (Hconv (Some st) s0) as (made & mixed & s2 & Hne & Htup & Hc).
    set (dif := List.filter (fun x => negb (list_contains x items)) made).
    assert (Hd : difference_triples (Some st) made = Ok dif) by (unfold difference_triples; destruct made; [done|]; cbn; by rewrite Hi).
    destruct (explanations_ok dif []) as [ex Hx]; [exact (List.incl_Forall (List.incl_filter _ _) Htup)|].
    rewrite Hc, (bind_rand_Ok _ _ _ _ _ (lift_Ok _ _ s2 Hd)), (bind_rand_Ok _ _ _ _ _ (lift_Ok _ _ s2 Hx)). eauto.
Qed.

End Props.

End Redfm.

(** * The entity-linking dataset ([src/Entity_Linking/data/preprocess_data.py])

    The same tables and the same two lookup functions (lines 19-38, a
    copy of those of [convert_REDFM.py]); every triple becomes a
    dictionary of surface forms, types and labels, and the labels and
    descriptions of its subject, predicate and object are fetched from
    the Wikidata API with [get_wikidata_label_and_description], decorated
    with [@retry(tries=3, delay=2, max_delay=25)].  The API is the
    interface [EntityApi]: the JSON answer (or the exception) of the
    [wbgetentities] request for an id at a given attempt. *)

Module ELData.

Definition lookup_entity_type : pyval -> pyval -> result pyval := Redfm.lookup_entity_type.
Definition lookup_relations : pyval -> pyval -> string -> result pyval := Redfm.lookup_relations.

Class EntityApi := { wbgetentities : pyval -> nat -> result pyval }.

Section Convert.
Context `{EntityApi}.
Variables entity_types relations_json : pyval.

(** The body of [get_wikidata_label_and_description] (lines 43-61):
    the request and [response.json()] raise out of it; an answer
    without the id gives [None]. *)
Definition get_wikidata_label_and_description_body (wikidata_id : pyval) (attempt : nat) : result pyval :=
  data ← wbgetentities wikidata_id attempt;
  has_entities ← contains_key (PStr "entities") data;
  found ← (if (has_entities : bool) then ents ← getitem_str data "entities"; contains_key wikidata_id ents
           else Ok false);
  if (found : bool) then
    ents ← getitem_str data "entities";
    entity ← getitem_key ents wikidata_id;
    labels ← getitem_str entity "labels";
    en ← get_default labels "en" (PDict []);
    label ← get_default en "value" (PStr "No label available");
    descriptions ← getitem_str entity "descriptions";
    den ← get_default descriptions "en" (PDict []);
    description ← get_default den "value" (PStr "No description available");
    Ok (PDict [(PStr "id", wikidata_id); (PStr "label", label); (PStr "description", description)])
  else Ok PNone.

(** Lines 41-61 with the decorator: the outcome of the retried call. *)
Definition get_wikidata_label_and_description (wikidata_id : pyval) : result pyval :=
  (retry_call policy_search (get_wikidata_label_and_description_body wikidata_id)).1.

(** [if x is not None: d[k] = x]. *)
Definition store_found (d : pyval) (k x : pyval) : result pyval :=
  match x with PNone => Ok d | _ => setitem_key d k x end.

(** The lists and dictionaries of one instance (lines 70-73). *)
Record inst_acc := { new_triples : list pyval; wiki_triples : list pyval; entities : pyval; properties : pyval }.

Definition inst0 : inst_acc := {| new_triples := []; wiki_triples := []; entities := PDict []; properties := PDict [] |}.

(** One iteration of [for t in triples] (lines 74-104). *)
Definition triple_step (acc : inst_acc) (t : pyval) : result inst_acc :=
  subj ← getitem_str t "subject";
  ssf ← getitem_str subj "surfaceform";
  sty ← getitem_str subj "type";
  subject_type ← lookup_entity_type entity_types sty;
  p ← getitem_str t "predicate";
  predicate ← lookup_relations relations_json p "Relation";
  obj ← getitem_str t "object";
  osf ← getitem_str obj "surfaceform";
  oty ← getitem_str obj "type";
  object_type ← lookup_entity_type entity_types oty;
  let nt := PDict [(PStr "subject", ssf); (PStr "subject_type", subject_type); (PStr "predicate", predicate);
                   (PStr "object", osf); (PStr "object_type", object_type)] in
  suri ← getitem_str subj "uri";
  predicate_wikiID ← lookup_relations relations_json p "Wikidata ID";
  ouri ← getitem_str obj "uri";
  let wt := PDict [(PStr "subject", ssf); (PStr "subject_type", subject_type); (PStr "subject_wikiID", suri);
                   (PStr "predicate", predicate); (PStr "predicate_wikiID", predicate_wikiID);
                   (PStr "object", osf); (PStr "object_type", object_type); (PStr "object_wikiID", ouri)] in
  ent1 ← get_wikidata_label_and_description suri;
  ents1 ← store_found (entities acc) suri ent1;
  prop ← get_wikidata_label_and_description predicate_wikiID;
  props ← store_found (properties acc) predicate_wikiID prop;
  ent2 ← get_wikidata_label_and_description ouri;
  ents2 ← store_found ents1 ouri ent2;
  Ok {| new_triples := new_triples acc ++ [nt]; wiki_triples := wiki_triples acc ++ [wt];
        entities := ents2; properties := props |}.

(** The body of [for i in data] (lines 66-110). *)
Definition convert_instance (i : pyval) : result pyval :=
  input_text ← getitem_str i "text";
  triples ← getitem_str i "relations";
  ts ← py_iter triples;
  acc ← fold_result triple_step ts inst0;
  Ok (PDict [(PStr "text", input_text); (PStr "triples", PList (new_triples acc));
             (PStr "wiki_triples", PList (wiki_triples acc));
             (PStr "entities", entities acc); (PStr "properties", properties acc)]).

(** [convert_data] (lines 64-112). *)
Definition convert_data (data : pyval) : result (list pyval) :=
  instances ← py_iter data; result_map convert_instance instances.

End Convert.

(** ** Properties *)

Section Props.
Context `{EntityApi}.
Variables entity_types relations_json : pyval.

(** A dictionary whose every value is a record carrying its key under
    ["id"]. *)
Definition keyed_by_id (v : pyval) : Prop :=
  exists d, v = PDict d /\ Forall (fun kv => exists r, kv.2 = PDict r /\ pdict_get_str "id" r = Some kv.1) d.

Definition id_record (k x : pyval) : Prop :=
  x = PNone \/ exists r, x = PDict r /\ pdict_get_str "id" r = Some k.

Lemma label_body_record k n x : get_wikidata_label_and_description_body k n = Ok x -> id_record k x.
Proof.
  unfold get_wikidata_label_and_description_body, id_record. intros E. py_simp.
  destruct a1; py_simp; [right; eexists; split; reflexivity | by left].
Qed.

Lemma label_record k x : get_wikidata_label_and_description k = Ok x -> id_record k x.
Proof.
  unfold get_wikidata_label_and_description. intros (n & En)%retry_go_Ok_inv.
  exact (label_body_record _ _ _ En).
Qed.

Lemma store_found_keyed d k x d' : keyed_by_id d -> id_record k x -> store_found d k x = Ok d' -> keyed_by_id d'.
Proof.
  intros (l & -> & Hl) [->|(r & -> & Hr)]; simpl; [by intros [= <-]; exists l|].
  destruct (hashable k); [|discriminate]. intros [= <-].
  eexists. split; [reflexivity|]. apply dict_set_Forall; [done|]. simpl. eauto.
Qed.

Lemma triple_step_keyed acc t acc' :
  keyed_by_id (entities acc) -> keyed_by_id (properties acc) ->
  triple_step entity_types relations_json acc t = Ok acc' ->
  keyed_by_id (entities acc') /\ keyed_by_id (properties acc') /\
  length (new_triples acc') = S (length (new_triples acc)) /\
  length (wiki_triples acc') = S (length (wiki_triples acc)).
Proof.
  intros He Hp E. unfold triple_step in E. py_simp.
  pose proof (store_found_keyed _ _ _ _ He (label_record _ _ Ha12) Ha13) as He1.
  split_and!; simpl; rewrite ?length_app; simpl; try lia.
  - exact (store_found_keyed _ _ _ _ He1 (label_record _ _ Ha16) Ha17).
  - exact (store_found_keyed _ _ _ _ Hp (label_record _ _ Ha14) Ha15).
Qed.

(** A converted instance of the entity-linking data has one entry in
    [triples] and one in [wiki_triples] per relation of the instance, and
    its [entities] and [properties] map every Wikidata id to the record
    fetched for that id (its ["id"] field is the key), whatever the
    answers of the API. *)
Theorem el_convert_instance_shape i d :
  convert_instance entity_types relations_json i = Ok (PDict d) ->
  exists ts nts wts ents props,
    (getitem_str i "relations" ≫= py_iter) = Ok ts /\
    pdict_get_str "triples" d = Some (PList nts) /\ pdict_get_str "wiki_triples" d = Some (PList wts) /\
    pdict_get_str "entities" d = Some ents /\ pdict_get_str "properties" d = Some props /\
    length nts = length ts /\ length wts = length ts /\ keyed_by_id ents /\ keyed_by_id props.
Proof.
  unfold convert_instance. intros E. py_simp.
  assert (Hinv : keyed_by_id (entities a2) /\ keyed_by_id (properties a2) /\
                 length (new_triples a2) = length a1 /\ length (wiki_triples a2) = length a1).
  { assert (Hg : forall ts acc acc', fold_result (triple_step entity_types relations_json) ts acc = Ok acc' ->
              keyed_by_id (entities acc) -> keyed_by_id (properties acc) ->
              keyed_by_id (entities acc') /\ keyed_by_id (properties acc') /\
              length (new_triples acc') = length (new_triples acc) + length ts /\
              length (wiki_triples acc') = length (wiki_triples acc) + length ts).
    { induction ts as [|t ts IH]; intros acc acc' Ef He Hp; simpl in Ef.
      - injection Ef as <-. split_and!; auto; lia.
      - destruct (triple_step _ _ acc t) as [acc1|] eqn:Et; [|discriminate]. simpl in Ef.
        destruct (triple_step_keyed _ _ _ He Hp Et) as (He1 & Hp1 & Hn1 & Hw1).
        destruct (IH _ _ Ef He1 Hp1) as (? & ? & ? & ?). simpl. split_and!; auto; lia. }
    destruct (Hg _ _ _ Ha2) as (? & ? & ? & ?); [by exists [] | by exists [] | simpl in *; split_and!; auto; lia]. }
  destruct Hinv as (? & ? & ? & ?).
  exists a1, (new_triples a2), (wiki_triples a2), (entities a2), (properties a2).
  rewrite Ha0. simpl. split_and!; auto.
Qed.

End Props.

End ELData.

(** * Demonstration split ([src/Entity_Linking/data/make_subset_4_demostration_selection.py])

    [shuffle_and_split_jsonl] (lines 4-41): the lines of a JSONL file are
    parsed, shuffled and cut at [int(len(data) * split_ratio)]; the two
    parts are written to two files.  The ratio is a rational: with the
    default [0.50] the product is exact in binary floating point, as it
    is here. *)

Module Subset.

Section Split.
Context `{RandomSource}.

(** [int(x)] of a non-negative product. *)
Definition split_index (n : nat) (split_ratio : Q) : nat := Z.to_nat (Qfloor (inject_Z (Z.of_nat n) * split_ratio)).

Definition shuffle_and_split (lines : list string) (split_ratio : Q) : rand (list pyval * list pyval) :=
  data ← lift (result_map json_loads lines);
  data ← shuffle data;
  let k := split_index (length data) split_ratio in
  mret (take k data, drop k data).

Lemma split_index_half n : split_index n (1 # 2) = n / 2.
Proof.
  unfold split_index.
  assert (E : Qfloor (inject_Z (Z.of_nat n) * (1 # 2)) = (Z.of_nat n / 2)%Z).
  { unfold Qfloor. cbn [Qmult Qnum Qden inject_Z]. by rewrite Z.mul_1_r. }
  rewrite E, <- (Nat2Z.id (n / 2)), (Nat2Z.inj_div n 2). reflexivity.
Qed.

(** The two parts of the default split are a permutation of the
    parsed lines, whatever the generator: the first has [len(data) // 2]
    records and the second the rest. *)
Theorem shuffle_and_split_halves lines data s d1 d2 s' :
  result_map json_loads lines = Ok data ->
  shuffle_and_split lines (1 # 2) s = Ok ((d1, d2), s') ->
  d1 ++ d2 ≡ₚ data /\ length d1 = length lines / 2 /\ length d2 = length lines - length lines / 2.
Proof.
  intros Hd E. unfold shuffle_and_split in E. rand_simp E.
  apply lift_inv in Ha as [Ha ->]. rewrite Hd in Ha. injection Ha as <-.
  apply rand_mret_inv in E as [[= <- <-] _].
  pose proof (shuffle_perm _ _ _ _ Ha0) as Hp.
  pose proof (Forall2_length _ _ _ (result_map_ok _ _ _ Hd)) as Hlen.
  pose proof (Permutation_length Hp) as Hl2.
  rewrite split_index_half, take_drop, length_take, length_drop, Hl2, <- Hlen.
  split_and!; [done | apply Nat.min_l, Nat.Div0.div_le_upper_bound; lia | done].
Qed.

End Split.

End Subset.

(** ** Witnesses *)

#[local] Existing Instance counter_source.

Definition dict_of (kvs : list (string * pyval)) : pyval := PDict (map (fun kv => (PStr kv.1, kv.2)) kvs).

Definition demo_types : pyval :=
  dict_of [("PER", PStr "Person"); ("LOC", PStr "Location"); ("ORG", PStr "Organisation")].

Definition demo_relation (n : Z) (r w : string) : pyval :=
  dict_of [("Predicate number", PInt n); ("Relation", PStr r); ("Wikidata ID", PStr w)].

Definition demo_relations : pyval :=
  PList [demo_relation 0 "country" "P17"; demo_relation 1 "Capital" "P36"].

Definition demo_entity (sf uri ty : string) : pyval :=
  dict_of [("surfaceform", PStr sf); ("uri", PStr uri); ("type", PStr ty)].

Definition demo_arg (sf uri : string) : pyval := dict_of [("surfaceform", PStr sf); ("uri", PStr uri)].

Definition demo_triple (s : pyval) (p : Z) (o : pyval) : pyval :=
  dict_of [("subject", s); ("predicate", PInt p); ("object", o)].

Definition demo_entities : pyval :=
  PList [demo_entity "Paris" "Q90" "LOC"; demo_entity "france" "Q142" "LOC";
         demo_entity "lyon" "Q456" "LOC"; demo_entity "france" "Q142" "LOC"].

Definition demo_instance (triples : list pyval) : pyval :=
  dict_of [("text", PStr "Paris is the capital of France. Lyon is in France.");
           ("entities", demo_entities); ("relations", PList triples)].

(** Two triples of [country], then one of [Capital]. *)
Definition demo_full : pyval :=
  demo_instance [demo_triple (demo_arg "Paris" "Q90") 0 (demo_arg "france" "Q142");
                 demo_triple (demo_arg "lyon" "Q456") 0 (demo_arg "france" "Q142");
                 demo_triple (demo_arg "france" "Q142") 1 (demo_arg "Paris" "Q90")].

Definition demo_run : result ((pyval * option pyval) * nat) :=
  @Redfm.convert_instance counter_source demo_types demo_relations None demo_full 0.
Definition demo_dict : list (pyval * pyval) := match demo_run with Ok ((PDict d, _), _) => d | _ => [] end.
Definition demo_bound : option pyval := match demo_run with Ok ((_, o), _) => o | _ => None end.
Definition demo_state : nat := match demo_run with Ok (_, s) => s | _ => 0 end.

Lemma convert_instance_nodup_witness :
  Forall (fun k => exists l, pdict_get_str k demo_dict = Some (PList l) /\ NoDup l)
         ["Entities"; "Relations"; "Triples"; "Wiki Triples"; "Explanations"]%string.
Proof.
  apply (@Redfm.convert_instance_nodup counter_source demo_types demo_relations None demo_full 0 demo_dict demo_bound demo_state).
  vm_compute. reflexivity.
Defined.

Lemma convert_instance_mixed_witness :
  exists ts made_up corrupted mixed,
    pdict_get_str "Triples" demo_dict = Some (PList ts) /\
    pdict_get_str "Mixed Triples" demo_dict = Some (PList mixed) /\
    pdict_get_str "Corrupted Triples" demo_dict = Some (PList corrupted) /\
    mixed ≡ₚ ts ++ made_up /\ corrupted `sublist_of` made_up /\
    Forall (fun t => t ∉ ts) made_up /\ (length made_up <= 2)%nat.
Proof.
  apply (@Redfm.convert_instance_mixed counter_source demo_types demo_relations None demo_full 0 demo_dict demo_bound demo_state).
  vm_compute. reflexivity.
Defined.

Definition demo_ea : Redfm.ent_acc :=
  match Redfm.entity_part demo_types demo_full with Ok ea => ea | Raise _ => Redfm.ent0 end.

Lemma convert_instance_no_relations_witness :
  @Redfm.convert_instance counter_source demo_types demo_relations None (demo_instance []) 3 = Raise IndexError.
Proof.
  apply (@Redfm.convert_instance_no_relations counter_source demo_types demo_relations None (demo_instance []) 3
           (PStr "Paris is the capital of France. Lyon is in France.") demo_ea); vm_compute; reflexivity.
Defined.

(** Only the [Capital] triple: its label starts with an upper-case letter. *)
Definition demo_capital_triples : list pyval := [demo_triple (demo_arg "france" "Q142") 1 (demo_arg "Paris" "Q90")].
Definition demo_capital : pyval := demo_instance demo_capital_triples.

Lemma demo_capital_skipped : Redfm.skipped_triples demo_relations demo_capital_triples [PStr "Capital"].
Proof. split; [repeat constructor; set_solver|]. repeat constructor. eexists _, _. vm_compute. split_and!; reflexivity. Defined.

Lemma relation_part_skipped_witness :
  Redfm.relation_part demo_relations (Some (PTuple [PStr "Paris"; PStr "Country"; PStr "france"])) demo_capital =
    Ok {| Redfm.relations := [PStr "Capital"]; Redfm.relations_wiki_ids := []; Redfm.string_triples := [];
          Redfm.wiki_triples := []; Redfm.last_string_triple := Some (PTuple [PStr "Paris"; PStr "Country"; PStr "france"]) |}.
Proof. apply (Redfm.relation_part_skipped _ _ _ demo_capital_triples); [reflexivity | exact demo_capital_skipped]. Defined.

(** The [Capital] instance first raises; after [demo_full] it converts. *)
Lemma convert_data_unbound_triple_witness :
  @Redfm.convert_data counter_source demo_types demo_relations (PList [demo_capital; demo_full]) 0 = Raise NameError /\
  forall st items s0, py_iter st = Ok items ->
    exists d s', @Redfm.convert_instance counter_source demo_types demo_relations (Some st) demo_capital s0 = Ok ((d, Some st), s').
Proof.
  apply (@Redfm.convert_data_unbound_triple counter_source demo_types demo_relations demo_capital [demo_full]
           demo_capital_triples [PStr "Capital"] (PStr "Paris is the capital of France. Lyon is in France.") demo_ea 0);
    first [reflexivity | exact demo_capital_skipped | vm_compute; discriminate].
Defined.

Definition demo_types_dict : list (pyval * pyval) :=
  [(PStr "PER", PStr "Person"); (PStr "LOC", PStr "Location"); (PStr "ORG", PStr "Organisation")].

Lemma lookup_entity_type_get_witness :
  Redfm.lookup_entity_type (PDict demo_types_dict) (PStr "LOC") = of_option NameError (dict_get demo_types_dict (PStr "LOC")).
Proof. apply Redfm.lookup_entity_type_get. vm_compute. repeat constructor; set_solver. Defined.

(** An API that knows [Q90], fails once on [Q142], and answers an error
    object for anything else. *)
#[local] Instance demo_api : ELData.EntityApi := {|
  ELData.wbgetentities id attempt :=
    if pyval_eqb id (PStr "Q90") then
      Ok (dict_of [("entities", dict_of [("Q90", dict_of [("labels", dict_of [("en", dict_of [("value", PStr "Paris")])]);
                                                          ("descriptions", dict_of [])])])])
    else if pyval_eqb id (PStr "Q142") then
      match attempt with
      | O => Raise RequestError
      | _ => Ok (dict_of [("entities", dict_of [("Q142", dict_of [("labels", dict_of []);
                 ("descriptions", dict_of [("en", dict_of [("value", PStr "country")])])])])])
      end
    else Ok (dict_of [("error", PStr "no-such-entity")]) |}.

Definition el_arg (sf uri ty : string) : pyval := dict_of [("surfaceform", PStr sf); ("uri", PStr uri); ("type", PStr ty)].

Definition el_instance : pyval :=
  dict_of [("text", PStr "Paris, France.");
           ("relations", PList [dict_of [("subject", el_arg "Paris" "Q90" "LOC"); ("predicate", PInt 0);
                                         ("object", el_arg "France" "Q142" "LOC")]])].

Definition el_dict : list (pyval * pyval) :=
  match ELData.convert_instance demo_types demo_relations el_instance with Ok (PDict d) => d | _ => [] end.

Lemma el_convert_instance_shape_witness :
  exists ts nts wts ents props,
    (getitem_str el_instance "relations" ≫= py_iter) = Ok ts /\
    pdict_get_str "triples" el_dict = Some (PList nts) /\ pdict_get_str "wiki_triples" el_dict = Some (PList wts) /\
    pdict_get_str "entities" el_dict = Some ents /\ pdict_get_str "properties" el_dict = Some props /\
    length nts = length ts /\ length wts = length ts /\ ELData.keyed_by_id ents /\ ELData.keyed_by_id props.
Proof. apply (ELData.el_convert_instance_shape demo_types demo_relations el_instance el_dict). vm_compute. reflexivity. Defined.

Definition demo_lines : list string := ["{}"; "[1]"; "2"; "3"; "4"].

Lemma shuffle_and_split_halves_witness :
  let r := @Subset.shuffle_and_split counter_source demo_lines (1 # 2) 0 in
  match r with
  | Ok ((d1, d2), _) =>
      d1 ++ d2 ≡ₚ [PDict []; PList [PInt 1]; PInt 2; PInt 3; PInt 4] /\ length d1 = 2 /\ length d2 = 3
  | Raise _ => False
  end.
Proof.
  cbv zeta. destruct (@Subset.shuffle_and_split counter_source demo_lines (1 # 2) 0) as [[[d1 d2] s']|] eqn:E;
    [|vm_compute in E; discriminate].
  apply (@Subset.shuffle_and_split_halves counter_source demo_lines _ 0 d1 d2 s'); [vm_compute; reflexivity | exact E].
Defined.
