(* ===== verification/DataScripts.v ===== *)
(** * The dataset scripts on the file system

    The three dataset scripts of [Conversion] end in code that reads and
    writes files: [convert_REDFM.py] and [Entity_Linking/data/preprocess_data.py]
    load the type and relation tables with [json.load], convert every
    split of the downloaded dataset and write it as [{output_dir}/{key}.jsonl];
    [make_subset_4_demostration_selection.py] reads the validation file,
    shuffles it and writes its two halves.  The downloaded dataset is an
    argument, the list of its splits in the order of [redfm.keys()].  A
    loop over splits returns the file system with the exception that
    ended it, so that the splits written before an exception stay
    written. *)

From Stdlib Require Import QArith.
From stdpp Require Import gmap.
From S2P Require Import Prelude PyStr PyDict PyVal Random Json FileSys Conversion.

(** ** [make_subset_4_demostration_selection.py] *)

Section Subset.
Context `{RandomSource}.

(** [shuffle_and_split_jsonl] (lines 4-41). *)
Definition shuffle_and_split_jsonl (input_file output_file1 output_file2 : string) (split_ratio : Q) (fs : fsys)
    : rand fsys :=
  text ← lift (open_read fs input_file);
  '(data1, data2) ← Subset.shuffle_and_split (readlines text) split_ratio;
  fs1 ← lift (write_jsonl fs output_file1 false data1);
  lift (write_jsonl fs1 output_file2 false data2).

(** The script's top level (lines 44-47). *)
Definition make_subset (fs : fsys) : rand fsys :=
  shuffle_and_split_jsonl "Entity_Linking/data/validation.jsonl" "Entity_Linking/data/for_task_demonstrations.jsonl"
    "Entity_Linking/data/validation_after_task_demonstrations.jsonl" (1 # 2) fs.

End Subset.

(** ** The conversion scripts *)

(** [with open(f'{output_dir}/{key}.jsonl', 'w') as f: ...]. *)
Definition split_file (output_dir key : string) : string := (output_dir ++ "/" ++ key ++ ".jsonl")%string.

Section Splits.
Context `{RandomSource}.

(** [for key in redfm.keys()] of [convert_REDFM.py] (lines 174-181). *)
Fixpoint convert_splits (convert : pyval -> rand (list pyval)) (output_dir : string)
    (splits : list (string * pyval)) (fs : fsys) : rand (fsys * option exc) :=
  fun s =>
    match splits with
    | [] => Ok ((fs, None), s)
    | (key, data) :: rest =>
        match convert data s with
        | Ok (converted, s1) =>
            match write_jsonl fs (split_file output_dir key) false converted with
            | Ok fs' => convert_splits convert output_dir rest fs' s1
            | Raise e => Ok ((fs, Some e), s1)
            end
        | Raise e => Ok ((fs, Some e), s)
        end
    end.

(** [convert_REDFM.py] after its arguments are parsed and the dataset
    downloaded (lines 163-181). *)
Definition convert_redfm_main (output_dir entity_types_file relations_file : string)
    (redfm : list (string * pyval)) (fs : fsys) : rand (fsys * option exc) :=
  fun s =>
    match json_load fs entity_types_file with
    | Raise e => Ok ((fs, Some e), s)
    | Ok entity_types =>
        match json_load fs relations_file with
        | Raise e => Ok ((fs, Some e), s)
        | Ok relations_json => convert_splits (Redfm.convert_data entity_types relations_json) output_dir redfm fs s
        end
    end.

End Splits.

Section ELSplits.
Context `{ELData.EntityApi}.

(** [for key in redfm.keys()] of [preprocess_data.py] (lines 143-150). *)
Fixpoint el_convert_splits (convert : pyval -> result (list pyval)) (output_dir : string)
    (splits : list (string * pyval)) (fs : fsys) : fsys * option exc :=
  match splits with
  | [] => (fs, None)
  | (key, data) :: rest =>
      match converted ← convert data; write_jsonl fs (split_file output_dir key) false converted with
      | Ok fs' => el_convert_splits convert output_dir rest fs'
      | Raise e => (fs, Some e)
      end
  end.

(** [preprocess_data.py] after its arguments are parsed and the dataset
    downloaded (lines 132-150). *)
Definition preprocess_main (output_dir entity_types_file relations_file : string)
    (redfm : list (string * pyval)) (fs : fsys) : fsys * option exc :=
  match json_load fs entity_types_file with
  | Raise e => (fs, Some e)
  | Ok entity_types =>
      match json_load fs relations_file with
      | Raise e => (fs, Some e)
      | Ok relations_json => el_convert_splits (ELData.convert_data entity_types relations_json) output_dir redfm fs
      end
  end.

End ELSplits.

(** ** The demonstration split read back *)

Section SubsetProps.
Context `{RandomSource}.

(** C18: [make_subset_4_demostration_selection.py], for every random
    generator: when the validation file holds records without floats or
    sets, the two files it writes are read back by [read_jsonlines] (the
    reader of the retrieval-augmented compilers' demonstration file) as
    the two halves of a shuffle of the validation records: together a
    permutation of them, the first holding [len(data)//2]. *)
Theorem make_subset_files fs s fs' s' data :
  read_jsonlines fs "Entity_Linking/data/validation.jsonl" = Ok data ->
  Forall (fun x => json_safe x = true) data ->
  make_subset fs s = Ok (fs', s') ->
  exists d1 d2,
    read_jsonlines fs' "Entity_Linking/data/for_task_demonstrations.jsonl" = Ok (map json_image d1) /\
    read_jsonlines fs' "Entity_Linking/data/validation_after_task_demonstrations.jsonl" = Ok (map json_image d2) /\
    d1 ++ d2 ≡ₚ data /\ length d1 = length data / 2.
Proof.
  unfold read_jsonlines. intros Hd Hsafe Hm. unfold make_subset, shuffle_and_split_jsonl in Hm. rand_simp Hm.
  apply lift_inv in Ha as [Ht ->]. rewrite Ht, bind_Ok in Hd. destruct a0 as [d1 d2].
  cbv beta iota in Hm. apply bind_rand_inv in Hm as (fs1 & s2 & Hw1 & Hm).
  apply lift_inv in Hw1 as [Hw1 ->]. apply lift_inv in Hm as [Hw2 ->].
  destruct (Subset.shuffle_and_split_halves _ _ _ _ _ _ Hd Ha0) as (Hp & Hl1 & _).
  assert (Hs12 : Forall (fun x => json_safe x = true) (d1 ++ d2)) by (by rewrite Hp).
  apply Forall_app in Hs12 as [Hs1 Hs2].
  exists d1, d2. split_and!.
  - unfold read_jsonlines, open_read. rewrite (write_jsonl_frame _ _ _ _ _ _ Hw2) by done.
    by apply (write_jsonl_read _ _ _ _ _ Hs1 Hw1).
  - by apply (write_jsonl_read _ _ _ _ _ Hs2 Hw2).
  - done.
  - rewrite Hl1. f_equal. apply (Forall2_length _ _ _ (result_map_ok _ _ _ Hd)).
Qed.

End SubsetProps.

Section Witnesses.
#[local] Existing Instance counter_source.

Definition demo_validation : list pyval :=
  map (fun n => PDict [(PStr "text", PStr "Lyon is in France."); (PStr "id", PInt n)]) [1; 2; 3; 4; 5]%Z.

Definition demo_validation_fs : fsys :=
  {[ "Entity_Linking/data/validation.jsonl" :=
       String.concat EmptyString (map (fun r => match json_dumps false r with Ok s => (s ++ nl)%string | Raise _ => EmptyString end)
                                      demo_validation) ]}.

Definition demo_subset_run : fsys * nat :=
  match @make_subset counter_source demo_validation_fs 3 with Ok (fs, s) => (fs, s) | Raise _ => (∅, 0) end.

Lemma make_subset_files_witness :
  exists d1 d2,
    read_jsonlines demo_subset_run.1 "Entity_Linking/data/for_task_demonstrations.jsonl" = Ok (map json_image d1) /\
    read_jsonlines demo_subset_run.1 "Entity_Linking/data/validation_after_task_demonstrations.jsonl" = Ok (map json_image d2) /\
    d1 ++ d2 ≡ₚ demo_validation /\ length d1 = length demo_validation / 2.
Proof.
  apply (@make_subset_files counter_source demo_validation_fs 3 demo_subset_run.1 demo_subset_run.2 demo_validation);
    [vm_compute; reflexivity | repeat constructor | vm_compute; reflexivity].
Defined.

End Witnesses.
