(* ===== verification/Prompts.v ===== *)
(** * Prompt compilation

    The prompt compilers fill templates read from JSON files with
    LangChain's [PromptTemplate] and [FewShotPromptTemplate], whose
    f-string templates are rendered by a subclass of Python's
    [string.Formatter].  This file models:
    - [py_format]: [string.Formatter().vformat(template, (), kwargs)],
      with the parser of CPython's [str.format] (literal text, [{{] and
      [}}], fields with a conversion and a format specification whose
      nested fields are expanded, [Max string recursion exceeded] past
      two levels) and its errors ([KeyError] for a missing name,
      [IndexError] for a positional field, [ValueError] for a malformed
      template);
    - [prompt_format] and [few_shot_format]: [PromptTemplate.format] and
      [FewShotPromptTemplate.format] of [langchain_core], the second
      joining the prefix, the formatted demonstrations and the suffix
      with the separator and formatting the result again with the
      caller's variables;
    - the entity-linking prompt compilers of
      [src/Entity_Linking/prompts]: the Wikidata searches, decorated
      with [@retry], through the interface [WikiApi], and the loops that
      build one prompt per entity and per property of each record.

    Outside the subset the model raises [ValueError] where Python may
    not: a field name with an attribute or an index ([{a.b}], [{a[0]}])
    and a non-empty format specification after expansion ([{a:>3}]).
    The templates of the repository use neither. *)

From S2P Require Import Prelude PyStr PyDict PyVal Retry Json.

(** ** [string.Formatter] *)

(** [ascii(v)]: the [repr] with every non-ASCII character escaped. *)
Fixpoint ascii_escape (s : string) : string :=
  match s with
  | EmptyString => EmptyString
  | String c s' =>
      let n := nat_of_ascii c in
      if 128 <=? n then
        String backslash (String "x" (String (hex_digit (n / 16)) (String (hex_digit (n mod 16)) (ascii_escape s'))))
      else String c (ascii_escape s')
  end.

(** The field name of a replacement field, as [parse_field] reads it:
    up to the first [}], [:] or [!] outside brackets; [{] is an error.
    Returns the name, the character that ended it and the rest. *)
Fixpoint scan_bracket (s : string) (acc : string) : string * string :=
  match s with
  | EmptyString => (acc, EmptyString)
  | String "]" _ => (acc, s)
  | String c s' => scan_bracket s' (acc ++ String c EmptyString)
  end.

Fixpoint scan_field_name (fuel : nat) (s : string) (acc : string) : result (string * option ascii * string) :=
  match fuel with
  | O => Raise ValueError
  | S f =>
      match s with
      | EmptyString => Ok (acc, None, EmptyString)
      | String "{" _ => Raise ValueError
      | String "[" s' => let '(inside, r) := scan_bracket s' EmptyString in
                         scan_field_name f r (acc ++ String "[" inside)
      | String c s' =>
          if (Ascii.eqb c "}" || Ascii.eqb c ":" || Ascii.eqb c "!")%bool then Ok (acc, Some c, s')
          else scan_field_name f s' (acc ++ String c EmptyString)
      end
  end.

(** The format specification: up to the [}] that closes the field,
    counting nested braces. *)
Fixpoint scan_spec (s : string) (count : nat) (acc : string) : result (string * string) :=
  match s with
  | EmptyString => Raise ValueError
  | String "{" s' => scan_spec s' (S count) (acc ++ "{")
  | String "}" s' =>
      match count with
      | O | 1 => Ok (acc, s')
      | S c => scan_spec s' c (acc ++ "}")
      end
  | String c s' => scan_spec s' count (acc ++ String c EmptyString)
  end.

(** A parsed replacement field: name, conversion character, format
    specification, and the text after the field. *)
Record field := { f_name : string; f_conv : option ascii; f_spec : string }.

(** [parse_field] of CPython's [unicode_format.h]. *)
Definition parse_field (s : string) : result (field * string) :=
  '(name, stop, r) ← scan_field_name (S (String.length s)) s EmptyString;
  match stop with
  | Some "}"%char => Ok ({| f_name := name; f_conv := None; f_spec := EmptyString |}, r)
  | Some ":"%char => '(spec, r') ← scan_spec r 1 EmptyString;
                     Ok ({| f_name := name; f_conv := None; f_spec := spec |}, r')
  | Some _ =>
      match r with
      | EmptyString => Raise ValueError
      | String conv EmptyString =>
          '(spec, r') ← scan_spec EmptyString 1 EmptyString;
          Ok ({| f_name := name; f_conv := Some conv; f_spec := spec |}, r')
      | String conv (String "}" r') => Ok ({| f_name := name; f_conv := Some conv; f_spec := EmptyString |}, r')
      | String conv (String ":" r') =>
          '(spec, r'') ← scan_spec r' 1 EmptyString;
          Ok ({| f_name := name; f_conv := Some conv; f_spec := spec |}, r'')
      | _ => Raise ValueError
      end
  | None => Raise ValueError
  end.

Definition is_digit (c : ascii) : bool := let n := nat_of_ascii c in (48 <=? n) && (n <=? 57).

(** The first part of a field name, up to [.] or [[], and the rest. *)
Fixpoint split_field_name (name : string) : string * string :=
  match name with
  | EmptyString => (EmptyString, EmptyString)
  | String c r =>
      if (Ascii.eqb c "." || Ascii.eqb c "[")%bool then (EmptyString, name)
      else let '(first, rest) := split_field_name r in (String c first, rest)
  end.

(** [get_field] with no positional arguments: an empty name is the
    automatic index [0] and a decimal first part a positional index
    ([IndexError]); any other first part is looked up in [kwargs]
    ([KeyError]).  An attribute or index after it is outside the
    model. *)
Definition get_field (kwargs : list (string * pyval)) (name : string) : result pyval :=
  if String.eqb name EmptyString then Raise IndexError
  else
    let '(first, rest) := split_field_name name in
    if negb (String.eqb first EmptyString) && str_forall is_digit first then Raise IndexError
    else
      v ← of_option KeyError (List.find (fun kv => String.eqb kv.1 first) kwargs ≫= fun kv => Some kv.2);
      if String.eqb rest EmptyString then Ok v else Raise ValueError.

(** [convert_field]. *)
Definition convert_field (v : pyval) (conv : option ascii) : result pyval :=
  match conv with
  | None => Ok v
  | Some "s"%char => Ok (PStr (py_str v))
  | Some "r"%char => Ok (PStr (py_repr v))
  | Some "a"%char => Ok (PStr (ascii_escape (py_repr v)))
  | Some _ => Raise ValueError
  end.

(** [format_field]: [format(v, spec)], which is [str(v)] for an empty
    specification. *)
Definition format_field (v : pyval) (spec : string) : result string :=
  if String.eqb spec EmptyString then Ok (py_str v) else Raise ValueError.

Section Format.
Variable kwargs : list (string * pyval).

(** [Formatter._vformat]: [depth] is [recursion_depth + 1] (a call at
    [recursion_depth < 0] raises before reading anything), [fuel]
    bounds the number of characters read. *)
Fixpoint vformat (fuel : nat) (depth : nat) (s : string) : result string :=
  match fuel, depth with
  | O, _ | _, O => Raise ValueError
  | S f, S d =>
      match s with
      | EmptyString => Ok EmptyString
      | String "{" (String "{" r) => rest ← vformat f depth r; Ok (String "{" rest)
      | String "}" (String "}" r) => rest ← vformat f depth r; Ok (String "}" rest)
      | String "}" _ => Raise ValueError
      | String "{" EmptyString => Raise ValueError
      | String "{" r =>
          '(fld, r') ← parse_field r;
          v ← get_field kwargs (f_name fld);
          v' ← convert_field v (f_conv fld);
          spec ← vformat f d (f_spec fld);
          txt ← format_field v' spec;
          rest ← vformat f depth r';
          Ok (txt ++ rest)%string
      | String c r => rest ← vformat f depth r; Ok (String c rest)
      end
  end.

End Format.

(** [Formatter().format(template, **kwargs)], [recursion_depth=2]. *)
Definition py_format (template : string) (kwargs : list (string * pyval)) : result string :=
  vformat kwargs (S (String.length template)) 3 template.

(** ** LangChain's templates *)

(** [PromptTemplate(input_variables=..., template=t).format(kwargs)]. *)
Definition prompt_format (template : string) (kwargs : list (string * pyval)) : result string :=
  py_format template kwargs.

(** [{k: e[k] for k in example_prompt.input_variables}]. *)
Definition example_vars_of (vars : list string) (e : pyval) : result (list (string * pyval)) :=
  result_map (fun k => v ← getitem_str e k; Ok (k, v)) vars.

(** [FewShotPromptTemplate.format(kwargs)] for the demonstrations the
    selector chose: each is formatted with the example template, the
    non-empty pieces [prefix, *examples, suffix] are joined with the
    separator, and the joined text is formatted with [kwargs]. *)
Definition few_shot_format (prefix suffix example_template sep : string) (example_vars : list string)
    (selected : list pyval) (kwargs : list (string * pyval)) : result string :=
  subs ← result_map (example_vars_of example_vars) selected;
  example_strings ← result_map (fun sub => prompt_format example_template sub) subs;
  let pieces := List.filter (fun p => negb (String.eqb p EmptyString)) (prefix :: example_strings ++ [suffix]) in
  py_format (String.concat sep pieces) kwargs.

(** ** The Wikidata searches of the entity-linking compilers *)

(** The requests to [https://www.wikidata.org/w/api.php]:
    [wbsearchentities] for a string and a type ([item] or [property]),
    [wbgetentities] for an id, the full-text [query]/[search] with
    snippets, and the same search without [srprop]. *)
Inductive api_request :=
| WbSearch (search : pyval) (type : string)
| WbGet (ids : pyval)
| PageSearch (term : pyval) (limit : Z)
| QuerySearch (term : pyval) (limit : Z).

(** The answer ([response.json()]) or the exception of a request at a
    given attempt. *)
Class WikiApi := { api_get : api_request -> nat -> result pyval }.

Section Searches.
Context `{WikiApi}.

(** [f"{wikidata_id} ({label}): {description}"]. *)
Definition candidate_text (wikidata_id label description : pyval) : pyval :=
  PStr (py_str wikidata_id ++ " (" ++ py_str label ++ "): " ++ py_str description).

(** One result of [wbsearchentities] (lines 73-77 of the
    no-retrieval compiler). *)
Definition search_result_text (item : pyval) : result pyval :=
  wikidata_id ← getitem_str item "id";
  label ← getitem_str item "label";
  description ← get_default item "description" (PStr "No description available");
  Ok (candidate_text wikidata_id label description).

(** The answer of [wbsearchentities] (lines 69-79): the candidates, or
    [None] when there is no non-empty [search] list. *)
Definition search_results (data : pyval) : result pyval :=
  has_search ← contains_key (PStr "search") data;
  nonempty ← (if (has_search : bool) then s ← getitem_str data "search"; n ← py_len s; Ok (0 <? n)
              else Ok false);
  if (nonempty : bool) then
    s ← getitem_str data "search";
    rs ← py_iter s;
    results ← result_map search_result_text rs;
    Ok (PList results)
  else Ok PNone.

(** The body of [wikidata_string_search] (lines 41-81): [params] is
    unbound for a type other than [entity] and [property]. *)
Definition wikidata_string_search_body (query_string : pyval) (query_type : string) (attempt : nat) : result pyval :=
  ty ← (if String.eqb query_type "entity" then Ok "item"%string
        else if String.eqb query_type "property" then Ok "property"%string
        else Raise NameError);
  data ← api_get (WbSearch query_string ty) attempt;
  search_results data.

Definition wikidata_string_search (query_string : pyval) (query_type : string) : result pyval :=
  (retry_call policy_search (wikidata_string_search_body query_string query_type)).1.

(** The body of [get_label_and_description_for_id] (lines 84-113). *)
Definition get_label_and_description_for_id_body (wikidata_id : pyval) (attempt : nat) : result pyval :=
  data ← api_get (WbGet wikidata_id) attempt;
  entities ← get_default data "entities" (PDict []);
  entity_data ← get_key_default entities wikidata_id (PDict []);
  labels ← get_default entity_data "labels" (PDict []);
  en ← get_default labels "en" (PDict []);
  label ← get_default en "value" (PStr "No label available");
  descriptions ← get_default entity_data "descriptions" (PDict []);
  den ← get_default descriptions "en" (PDict []);
  description ← get_default den "value" (PStr "No description available");
  Ok (candidate_text wikidata_id label description).

Definition get_label_and_description_for_id (wikidata_id : pyval) : result pyval :=
  (retry_call policy_search (get_label_and_description_for_id_body wikidata_id)).1.

(** The body of [search_wikidata_pages] (lines 116-150): an exception of
    the inner decorated call makes the attempt fail. *)
Definition search_wikidata_pages_body (search_term : pyval) (limit : Z) (attempt : nat) : result pyval :=
  data ← api_get (PageSearch search_term limit) attempt;
  query ← get_default data "query" (PDict []);
  results ← get_default query "search" (PList []);
  rs ← py_iter results;
  pages ← result_map (fun item => title ← getitem_str item "title"; get_label_and_description_for_id title) rs;
  Ok (PList pages).

Definition search_wikidata_pages (search_term : pyval) : result pyval :=
  (retry_call policy_search (search_wikidata_pages_body search_term 10)).1.

End Searches.

(** ** The entity-linking compilers *)

(** [read_data]: one JSON value per line. *)
Definition read_data (lines : list string) : result (list pyval) := result_map json_loads lines.

(** One line of [read_examples] (retrieval compiler, lines 51-56): the
    [index] is deleted and the text, the mention and the candidates are
    stored JSON-encoded. *)
Definition read_example (line : string) : result pyval :=
  l ← json_loads line;
  l ← delitem_str l "index";
  t ← getitem_str l "text"; ts ← str_or AttributeError t;
  tj ← json_dumps true (PStr (py_strip ts));
  l ← setitem_str l "text" (PStr tj);
  c ← getitem_str l "extracted_component"; cs ← str_or AttributeError c;
  cj ← json_dumps true (PStr (py_strip cs));
  l ← setitem_str l "extracted_component" (PStr cj);
  k ← getitem_str l "candidates"; kj ← json_dumps true k;
  setitem_str l "candidates" (PStr kj).

Definition read_examples (lines : list string) : result (list pyval) := result_map read_example lines.

Section Compilers.
Context `{WikiApi}.

(** The candidates of an entity: the [if]/[elif] on the strategy leaves
    [canditates] (or [candidates]) as it was for any other strategy, an
    [UnboundLocalError] when it was never bound. *)
Definition entity_candidates (strategy : string) (extracted_component : pyval) (old : option pyval) : result pyval :=
  if String.eqb strategy "string_search" then wikidata_string_search extracted_component "entity"
  else if String.eqb strategy "page_search" then search_wikidata_pages extracted_component
  else of_option NameError old.

(** The state of the no-retrieval loop: the prompts, the components
    without candidates and the binding of [canditates], which survives
    from one iteration (and one record) to the next. *)
Record nr_state := { nr_prompts : list pyval; no_candidates : list pyval; canditates : option pyval }.

Definition nr0 : nr_state := {| nr_prompts := []; no_candidates := []; canditates := None |}.

(** One iteration of the entity loop (lines 183-194) or of the relation
    loop (lines 196-203) of the no-retrieval compiler: [kind] is
    ["entity"] or ["relation"], [key] the name of the component in the
    prompt record. *)
Definition nr_component_step (formatter kind key : string) (i : pyval)
    (cands : pyval -> option pyval -> result pyval) (st : nr_state) (kv : pyval * pyval) : result nr_state :=
  t ← getitem_str i "text"; ts ← str_or AttributeError t;
  text ← json_dumps true (PStr (py_strip ts));
  extracted_component ← getitem_str kv.2 "label";
  c ← cands extracted_component (canditates st);
  let nc := if pyval_eqb c PNone
            then no_candidates st ++ [PTuple [kv.1; extracted_component; PStr kind]]
            else no_candidates st in
  prompt ← prompt_format formatter [("text", PStr text); ("extracted_component", extracted_component); ("candidates", c)];
  Ok {| nr_prompts := nr_prompts st ++ [PDict [(PStr key, extracted_component); (PStr "correct answer", kv.1);
                                                (PStr "prompt", PStr prompt)]];
        no_candidates := nc; canditates := Some c |}.

(** One record of the no-retrieval compiler (lines 180-203). *)
Definition nr_record (formatter strategy : string) (st : nr_state) (i : pyval) : result nr_state :=
  entities ← getitem_str i "entities";
  relations ← getitem_str i "properties";
  ents ← dict_items entities;
  st1 ← fold_result (nr_component_step formatter "entity" "entity to disambiguate" i (entity_candidates strategy)) ents st;
  rels ← dict_items relations;
  fold_result (nr_component_step formatter "relation" "relation to disambiguate" i
                 (fun ec _ => wikidata_string_search ec "property")) rels st1.

(** The loop of [main] of the no-retrieval compiler. *)
Definition compile_no_retrieval (formatter strategy : string) (data : list pyval) : result nr_state :=
  fold_result (nr_record formatter strategy) data nr0.

(** The retrieval-augmented compiler: [select] is the example selector
    (maximal marginal relevance or semantic similarity over an
    embedding model), which maps the input variables to demonstrations
    read by [read_examples]. *)
Variable select : list (string * pyval) -> list pyval.
Variables (prefix suffix formatter : string) (example_vars : list string).

Record ra_state := { ra_prompts : list pyval; candidates : option pyval }.

Definition ra0 : ra_state := {| ra_prompts := []; candidates := None |}.

(** The property search of lines 285-286, made twice. *)
Definition relation_candidates (extracted_component : pyval) (old : option pyval) : result pyval :=
  _ ← wikidata_string_search extracted_component "property";
  wikidata_string_search extracted_component "property".

(** One iteration of the entity loop (lines 269-281) or of the relation
    loop (lines 283-290): [candidates] is rebound to its JSON text. *)
Definition ra_component_step (text : string) (index : nat)
    (cands : pyval -> option pyval -> result pyval) (st : ra_state) (kv : pyval * pyval) : result ra_state :=
  extracted_component ← getitem_str kv.2 "label";
  c ← cands extracted_component (candidates st);
  cj ← json_dumps true c;
  let kwargs := [("text", PStr text); ("extracted_component", extracted_component); ("candidates", PStr cj)] in
  prompt ← few_shot_format prefix suffix formatter nl example_vars (select kwargs) kwargs;
  Ok {| ra_prompts := ra_prompts st ++ [PDict [(PStr "index", PInt (Z.of_nat index));
                                               (PStr "entity to disambiguate", extracted_component);
                                               (PStr "correct answer", kv.1); (PStr "prompt", PStr prompt)]];
        candidates := Some (PStr cj) |}.

(** One record of the retrieval-augmented compiler (lines 264-290). *)
Definition ra_record (strategy : string) (st : ra_state) (ii : nat * pyval) : result ra_state :=
  let '(index, instance) := ii in
  t ← getitem_str instance "text"; ts ← str_or AttributeError t;
  text ← json_dumps true (PStr (py_strip ts));
  entities ← getitem_str instance "entities";
  relations ← getitem_str instance "properties";
  ents ← dict_items entities;
  st1 ← fold_result (ra_component_step text index (entity_candidates strategy)) ents st;
  rels ← dict_items relations;
  fold_result (ra_component_step text index relation_candidates) rels st1.

(** [for index, instance in enumerate(data)]. *)
Definition compile_retrieval (strategy : string) (data : list pyval) : result ra_state :=
  fold_result (ra_record strategy) (zip (seq 0 (length data)) data) ra0.

End Compilers.

(** ** Templates as the repository writes them

    A template of the prompt files is literal text and fields
    [{name}] with a plain name; a brace of the text is doubled.  Its
    meaning is the substitution of each field by the [str] of its
    value. *)

Inductive tpiece := Lit (s : string) | Fld (name : string).

(** [s.replace("{", "{{").replace("}", "}}")]. *)
Fixpoint escape_braces (s : string) : string :=
  match s with
  | EmptyString => EmptyString
  | String c s' =>
      if (Ascii.eqb c "{" || Ascii.eqb c "}")%bool then String c (String c (escape_braces s'))
      else String c (escape_braces s')
  end.

Definition tpiece_text (p : tpiece) : string :=
  match p with Lit s => escape_braces s | Fld n => String "{" (n ++ String "}" EmptyString) end.

Definition template_text (t : list tpiece) : string := foldr (fun p acc => tpiece_text p ++ acc)%string EmptyString t.

(** A character that may appear in a plain field name. *)
Definition field_char (c : ascii) : bool :=
  negb (existsb (Ascii.eqb c) ["{"; "}"; "["; "]"; ":"; "!"; "."]%char).

(** A plain name: non-empty, not a positional index. *)
Definition field_name_ok (n : string) : bool :=
  negb (String.eqb n EmptyString) && str_forall field_char n && negb (str_forall is_digit n).

Definition tpiece_ok (p : tpiece) : bool := match p with Lit _ => true | Fld n => field_name_ok n end.

(** The value of a keyword argument. *)
Definition kwarg (kwargs : list (string * pyval)) (n : string) : option pyval :=
  List.find (fun kv => String.eqb kv.1 n) kwargs ≫= fun kv => Some kv.2.

(** The substitution a template denotes. *)
Fixpoint substitute (kwargs : list (string * pyval)) (t : list tpiece) : result string :=
  match t with
  | [] => Ok EmptyString
  | Lit s :: t' => r ← substitute kwargs t'; Ok (s ++ r)%string
  | Fld n :: t' => v ← of_option KeyError (kwarg kwargs n); r ← substitute kwargs t'; Ok (py_str v ++ r)%string
  end.

Section FormatProps.
Variable kwargs : list (string * pyval).

Lemma vformat_plain f d c r :
  c <> "{"%char -> c <> "}"%char ->
  vformat kwargs (S f) (S d) (String c r) = (rest ← vformat kwargs f (S d) r; Ok (String c rest)).
Proof. intros H1 H2. destruct c as [[] [] [] [] [] [] [] []]; done. Qed.

Lemma vformat_open f d c r :
  c <> "{"%char ->
  vformat kwargs (S f) (S d) (String "{" (String c r)) =
    ('(fld, r') ← parse_field (String c r);
     v ← get_field kwargs (f_name fld);
     v' ← convert_field v (f_conv fld);
     spec ← vformat kwargs f d (f_spec fld);
     txt ← format_field v' spec;
     rest ← vformat kwargs f (S d) r';
     Ok (txt ++ rest)%string).
Proof. intros H1. destruct c as [[] [] [] [] [] [] [] []]; done. Qed.

Lemma scan_field_name_plain f c s acc :
  field_char c = true -> scan_field_name (S f) (String c s) acc = scan_field_name f s (acc ++ String c EmptyString).
Proof. intros H. destruct c as [[] [] [] [] [] [] [] []]; first [reflexivity | discriminate H]. Qed.

Lemma field_char_neq c d : field_char c = true -> In d ["{"; "}"; "["; "]"; ":"; "!"; "."]%char -> c <> d.
Proof.
  unfold field_char. intros Hc Hd ->. apply negb_true_iff in Hc. rewrite existsb_false_forall in Hc.
  specialize (Hc d Hd). by rewrite Ascii.eqb_refl in Hc.
Qed.

Lemma scan_field_name_ok n : forall f r acc,
  String.length n < f -> str_forall field_char n = true ->
  scan_field_name f (n ++ String "}" r) acc = Ok ((acc ++ n)%string, Some "}"%char, r).
Proof.
  induction n as [|c n IH]; intros [|f] r acc Hf Hn; simpl in Hf; try lia.
  - by rewrite str_app_nil_r.
  - simpl in Hn. apply andb_true_iff in Hn as [Hc Hn].
    rewrite str_app_cons, scan_field_name_plain, IH by (done || lia).
    by rewrite str_app_assoc.
Qed.

Lemma parse_field_ok n r :
  str_forall field_char n = true ->
  parse_field (n ++ String "}" r) = Ok ({| f_name := n; f_conv := None; f_spec := EmptyString |}, r).
Proof.
  intros Hn. unfold parse_field.
  rewrite scan_field_name_ok by (rewrite ?str_length_app; simpl; lia || done). done.
Qed.

Lemma split_field_name_ok n : str_forall field_char n = true -> split_field_name n = (n, EmptyString).
Proof.
  induction n as [|c n IH]; simpl; [done|]. intros [Hc Hn]%andb_true_iff.
  rewrite IH by done.
  destruct (Ascii.eqb c ".") eqn:E1; [apply Ascii.eqb_eq in E1; by destruct (field_char_neq c "." Hc); simpl; auto 8|].
  destruct (Ascii.eqb c "[") eqn:E2; [apply Ascii.eqb_eq in E2; by destruct (field_char_neq c "[" Hc); simpl; auto 8|].
  done.
Qed.

Lemma get_field_ok n : field_name_ok n = true -> get_field kwargs n = of_option KeyError (kwarg kwargs n).
Proof.
  unfold field_name_ok, get_field. intros [[Hne Hn]%andb_true_iff Hd]%andb_true_iff.
  apply negb_true_iff in Hne, Hd. rewrite Hne, split_field_name_ok, Hd by done. simpl.
  fold (kwarg kwargs n). rewrite andb_false_r. by destruct (kwarg kwargs n).
Qed.

Lemma escape_braces_length s : String.length s <= String.length (escape_braces s).
Proof. induction s as [|c s IH]; simpl; [lia|]. destruct (_ || _)%bool; simpl; lia. Qed.

Lemma vformat_escape s : forall f d r,
  String.length s < f ->
  vformat kwargs f (S d) (escape_braces s ++ r) =
    (x ← vformat kwargs (f - String.length s) (S d) r; Ok (s ++ x)%string).
Proof.
  induction s as [|c s IH]; intros [|f] d r Hf; simpl in Hf; try lia.
  - change (escape_braces EmptyString ++ r)%string with r. rewrite Nat.sub_0_r.
    by destruct (vformat kwargs (S f) (S d) r).
  - cbn [escape_braces String.length].
    destruct (Ascii.eqb c "{") eqn:E1; [|destruct (Ascii.eqb c "}") eqn:E2]; cbn [orb].
    + apply Ascii.eqb_eq in E1 as ->. rewrite !str_app_cons. simpl.
      rewrite IH by lia. by destruct (vformat kwargs (f - String.length s) (S d) r).
    + apply Ascii.eqb_eq in E2 as ->. rewrite !str_app_cons. simpl.
      rewrite IH by lia. by destruct (vformat kwargs (f - String.length s) (S d) r).
    + apply Ascii.eqb_neq in E1. apply Ascii.eqb_neq in E2.
      rewrite str_app_cons, vformat_plain, IH by (done || lia). cbn [Nat.sub].
      by destruct (vformat kwargs (f - String.length s) (S d) r).
Qed.

Lemma template_text_cons p t : template_text (p :: t) = (tpiece_text p ++ template_text t)%string.
Proof. reflexivity. Qed.

Lemma vformat_template t : forall f d,
  forallb tpiece_ok t = true -> String.length (template_text t) < f ->
  vformat kwargs f (S (S d)) (template_text t) = substitute kwargs t.
Proof.
  induction t as [|[s|n] t IH]; intros f d Ht Hf; rewrite ?template_text_cons in *; cbn [tpiece_text forallb tpiece_ok] in *.
  - destruct f as [|f]; [simpl in Hf; lia|]. done.
  - rewrite str_length_app in Hf. pose proof (escape_braces_length s).
    rewrite vformat_escape, IH by (done || lia). done.
  - apply andb_true_iff in Ht as [Hn Ht]. simpl in Hf. rewrite str_length_app in Hf. simpl in Hf.
    destruct n as [|c n']; [discriminate|].
    destruct f as [|[|f]]; [lia|lia|].
    pose proof Hn as Hn'. apply andb_true_iff in Hn' as [[_ Hc]%andb_true_iff _].
    pose proof Hc as Hc'. simpl in Hc'. apply andb_true_iff in Hc' as [Hc0 _].
    rewrite (str_app_cons "{"), str_app_assoc, (str_app_cons "}"%char EmptyString), str_app_nil_l, (str_app_cons c).
    rewrite vformat_open by (apply (field_char_neq c); simpl; auto).
    rewrite <- (str_app_cons c), parse_field_ok by done. cbn [mbind result_bind f_name f_conv f_spec].
    rewrite get_field_ok by done. cbn [substitute]. destruct (kwarg kwargs _); cbn [mbind result_bind of_option]; [|done].
    change (vformat kwargs (S f) (S d) EmptyString) with (Ok EmptyString : result string).
    cbn [mbind result_bind convert_field format_field String.eqb].
    rewrite IH by (done || lia). done.
Qed.

(** A text whose first unescaped brace opens a plain field that is not a
    keyword argument raises [KeyError]. *)
Lemma vformat_unbound_field a n b f d :
  field_name_ok n = true -> kwarg kwargs n = None ->
  String.length (escape_braces a ++ String "{" (n ++ String "}" b)) < f ->
  vformat kwargs f (S d) (escape_braces a ++ String "{" (n ++ String "}" b)) = Raise KeyError.
Proof.
  intros Hn Hk Hf. rewrite str_length_app in Hf. simpl in Hf. pose proof (escape_braces_length a).
  rewrite vformat_escape by lia.
  destruct (f - String.length a) as [|g] eqn:Eg; [lia|].
  pose proof Hn as Hs. apply andb_true_iff in Hs as [[_ Hs]%andb_true_iff _].
  destruct n as [|c n']; [discriminate|]. pose proof Hs as Hc. simpl in Hc. apply andb_true_iff in Hc as [Hc _].
  rewrite str_app_cons, vformat_open by (apply (field_char_neq c); simpl; auto).
  rewrite <- str_app_cons, parse_field_ok by done. cbn [mbind result_bind f_name f_conv f_spec].
  by rewrite get_field_ok, Hk.
Qed.

End FormatProps.

(** CPython's parser implements the substitution on every template
    written with plain field names and doubled literal braces. *)
Theorem py_format_template t kwargs :
  forallb tpiece_ok t = true -> py_format (template_text t) kwargs = substitute kwargs t.
Proof. intros Ht. unfold py_format. apply vformat_template; [done | lia]. Qed.

(** ** The compilers' outputs *)

Section CompilerProps.
Context `{WikiApi}.

Lemma dict_items_inv v d : dict_items v = Ok d -> v = PDict d.
Proof. destruct v; simpl; congruence. Qed.

Lemma search_wikidata_pages_list t c : search_wikidata_pages t = Ok c -> exists l, c = PList l.
Proof.
  unfold search_wikidata_pages, retry_call. intros (n & Hn)%retry_go_Ok_inv.
  unfold search_wikidata_pages_body in Hn. py_simp. eauto.
Qed.

Lemma nr_component_step_prompt formatter kind key i cands st kv st' :
  String.eqb "correct answer" key = false ->
  nr_component_step formatter kind key i cands st kv = Ok st' ->
  exists p, nr_prompts st' = nr_prompts st ++ [p] /\ getitem_str p "correct answer" = Ok kv.1.
Proof. intros Hk. unfold nr_component_step. intros Hs. py_simp. eexists. split; [done|]. simpl. by rewrite Hk. Qed.

(** The entries a step adds to [no_candidates]: one for the component,
    when its candidates are [None]. *)
Lemma nr_component_step_missing formatter kind key i cands st kv st' :
  nr_component_step formatter kind key i cands st kv = Ok st' ->
  no_candidates st' = no_candidates st \/
  exists ec, no_candidates st' = no_candidates st ++ [PTuple [kv.1; ec; PStr kind]] /\
             cands ec (canditates st) = Ok PNone.
Proof.
  unfold nr_component_step. intros Hs. py_simp.
  destruct (pyval_eqb _ PNone) eqn:E; simpl; [right | by left].
  apply pyval_eqb_eq in E. subst. eauto.
Qed.

(** One prompt per component of a loop, each answered by its key. *)
Lemma nr_loop_prompts formatter kind key i cands l st st' :
  String.eqb "correct answer" key = false ->
  fold_result (nr_component_step formatter kind key i cands) l st = Ok st' ->
  exists ps, nr_prompts st' = nr_prompts st ++ ps /\
             Forall2 (fun p kv => getitem_str p "correct answer" = Ok kv.1) ps l.
Proof. intros Hk. apply fold_result_appends. intros x b y _. by apply nr_component_step_prompt. Qed.

(** one record of the no-retrieval compiler adds one prompt per
    entity and then one per property, in the order of the record's
    dictionaries, each with its key as the correct answer. *)
Theorem nr_record_answers formatter strategy st i st' :
  nr_record formatter strategy st i = Ok st' ->
  exists ents rels ps,
    getitem_str i "entities" = Ok (PDict ents) /\ getitem_str i "properties" = Ok (PDict rels) /\
    nr_prompts st' = nr_prompts st ++ ps /\
    Forall2 (fun p kv => getitem_str p "correct answer" = Ok kv.1) ps (ents ++ rels).
Proof.
  unfold nr_record. intros Hr. py_simp.
  repeat match goal with H : dict_items _ = Ok _ |- _ => apply dict_items_inv in H; subst end.
  repeat match goal with H : fold_result _ _ _ = Ok _ |- _ =>
    apply nr_loop_prompts in H as (? & ? & ?); [|done] end.
  do 3 eexists. split; [done|]. split; [done|]. split.
  - match goal with H1 : nr_prompts ?a = nr_prompts st ++ _, H2 : nr_prompts st' = nr_prompts ?a ++ _ |- _ =>
      rewrite H2, H1, <- app_assoc end. reflexivity.
  - by apply Forall2_app.
Qed.

(** Every component recorded without candidates is a relation. *)
Definition only_relations_missing (st : nr_state) : Prop :=
  Forall (fun t => exists r ec, t = PTuple [r; ec; PStr "relation"]) (no_candidates st).

Lemma nr_step_missing_relations formatter kind key i cands st kv st' :
  (kind = "relation"%string \/ forall ec old, cands ec old <> Ok PNone) ->
  only_relations_missing st ->
  nr_component_step formatter kind key i cands st kv = Ok st' ->
  only_relations_missing st'.
Proof.
  unfold only_relations_missing.
  intros Hk Hst [-> | (ec & -> & Hc)]%nr_component_step_missing; [done|].
  apply Forall_app. split; [done|]. apply Forall_singleton.
  destruct Hk as [-> | Hk]; [eauto | by destruct (Hk _ _ Hc)].
Qed.

(** with the [page_search] strategy no entity is ever recorded as
    having no candidates: [search_wikidata_pages] returns a list, empty
    when nothing is found, never [None]. *)
Theorem page_search_no_entity_misses formatter data st :
  compile_no_retrieval formatter "page_search" data = Ok st ->
  only_relations_missing st.
Proof.
  apply (fold_result_invariant only_relations_missing); [constructor|]. intros x i y Hx _. unfold nr_record. intros Hr. py_simp.
  repeat match goal with H : fold_result _ _ _ = Ok _ |- _ =>
    revert H; apply (fold_result_invariant only_relations_missing); [|intros ? ? ? ? _; apply nr_step_missing_relations] end;
    eauto.
  right. intros ec old Hc. destruct (search_wikidata_pages_list _ _ Hc). discriminate.
Qed.

(** for a strategy other than [string_search] and [page_search] the
    first entity of the first record finds [canditates] unbound: the
    compiler raises [UnboundLocalError], a [NameError]. *)
Theorem nr_unknown_strategy_unbound formatter strategy i data t k v ec ents rels :
  String.eqb strategy "string_search" = false -> String.eqb strategy "page_search" = false ->
  getitem_str i "entities" = Ok (PDict ((k, v) :: ents)) -> getitem_str i "properties" = Ok rels ->
  getitem_str i "text" = Ok (PStr t) -> getitem_str v "label" = Ok ec ->
  compile_no_retrieval formatter strategy (i :: data) = Raise NameError.
Proof.
  intros H1 H2 He Hp Ht Hl. unfold compile_no_retrieval, nr_record. cbn [fold_result].
  rewrite He, Hp. cbn [mbind result_bind dict_items fold_result].
  assert (nr_component_step formatter "entity" "entity to disambiguate" i (entity_candidates strategy) nr0 (k, v)
          = Raise NameError) as ->; [|done].
  unfold nr_component_step. cbn [snd]. rewrite Ht, Hl. cbn [mbind result_bind str_or json_dumps].
  unfold entity_candidates. by rewrite H1, H2.
Qed.

End CompilerProps.

Section RetrievalProps.
Context `{WikiApi}.
Variable select : list (string * pyval) -> list pyval.
Variables (prefix suffix formatter : string) (example_vars : list string).

(** What the retrieval-augmented compiler records for a component of
    record [index]: the record's index, the label under [entity to
    disambiguate] (for a property too) and the key as the answer. *)
Definition ra_prompt_of (index : nat) (p : pyval) (kv : pyval * pyval) : Prop :=
  getitem_str p "index" = Ok (PInt (Z.of_nat index)) /\
  getitem_str p "entity to disambiguate" = getitem_str kv.2 "label" /\
  getitem_str p "correct answer" = Ok kv.1.

Lemma ra_loop_prompts text index cands l st st' :
  fold_result (ra_component_step select prefix suffix formatter example_vars text index cands) l st = Ok st' ->
  exists ps, ra_prompts st' = ra_prompts st ++ ps /\ Forall2 (ra_prompt_of index) ps l.
Proof.
  apply fold_result_appends. intros x b y _. unfold ra_component_step. intros Hs. py_simp.
  eexists. split; [done|]. repeat split; simpl; congruence.
Qed.

(** one record of the retrieval-augmented compiler adds one prompt
    per entity and then one per property, each carrying the record's
    index, the component's label under [entity to disambiguate] (for
    properties as well) and its key as the correct answer. *)
Theorem ra_record_answers strategy st index instance st' :
  ra_record select prefix suffix formatter example_vars strategy st (index, instance) = Ok st' ->
  exists ents rels ps,
    getitem_str instance "entities" = Ok (PDict ents) /\ getitem_str instance "properties" = Ok (PDict rels) /\
    ra_prompts st' = ra_prompts st ++ ps /\ Forall2 (ra_prompt_of index) ps (ents ++ rels).
Proof.
  unfold ra_record. intros Hr. py_simp.
  repeat match goal with H : dict_items _ = Ok _ |- _ => apply dict_items_inv in H; subst end.
  repeat match goal with H : fold_result _ _ _ = Ok _ |- _ => apply ra_loop_prompts in H as (? & ? & ?) end.
  do 3 eexists. split; [done|]. split; [done|]. split.
  - match goal with H1 : ra_prompts ?a = ra_prompts st ++ _, H2 : ra_prompts st' = ra_prompts ?a ++ _ |- _ =>
      rewrite H2, H1, <- app_assoc end. reflexivity.
  - by apply Forall2_app.
Qed.

(** C30: The retrieval-augmented compiler formats each selected
    demonstration with the example template and then formats the joined
    text (prefix, demonstrations, suffix) again with the component's
    arguments: a demonstration whose values hold braces formats on its
    own, but when its first brace opens a plain field [{n}] whose name is
    none of [text], [extracted_component], [candidates], the component's
    prompt raises [KeyError]. *)
Theorem ra_component_unbound_field text index cands st kv ec c cj subs strs a n b :
  getitem_str kv.2 "label" = Ok ec -> cands ec (candidates st) = Ok c -> json_dumps true c = Ok cj ->
  result_map (example_vars_of example_vars)
    (select [("text", PStr text); ("extracted_component", ec); ("candidates", PStr cj)]) = Ok subs ->
  result_map (fun sub => prompt_format formatter sub) subs = Ok strs ->
  String.concat nl (List.filter (fun p => negb (String.eqb p EmptyString)) (prefix :: strs ++ [suffix])) =
    (escape_braces a ++ String "{" (n ++ String "}" b))%string ->
  field_name_ok n = true -> n ∉ ["text"; "extracted_component"; "candidates"] ->
  ra_component_step select prefix suffix formatter example_vars text index cands st kv = Raise KeyError.
Proof.
  intros Hl Hc Hj Hs Hp Hjoin Hn Hk. unfold ra_component_step.
  rewrite Hl, bind_Ok, Hc, bind_Ok, Hj, bind_Ok.
  assert (Hkw : kwarg [("text", PStr text); ("extracted_component", ec); ("candidates", PStr cj)] n = None).
  { unfold kwarg. cbn [List.find fst]. rewrite !not_elem_of_cons in Hk. destruct Hk as (H1 & H2 & H3 & _).
    destruct (String.eqb_spec "text" n) as [<-|_]; [congruence|].
    destruct (String.eqb_spec "extracted_component" n) as [<-|_]; [congruence|].
    destruct (String.eqb_spec "candidates" n) as [<-|_]; [congruence | reflexivity]. }
  unfold few_shot_format. rewrite Hs, bind_Ok, Hp, bind_Ok, Hjoin. unfold py_format.
  rewrite vformat_unbound_field by (done || lia). reflexivity.
Qed.

End RetrievalProps.

(** ** Instances *)

Section Witnesses.

(** An API whose item search knows one item, whose property search finds
    nothing, and whose page search always returns the page [Q90]. *)
#[local] Instance demo_wiki : WikiApi := {|
  api_get req attempt :=
    match req with
    | WbSearch q ty =>
        if String.eqb ty "item"
        then Ok (PDict [(PStr "search", PList [PDict [(PStr "id", PStr "Q90"); (PStr "label", q);
                                                      (PStr "description", PStr "capital of France")]])])
        else Ok (PDict [(PStr "search", PList [])])
    | WbGet ids =>
        Ok (PDict [(PStr "entities", PDict [(ids, PDict [(PStr "labels",
              PDict [(PStr "en", PDict [(PStr "value", PStr "Paris")])])])])])
    | PageSearch _ _ | QuerySearch _ _ =>
        Ok (PDict [(PStr "query", PDict [(PStr "search", PList [PDict [(PStr "title", PStr "Q90")]])])])
    end |}.

(** A zero-shot template: the text, the mention and the candidates,
    and an instruction with literal braces. *)
Definition demo_template : list tpiece :=
  [Lit "Text: "; Fld "text"; Lit (nl ++ "Mention: "); Fld "extracted_component";
   Lit (nl ++ "Candidates: "); Fld "candidates"; Lit (nl ++ "Answer as {id: label}.")]%string.

Definition demo_kwargs : list (string * pyval) :=
  [("text", PStr "Paris is the capital of France."); ("extracted_component", PStr "Paris");
   ("candidates", PList [PStr "Q90 (Paris): capital of France"])].

Lemma py_format_template_witness :
  forallb tpiece_ok demo_template = true /\
  py_format (template_text demo_template) demo_kwargs = substitute demo_kwargs demo_template.
Proof. split; [reflexivity | apply py_format_template; reflexivity]. Defined.

Definition demo_record : pyval :=
  PDict [(PStr "text", PStr " Paris is the capital of France. ");
         (PStr "entities", PDict [(PStr "Q90", PDict [(PStr "label", PStr "Paris")]);
                                  (PStr "Q142", PDict [(PStr "label", PStr "France")])]);
         (PStr "properties", PDict [(PStr "P1376", PDict [(PStr "label", PStr "capital of")])])].

Definition demo_formatter : string := template_text demo_template.

Definition demo_nr_out : nr_state :=
  match nr_record demo_formatter "page_search" nr0 demo_record with Ok s => s | Raise _ => nr0 end.

Lemma nr_record_answers_witness :
  exists ents rels ps,
    getitem_str demo_record "entities" = Ok (PDict ents) /\ getitem_str demo_record "properties" = Ok (PDict rels) /\
    nr_prompts demo_nr_out = nr_prompts nr0 ++ ps /\
    Forall2 (fun p kv => getitem_str p "correct answer" = Ok kv.1) ps (ents ++ rels).
Proof. apply (nr_record_answers demo_formatter "page_search" nr0 demo_record). vm_compute. reflexivity. Defined.

Definition demo_nr_run : nr_state :=
  match compile_no_retrieval demo_formatter "page_search" [demo_record; demo_record] with
  | Ok s => s | Raise _ => nr0 end.

Lemma page_search_no_entity_misses_witness : only_relations_missing demo_nr_run.
Proof.
  apply (page_search_no_entity_misses demo_formatter [demo_record; demo_record]). vm_compute. reflexivity.
Defined.

Lemma nr_unknown_strategy_unbound_witness :
  compile_no_retrieval demo_formatter "entity_search" [demo_record] = Raise NameError.
Proof.
  apply (nr_unknown_strategy_unbound demo_formatter "entity_search" demo_record [] " Paris is the capital of France. "
           (PStr "Q90") (PDict [(PStr "label", PStr "Paris")]) (PStr "Paris")
           [(PStr "Q142", PDict [(PStr "label", PStr "France")])]
           (PDict [(PStr "P1376", PDict [(PStr "label", PStr "capital of")])])); reflexivity.
Defined.

(** A selector that returns one demonstration, whatever the query. *)
Definition demo_demonstration : pyval :=
  PDict [(PStr "text", PStr "The set {a, b} has two elements."); (PStr "extracted_component", PStr "set");
         (PStr "candidates", PStr "[Q36161 (set): collection of elements]");
         (PStr "answer", PStr "Q36161")].

Definition demo_select (_ : list (string * pyval)) : list pyval := [demo_demonstration].

Definition demo_example_template : string :=
  ("Text: {text}" ++ nl ++ "Mention: {extracted_component}" ++ nl ++ "Candidates: {candidates}" ++ nl ++ "Answer: {answer}")%string.

Definition demo_plain_demonstration : pyval :=
  PDict [(PStr "text", PStr "Lyon is in France."); (PStr "extracted_component", PStr "Lyon");
         (PStr "candidates", PStr "[Q456 (Lyon): city in France]"); (PStr "answer", PStr "Q456")].

Definition demo_plain_select (_ : list (string * pyval)) : list pyval := [demo_plain_demonstration].

Definition demo_example_vars : list string := ["text"; "extracted_component"; "candidates"; "answer"].

Definition demo_ra_out : ra_state :=
  match ra_record demo_plain_select "Link the mention." "Text: {text}" demo_example_template demo_example_vars
          "string_search" ra0 (3, demo_record) with Ok s => s | Raise _ => ra0 end.

Lemma ra_record_answers_witness :
  exists ents rels ps,
    getitem_str demo_record "entities" = Ok (PDict ents) /\ getitem_str demo_record "properties" = Ok (PDict rels) /\
    ra_prompts demo_ra_out = ra_prompts ra0 ++ ps /\ Forall2 (ra_prompt_of 3) ps (ents ++ rels).
Proof.
  apply (ra_record_answers demo_plain_select "Link the mention." "Text: {text}" demo_example_template
           demo_example_vars "string_search" ra0 3 demo_record demo_ra_out).
  vm_compute. reflexivity.
Defined.

(** The demonstration [The set {a, b} has two elements.]: the field
    [{a, b}] of the joined text is no argument. *)
Lemma ra_component_unbound_field_witness :
  ra_component_step demo_select "Link the mention." "Text: {text}" demo_example_template demo_example_vars
    "Paris is the capital of France." 0 (entity_candidates "string_search") ra0
    (PStr "Q90", PDict [(PStr "label", PStr "Paris")]) = Raise KeyError.
Proof.
  eapply (ra_component_unbound_field demo_select "Link the mention." "Text: {text}" demo_example_template
            demo_example_vars _ _ _ _ _ _ _ _ _ _ ("Link the mention." ++ nl ++ "Text: The set ")%string "a, b"
            (" has two elements." ++ nl ++ "Mention: set" ++ nl ++ "Candidates: [Q36161 (set): collection of elements]"
             ++ nl ++ "Answer: Q36161" ++ nl ++ "Text: {text}")%string);
    first [reflexivity | vm_compute; reflexivity | apply (bool_decide_unpack _); vm_compute; exact I].
Defined.

End Witnesses.
