(* ===== verification/KEPrompts.v ===== *)
(** * The knowledge-extraction prompt compilers

    Four scripts build prompts with the formatter of [Prompts]:
    - [Module NoRetrievalKE]:
      [src/1_data_module/2_creating_prompts/no_retrieval_prompt_compiler.py],
      which reads the examples ([get_examples]) and formats one
      zero-shot prompt per record;
    - [Module RetrievalKE]:
      [src/1_data_module/2_creating_prompts/retrieval_augmented_prompt_compiler.py],
      which can draw the demonstration pool from the training file with
      [random.sample] ([sample_examples]), stringifies the fields of
      every example and formats one few-shot prompt per record;
    - [Module KEDemos]:
      [src/Entity_Linking/prompts/retrieval_augmented_KE_prompt_compiler.py],
      which stores the triples JSON-encoded with doubled braces, so
      that they survive the second formatting of [FewShotPromptTemplate];
    - [Module AfterKE]: [src/Entity_Linking/prompts/make_EL_prompts_after_KE.py],
      which reads the triples a model extracted, deduplicates their
      entities and relations with [list(set(...))], fetches candidates
      from Wikidata and formats one entity-linking prompt per component.

    The example selectors (embedding models over a vector store) are
    parameters, as in [Prompts]; the iteration order of a Python [set]
    of strings depends on the per-process hash seed, so [AfterKE] takes
    it as a parameter [set_list], and its theorems hold for every order
    that lists each distinct element once. *)

From S2P Require Import Prelude PyStr PyDict PyVal Random Json Prompts.

(** [example[k] = str(example[k])]. *)
Definition str_field (example : pyval) (k : string) : result pyval :=
  v ← getitem_str example k; setitem_str example k (PStr (py_str v)).

Definition str_fields (example : pyval) (ks : list string) : result pyval :=
  fold_result str_field ks example.

Module NoRetrievalKE.

(** One line of [get_examples] (lines 20-27): the hint is the first two
    items of every entity, and four fields become their [str]. *)
Definition get_example (line : string) : result pyval :=
  example ← json_loads line;
  ents ← getitem_str example "Entities";
  items ← py_iter ents;
  hint ← result_map (fun entity => py_getslice entity 0 2) items;
  example ← setitem_str example "Hint" (PList hint);
  str_fields example ["Entities"; "Relations"; "Triples"; "Wiki Triples"].

Definition get_examples (lines : list string) : result (list pyval) := result_map get_example lines.

(** The loop of [main] (lines 78-85): one prompt per record. *)
Definition compile (formatter : string) (data : list pyval) : result (list string) :=
  result_map (fun instance => text ← getitem_str instance "Text"; prompt_format formatter [("Text", text)]) data.

End NoRetrievalKE.

Module RetrievalKE.

(** [sample_examples] (lines 27-49): the sampled lines and the others,
    each written as [json.dumps(item)] and a newline.  [None] when the
    model's bound on rejected draws of [random.sample] runs out. *)
Section Sampling.
Context `{RandomSource}.

Definition dump_lines (items : list pyval) : result (list string) :=
  result_map (fun item => s ← json_dumps true item; Ok (s ++ nl)%string) items.

Definition sample_examples (fuel : nat) (lines : list string) (sample_size : nat)
    : rand (option (list string * list string)) :=
  all_examples ← lift (result_map json_loads lines);
  sel ← sample fuel all_examples sample_size;
  match sel with
  | None => mret None
  | Some selected_items =>
      let remaining_items := List.filter (fun item => negb (list_contains item selected_items)) all_examples in
      after ← lift (dump_lines remaining_items);
      sampled ← lift (dump_lines selected_items);
      mret (Some (after, sampled))
  end.

End Sampling.

(** [type=bool] of [argparse]: [bool(s)], true for every non-empty
    string. *)
Definition argparse_bool (arg : option string) (default : bool) : bool :=
  match arg with None => default | Some s => negb (String.eqb s EmptyString) end.

(** Line 100: the sampling runs when [--sample_exists] is false. *)
Definition runs_sampling (sample_exists : option string) : bool := negb (argparse_bool sample_exists true).

(** One line of [get_examples] (lines 59-71). *)
Definition get_example (line : string) : result pyval :=
  example ← json_loads line;
  str_fields example ["Entities"; "Entity Types"; "Entity wiki ids"; "Relations"; "Relation wiki ids";
                      "Triples"; "Wiki Triples"; "Mixed Triples"; "Corrupted Triples"; "Explanations"].

Definition get_examples (lines : list string) : result (list pyval) := result_map get_example lines.

(** The loop of [main] (lines 163-169), with the example selector. *)
Definition compile (select : list (string * pyval) -> list pyval) (prefix suffix formatter : string)
    (example_vars : list string) (data : list pyval) : result (list string) :=
  result_map (fun instance =>
    text ← getitem_str instance "Text";
    few_shot_format prefix suffix formatter nl example_vars (select [("Text", text)]) [("Text", text)]) data.

End RetrievalKE.

Module KEDemos.

(** [json.dumps(x).replace('{', '{{').replace('}', '}}')]. *)
Definition dumps_escaped (x : pyval) : result string :=
  s ← json_dumps true x; Ok (py_replace "}" "}}" (py_replace "{" "{{" s)).

(** One line of [read_data] (lines 33-38). *)
Definition read_line (line : string) : result pyval :=
  l ← json_loads line;
  t ← getitem_str l "triples"; tj ← dumps_escaped t;
  l ← setitem_str l "triples" (PStr tj);
  w ← getitem_str l "wiki_triples"; wj ← dumps_escaped w;
  setitem_str l "wiki_triples" (PStr wj).

Definition read_data (lines : list string) : result (list pyval) := result_map read_line lines.

(** The loop of [main] (lines 128-137). *)
Definition compile (select : list (string * pyval) -> list pyval) (prefix suffix formatter : string)
    (example_vars : list string) (data : list pyval) : result (list string) :=
  result_map (fun instance =>
    text ← getitem_str instance "text";
    few_shot_format prefix suffix formatter nl example_vars (select [("text", text)]) [("text", text)]) data.

End KEDemos.

Module AfterKE.

(** One line of [read_data] (lines 25-30). *)
Definition read_line (line : string) : result pyval :=
  l ← json_loads line;
  t ← getitem_str l "text"; ts ← str_or AttributeError t; tj ← json_dumps true (PStr (py_strip ts));
  l ← setitem_str l "text" (PStr tj);
  tr ← getitem_str l "triples"; trj ← json_dumps true tr;
  l ← setitem_str l "triples" (PStr trj);
  w ← getitem_str l "wiki_triples"; wj ← json_dumps true w;
  setitem_str l "wiki_triples" (PStr wj).

Definition read_data (lines : list string) : result (list pyval) := result_map read_line lines.

Section Candidates.
Context `{WikiApi}.

(** [get_wikidata_candidates] (lines 42-79), not decorated with
    [@retry]: the entity search sends [srsearch="paradox"] whatever the
    mention, and [params] is unbound for another type. *)
Definition candidates_request (query_string : pyval) (quert_type : string) : result api_request :=
  if String.eqb quert_type "entity" then Ok (QuerySearch (PStr "paradox") 10)
  else if String.eqb quert_type "property" then Ok (WbSearch query_string "property")
  else Raise NameError.

Definition get_wikidata_candidates (query_string : pyval) (quert_type : string) : result pyval :=
  req ← candidates_request query_string quert_type;
  data ← api_get req 0;
  search_results data.

(** [search_wikidata_pages] of this script (lines 81-118), which [main]
    does not call. *)
Definition search_wikidata_pages (search_term : pyval) (limit : Z) : result pyval :=
  data ← api_get (PageSearch search_term limit) 0;
  query ← get_default data "query" (PDict []);
  results ← get_default query "search" (PList []);
  rs ← py_iter results;
  pages ← result_map (fun item =>
    title ← getitem_str item "title"; pageid ← getitem_str item "pageid"; snippet ← getitem_str item "snippet";
    Ok (PDict [(PStr "WikiID", title); (PStr "Page_id", pageid); (PStr "Description", snippet)])) rs;
  Ok (PList pages).

(** The iteration order of [list(set(l))]. *)
Variable set_list : list pyval -> list pyval.

(** [list(set(l))]: every element must be hashable. *)
Definition py_list_set (l : list pyval) : result (list pyval) :=
  if forallb hashable l then Ok (set_list l) else Raise TypeError.

(** Lines 156-162: the cleaned answer is parsed and the subjects and
    objects (in that order) and the predicates are collected. *)
Definition clean_extraction (s : string) : string :=
  py_replace "```" EmptyString (py_replace "```json" EmptyString (py_replace nl EmptyString (py_strip s))).

Definition collect_step (acc : list pyval * list pyval) (triple : pyval) : result (list pyval * list pyval) :=
  subject ← getitem_str triple "subject";
  object ← getitem_str triple "object";
  predicate ← getitem_str triple "predicate";
  Ok (acc.1 ++ [subject; object], acc.2 ++ [predicate]).

Definition extraction_items (e : pyval) : result (list pyval) :=
  x ← getitem_str e "extraction"; s ← str_or AttributeError x;
  triples ← json_loads (clean_extraction s);
  py_iter triples.

Definition extracted_components (e : pyval) : result (list pyval * list pyval) :=
  items ← extraction_items e;
  '(ents, rels) ← fold_result collect_step items ([], []);
  ents' ← py_list_set ents;
  rels' ← py_list_set rels;
  Ok (ents', rels').

Record ak_state := { ak_prompts : list pyval; ak_no_candidates : list pyval }.

Definition ak0 : ak_state := {| ak_prompts := []; ak_no_candidates := [] |}.

(** One iteration of the entity loop (lines 167-175) or of the
    relation loop (lines 177-184): [qtype] is the search type, [kind]
    the tag of a component without candidates. *)
Definition component_step (formatter qtype kind key : string) (index : nat) (r : pyval)
    (st : ak_state) (component : pyval) : result ak_state :=
  text ← getitem_str r "text";
  c ← get_wikidata_candidates component qtype;
  let nc := if pyval_eqb c PNone then ak_no_candidates st ++ [PTuple [component; PStr kind]]
            else ak_no_candidates st in
  prompt ← prompt_format formatter [("text", text); ("extracted_component", component); ("candidates", c)];
  Ok {| ak_prompts := ak_prompts st ++ [PDict [(PStr "index", PInt (Z.of_nat index)); (PStr key, component);
                                               (PStr "prompt", PStr prompt)]];
        ak_no_candidates := nc |}.

(** One pair of the loop of [main] (lines 152-184). *)
Definition record_step (formatter : string) (st : ak_state) (item : nat * (pyval * pyval)) : result ak_state :=
  let '(i, (e, r)) := item in
  '(ents, rels) ← extracted_components e;
  st1 ← fold_result (component_step formatter "entity" "entity" "entity to disambiguate" i r) ents st;
  fold_result (component_step formatter "property" "relation" "relation to disambiguate" i r) rels st1.

(** [main] from the extraction file and the gold records:
    [enumerate(zip(extraction, gold))] stops at the shorter list. *)
Definition make_prompts (formatter : string) (extraction : pyval) (gold : list pyval) : result ak_state :=
  ex ← py_iter extraction;
  let pairs := zip ex gold in
  fold_result (record_step formatter) (zip (seq 0 (length pairs)) pairs) ak0.

End Candidates.

End AfterKE.

(** ** Doubled braces *)

Lemma replace_char o new c s :
  py_replace (String o EmptyString) new (String c s) =
    if Ascii.eqb c o then (new ++ py_replace (String o EmptyString) new s)%string
    else String c (py_replace (String o EmptyString) new s).
Proof.
  unfold py_replace. cbn [replace_go String.prefix String.length].
  replace (String.prefix EmptyString s) with true by (destruct s; reflexivity).
  destruct (Ascii.eqb_spec c o) as [->|Hne].
  - by destruct (ascii_dec o o).
  - destruct (ascii_dec o c); [congruence | done].
Qed.

(** The two [str.replace] calls double every brace: they compute
    [escape_braces]. *)
Lemma replace_braces_escape s :
  py_replace "}" "}}" (py_replace "{" "{{" s) = escape_braces s.
Proof.
  induction s as [|c s IH]; [done|]. rewrite (replace_char "{"%char).
  destruct (Ascii.eqb_spec c "{") as [->|H1].
  - cbn [Ascii.eqb Bool.eqb orb andb String.append escape_braces].
    rewrite !str_app_cons, str_app_nil_l, !replace_char. cbn [Ascii.eqb Bool.eqb andb]. by rewrite IH.
  - rewrite replace_char. cbn [escape_braces].
    destruct (Ascii.eqb_spec c "}") as [->|H2].
    + cbn [Ascii.eqb Bool.eqb orb andb]. rewrite !str_app_cons, str_app_nil_l. by rewrite IH.
    + apply Ascii.eqb_neq in H1. rewrite H1. cbn [orb]. by rewrite IH.
Qed.

(** Formatting an escaped text gives the text back. *)
Lemma py_format_escape s kwargs : py_format (escape_braces s) kwargs = Ok s.
Proof.
  unfold py_format.
  pose proof (vformat_template kwargs [Lit s] (S (String.length (escape_braces s))) 1 eq_refl) as H.
  unfold template_text in H. cbn [foldr tpiece_text substitute mbind result_bind] in H.
  rewrite !str_app_nil_r in H. rewrite H by lia. done.
Qed.

Lemma dumps_escaped_spec x : KEDemos.dumps_escaped x = (s ← json_dumps true x; Ok (escape_braces s)).
Proof. unfold KEDemos.dumps_escaped. destruct (json_dumps true x); simpl; by rewrite ?replace_braces_escape. Qed.

(** C26: a demonstration read by the knowledge-extraction compiler of
    [Entity_Linking/prompts] stores its triples as their JSON text with
    doubled braces, which a formatting turns back into the JSON text:
    the second formatting of [FewShotPromptTemplate] shows the triples
    as [json.dumps] wrote them. *)
Theorem ke_demo_triples_roundtrip line d :
  KEDemos.read_line line = Ok d ->
  exists l t j, json_loads line = Ok l /\ getitem_str l "triples" = Ok t /\ json_dumps true t = Ok j /\
    getitem_str d "triples" = Ok (PStr (escape_braces j)) /\
    forall kwargs, py_format (escape_braces j) kwargs = Ok j.
Proof.
  unfold KEDemos.read_line. intros Hr. py_simp.
  repeat match goal with H : KEDemos.dumps_escaped _ = Ok _ |- _ => rewrite dumps_escaped_spec in H end.
  py_simp.
  do 3 eexists. split; [done|]. split; [done|]. split; [done|].
  split; [|intros; apply py_format_escape].
  rewrite (getitem_setitem_str_ne _ "wiki_triples" "triples" _ _ ltac:(discriminate) Hr).
  by eapply getitem_setitem_str_eq.
Qed.

(** ** The demonstration sample *)

Lemma submseteq_NoDup_sub {A} (l k : list A) : l ⊆+ k -> NoDup k -> NoDup l.
Proof. intros (r & Hr)%submseteq_Permutation Hk. rewrite Hr in Hk. by apply NoDup_app in Hk as [? _]. Qed.

(** Removing the sampled items from a list without duplicates leaves a
    list which, followed by the sample, is a permutation of it. *)
Lemma filter_sample_perm (all sel : list pyval) :
  NoDup all -> sel ⊆+ all ->
  List.filter (fun item => negb (list_contains item sel)) all ++ sel ≡ₚ all.
Proof.
  intros Hnd Hsub. pose proof (submseteq_NoDup_sub _ _ Hsub Hnd) as Hsel.
  apply NoDup_Permutation.
  - apply NoDup_app. split; [apply NoDup_ListNoDup, List.NoDup_filter, NoDup_ListNoDup, Hnd|]. split; [|done].
    intros x Hx%list_elem_of_In Hs. apply filter_In in Hx as [_ Hx].
    apply negb_true_iff in Hx. apply not_true_iff_false in Hx. by apply Hx, list_contains_spec.
  - done.
  - intros x. rewrite elem_of_app, list_elem_of_In, filter_In, <- list_elem_of_In.
    split.
    + intros [[Hx _] | Hx]; [done|]. by eapply elem_of_submseteq.
    + intros Hx. destruct (list_contains x sel) eqn:E; [right; by apply list_contains_spec | by left].
Qed.

(** C28: [sample_examples] writes [sample_size] lines drawn from the
    training file and, as the remaining lines, every other line whose
    item was not drawn; when the training file has no duplicate line
    the two files are a partition of it, for every random generator. *)
Theorem sample_examples_partition `{RandomSource} fuel lines k s after sampled s' :
  RetrievalKE.sample_examples fuel lines k s = Ok (Some (after, sampled), s') ->
  exists all sel,
    result_map json_loads lines = Ok all /\ sel ⊆+ all /\ length sel = k /\
    RetrievalKE.dump_lines sel = Ok sampled /\
    RetrievalKE.dump_lines (List.filter (fun item => negb (list_contains item sel)) all) = Ok after /\
    (NoDup all -> List.filter (fun item => negb (list_contains item sel)) all ++ sel ≡ₚ all).
Proof.
  unfold RetrievalKE.sample_examples. intros Hs. rand_simp Hs.
  apply lift_inv in Ha as [Hall ->]. destruct a0 as [sel|]; [|discriminate].
  rand_simp Hs. apply lift_inv in Ha as [Ha ->]. apply lift_inv in Ha1 as [Hb ->].
  apply rand_mret_inv in Hs as [[= -> ->] _].
  destruct (sample_submseteq _ _ _ _ _ _ Ha0) as [Hsub Hlen].
  exists a, sel. repeat split; try done. intros Hnd. by apply filter_sample_perm.
Qed.

(** ** Entity-linking prompts after extraction *)

Section AfterKEProps.
Context `{WikiApi}.
Variable set_list : list pyval -> list pyval.

Lemma ak_component_step_prompt formatter qtype kind key i r st x st' :
  String.eqb key "index" = false ->
  AfterKE.component_step formatter qtype kind key i r st x = Ok st' ->
  exists p, AfterKE.ak_prompts st' = AfterKE.ak_prompts st ++ [p] /\
            getitem_str p key = Ok x /\ getitem_str p "index" = Ok (PInt (Z.of_nat i)).
Proof.
  intros Hk. unfold AfterKE.component_step. intros Hs. py_simp.
  eexists. split; [done|]. simpl. by rewrite Hk, String.eqb_refl.
Qed.

Lemma ak_loop_prompts formatter qtype kind key i r l st st' :
  String.eqb key "index" = false ->
  fold_result (AfterKE.component_step formatter qtype kind key i r) l st = Ok st' ->
  exists ps, AfterKE.ak_prompts st' = AfterKE.ak_prompts st ++ ps /\
    Forall2 (fun p x => getitem_str p key = Ok x /\ getitem_str p "index" = Ok (PInt (Z.of_nat i))) ps l.
Proof. intros Hk. apply fold_result_appends. intros ? ? ? _. by apply ak_component_step_prompt. Qed.

Lemma py_list_set_inv l l' : AfterKE.py_list_set set_list l = Ok l' -> l' = set_list l.
Proof. unfold AfterKE.py_list_set. destruct (forallb hashable l); [by intros [= <-] | discriminate]. Qed.

Lemma extracted_components_inv e ents rels :
  AfterKE.extracted_components set_list e = Ok (ents, rels) ->
  exists items so pr,
    AfterKE.extraction_items e = Ok items /\
    fold_result AfterKE.collect_step items ([], []) = Ok (so, pr) /\ ents = set_list so /\ rels = set_list pr.
Proof.
  unfold AfterKE.extracted_components. intros He. py_simp.
  match goal with p : (list pyval * list pyval)%type |- _ => destruct p as [so pr] end. py_simp.
  repeat match goal with H : AfterKE.py_list_set _ _ = Ok _ |- _ => apply py_list_set_inv in H end.
  subst. eauto 7.
Qed.

(** for every iteration order of Python's sets that lists each
    distinct element once, one pair of the extraction and gold files
    yields one prompt per distinct subject or object and then one per
    distinct predicate of the extracted triples, each carrying the
    pair's index and the component under its key. *)
Theorem after_ke_record_prompts formatter st i e r st' :
  (forall l, set_list l ≡ₚ remove_dups l) ->
  AfterKE.record_step set_list formatter st (i, (e, r)) = Ok st' ->
  exists items so pr ents rels ps1 ps2,
    AfterKE.extraction_items e = Ok items /\
    fold_result AfterKE.collect_step items ([], []) = Ok (so, pr) /\
    ents ≡ₚ remove_dups so /\ rels ≡ₚ remove_dups pr /\
    AfterKE.ak_prompts st' = AfterKE.ak_prompts st ++ ps1 ++ ps2 /\
    Forall2 (fun p x => getitem_str p "entity to disambiguate" = Ok x /\ getitem_str p "index" = Ok (PInt (Z.of_nat i))) ps1 ents /\
    Forall2 (fun p x => getitem_str p "relation to disambiguate" = Ok x /\ getitem_str p "index" = Ok (PInt (Z.of_nat i))) ps2 rels.
Proof.
  intros Hset. unfold AfterKE.record_step. intros Hr. py_simp.
  match goal with p : (list pyval * list pyval)%type |- _ => destruct p as [ents rels] end. py_simp.
  match goal with H : AfterKE.extracted_components _ _ = Ok _ |- _ =>
    apply extracted_components_inv in H as (items & so & pr & Hitems & Hfold & -> & ->) end.
  do 2 match goal with H : fold_result (AfterKE.component_step _ _ _ _ _ _) _ _ = Ok _ |- _ =>
    apply ak_loop_prompts in H as (? & ? & ?); [|done] end.
  exists items, so, pr, (set_list so), (set_list pr). do 2 eexists.
  repeat split; try done.
  match goal with H1 : AfterKE.ak_prompts ?a = AfterKE.ak_prompts st ++ _,
                  H2 : AfterKE.ak_prompts st' = AfterKE.ak_prompts ?a ++ _ |- _ =>
    rewrite H2, H1, <- app_assoc end. reflexivity.
Qed.

(** The full-text search answers under [query], never under a
    top-level [search]. *)
Definition query_shaped_api : Prop :=
  forall t lim n, exists d, api_get (QuerySearch t lim) n = Ok (PDict d) /\ pdict_get_str "search" d = None.

Lemma entity_candidates_none x : query_shaped_api -> AfterKE.get_wikidata_candidates x "entity" = Ok PNone.
Proof.
  intros Hapi. unfold AfterKE.get_wikidata_candidates. simpl.
  destruct (Hapi (PStr "paradox") 10%Z 0) as (d & -> & Hd). simpl.
  unfold search_results. simpl. unfold dict_mem. rewrite <- pdict_get_str_dict_get, Hd. done.
Qed.

Lemma ak_no_candidates_grow formatter qtype kind key i r l st st' :
  fold_result (AfterKE.component_step formatter qtype kind key i r) l st = Ok st' ->
  exists m, AfterKE.ak_no_candidates st' = AfterKE.ak_no_candidates st ++ m.
Proof.
  apply (fold_result_invariant (fun s => exists m, AfterKE.ak_no_candidates s = AfterKE.ak_no_candidates st ++ m)).
  - exists []. by rewrite app_nil_r.
  - intros x c y [m Hm] _. unfold AfterKE.component_step. intros Hs. py_simp. simpl.
    try destruct (pyval_eqb _ PNone);
      first [exists m; by rewrite Hm | exists (m ++ [PTuple [c; PStr kind]]); by rewrite Hm, app_assoc].
Qed.

(** C27: when the Wikidata API answers the full-text search in the shape
    of the MediaWiki [query] module, [get_wikidata_candidates] returns
    [None] for every entity, since it sends the fixed search term
    [paradox] and looks for a top-level [search] list: every distinct
    entity of every record is reported without candidates, before the
    relations. *)
Theorem after_ke_entities_missing formatter st i e r st' :
  query_shaped_api ->
  AfterKE.record_step set_list formatter st (i, (e, r)) = Ok st' ->
  exists ents rels missing,
    AfterKE.extracted_components set_list e = Ok (ents, rels) /\
    AfterKE.ak_no_candidates st' = AfterKE.ak_no_candidates st ++ map (fun x => PTuple [x; PStr "entity"]) ents ++ missing.
Proof.
  intros Hapi. unfold AfterKE.record_step. intros Hr. py_simp.
  match goal with p : (list pyval * list pyval)%type |- _ => destruct p as [ents rels] end. py_simp.
  match goal with H : fold_result (AfterKE.component_step _ "property" _ _ _ _) _ _ = Ok _ |- _ =>
    apply ak_no_candidates_grow in H as [missing Hm] end.
  match goal with H : fold_result (AfterKE.component_step _ "entity" _ _ _ _) _ _ = Ok _ |- _ =>
    apply (fold_result_appends AfterKE.ak_no_candidates (fun c x => c = PTuple [x; PStr "entity"])) in H
      as (cs & Hcs & Hall) end.
  - exists ents, rels, missing. split; [done|]. rewrite Hm, Hcs, <- app_assoc. do 2 f_equal.
    clear -Hall. induction Hall; simpl; congruence.
  - intros x c y _. unfold AfterKE.component_step. rewrite entity_candidates_none by done.
    intros Hs. py_simp. eauto.
Qed.

End AfterKEProps.

(** ** Instances *)

Section Witnesses.

Definition triple_of (s p o : string) : pyval :=
  PDict [(PStr "subject", PStr s); (PStr "predicate", PStr p); (PStr "object", PStr o)].

Definition demo_demo_value : pyval :=
  PDict [(PStr "text", PStr "Paris is the capital of France.");
         (PStr "triples", PList [triple_of "Paris" "capital of" "France"]);
         (PStr "wiki_triples", PList [triple_of "Q90" "P1376" "Q142"])].

Definition dumped (v : pyval) : string := match json_dumps true v with Ok s => s | Raise _ => EmptyString end.

Definition demo_demo_line : string := dumped demo_demo_value.

Definition demo_demo_read : pyval :=
  match KEDemos.read_line demo_demo_line with Ok d => d | Raise _ => PNone end.

Lemma ke_demo_triples_roundtrip_witness :
  exists l t j, json_loads demo_demo_line = Ok l /\ getitem_str l "triples" = Ok t /\ json_dumps true t = Ok j /\
    getitem_str demo_demo_read "triples" = Ok (PStr (escape_braces j)) /\
    forall kwargs, py_format (escape_braces j) kwargs = Ok j.
Proof. apply ke_demo_triples_roundtrip. vm_compute. reflexivity. Defined.

Definition demo_ke_template : string := ("Text: {text}" ++ nl ++ "Triples: {triples}")%string.

(** The doubled braces are what lets a demonstration's triples through
    [FewShotPromptTemplate]: the same demonstration read without them,
    as [make_EL_prompts_after_KE.py] reads its records, makes the
    formatting raise [KeyError]. *)
Example ke_escaping_needed :
  (exists p, KEDemos.compile (fun _ => [demo_demo_read]) "Extract the triples." "Text: {text}" demo_ke_template
               ["text"; "triples"] [PDict [(PStr "text", PStr "Lyon is in France.")]] = Ok [p] /\
             py_contains (dumped (PList [triple_of "Paris" "capital of" "France"])) p = true) /\
  (AfterKE.read_line demo_demo_line ≫= fun d =>
     few_shot_format "Extract the triples." "Text: {text}" demo_ke_template nl ["text"; "triples"] [d]
       [("text", PStr "Lyon is in France.")]) = Raise KeyError.
Proof. split; [eexists; split; vm_compute; reflexivity | vm_compute; reflexivity]. Qed.

#[local] Existing Instance counter_source.

Definition demo_train_lines : list string :=
  map (fun n => dumped (PDict [(PStr "id", PInt n)])) [1; 2; 3; 4; 5]%Z.

Definition demo_sample_run :=
  match @RetrievalKE.sample_examples counter_source 10 demo_train_lines 2 3 with
  | Ok (Some (after, sampled), s') => (after, sampled, s')
  | _ => ([], [], 0)
  end.

Lemma sample_examples_partition_witness :
  exists all sel,
    result_map json_loads demo_train_lines = Ok all /\ sel ⊆+ all /\ length sel = 2 /\
    RetrievalKE.dump_lines sel = Ok demo_sample_run.1.2 /\
    RetrievalKE.dump_lines (List.filter (fun item => negb (list_contains item sel)) all) = Ok demo_sample_run.1.1 /\
    (NoDup all -> List.filter (fun item => negb (list_contains item sel)) all ++ sel ≡ₚ all).
Proof. apply (@sample_examples_partition counter_source 10 demo_train_lines 2 3 _ _ demo_sample_run.2). vm_compute. reflexivity. Defined.

(** [--sample_exists False] parses as [True]: only an empty argument
    makes [main] sample the demonstration pool. *)
Example sample_exists_false_ignored :
  RetrievalKE.runs_sampling (Some "False") = false /\ RetrievalKE.runs_sampling (Some EmptyString) = true.
Proof. split; reflexivity. Qed.

(** An API in the shape of Wikidata's: the full-text search answers
    under [query], the property search finds one property. *)
#[local] Instance demo_mediawiki : WikiApi := {|
  api_get req attempt :=
    match req with
    | QuerySearch _ _ | PageSearch _ _ =>
        Ok (PDict [(PStr "batchcomplete", PStr EmptyString);
                   (PStr "query", PDict [(PStr "search", PList [PDict [(PStr "title", PStr "Q1128")]])])])
    | WbSearch q _ =>
        Ok (PDict [(PStr "search", PList [PDict [(PStr "id", PStr "P1376"); (PStr "label", q)]])])
    | WbGet _ => Ok (PDict [])
    end |}.

Definition demo_extraction : pyval :=
  PDict [(PStr "extraction", PStr (dumped (PList [triple_of "Paris" "capital of" "France";
                                                   triple_of "Lyon" "located in" "France"])))].

Definition demo_gold : pyval := PDict [(PStr "text", PStr "Paris is the capital of France.")].

Definition demo_ak_out : AfterKE.ak_state :=
  match AfterKE.record_step remove_dups "{text} {extracted_component} {candidates}" AfterKE.ak0
          (0, (demo_extraction, demo_gold)) with Ok s => s | Raise _ => AfterKE.ak0 end.

Lemma after_ke_record_prompts_witness :
  exists items so pr ents rels ps1 ps2,
    AfterKE.extraction_items demo_extraction = Ok items /\
    fold_result AfterKE.collect_step items ([], []) = Ok (so, pr) /\
    ents ≡ₚ remove_dups so /\ rels ≡ₚ remove_dups pr /\
    AfterKE.ak_prompts demo_ak_out = AfterKE.ak_prompts AfterKE.ak0 ++ ps1 ++ ps2 /\
    Forall2 (fun p x => getitem_str p "entity to disambiguate" = Ok x /\ getitem_str p "index" = Ok (PInt (Z.of_nat 0))) ps1 ents /\
    Forall2 (fun p x => getitem_str p "relation to disambiguate" = Ok x /\ getitem_str p "index" = Ok (PInt (Z.of_nat 0))) ps2 rels.
Proof.
  apply (after_ke_record_prompts remove_dups "{text} {extracted_component} {candidates}" AfterKE.ak0 0
           demo_extraction demo_gold demo_ak_out); [intros; reflexivity | vm_compute; reflexivity].
Defined.

Lemma after_ke_entities_missing_witness :
  exists ents rels missing,
    AfterKE.extracted_components remove_dups demo_extraction = Ok (ents, rels) /\
    AfterKE.ak_no_candidates demo_ak_out =
      AfterKE.ak_no_candidates AfterKE.ak0 ++ map (fun x => PTuple [x; PStr "entity"]) ents ++ missing.
Proof.
  apply (after_ke_entities_missing remove_dups "{text} {extracted_component} {candidates}" AfterKE.ak0 0
           demo_extraction demo_gold demo_ak_out).
  - intros t lim n. eexists. split; reflexivity.
  - vm_compute. reflexivity.
Defined.

End Witnesses.
