(* ===== verification/Templates.v ===== *)
(** * The prompt template files

    [src/template_creator.py] and [src/Entity_Linking/prompts/template_creator.py]
    write the JSON files the prompt compilers read: a prefix, a
    formatter for each demonstration, the example variables, the input
    variables and a suffix.  [FewShotPromptTemplate] formats the
    formatter with each demonstration's example variables and the
    joined prefix, demonstrations and suffix with the input variables.
    This file models the two [prompt_component_creator] functions and
    shows that each template only names variables it declares, so that
    formatting it never raises [KeyError] once they are bound. *)

From S2P Require Import Prelude PyStr PyDict PyVal FileSys Prompts.

(** The fields of a template, in order. *)
Fixpoint template_fields (t : list tpiece) : list string :=
  match t with
  | [] => []
  | Lit _ :: t' => template_fields t'
  | Fld n :: t' => n :: template_fields t'
  end.

(** A template split into literal text and plain fields, read left to
    right ([{{] and [}}] are literal braces); [None] for anything else. *)
Fixpoint pieces_go (fuel : nat) (s lit : string) : option (list tpiece) :=
  match fuel with
  | O => None
  | S f =>
      match s with
      | EmptyString => Some (if String.eqb lit EmptyString then [] else [Lit lit])
      | String "{" (String "{" r) => pieces_go f r (lit ++ "{")
      | String "}" (String "}" r) => pieces_go f r (lit ++ "}")
      | String "{" r =>
          match String.index 0 "}" r with
          | Some i =>
              rest ← pieces_go f (String.substring (S i) (String.length r - S i) r) EmptyString;
              Some ((if String.eqb lit EmptyString then [] else [Lit lit]) ++ Fld (String.substring 0 i r) :: rest)
          | None => None
          end
      | String c r => pieces_go f r (lit ++ String c EmptyString)
      end
  end.

(** The split, kept only when it prints back to the template and every
    field is plain. *)
Definition checked_pieces (s : string) : option (list tpiece) :=
  match pieces_go (S (String.length s)) s EmptyString with
  | Some t => if String.eqb (template_text t) s && forallb tpiece_ok t then Some t else None
  | None => None
  end.

(** The components of a template file. *)
Record prompt_components := {
  prefix : string; formatter : string; example_variables : list string;
  input_variables : list string; suffix : string }.

(** [json.dump(prompt_dict, ...)]: the dictionary written. *)
Definition prompt_dict (c : prompt_components) : pyval :=
  PDict [(PStr "prefix", PStr (prefix c)); (PStr "formatter", PStr (formatter c));
         (PStr "example variables", PList (map PStr (example_variables c)));
         (PStr "input variables", PList (map PStr (input_variables c))); (PStr "suffix", PStr (suffix c))].

Module ReAct.

(** [prompt_component_creator] of [src/template_creator.py] (lines 10-47). *)
Definition prompt_component_creator : prompt_components := {|
  prefix := ("Your task is extracting knowledge triples from text. A knowledge triple consists of three elements: subject - predicate - object. " ++ nl ++ "    Subjects and objects are entities and the predicate is the relation between them. Let's use an example:")%string;
  formatter := ("Text: {Text} Thought 1: I need to determine the entities. Act 1: Named entity extraction. Observation 1: {Entities} " ++ nl ++ "    Thought 2: What type of entities do I have?" ++ nl ++ "    Act 2: Named entity tagging" ++ nl ++ "    Observation 2: {Entity Types}" ++ nl ++ "    Thought 3: What are the potential relations between these entities? " ++ nl ++ "    Act3: List the potential relations" ++ nl ++ "    Observation3: {Relations}" ++ nl ++ "    Thought 4: What are the triples?" ++ nl ++ "    Act4: Form the triples" ++ nl ++ "    Observation4: {Triples}" ++ nl ++ "    Thought5: I have extracted knowledge triples from the input text. " ++ nl ++ "    Act5: Finish" ++ nl ++ "    Observation5: Task is completed." ++ nl ++ "    ")%string;
  example_variables := ["Text"; "Entities"; "Relations"; "Entity Types"; "Triples"];
  input_variables := ["Text"];
  suffix := "Before answering the query, think and decide your act. Extract the knowledge triples from the following text. Text: {Text} Your answer: " |}.

(** [write_components_to_file] (lines 49-53). *)
Definition write_components_to_file (prompt_dict : pyval) (path_to_file : string) (fs : fsys) : result fsys :=
  json_dump_file fs path_to_file prompt_dict.

(** [main] (lines 56-72) once its arguments are parsed: the template is
    written to [{output_dir}/{template_name}.json]. *)
Definition main (output_dir template_name : string) (fs : fsys) : result fsys :=
  write_components_to_file (prompt_dict prompt_component_creator) (output_dir ++ "/" ++ template_name ++ ".json")%string fs.

End ReAct.

Module ELTemplate.

(** [prompt_component_creator] of
    [src/Entity_Linking/prompts/template_creator.py] (lines 10-41). *)
Definition prompt_component_creator : prompt_components := {|
  prefix := ("Entity linking is the process of determining the true identity of an entity or a property extracted from text by linking it to the correct entry in a knowledge base. Given a piece of input text with an extracted component (entity or property) from it and a list of candidates from Wikidata, your goal is to select the candidate that most accurately represents the extracted component based on the contextual information provided in the text. " ++ nl ++ "    ")%string;
  formatter := ("Here is an example:" ++ nl ++ "        Input text: {text}, " ++ nl ++ "        Extracted component: {extracted_component}," ++ nl ++ "        Candidates: {candidates}," ++ nl ++ "        Correct answer: {correct_answer}" ++ nl ++ "    ")%string;
  example_variables := ["text"; "extracted_component"; "candidates"; "correct_answer"];
  input_variables := ["text"; "extracted_component"; "candidates"];
  suffix := ("Now it is time to perform entity linking with the following inputs:" ++ nl ++ "        Input text: {text}" ++ nl ++ "        Extracted component: {extracted_component}" ++ nl ++ "        Candidates: {candidates}" ++ nl ++ "        Answer only with the candidate number (wikidata_id) that you think is the correct answer. If none of the candidates match, you can select the option 'None'. Please do not include any additional information or explanation in your answer.")%string |}.

(** [write_components_to_file] (lines 44-48). *)
Definition write_components_to_file (prompt_dict : pyval) (path_to_file : string) (fs : fsys) : result fsys :=
  json_dump_file fs path_to_file prompt_dict.

(** [main] (lines 51-67) once its arguments are parsed: the template is
    written to [{output_dir}/{template_name}.json]. *)
Definition main (output_dir template_name : string) (fs : fsys) : result fsys :=
  write_components_to_file (prompt_dict prompt_component_creator) (output_dir ++ "/" ++ template_name ++ ".json")%string fs.

End ELTemplate.

(** Formatting [s] with keyword arguments cannot raise once [vars] are bound. *)
Definition format_safe (s : string) (vars : list string) : Prop :=
  forall kwargs, (forall v, v ∈ vars -> is_Some (kwarg kwargs v)) -> exists r, py_format s kwargs = Ok r.

(** The prefix is safe with no variable, the formatter with the
    example variables and the suffix with the input variables. *)
Definition consistent (c : prompt_components) : Prop :=
  format_safe (prefix c) [] /\ format_safe (formatter c) (example_variables c) /\
  format_safe (suffix c) (input_variables c).

Lemma checked_pieces_spec s t : checked_pieces s = Some t -> template_text t = s /\ forallb tpiece_ok t = true.
Proof.
  unfold checked_pieces. destruct (pieces_go _ _ _) as [t0|]; [|discriminate].
  destruct (String.eqb (template_text t0) s) eqn:E; simpl; [|discriminate].
  destruct (forallb tpiece_ok t0) eqn:F; [|discriminate]. intros [= <-]. by apply String.eqb_eq in E.
Qed.

Lemma substitute_total kwargs t :
  Forall (fun n => is_Some (kwarg kwargs n)) (template_fields t) -> exists r, substitute kwargs t = Ok r.
Proof.
  induction t as [|[s|n] t IH]; simpl; [eauto| |].
  - intros (r & ->)%IH. eauto.
  - intros [[v Hv] (r & ->)%IH]%Forall_cons. rewrite Hv. simpl. eauto.
Qed.

Lemma format_safe_check s vars t :
  checked_pieces s = Some t -> forallb (fun n => bool_decide (n ∈ vars)) (template_fields t) = true ->
  format_safe s vars.
Proof.
  intros (<- & Ht)%checked_pieces_spec Hf kwargs Hvars. unfold py_format.
  rewrite vformat_template by (done || lia). apply substitute_total.
  apply Forall_forall. intros n Hn. apply Hvars.
  rewrite forallb_forall in Hf. apply list_elem_of_In in Hn. specialize (Hf n Hn). by apply bool_decide_eq_true in Hf.
Qed.

Lemma substitute_unbound kwargs t n :
  n ∈ template_fields t -> kwarg kwargs n = None -> substitute kwargs t = Raise KeyError.
Proof.
  induction t as [|[s|m] t IH]; simpl; [by intros ?%elem_of_nil| |].
  - intros Hn Hk. by rewrite IH.
  - intros [-> | Hn]%elem_of_cons Hk; [by rewrite Hk|].
    destruct (kwarg kwargs m); simpl; [|done]. by rewrite IH.
Qed.

(** Formatting a template that names a variable not bound raises
    [KeyError]. *)
Lemma format_unbound s t n kwargs :
  checked_pieces s = Some t -> n ∈ template_fields t -> kwarg kwargs n = None -> py_format s kwargs = Raise KeyError.
Proof.
  intros (<- & Ht)%checked_pieces_spec Hn Hk. unfold py_format.
  rewrite vformat_template by (done || lia). by apply (substitute_unbound _ _ n).
Qed.

(** C29: the two template files name in their formatter only example
    variables and in their suffix only input variables, and their
    prefix has no field: the compilers that read them format every
    demonstration and every query without [KeyError] once those
    variables are bound. *)
Theorem templates_consistent :
  consistent ReAct.prompt_component_creator /\ consistent ELTemplate.prompt_component_creator.
Proof. repeat split; (eapply format_safe_check; [vm_compute; reflexivity | vm_compute; reflexivity]). Qed.
