(* ===== verification/Inference.v ===== *)
(** * The inference scripts

    Three scripts pass the compiled prompts to a language model and
    write one record per prompt:
    - [src/inference_OpenAI.py] and [src/run_inference.py] call the
      chat completion API through [GPT_repsonse], decorated with
      [@retry(tries=3, delay=5, max_delay=25)], and write
      [{'index', 'prompt', 'extraction'}];
    - [src/2_inference_module/run_inference_LangChain_HF.py] calls a
      Hugging Face endpoint and writes [{'index', 'prompt',
      'generated_text'}].
    The model providers are the interfaces [ChatApi] and [HFEndpoint]:
    what they answer to a request at an attempt.  A directory is the
    list of its files in [os.listdir] order, each with its text, [None]
    when the folder does not exist; a name has no [/], so
    [prompt_file.split('/')[-1]] is the name itself.  The file also
    composes each script with the post-processor that reads its
    records ([Cascade.process_record] reads [generated_text],
    [PostProcessing.process_pp_record] reads [extraction]). *)

From S2P Require Import Prelude PyStr PyDict PyVal Retry Json Cascade PostProcessing.

(** [@retry(tries=3, delay=5, max_delay=25)] *)
Definition policy_gpt : retry_policy :=
  {| tries := 3; delay := 5%Z; max_delay := Some 25%Z; backoff := 1%Z; jitter := 0%Z |}.

(** [openai.ChatCompletion.create(model=..., messages=..., temperature=..., max_tokens=...)]. *)
Record chat_request := { cr_model : string; cr_messages : pyval; cr_temperature : pyval; cr_max_tokens : Z }.

Class ChatApi := { chat_create : chat_request -> nat -> result pyval }.

(** [HuggingFaceEndpoint(repo_id=..., max_new_tokens=512,
    temperature=0.5, huggingfacehub_api_token=...).invoke(prompt)]. *)
Class HFEndpoint := { hf_invoke : string -> string -> pyval -> result pyval }.

(** [{"index": i, "prompt": prompt, key: value}]. *)
Definition output_record (i : nat) (prompt : pyval) (key : string) (value : pyval) : pyval :=
  PDict [(PStr "index", PInt (Z.of_nat i)); (PStr "prompt", prompt); (PStr key, value)].

(** [for i, prompt in enumerate(prompts)]: one record per prompt. *)
Definition enumerate_records (f : nat -> pyval -> result pyval) (prompts : list pyval) : result (list pyval) :=
  result_map (fun ip => f ip.1 ip.2) (zip (seq 0 (length prompts)) prompts).

Section OpenAI.
Context `{ChatApi}.

(** The body of [GPT_repsonse] (lines 24-34): the content of the first
    choice's message. *)
Definition GPT_repsonse_body (prompt : pyval) (model : string) (temperature : pyval) (max_tokens : Z)
    (attempt : nat) : result pyval :=
  let message := PList [PDict [(PStr "role", PStr "user"); (PStr "content", prompt)]] in
  response ← chat_create {| cr_model := model; cr_messages := message; cr_temperature := temperature;
                            cr_max_tokens := max_tokens |} attempt;
  choices ← getitem_str response "choices";
  first ← getitem_idx choices 0;
  msg ← getitem_str first "message";
  getitem_str msg "content".

Definition GPT_repsonse (prompt : pyval) (model : string) (temperature : pyval) (max_tokens : Z) : result pyval :=
  (retry_call policy_gpt (GPT_repsonse_body prompt model temperature max_tokens)).1.

(** The loop of [inference_OpenAI.py] (lines 60-64) and of
    [run_inference.py] (lines 68-72). *)
Definition gpt_file (model : string) (temperature : pyval) (max_tokens : Z) (prompts : pyval) : result (list pyval) :=
  ps ← py_iter prompts;
  enumerate_records (fun i prompt =>
    extraction ← GPT_repsonse prompt model temperature max_tokens;
    Ok (output_record i prompt "extraction" extraction)) ps.

(** [main] of [inference_OpenAI.py] (lines 51-71): the records of the
    one input file, temperature 0.2 and 1000 tokens. *)
Definition inference_openai (model : string) (prompts : pyval) : result (list pyval) :=
  gpt_file model (PFloat 2 (-1)) 1000 prompts.

(** [main] of [run_inference.py] (lines 51-79): [file_names] is unbound
    when the folder is missing, and only [file_names[5:11]] is read. *)
Definition run_inference (model : string) (folder : option (list (string * string)))
    : result (list (string * list pyval)) :=
  file_names ← of_option NameError folder;
  result_map (fun fc =>
    prompts ← json_loads fc.2;
    records ← gpt_file model (PFloat 5 (-1)) 2000 prompts;
    Ok (fc.1, records)) (take 6 (drop 5 file_names)).

End OpenAI.

Section HF.
Context `{HFEndpoint}.

(** [main] of [run_inference_LangChain_HF.py] (lines 41-73): the token
    typed at [getpass()] (line 11) is stored in a variable that is
    never read; the endpoint gets the placeholder of line 12. *)
Definition hf_token (typed : string) : string := "your_HF_API_token_here".

Definition hf_file (typed model : string) (prompts : pyval) : result (list pyval) :=
  ps ← py_iter prompts;
  enumerate_records (fun i prompt =>
    generated_text ← hf_invoke (hf_token typed) model prompt;
    Ok (output_record i prompt "generated_text" (PStr (py_str generated_text)))) ps.

Definition run_inference_hf (typed model : string) (folder : option (list (string * string)))
    : result (list (string * list pyval)) :=
  file_names ← of_option NameError folder;
  result_map (fun fc => prompts ← json_loads fc.2; records ← hf_file typed model prompts; Ok (fc.1, records))
    file_names.

End HF.

(** ** Properties *)

Lemma result_map_fst {A B} (f : A -> result (string * B)) (g : A -> string) (l : list A) outs :
  (forall x y, f x = Ok y -> y.1 = g x) -> result_map f l = Ok outs -> map fst outs = map g l.
Proof.
  intros Hf. revert outs. induction l as [|x l IH]; intros outs; simpl; [by intros [= <-]|].
  destruct (f x) as [y|] eqn:Ex; simpl; [|discriminate].
  destruct (result_map f l) as [outs'|] eqn:E; simpl; [|discriminate]. intros [= <-].
  simpl. by rewrite (Hf x y Ex), (IH outs').
Qed.

(** [run_inference.py] writes one output file for each of the files
    listed sixth to eleventh in the input folder, under the same name,
    and none for the others. *)
Theorem run_inference_files `{ChatApi} model dir outs :
  run_inference model (Some dir) = Ok outs -> map fst outs = map fst (take 6 (drop 5 dir)).
Proof.
  unfold run_inference. cbn [of_option mbind result_bind]. apply result_map_fst.
  intros fc y Hy. py_simp. done.
Qed.

Lemma enumerate_records_shape f prompts recs key :
  (forall i p r, f i p = Ok r -> exists v, r = output_record i p key v) ->
  enumerate_records f prompts = Ok recs -> Forall (fun r => exists i p v, r = output_record i p key v) recs.
Proof.
  intros Hf. unfold enumerate_records. generalize (zip (seq 0 (length prompts)) prompts) as l.
  intros l. revert recs. induction l as [|[i p] l IH]; intros recs; simpl; [by intros [= <-]|].
  destruct (f i p) as [r|] eqn:E; simpl; [|discriminate].
  destruct (result_map _ l) eqn:El; simpl; [|discriminate]. intros [= <-].
  constructor; [destruct (Hf i p r E) as [v ->]; eauto | by apply IH].
Qed.

Lemma gpt_file_shape `{ChatApi} model t k prompts recs :
  gpt_file model t k prompts = Ok recs -> Forall (fun r => exists i p v, r = output_record i p "extraction" v) recs.
Proof.
  unfold gpt_file. intros Hg. py_simp. eapply enumerate_records_shape; [|done].
  intros i p r Hr. py_simp. eauto.
Qed.

Lemma hf_file_shape `{HFEndpoint} typed model prompts recs :
  hf_file typed model prompts = Ok recs -> Forall (fun r => exists i p v, r = output_record i p "generated_text" v) recs.
Proof.
  unfold hf_file. intros Hg. py_simp. eapply enumerate_records_shape; [|done].
  intros i p r Hr. py_simp. eauto.
Qed.

(** C19: each post-processor reads the records of one inference script
    only: [post_process_generated_string.py] raises [KeyError] on a
    non-empty output of [inference_OpenAI.py], whose records carry
    [extraction], and [post_processing.py] raises [KeyError] on a
    non-empty output of [run_inference_LangChain_HF.py], whose records
    carry [generated_text]. *)
Theorem postprocessor_mismatch `{ChatApi} `{HFEndpoint} model_gpt model_hf typed prompts recs_gpt recs_hf file :
  inference_openai model_gpt prompts = Ok recs_gpt -> recs_gpt <> [] ->
  hf_file typed model_hf prompts = Ok recs_hf -> recs_hf <> [] ->
  post_process_file (PList recs_gpt) = Raise KeyError /\
  Forall (fun r => exists x, getitem_str r "extraction" = Ok x) recs_gpt /\
  process_pp_file file (PList recs_hf) = Raise KeyError /\
  Forall (fun r => exists x, getitem_str r "generated_text" = Ok x) recs_hf.
Proof.
  intros Hg Hgne Hh Hhne. apply gpt_file_shape in Hg. apply hf_file_shape in Hh.
  split; [|split; [|split]].
  - destruct recs_gpt as [|r rs]; [done|]. inversion Hg as [|? ? (i & p & v & ->) _]. done.
  - eapply Forall_impl; [exact Hg|]. intros r (i & p & v & ->). eauto.
  - destruct recs_hf as [|r rs]; [done|]. inversion Hh as [|? ? (i & p & v & ->) _]. done.
  - eapply Forall_impl; [exact Hh|]. intros r (i & p & v & ->). eauto.
Qed.

(** ** Instances *)

Section Witnesses.

(** A chat API that fails once, then answers with one choice. *)
#[local] Instance demo_chat : ChatApi := {|
  chat_create req attempt :=
    if attempt =? 0 then Raise RequestError
    else Ok (PDict [(PStr "choices", PList [PDict [(PStr "message",
               PDict [(PStr "role", PStr "assistant"); (PStr "content", PStr "[['Paris', 'capital of', 'France']]")])]])]) |}.

#[local] Instance demo_hf : HFEndpoint := {| hf_invoke token model prompt := Ok (PStr "[['Paris', 'capital of', 'France']]") |}.

Definition demo_prompts : pyval := PList [PStr "Extract the triples: Paris is the capital of France."; PStr "Extract the triples: Lyon."].

Definition demo_prompt_file : string :=
  match json_dumps true demo_prompts with Ok s => s | Raise _ => EmptyString end.

Definition demo_dir : list (string * string) :=
  map (fun n => (String (ascii_of_nat (97 + n)) ".json", demo_prompt_file)) (seq 0 8).

Definition demo_run : list (string * list pyval) :=
  match run_inference "gpt-4" (Some demo_dir) with Ok o => o | Raise _ => [] end.

Lemma run_inference_files_witness : map fst demo_run = map fst (take 6 (drop 5 demo_dir)).
Proof. apply (run_inference_files "gpt-4" demo_dir demo_run). vm_compute. reflexivity. Defined.

Definition demo_gpt_out : list pyval :=
  match inference_openai "gpt-4" demo_prompts with Ok o => o | Raise _ => [] end.

Definition demo_hf_out : list pyval :=
  match hf_file "hf_typed_token" "meta-llama/Meta-Llama-3-8B-Instruct" demo_prompts with Ok o => o | Raise _ => [] end.

Lemma postprocessor_mismatch_witness :
  post_process_file (PList demo_gpt_out) = Raise KeyError /\
  Forall (fun r => exists x, getitem_str r "extraction" = Ok x) demo_gpt_out /\
  process_pp_file "test.json" (PList demo_hf_out) = Raise KeyError /\
  Forall (fun r => exists x, getitem_str r "generated_text" = Ok x) demo_hf_out.
Proof.
  apply (postprocessor_mismatch "gpt-4" "meta-llama/Meta-Llama-3-8B-Instruct" "hf_typed_token" demo_prompts demo_gpt_out demo_hf_out "test.json");
    vm_compute; first [reflexivity | discriminate].
Defined.

End Witnesses.
