(* ===== verification/PromptScripts.v ===== *)
(** * The [main] functions of the prompt scripts

    Each prompt script ends in a [main] that parses its arguments, reads
    its input files, reads a template file written by a
    [template_creator.py], compiles the prompts and writes them with
    [json.dump].  This file models each [main] once its arguments are
    parsed, on the file system of [FileSys]:
    - [nr_ke_main], [ra_ke_main]: [no_retrieval_prompt_compiler.py] and
      [retrieval_augmented_prompt_compiler.py] (with the optional
      sampling of the training file, whose output the compiler then
      reads);
    - [ke_demos_main]: [retrieval_augmented_KE_prompt_compiler.py];
    - [nr_el_main], [ra_el_main]: [no_retrieval_EL_prompt_compiler.py]
      and [retrieval_augmented_EL_prompt_compiler.py];
    - [after_ke_main]: [make_EL_prompts_after_KE.py].
    The example selectors are the interface [ExampleSelectors]; the
    template reading and the construction of LangChain's templates are
    [few_shot_template], in the order the scripts run them. *)

From stdpp Require Import gmap.
From S2P Require Import Prelude PyStr PyDict PyVal Random Json FileSys Prompts KEPrompts Templates.

(** ** Shared steps *)

(** [get_fixed_prompt_components] (each script has a copy; lines 62-68
    of [retrieval_augmented_EL_prompt_compiler.py]). *)
Definition get_fixed_prompt_components (fs : fsys) (path_to_prompt_components : string) : result pyval :=
  json_load fs path_to_prompt_components.

(** [PromptTemplate] and [FewShotPromptTemplate] are pydantic models: a
    template that is not a [str], or variables that are not a list of
    [str], fail validation with a [ValidationError], a [ValueError]. *)
Definition template_str (v : pyval) : result string :=
  match v with PStr s => Ok s | _ => Raise ValueError end.

Definition template_vars (v : pyval) : result (list string) :=
  match v with PList l => result_map template_str l | _ => Raise ValueError end.

(** The two example selectors of LangChain. *)
Inductive selector_kind := SemanticSimilarity | MaxMarginalRelevance.

(** [SemanticSimilarityExampleSelector.from_examples(examples,
    embeddings, Chroma, k)] and its maximal-marginal-relevance
    counterpart: an embedding model over a vector store, which maps the
    examples and [k] to the function [select_examples]. *)
Class ExampleSelectors := {
  from_examples : selector_kind -> list pyval -> Z -> list (string * pyval) -> list pyval }.

(** The two [if]s on [args.example_selector] (lines 215-229): for any
    other name [example_selector] stays unbound. *)
Definition example_selector_of (name : string) : option selector_kind :=
  if String.eqb name "semantic_similarity" then Some SemanticSimilarity
  else if String.eqb name "max_marginal_relevance" then Some MaxMarginalRelevance
  else None.

(** The few-shot template a retrieval-augmented script builds. *)
Record few_shot := {
  fs_select : list (string * pyval) -> list pyval;
  fs_prefix : string; fs_suffix : string; fs_formatter : string;
  fs_example_vars : list string; fs_input_vars : list string }.

(** Lines 234-254: the five components are read in this order
    ([KeyError] for a missing one), [PromptTemplate] validates the
    formatter and the example variables, the argument
    [example_selector=example_selector] raises [UnboundLocalError] (a
    [NameError]) when no selector was bound, and [FewShotPromptTemplate]
    validates the prefix, the suffix and the input variables. *)
Definition few_shot_template (selector : option (list (string * pyval) -> list pyval)) (prompt_dict : pyval)
    : result few_shot :=
  prefix ← getitem_str prompt_dict "prefix";
  example_variables ← getitem_str prompt_dict "example variables";
  formatter ← getitem_str prompt_dict "formatter";
  input_variables ← getitem_str prompt_dict "input variables";
  suffix ← getitem_str prompt_dict "suffix";
  formatter ← template_str formatter;
  example_variables ← template_vars example_variables;
  select ← of_option NameError selector;
  prefix ← template_str prefix;
  suffix ← template_str suffix;
  input_variables ← template_vars input_variables;
  Ok {| fs_select := select; fs_prefix := prefix; fs_suffix := suffix; fs_formatter := formatter;
        fs_example_vars := example_variables; fs_input_vars := input_variables |}.

(** Lines 64-73 of [no_retrieval_prompt_compiler.py]: the zero-shot
    template, its formatter and input variables read and validated. *)
Definition zero_shot_template (prompt_dict : pyval) : result string :=
  formatter ← getitem_str prompt_dict "formatter";
  input_variables ← getitem_str prompt_dict "input variables";
  formatter ← template_str formatter;
  _ ← template_vars input_variables;
  Ok formatter.

(** [[json.loads(line) for line in f.readlines()]] with a per-line
    reader. *)
Definition read_lines_with {A} (reader : list string -> result A) (fs : fsys) (path : string) : result A :=
  text ← open_read fs path; reader (readlines text).

(** [f'{output_dir}/{name}s_{suffix}.json']: the prompts file. *)
Definition prompts_path (output_dir name suffix : string) : string :=
  (output_dir ++ "/" ++ name ++ "s_" ++ suffix ++ ".json")%string.

(** [f'{output_dir}/no_candidates_found_{suffix}.json']. *)
Definition no_candidates_path (output_dir suffix : string) : string :=
  (output_dir ++ "/no_candidates_found_" ++ suffix ++ ".json")%string.

(** A list of prompt strings, as [json.dump] writes it. *)
Definition dump_prompts (fs : fsys) (path : string) (prompts : list string) : result fsys :=
  json_dump_file fs path (PList (map PStr prompts)).

(** ** The [main] functions *)

Section Mains.
Context `{WikiApi} `{ExampleSelectors}.

(** [main] of [no_retrieval_prompt_compiler.py] (lines 54-88). *)
Definition nr_ke_main (input_file prompt_components output_dir : string) (fs : fsys) : result fsys :=
  data ← read_lines_with NoRetrievalKE.get_examples fs input_file;
  let prompt_template_name := path_stem prompt_components in
  prompt_dict ← get_fixed_prompt_components fs prompt_components;
  formatter ← zero_shot_template prompt_dict;
  let input_file := path_stem input_file in
  prompts ← NoRetrievalKE.compile formatter data;
  dump_prompts fs (prompts_path output_dir prompt_template_name input_file) prompts.

Section Sampling.
Context `{RandomSource}.

(** [sample_examples] with its files (lines 32-49): the training file
    is read, then the remaining and the sampled lines are written to
    [train_after_sampling.jsonl] and [sample_from_train.jsonl] of the
    data folder.  [None] when the draws of [random.sample] run out of
    fuel. *)
Definition sample_examples_files (fuel : nat) (data_folder training_file : string) (sample_size : nat)
    (fs : fsys) : rand (option fsys) :=
  text ← lift (open_read fs (data_folder ++ "/" ++ training_file)%string);
  r ← RetrievalKE.sample_examples fuel (readlines text) sample_size;
  match r with
  | None => mret None
  | Some (after, sampled) =>
      let fs1 := write_file fs (data_folder ++ "/train_after_sampling.jsonl")%string (String.concat EmptyString after) in
      mret (Some (write_file fs1 (data_folder ++ "/sample_from_train.jsonl")%string (String.concat EmptyString sampled)))
  end.

(** Lines 110-172 of [retrieval_augmented_prompt_compiler.py], once the
    examples are read: the selector, the templates, the input records,
    the loop and the prompts file. *)
Definition ra_ke_compile (examples : list pyval) (input_file prompt_components example_selector : string)
    (k : Z) (output_dir : string) (fs : fsys) : result fsys :=
  let selector := option_map (fun kind => from_examples kind examples k) (example_selector_of example_selector) in
  prompt_dict ← get_fixed_prompt_components fs prompt_components;
  t ← few_shot_template selector prompt_dict;
  data ← read_lines_with RetrievalKE.get_examples fs input_file;
  let prompt_template_name := path_stem prompt_components in
  let input_file := path_stem input_file in
  prompts ← RetrievalKE.compile (fs_select t) (fs_prefix t) (fs_suffix t) (fs_formatter t) (fs_example_vars t) data;
  dump_prompts fs (prompts_path output_dir prompt_template_name input_file) prompts.

(** [main] of [retrieval_augmented_prompt_compiler.py] (lines 100-172):
    the sampling of 300 examples when [--sample_exists] parses as
    false, then the examples read from [--sample_file]. *)
Definition ra_ke_main (fuel : nat) (sample_exists : option string)
    (data_folder training_file input_file sample_file prompt_components example_selector : string)
    (k : Z) (output_dir : string) (fs : fsys) : rand (option fsys) :=
  fs1 ← (if RetrievalKE.runs_sampling sample_exists then sample_examples_files fuel data_folder training_file 300 fs
         else mret (Some fs));
  match fs1 with
  | None => mret None
  | Some fs1 =>
      fs2 ← lift (examples ← read_lines_with RetrievalKE.get_examples fs1 sample_file;
                  ra_ke_compile examples input_file prompt_components example_selector k output_dir fs1);
      mret (Some fs2)
  end.

End Sampling.

(** [main] of [retrieval_augmented_KE_prompt_compiler.py] (lines 67-140):
    the input records and the demonstrations are both read by
    [read_data], and the prompts file is prefixed by the task name. *)
Definition ke_demos_main (input_file task demonstration_file prompt_template example_selector : string)
    (k : Z) (output_dir : string) (fs : fsys) : result fsys :=
  data ← read_lines_with KEDemos.read_data fs input_file;
  task_demonstrations ← read_lines_with KEDemos.read_data fs demonstration_file;
  let selector := option_map (fun kind => from_examples kind task_demonstrations k) (example_selector_of example_selector) in
  prompt_dict ← get_fixed_prompt_components fs prompt_template;
  t ← few_shot_template selector prompt_dict;
  let prompt_template_name := (task ++ "_" ++ path_stem prompt_template)%string in
  let input_file := path_stem input_file in
  prompts ← KEDemos.compile (fs_select t) (fs_prefix t) (fs_suffix t) (fs_formatter t) (fs_example_vars t) data;
  dump_prompts fs (prompts_path output_dir prompt_template_name input_file) prompts.

(** [main] of [no_retrieval_EL_prompt_compiler.py] (lines 166-211): the
    prompts and then the components without candidates are written. *)
Definition nr_el_main (input_file candidate_strategy prompt_components output_dir : string) (fs : fsys)
    : result fsys :=
  data ← read_lines_with read_data fs input_file;
  prompt_dict ← get_fixed_prompt_components fs prompt_components;
  formatter ← zero_shot_template prompt_dict;
  st ← compile_no_retrieval formatter candidate_strategy data;
  let prompt_template_name := path_stem prompt_components in
  fs1 ← json_dump_file fs (prompts_path output_dir prompt_template_name candidate_strategy) (PList (nr_prompts st));
  json_dump_file fs1 (no_candidates_path output_dir candidate_strategy) (PList (no_candidates st)).

(** [main] of [retrieval_augmented_EL_prompt_compiler.py] (lines 204-293). *)
Definition ra_el_main (input_file candidate_strategy demonstration_file prompt_template example_selector : string)
    (k : Z) (output_dir : string) (fs : fsys) : result fsys :=
  data ← read_lines_with read_data fs input_file;
  task_demonstrations ← read_lines_with read_examples fs demonstration_file;
  let selector := option_map (fun kind => from_examples kind task_demonstrations k) (example_selector_of example_selector) in
  prompt_dict ← get_fixed_prompt_components fs prompt_template;
  t ← few_shot_template selector prompt_dict;
  let prompt_template_name := path_stem prompt_template in
  st ← compile_retrieval (fs_select t) (fs_prefix t) (fs_suffix t) (fs_formatter t) (fs_example_vars t)
                         candidate_strategy data;
  json_dump_file fs (path_join output_dir (prompt_template_name ++ "_" ++ candidate_strategy ++ ".json")%string)
                 (PList (ra_prompts st)).

(** [main] of [make_EL_prompts_after_KE.py] (lines 135-193), for an
    iteration order [set_list] of Python's sets: the output names come
    from the extraction file with [KE_] replaced by [EL_]. *)
Definition after_ke_main (set_list : list pyval -> list pyval)
    (extraction_file test_file prompt_components output_dir : string) (fs : fsys) : result fsys :=
  extraction ← json_load fs extraction_file;
  gold ← read_lines_with AfterKE.read_data fs test_file;
  prompt_dict ← get_fixed_prompt_components fs prompt_components;
  formatter ← zero_shot_template prompt_dict;
  st ← AfterKE.make_prompts set_list formatter extraction gold;
  let input_file := path_stem (py_replace "KE_" "EL_" extraction_file) in
  let prompt_template_name := path_stem prompt_components in
  fs1 ← json_dump_file fs (prompts_path output_dir prompt_template_name input_file) (PList (AfterKE.ak_prompts st));
  json_dump_file fs1 (no_candidates_path output_dir input_file) (PList (AfterKE.ak_no_candidates st)).

End Mains.

(** ** The template files the creators write *)

(** The few-shot template built from the components [c] with the
    selector [sel]. *)
Definition few_shot_of (sel : list (string * pyval) -> list pyval) (c : prompt_components) : few_shot :=
  {| fs_select := sel; fs_prefix := prefix c; fs_suffix := suffix c; fs_formatter := formatter c;
     fs_example_vars := example_variables c; fs_input_vars := input_variables c |}.

Lemma template_str_map l : result_map template_str (map PStr l) = Ok l.
Proof. induction l as [|x l IH]; simpl; [done|]. by rewrite IH. Qed.

Lemma few_shot_template_dict sel c :
  few_shot_template sel (prompt_dict c) = (select ← of_option NameError sel; Ok (few_shot_of select c)).
Proof. unfold few_shot_template. simpl. by rewrite !template_str_map. Qed.

Lemma zero_shot_template_dict c : zero_shot_template (prompt_dict c) = Ok (formatter c).
Proof. unfold zero_shot_template. simpl. by rewrite template_str_map. Qed.

(** A file written by [json.dump] that [json.load] reads back. *)
Lemma dump_file_load fs fs' path v :
  json_dump_file fs path v = Ok fs' ->
  (forall text, json_dump_indent false 0 v = Ok text -> json_loads (universal_newlines text) = Ok v) ->
  json_load fs' path = Ok v.
Proof.
  unfold json_dump_file, json_load, open_read, write_file.
  destruct (json_dump_indent false 0 v) as [text|] eqn:E; [rewrite bind_Ok | discriminate].
  intros [= <-] Hread. rewrite lookup_insert_eq. by apply Hread.
Qed.

Lemma react_template_loads text :
  json_dump_indent false 0 (prompt_dict ReAct.prompt_component_creator) = Ok text ->
  json_loads (universal_newlines text) = Ok (prompt_dict ReAct.prompt_component_creator).
Proof. intros E. vm_compute in E. injection E as <-. vm_compute. reflexivity. Qed.

Lemma el_template_loads text :
  json_dump_indent false 0 (prompt_dict ELTemplate.prompt_component_creator) = Ok text ->
  json_loads (universal_newlines text) = Ok (prompt_dict ELTemplate.prompt_component_creator).
Proof. intros E. vm_compute in E. injection E as <-. vm_compute. reflexivity. Qed.

(** The path [f'{output_dir}/{template_name}.json'] of a template file. *)
Definition template_path (output_dir template_name : string) : string :=
  (output_dir ++ "/" ++ template_name ++ ".json")%string.

Lemma react_main_read out name fs fs' :
  ReAct.main out name fs = Ok fs' ->
  get_fixed_prompt_components fs' (template_path out name) = Ok (prompt_dict ReAct.prompt_component_creator).
Proof. intros E. eapply dump_file_load; [exact E | apply react_template_loads]. Qed.

Lemma el_main_read out name fs fs' :
  ELTemplate.main out name fs = Ok fs' ->
  get_fixed_prompt_components fs' (template_path out name) = Ok (prompt_dict ELTemplate.prompt_component_creator).
Proof. intros E. eapply dump_file_load; [exact E | apply el_template_loads]. Qed.

Lemma react_main_ok out name fs : exists fs', ReAct.main out name fs = Ok fs'.
Proof.
  unfold ReAct.main, ReAct.write_components_to_file, json_dump_file.
  destruct (json_dump_indent _ _ _) eqn:E; [by eexists | vm_compute in E; discriminate].
Qed.

Lemma el_main_ok out name fs : exists fs', ELTemplate.main out name fs = Ok fs'.
Proof.
  unfold ELTemplate.main, ELTemplate.write_components_to_file, json_dump_file.
  destruct (json_dump_indent _ _ _) eqn:E; [by eexists | vm_compute in E; discriminate].
Qed.

(** ** What the mains do with those templates *)

(** C21: Reading a template file written by either [template_creator.py],
    a retrieval-augmented compiler builds its few-shot template from
    exactly the components [prompt_component_creator] defines: the key
    names the creators write are the ones the compilers read, and the
    [json.dump] with [indent=4] is read back by [json.load]. *)
Theorem creator_templates_read_back out name fs sel :
  (exists fs', ReAct.main out name fs = Ok fs' /\
     (get_fixed_prompt_components fs' (template_path out name) ≫= few_shot_template (Some sel))
     = Ok (few_shot_of sel ReAct.prompt_component_creator)) /\
  (exists fs', ELTemplate.main out name fs = Ok fs' /\
     (get_fixed_prompt_components fs' (template_path out name) ≫= few_shot_template (Some sel))
     = Ok (few_shot_of sel ELTemplate.prompt_component_creator)).
Proof.
  split.
  - destruct (react_main_ok out name fs) as [fs' E]. exists fs'. split; [done|].
    by rewrite (react_main_read _ _ _ _ E), bind_Ok, few_shot_template_dict.
  - destruct (el_main_ok out name fs) as [fs' E]. exists fs'. split; [done|].
    by rewrite (el_main_read _ _ _ _ E), bind_Ok, few_shot_template_dict.
Qed.

(** A computation whose continuation always raises raises. *)
Lemma bind_never_ok {A B} (r : result A) (f : A -> result B) :
  (forall a, exists e, f a = Raise e) -> exists e, (r ≫= f) = Raise e.
Proof. intros Hf. destruct r as [a|e]; [apply Hf | by exists e]. Qed.

Lemma el_formatter_unbound :
  exists t, checked_pieces (formatter ELTemplate.prompt_component_creator) = Some t /\
            "correct_answer" ∈ template_fields t.
Proof. eexists. split; [vm_compute; reflexivity|]. simpl. set_solver. Qed.

Section MainProps.
Context `{WikiApi} `{ExampleSelectors}.

(** A component step of the no-retrieval entity-linking compiler with
    a formatter that names a variable other than [text],
    [extracted_component] and [candidates] raises. *)
Lemma nr_component_step_unbound formatter t n kind key i cands st kv :
  checked_pieces formatter = Some t -> n ∈ template_fields t ->
  n ∉ ["text"; "extracted_component"; "candidates"] ->
  exists e, nr_component_step formatter kind key i cands st kv = Raise e.
Proof.
  intros Ht Hn Hout. unfold nr_component_step.
  do 5 (apply bind_never_ok; intros ?). cbv zeta. unfold prompt_format.
  rewrite (format_unbound _ t n); [by eexists | done | done |].
  unfold kwarg. cbn [List.find fst].
  destruct (String.eqb "text" n) eqn:E1; [apply String.eqb_eq in E1; set_solver|].
  destruct (String.eqb "extracted_component" n) eqn:E2; [apply String.eqb_eq in E2; set_solver|].
  destruct (String.eqb "candidates" n) eqn:E3; [apply String.eqb_eq in E3; set_solver|]. done.
Qed.

(** C24: With an example-selector name other than the two the script tests,
    [retrieval_augmented_EL_prompt_compiler.py] reads its input files
    and its template and then raises [UnboundLocalError] (a
    [NameError]) when it builds the few-shot template: no prompt is
    compiled and nothing is written. *)
Theorem ra_el_main_unknown_selector tdir tname fs0 fs input_file strategy demo_file name k out data demos :
  ELTemplate.main tdir tname fs0 = Ok fs ->
  example_selector_of name = None ->
  read_lines_with read_data fs input_file = Ok data ->
  read_lines_with read_examples fs demo_file = Ok demos ->
  ra_el_main input_file strategy demo_file (template_path tdir tname) name k out fs = Raise NameError.
Proof.
  intros Ht Hname Hd He. unfold ra_el_main.
  rewrite Hd, bind_Ok, He, bind_Ok, (el_main_read _ _ _ _ Ht), bind_Ok, Hname, few_shot_template_dict.
  reflexivity.
Qed.

(** C23: With the template that [Entity_Linking/prompts/template_creator.py]
    writes, [no_retrieval_EL_prompt_compiler.py] fails on the first
    entity of its input: the template's formatter is the
    one-demonstration formatter, which names [correct_answer], while the
    zero-shot compiler binds only [text], [extracted_component] and
    [candidates].  No prompt file is written. *)
Theorem nr_el_main_creator_template_fails tdir tname fs0 fs input_file strategy out r rest ents props kv kvs :
  ELTemplate.main tdir tname fs0 = Ok fs ->
  read_lines_with read_data fs input_file = Ok (r :: rest) ->
  getitem_str r "entities" = Ok ents -> getitem_str r "properties" = Ok props ->
  dict_items ents = Ok (kv :: kvs) ->
  exists e, nr_el_main input_file strategy (template_path tdir tname) out fs = Raise e.
Proof.
  intros Ht Hd He Hp Hi. destruct el_formatter_unbound as (t & Hc & Hn).
  destruct (nr_component_step_unbound (formatter ELTemplate.prompt_component_creator) t "correct_answer"
              "entity" "entity to disambiguate" r (entity_candidates strategy) nr0 kv) as [e Hs];
    [done | done | set_solver |].
  exists e. unfold nr_el_main.
  rewrite Hd, bind_Ok, (el_main_read _ _ _ _ Ht), bind_Ok, zero_shot_template_dict, bind_Ok.
  unfold compile_no_retrieval. cbn [fold_result]. unfold nr_record.
  by rewrite He, bind_Ok, Hp, bind_Ok, Hi, bind_Ok; cbn [fold_result]; rewrite Hs.
Qed.

End MainProps.

(** ** The sampled demonstrations are the ones the compiler reads *)

Lemma dump_lines_text items lines : RetrievalKE.dump_lines items = Ok lines -> Forall text_line lines.
Proof.
  unfold RetrievalKE.dump_lines. intros Hm%result_map_ok. induction Hm as [|x l y ys Hy _ IH]; constructor; [|done].
  destruct (json_dumps true x) as [t|] eqn:E; [|discriminate]. injection Hy as <-.
  exists t. split; [done|]. by eapply json_dumps_line.
Qed.

Section SamplingProps.
Context `{ExampleSelectors} `{RandomSource}.

Lemma sample_examples_text_lines fuel lines k s after sampled s' :
  RetrievalKE.sample_examples fuel lines k s = Ok (Some (after, sampled), s') -> Forall text_line sampled.
Proof.
  unfold RetrievalKE.sample_examples. intros Hs. rand_simp Hs.
  apply lift_inv in Ha as [_ ->]. destruct a0 as [sel|]; [|discriminate].
  rand_simp Hs. apply lift_inv in Ha1 as [Hb ->].
  apply rand_mret_inv in Hs as [[= _ ->] _]. by eapply dump_lines_text.
Qed.

(** C22: When [--sample_exists] parses as false and [--sample_file] is the
    [sample_from_train.jsonl] of the data folder (the defaults),
    [retrieval_augmented_prompt_compiler.py] builds its example selector
    from exactly the lines [sample_examples] has just drawn: the file
    written by the sampling is the file read back, line for line, and
    everything after it runs on the file system with both sampling
    outputs written. *)
Theorem ra_ke_main_reads_sample fuel se data_folder training_file input_file prompt_components example_selector
    k out fs s train after sampled s1 :
  RetrievalKE.runs_sampling se = true ->
  fs !! (data_folder ++ "/" ++ training_file)%string = Some train ->
  RetrievalKE.sample_examples fuel (readlines train) 300 s = Ok (Some (after, sampled), s1) ->
  ra_ke_main fuel se data_folder training_file input_file (data_folder ++ "/sample_from_train.jsonl")%string
             prompt_components example_selector k out fs s
  = (fs2 ← lift (examples ← RetrievalKE.get_examples sampled;
                 ra_ke_compile examples input_file prompt_components example_selector k out
                   (write_file (write_file fs (data_folder ++ "/train_after_sampling.jsonl")%string
                                           (String.concat EmptyString after))
                               (data_folder ++ "/sample_from_train.jsonl")%string (String.concat EmptyString sampled)));
     mret (Some fs2)) s1.
Proof.
  intros Hse Htrain Hsample. unfold ra_ke_main. rewrite Hse.
  erewrite bind_rand_Ok.
  2: { assert (Hopen : open_read fs (data_folder ++ "/" ++ training_file)%string = Ok train)
         by (unfold open_read; by rewrite Htrain).
       unfold sample_examples_files.
       rewrite (bind_rand_Ok _ _ _ _ _ (lift_Ok _ _ s Hopen)), (bind_rand_Ok _ _ _ _ _ Hsample). reflexivity. }
  cbn iota beta. unfold read_lines_with at 1, open_read, write_file. rewrite lookup_insert_eq. cbn [of_option]. rewrite bind_Ok.
  by rewrite (readlines_text_lines _ (sample_examples_text_lines _ _ _ _ _ _ _ Hsample)).
Qed.

End SamplingProps.

(** ** Witnesses *)

Section Witnesses.

#[local] Instance empty_api : WikiApi := {| api_get _ _ := Ok (PDict []) |}.
#[local] Instance first_examples : ExampleSelectors := {| from_examples _ examples _ _ := examples |}.
#[local] Existing Instance counter_source.

(** A file of JSON lines. *)
Definition jsonl (records : list pyval) : string :=
  String.concat EmptyString (map (fun r => match json_dumps true r with Ok s => (s ++ nl)%string | Raise _ => EmptyString end) records).

Definition demo_label : pyval := PDict [(PStr "label", PStr "Lyon")].

Definition demo_instance : pyval :=
  PDict [(PStr "text", PStr " Lyon is in France. "); (PStr "entities", PDict [(PStr "Q456", demo_label)]);
         (PStr "properties", PDict [])].

Definition demo_demonstration_record : pyval :=
  PDict [(PStr "index", PInt 0); (PStr "text", PStr "Paris is in France."); (PStr "extracted_component", PStr "Paris");
         (PStr "candidates", PList [PStr "Q90 (Paris): capital of France"]); (PStr "correct answer", PStr "Q90")].

Definition demo_fs0 : fsys :=
  {[ "data/test.jsonl" := jsonl [demo_instance]; "data/demos.jsonl" := jsonl [demo_demonstration_record] ]}.

Definition demo_fs : fsys :=
  match ELTemplate.main "templates" "one_demonstration_prompt" demo_fs0 with Ok fs => fs | Raise _ => ∅ end.

Lemma nr_el_main_creator_template_fails_witness :
  exists e, nr_el_main "data/test.jsonl" "string_search" (template_path "templates" "one_demonstration_prompt")
                       "out" demo_fs = Raise e.
Proof.
  apply (nr_el_main_creator_template_fails "templates" "one_demonstration_prompt" demo_fs0 demo_fs
           "data/test.jsonl" "string_search" "out" demo_instance [] (PDict [(PStr "Q456", demo_label)]) (PDict [])
           (PStr "Q456", demo_label) []); vm_compute; reflexivity.
Defined.

Lemma ra_el_main_unknown_selector_witness :
  ra_el_main "data/test.jsonl" "page_search" "data/demos.jsonl" (template_path "templates" "one_demonstration_prompt")
             "knn" 1 "out" demo_fs = Raise NameError.
Proof.
  apply (ra_el_main_unknown_selector "templates" "one_demonstration_prompt" demo_fs0 demo_fs
           "data/test.jsonl" "page_search" "data/demos.jsonl" "knn" 1 "out"
           (match read_lines_with read_data demo_fs "data/test.jsonl" with Ok d => d | Raise _ => [] end)
           (match read_lines_with read_examples demo_fs "data/demos.jsonl" with Ok d => d | Raise _ => [] end));
    vm_compute; reflexivity.
Defined.

(** A training file of 300 lines, sampled whole. *)
Definition demo_train : string := jsonl (map (fun n => PDict [(PStr "id", PInt (Z.of_nat n))]) (seq 1 300)).

Definition demo_train_fs : fsys := {[ "data/train.jsonl" := demo_train ]}.

Definition demo_sampling :=
  match @RetrievalKE.sample_examples counter_source 10 (readlines demo_train) 300 0 with
  | Ok (Some (after, sampled), s1) => (after, sampled, s1)
  | _ => ([], [], 0)
  end.

Lemma ra_ke_main_reads_sample_witness :
  ra_ke_main 10 (Some EmptyString) "data" "train.jsonl" "data/test.jsonl" "data/sample_from_train.jsonl"
             "prompts/one_shot_RAG_prompt.json" "max_marginal_relevance" 1 "out" demo_train_fs 0
  = (fs2 ← lift (examples ← RetrievalKE.get_examples demo_sampling.1.2;
                 ra_ke_compile examples "data/test.jsonl" "prompts/one_shot_RAG_prompt.json" "max_marginal_relevance" 1 "out"
                   (write_file (write_file demo_train_fs "data/train_after_sampling.jsonl" (String.concat EmptyString demo_sampling.1.1))
                               "data/sample_from_train.jsonl" (String.concat EmptyString demo_sampling.1.2)));
     mret (Some fs2)) demo_sampling.2.
Proof.
  apply (@ra_ke_main_reads_sample first_examples counter_source 10 (Some EmptyString) "data" "train.jsonl" "data/test.jsonl"
           "prompts/one_shot_RAG_prompt.json" "max_marginal_relevance" 1 "out" demo_train_fs 0 demo_train
           demo_sampling.1.1 demo_sampling.1.2 demo_sampling.2); vm_compute; reflexivity.
Defined.

End Witnesses.
