(* ===== verification/InferenceScripts.v ===== *)
(** * The inference scripts on the file system

    The [main] functions of [inference_OpenAI.py], [run_inference.py]
    and [run_inference_LangChain_HF.py] after their arguments are
    parsed: read a prompt file with [json.load] ([read_prompts]), ask
    the model for every prompt (the loops of [Inference]), and write the
    records with [json.dump(indent=4)] to [f'{out_dir}/{outfile}'],
    where [outfile] is the last component of the prompt file's path.
    The two folder scripts list their input folder ([None] when it does
    not exist: [file_names] is then unbound) and write one file per
    prompt file, so that the files done before an exception stay
    written.  [inference_OpenAI.py] keeps the default
    [ensure_ascii=True]; the two others pass [ensure_ascii=False]. *)

From stdpp Require Import gmap.
From S2P Require Import Prelude PyStr PyDict PyVal Retry Json FileSys Cascade PostProcessing EvalScript Inference.

(** [read_prompts] (lines 14-19 of the three scripts). *)
Definition read_prompts (fs : fsys) (input_file : string) : result pyval := json_load fs input_file.

(** [f'{args.out_dir}/{outfile}'] with [outfile = path.split('/')[-1]]. *)
Definition out_path (out_dir path : string) : string := (out_dir ++ "/" ++ py_split_last "/" path)%string.

(** [f'{args.input_folder}/{file}']. *)
Definition prompt_path (input_folder file : string) : string := (input_folder ++ "/" ++ file)%string.

Section OpenAI.
Context `{ChatApi}.

(** [main] of [inference_OpenAI.py] (lines 51-71): [len(prompts)] is
    taken before the loop. *)
Definition inference_openai_main (model input_file out_dir : string) (fs : fsys) : result fsys :=
  prompts ← read_prompts fs input_file;
  _ ← py_len prompts;
  generated_extractions ← inference_openai model prompts;
  json_dump_file_ascii fs (out_path out_dir input_file) (PList generated_extractions).

(** One file of the loop of [run_inference.py] (lines 60-79). *)
Definition run_inference_file (model input_folder out_dir : string) (fs : fsys) (file : string) : result fsys :=
  let prompt_file := prompt_path input_folder file in
  prompts ← read_prompts fs prompt_file;
  _ ← py_len prompts;
  generated_extractions ← gpt_file model (PFloat 5 (-1)) 2000 prompts;
  json_dump_file fs (out_path out_dir prompt_file) (PList generated_extractions).

(** [main] of [run_inference.py] (lines 51-79). *)
Definition run_inference_main (model input_folder out_dir : string) (listing : option (list string)) (fs : fsys)
    : fsys * option exc :=
  match listing with
  | None => (fs, Some NameError)
  | Some file_names => for_files (run_inference_file model input_folder out_dir) (take 6 (drop 5 file_names)) fs
  end.

End OpenAI.

Section HF.
Context `{HFEndpoint}.

(** One file of the loop of [run_inference_LangChain_HF.py] (lines
    53-73). *)
Definition run_inference_hf_file (typed model input_folder out_dir : string) (fs : fsys) (file : string)
    : result fsys :=
  let prompt_file := prompt_path input_folder file in
  prompts ← read_prompts fs prompt_file;
  _ ← py_len prompts;
  generated_extractions ← hf_file typed model prompts;
  json_dump_file fs (out_path out_dir prompt_file) (PList generated_extractions).

(** [main] of [run_inference_LangChain_HF.py] (lines 41-73). *)
Definition run_inference_hf_main (typed model input_folder out_dir : string) (listing : option (list string))
    (fs : fsys) : fsys * option exc :=
  match listing with
  | None => (fs, Some NameError)
  | Some file_names => for_files (run_inference_hf_file typed model input_folder out_dir) file_names fs
  end.

End HF.

(** ** The records written are read back *)

Lemma getitem_str_safe v k x : json_safe v = true -> getitem_str v k = Ok x -> json_safe x = true.
Proof.
  destruct v as [| | | | | | | | d]; try discriminate. simpl. intros Hs Hx.
  destruct (pdict_get_str k d) as [y|] eqn:E; simpl in Hx; [injection Hx as <- | discriminate].
  induction d as [|[kk w] d IH]; [discriminate|]. simpl in Hs, E. apply andb_true_iff in Hs as [[_ Hw]%andb_true_iff Hd].
  destruct kk; try (by apply IH). destruct (String.eqb k s); [by injection E as <- | by apply IH].
Qed.

Lemma getitem_idx_safe v i x : json_safe v = true -> getitem_idx v i = Ok x -> json_safe x = true.
Proof.
  assert (Hl : forall l n, forallb json_safe l = true -> l !! n = Some x -> json_safe x = true).
  { intros l n Hs Hn. apply list_elem_of_lookup_2 in Hn. apply list_elem_of_In in Hn.
    exact (proj1 (forallb_forall _ _) Hs x Hn). }
  destruct v as [| | | | s | l | l | | d]; try discriminate; simpl; intros Hs.
  - destr_if; [|discriminate]. destruct (String.get _ s); simpl; [by intros [= <-] | discriminate].
  - destr_if; [|discriminate]. destruct (l !! _) eqn:El; simpl; [intros [= <-]; by eapply Hl | discriminate].
  - destr_if; [|discriminate]. destruct (l !! _) eqn:El; simpl; [intros [= <-]; by eapply Hl | discriminate].
  - destruct (pdict_get_int i d) as [y|] eqn:E; simpl; [intros [= <-] | discriminate].
    induction d as [|[kk w] d IH]; [discriminate|]. simpl in Hs, E. apply andb_true_iff in Hs as [[_ Hw]%andb_true_iff Hd].
    destruct kk; try (by apply IH);
      (match type of E with context [if ?c then _ else _] => destruct c end;
       [by injection E as <- | by apply IH]).
Qed.

Lemma in_zip_r {A B} (l1 : list A) (l2 : list B) x y : In (x, y) (zip l1 l2) -> In y l2.
Proof.
  revert l2. induction l1 as [|a l1 IH]; intros [|b l2]; simpl; try tauto.
  intros [[= -> ->] | Hin]; [by left | right; eauto].
Qed.

Section Composition.
Context `{ChatApi}.

(** An answer of [GPT_repsonse] is part of an answer of the API. *)
Lemma GPT_repsonse_safe prompt model t k v :
  (forall req a r, chat_create req a = Ok r -> json_safe r = true) ->
  GPT_repsonse prompt model t k = Ok v -> json_safe v = true.
Proof.
  intros Hapi Hv. unfold GPT_repsonse, retry_call in Hv. apply retry_go_Ok_inv in Hv as [n Hn].
  unfold GPT_repsonse_body in Hn.
  apply bind_Ok_inv in Hn as (resp & Hr & Hn). apply bind_Ok_inv in Hn as (choices & Hc & Hn).
  apply bind_Ok_inv in Hn as (first & Hf & Hn). apply bind_Ok_inv in Hn as (msg & Hm & Hn).
  apply (getitem_str_safe _ _ _ (getitem_str_safe _ _ _ (getitem_idx_safe _ _ _
           (getitem_str_safe _ _ _ (Hapi _ _ _ Hr) Hc) Hf) Hm) Hn).
Qed.

(** The records of [gpt_file] for a list of prompts: one per prompt,
    each a dictionary [{index, prompt, extraction}] without floats or
    sets when the prompts and the answers have none. *)
Lemma gpt_file_records model t k ps recs :
  (forall req a r, chat_create req a = Ok r -> json_safe r = true) ->
  Forall (fun p => json_safe p = true) ps ->
  gpt_file model t k (PList ps) = Ok recs ->
  length recs = length ps /\
  Forall (fun r => json_safe r = true /\ exists i p v, r = output_record i p "extraction" v) recs.
Proof.
  intros Hapi Hps Hg. unfold gpt_file, enumerate_records in Hg. cbn [py_iter] in Hg. rewrite bind_Ok in Hg.
  apply result_map_ok in Hg.
  assert (Hin : forall ip, In ip (zip (seq 0 (length ps)) ps) -> json_safe ip.2 = true).
  { intros [i p] Hip. apply in_zip_r in Hip. exact (proj1 (List.Forall_forall _ _) Hps p Hip). }
  split.
  - rewrite <- (Forall2_length _ _ _ Hg), length_zip, length_seq. lia.
  - clear Hps. induction Hg as [|ip r l rs Hr _ IH]; constructor; [|by apply IH; intros; apply Hin; right].
    apply bind_Ok_inv in Hr as (x & Hx & [= <-]). split; [|eauto].
    cbn [output_record json_safe forallb key_safe fst snd andb]. rewrite (Hin ip (or_introl eq_refl)).
    by rewrite (GPT_repsonse_safe _ _ _ _ _ Hapi Hx).
Qed.

Lemma json_image_record_generated_text i p v :
  getitem_str (json_image (output_record i p "extraction" v)) "generated_text" = Raise KeyError.
Proof. reflexivity. Qed.

(** C20: Composing [run_inference.py] with [post_process_generated_string.py]
    on the file system: the file that [run_inference.py] writes for a
    non-empty prompt file holds records keyed [extraction]; listed first
    in the folder given to [post_process_generated_string.py], it is
    read back by [json.load] and stops that script with [KeyError] at
    [d['generated_text']], before anything is written.  Assumed: the
    prompts and the answers of the chat API have no float or set, and
    the folder name does not end with a slash. *)
Theorem run_inference_output_rejected model input_folder out_dir file fs fs1 ps pp_out name rest :
  (forall req a r, chat_create req a = Ok r -> json_safe r = true) ->
  read_prompts fs (prompt_path input_folder file) = Ok (PList ps) -> ps <> [] ->
  Forall (fun p => json_safe p = true) ps ->
  run_inference_file model input_folder out_dir fs file = Ok fs1 ->
  path_join out_dir name = out_path out_dir (prompt_path input_folder file) ->
  post_process_main out_dir pp_out (Some (name :: rest)) fs1 = (fs1, Some KeyError).
Proof.
  intros Hapi Hread Hne Hps Hrun Hpath. unfold run_inference_file in Hrun. rewrite Hread, bind_Ok in Hrun.
  cbn [py_len] in Hrun. rewrite bind_Ok in Hrun. apply bind_Ok_inv in Hrun as (recs & Hg & Hw).
  destruct (gpt_file_records _ _ _ _ _ Hapi Hps Hg) as [Hlen Hrecs].
  destruct recs as [|r recs]; [destruct ps; [done | discriminate] |].
  pose proof Hrecs as ((_ & i & p & v & ->) & _)%Forall_cons.
  assert (Hsafe : json_safe (PList (output_record i p "extraction" v :: recs)) = true).
  { apply json_safe_list. eapply Forall_impl; [exact Hrecs | by intros ? []]. }
  pose proof (json_dump_file_load _ _ _ _ Hsafe Hw) as Hload.
  unfold post_process_main, post_process_main_with. cbn [post_process_loop].
  unfold post_process_one, read_extraction_file. rewrite Hpath, Hload, bind_Ok.
  change (json_image (PList ?l)) with (PList (map json_image l)). cbn [map py_len]. rewrite !bind_Ok.
  unfold post_process_file. cbn [py_iter]. rewrite bind_Ok. cbn [result_map].
  unfold process_record. by rewrite json_image_record_generated_text.
Qed.

End Composition.

(** ** Witnesses *)

Section Witnesses.

(** A chat API that answers every request with one choice. *)
#[local] Instance demo_api : ChatApi := {|
  chat_create req attempt :=
    Ok (PDict [(PStr "choices", PList [PDict [(PStr "message",
          PDict [(PStr "role", PStr "assistant"); (PStr "content", PStr "[['Paris', 'capital of', 'France']]")])]])]) |}.

Definition demo_prompts : list pyval := [PStr "Extract the triples: Paris is the capital of France."].

Definition demo_prompt_fs : fsys :=
  {[ "prompts/p1.json" := match json_dump_indent false 0 (PList demo_prompts) with Ok s => s | Raise _ => EmptyString end ]}.

Definition demo_inferred : fsys :=
  match run_inference_file "gpt-4" "prompts" "out" demo_prompt_fs "p1.json" with Ok fs => fs | Raise _ => ∅ end.

Lemma run_inference_output_rejected_witness :
  post_process_main "out" "pp" (Some ["p1.json"]) demo_inferred = (demo_inferred, Some KeyError).
Proof.
  apply (run_inference_output_rejected "gpt-4" "prompts" "out" "p1.json" demo_prompt_fs demo_inferred demo_prompts).
  - intros req a r Hr. simpl in Hr. injection Hr as <-. reflexivity.
  - vm_compute. reflexivity.
  - discriminate.
  - repeat constructor.
  - vm_compute. reflexivity.
  - vm_compute. reflexivity.
Defined.

End Witnesses.
